(* ===== verification/_CoqProject ===== *)
-Q . S2P
Prelude.v
CString.v
CFormat.v
NetAddr.v
SecurityPolicy.v
PnetApi.v
Pnal.v
PnetMock.v
IoDevice.v
RealStack.v
NetworkConfig.v
RtSetup.v
AppConfig.v
Main.v
Platforms.v
Messages.v
Supervisor.v
