(* ===== verification/Prelude.v ===== *)
(** * p-net IO Device Manager: verification library

    The program (src/, headers in include) runs a PROFINET IO device on
    Linux: it reads a configuration file, sets up the network interface, the
    firewall and the real-time environment, starts the device on the p-net
    stack, drives it in a periodic loop, and undoes the real-time set-up when it
    is told to stop.  This library models the C sources and proves what each
    part does and that they fit together.

    ** Conventions

    The definitions follow the C functions one to one and keep their names.  A
    C integer is a [Z] with its width written out ([u8] to [u64], [s32]); a
    character array is a list of exactly its size and the string in it is
    [c_str] of the list; a null pointer is [None]; an object passed by reference
    is an argument and a result.  A piece of code that could access memory
    outside an object has the type [exec]: [Done] with its result, or
    [Undefined].  Every store of [snprintf], [memcpy], [strncpy] and every
    indexing is checked, so a theorem that says a run is [Done] says it stays in
    its buffers.  What is checked is access: a pointer that is formed outside
    its object and never followed, as in [strip] of src/config/app_config.c, is
    an index ([strip_refines] says when that happens).  Code outside the repository and the operating system are
    arguments: a type class of the calls the code makes and a second class of
    what their documentation promises, with a concrete instance of both.

    ** Files

    - Prelude: outcomes, arrays, machine integers, shared lemmas and tactics.
    - CString, CFormat: the functions of the C library the program uses (string
      comparison and copy, [snprintf], [fgets], [%u], [%d], [%04X], [%0nx],
      [strtoul],
      [atoi], the [scanf] directives), with [strip] of src/config/app_config.c
      (in place on the array, and the function on strings it implements) and [safe_strncpy] of src/app/io_device.c.
    - NetAddr: the address helpers of src/net/network_config.c on machines
      of either byte order.
    - SecurityPolicy: src/security/security_policy.c: the rule table, the
      generated script, its execution, the audit, the IPsec tunnel files.
    - PnetApi: the stack's interface ([PnetStack], [PnetStackOk]) and the types
      of tests/mock/pnet_api_mock.h; PnetMock: the mock stack
      tests/mock/pnet_api_mock.c, an instance of both classes;
      Pnal: the platform layer headers include/pnal_config.h, pnal_sys.h.
    - IoDevice: src/app/io_device.c over any stack: the device object, its
      operations and callbacks, the stack configuration.
    - RealStack: the same source compiled with USE_REAL_PNET: the callbacks
      (Module [Real]) and the operations (Module [RealDevice]) over the class
      [RealPnet] of the external library's calls, and the adapter [as_stack]
      that makes it a stack of the default build.
    - NetworkConfig: the interface functions and the TCP tuning of
      src/net/network_config.c over [NetKernel] and [ProcSys].
    - RtSetup: src/realtime/rt_setup.c over [RtOs]; the static variables are
      the record [rt_state], [double] is IEEE binary64 ([SpecFloat]).
    - AppConfig: src/config/app_config.c: defaults, parser, writer and
      validation.  Its record holds those of the other components.
    - Main: src/main.c: start-up, the production loop, shutdown, as functions.
    - Platforms: the branches for macOS and other systems of
      src/net/network_config.c, src/realtime/rt_setup.c,
      src/security/security_policy.c and src/main.c (Module [Portable]).
    - Messages: what is printed: [print_banner], [print_usage],
      [io_device_show], the callbacks' texts, [pnet_show].
    - Supervisor: src/main.c under signals: [install_signal_handlers],
      [signal_handler], the systemd notifications, and the program from the
      device's start to its exit as a step relation in which a signal may
      arrive between any two statements.

    Main calls AppConfig, NetworkConfig, SecurityPolicy, RtSetup and IoDevice;
    IoDevice calls the stack and gets its indications back as a list, in order;
    the components share no state but the configuration record.

    ** What the theorems show

    - Memory safety and termination end to end: [main_safe] for the program,
      [device_reachable_safe] and [real_device_safe] for every sequence of
      calls on a device of either build, with the exact cases in which
      [io_device_read_output] (whose copy is not checked) or the stack leaves
      a buffer, [load_wf] and [load_reads_all] for
      every file, [rt_check_spec] for the self check's report,
      [status_display] and [banner_shows_config] for the texts;
      [audit_overrun] gives the exact sizes of the report buffers that
      [sec_policy_audit] overruns.
    - The running program: [run_refines_main] (a run of the machine under
      any signals is a run of [serve]), [signal_stops_program] and
      [loop_keeps_running] (liveness under fairness: a handled signal ends the
      program, nothing else does), [run_never_stuck] (progress and the protocol
      with systemd), [install_signal_handlers_spec].
    - Refinement and equivalence: [rule_table_refinement] (the rule array is a
      list of at most 64 rules), [strip_refines] (the in-place loops are the
      function on strings), [generate_script_correct] and [audit_correct]
      (the text produced is that of a declarative description, with all
      sizes), [builds_agree] (the two builds of the device), [platforms_agree]
      and [elsewhere_untouched] (the platforms).
    - Round trips: [save_load_roundtrip], [net_ip_roundtrip], [net_set_get_ip],
      [tuning_roundtrip], [ipsec_create_remove].
    - Effects on the system, against the documented behaviour of the kernel:
      [net_setters_spec], [net_get_config_spec], [tuning_apply_spec],
      [apple_queries_spec], [rt_apply_effect]; [rt_restore_undoes_apply] and
      [main_restores_host] (the scheduler comes back, the rest is reset as
      stated); [network_configured].
    - The device and the loop: [started_device_runs], [failed_start_terminal],
      [pnet_cfg_faithful], [real_cfg_faithful], [mock_start_topology],
      [mock_exchange], [recovery_schedule], [recovery_unreachable],
      [watchdog_gaps], [exit_status_hides_start], [uptime_10ms_spec].
    - The configuration language: [validate_spec], [assignment_spacing],
      [inline_comment_in_value], [firewall_never_populated]; limits of the
      firewall: [apply_capacity], [apply_ignores_enabled],
      [reachable_rules_active], [ipsec_remove_masks_failure].

    ** Recursion

    Loops with a counter are structural in the number of iterations the code
    computes.  The loops over a file ([load_loop], [vmlck_loop]) have a fuel of
    at least the length of the text; every [fgets] takes at least one
    character, so that is enough ([fgets_progress], [fgets_lines_enough]).  The
    production loop takes one list element per iteration, the stack's behaviour
    and the clock in it, and ends with the list, as the signal handler ends it
    by clearing [g_running]; its [int] counters make the run [Undefined] when
    they overflow.  Digits are produced with a fuel that [digits]
    computes from the number.

    The production machine of Supervisor has no bound: its executions are
    infinite sequences, and a decreasing measure ([rank]) shows that the program
    reaches its exit once [g_running] is cleared.

    ** Not modelled

    The p-net library itself, which is not in the repository; the lines that
    single statements print on the way (progress messages, [perror], errors on
    stderr) and the logging macros of pnal_config.h, which have no effect on
    state; the names pnal_config.h gives to POSIX types; the structures
    [io_module_def_t] and [pnal_time_t], which no code uses; unit tests, scripts and
    deployment files.  The kernel is not assumed to succeed anywhere unless a
    theorem says so. *)
From stdpp Require Export base tactics list numbers option strings gmap sets.
From Stdlib Require Export Ascii Lia ZArith.

(** ** Scopes and hints *)
Global Open Scope Z_scope.
Global Open Scope list_scope.

Create HintDb pnet.

(** ** Outcomes

    [exec A] is the outcome of running a piece of C: it finished with a value,
    or it executed an access outside its buffer, after which the language
    promises nothing. *)
Inductive exec (A : Type) : Type :=
  | Done (a : A)
  | Undefined.
Arguments Done {A} a.
Arguments Undefined {A}.

#[export] Instance exec_ret : MRet exec := fun A a => Done a.
#[export] Instance exec_bind : MBind exec :=
  fun A B f m => match m with Done a => f a | Undefined => Undefined end.
#[export] Instance exec_fmap : FMap exec :=
  fun A B f m => match m with Done a => Done (f a) | Undefined => Undefined end.

Definition defined {A} (m : exec A) : Prop :=
  match m with Done _ => True | Undefined => False end.

(** An assertion on the access that follows it. *)
Definition access (ok : bool) : exec unit := if ok then Done tt else Undefined.

Section exec_laws.
Context {A B : Type}.

Lemma exec_bind_Done (f : A -> exec B) a : (Done a ≫= f) = f a.
Proof. done. Qed.

Lemma exec_bind_inv (f : A -> exec B) m b :
  m ≫= f = Done b -> exists a, m = Done a /\ f a = Done b.
Proof. destruct m; [eauto | done]. Qed.

Lemma access_true : access true = Done tt.
Proof. done. Qed.
End exec_laws.

Lemma access_inv ok : access ok = Done tt <-> ok = true.
Proof. destruct ok; naive_solver. Qed.

Lemma access_ok (P : Prop) `{Decision P} : P -> access (bool_decide P) = Done tt.
Proof. intros ?. by rewrite bool_decide_eq_true_2. Qed.

(** A length as an integer: [strlen] of a string, [sizeof] of a buffer. *)
Definition zlen {A} (s : list A) : Z := Z.of_nat (length s).

Lemma zlen_app {A} (s t : list A) : zlen (s ++ t) = zlen s + zlen t.
Proof. unfold zlen. rewrite length_app. lia. Qed.
Lemma zlen_nonneg {A} (s : list A) : 0 <= zlen s.
Proof. unfold zlen. lia. Qed.
Lemma zlen_cons {A} (a : A) (s : list A) : zlen (a :: s) = 1 + zlen s.
Proof. unfold zlen. simpl. lia. Qed.
#[export] Hint Resolve zlen_nonneg : pnet.

(** ** Arrays

    [a[i]] as an rvalue and as an lvalue; an index outside the object makes
    the run [Undefined]. *)
Definition arr_get {A} (l : list A) (i : Z) : exec A :=
  if bool_decide (0 <= i) then
    match l !! Z.to_nat i with Some a => Done a | None => Undefined end
  else Undefined.

Definition arr_set {A} (l : list A) (i : Z) (a : A) : exec (list A) :=
  access (bool_decide (0 <= i < zlen l));; Done (<[Z.to_nat i := a]> l).

Section arrays.
Context {A : Type}.
Implicit Types (l k : list A) (a b : A).

Lemma arr_get_lookup l (i : nat) a : l !! i = Some a -> arr_get l (Z.of_nat i) = Done a.
Proof using.
  intros Hi. unfold arr_get. rewrite bool_decide_eq_true_2 by lia.
  by rewrite Nat2Z.id, Hi.
Qed.

Lemma arr_set_insert l (i : nat) a :
  (i < length l)%nat -> arr_set l (Z.of_nat i) a = Done (<[i := a]> l).
Proof using.
  intros Hi. unfold arr_set. rewrite access_ok by (unfold zlen; lia).
  simpl. by rewrite Nat2Z.id.
Qed.

(** Access to the element after a known prefix. *)
Lemma arr_get_mid l k a : arr_get (l ++ a :: k) (zlen l) = Done a.
Proof using. apply arr_get_lookup, list_lookup_middle. done. Qed.

Lemma arr_set_mid l k a b : arr_set (l ++ a :: k) (zlen l) b = Done (l ++ b :: k).
Proof using.
  unfold zlen. rewrite arr_set_insert by (rewrite length_app; simpl; lia).
  rewrite insert_app_r_alt by lia. by rewrite Nat.sub_diag.
Qed.
End arrays.

(** ** errno (Linux values) *)
Definition EPERM : Z := 1.
Definition ENOENT : Z := 2.
Definition EIO : Z := 5.
Definition EACCES : Z := 13.
Definition EINVAL : Z := 22.
Definition ENOSPC : Z := 28.
Definition ERANGE : Z := 34.
Definition ENOSYS : Z := 38.

(** ** Machine integers *)
Definition wrapu (w x : Z) : Z := x mod 2 ^ w.
Definition u8  : Z -> Z := wrapu 8.
Definition u16 : Z -> Z := wrapu 16.
Definition u32 : Z -> Z := wrapu 32.
Definition u64 : Z -> Z := wrapu 64.
(** Conversion to a 32-bit two's-complement [int]. *)
Definition s32 (x : Z) : Z := (x + 2 ^ 31) mod 2 ^ 32 - 2 ^ 31.

Definition in_u (w x : Z) : Prop := 0 <= x < 2 ^ w.
Definition in_s32 (x : Z) : Prop := - 2 ^ 31 <= x < 2 ^ 31.

#[export] Instance in_u_dec w x : Decision (in_u w x).
Proof. unfold in_u. apply _. Defined.
#[export] Instance in_s32_dec x : Decision (in_s32 x).
Proof. unfold in_s32. apply _. Defined.

Section machine.
Context (w : Z) (Hw : 0 <= w).

Lemma wrapu_range x : in_u w (wrapu w x).
Proof using Hw. unfold in_u, wrapu. apply Z.mod_pos_bound. lia. Qed.

Lemma wrapu_small x : in_u w x -> wrapu w x = x.
Proof using. unfold in_u, wrapu. intros. by apply Z.mod_small. Qed.

Lemma wrapu_idemp x : wrapu w (wrapu w x) = wrapu w x.
Proof using Hw. by apply wrapu_small, wrapu_range. Qed.
End machine.

Lemma s32_range x : in_s32 (s32 x).
Proof.
  unfold in_s32, s32.
  pose proof (Z.mod_pos_bound (x + 2 ^ 31) (2 ^ 32) ltac:(lia)). lia.
Qed.

Lemma s32_small x : in_s32 x -> s32 x = x.
Proof. unfold in_s32, s32. intros. rewrite Z.mod_small; lia. Qed.

#[export] Hint Resolve wrapu_range wrapu_small s32_range s32_small : pnet.

(** The [i]-th byte of an unsigned integer, as [(x >> 8*i) & 0xFF]. *)
Definition byte_of (i x : Z) : Z := Z.land (Z.shiftr x (8 * i)) 255.

Lemma byte_of_div i x : 0 <= i -> byte_of i x = (x / 2 ^ (8 * i)) mod 256.
Proof.
  intros. unfold byte_of. change 255 with (Z.ones 8).
  rewrite Z.land_ones, Z.shiftr_div_pow2 by lia. done.
Qed.

Lemma byte_of_range i x : 0 <= i -> in_u 8 (byte_of i x).
Proof.
  intros. rewrite byte_of_div by done. apply Z.mod_pos_bound. lia.
Qed.
#[export] Hint Resolve byte_of_range : pnet.

(** The four octets of a 32-bit integer determine it. *)
Lemma octets_eq x : in_u 32 x ->
  x = byte_of 3 x * 2 ^ 24 + byte_of 2 x * 2 ^ 16 + byte_of 1 x * 2 ^ 8 + byte_of 0 x.
Proof.
  unfold in_u. intros. rewrite !byte_of_div by lia.
  change (2 ^ (8 * 3)) with 16777216. change (2 ^ (8 * 2)) with 65536.
  change (2 ^ (8 * 1)) with 256. change (2 ^ (8 * 0)) with 1.
  Z.to_euclidean_division_equations. lia.
Qed.

(** ** List lemmas shared by the components *)
Section lists.
Context {A : Type}.
Implicit Types (l k : list A) (P : A -> Prop).

Lemma replicate_snoc n (a : A) : replicate n a ++ [a] = replicate (S n) a.
Proof. by rewrite replicate_S_end. Qed.

Lemma last_cons_default l (a d : A) : List.last (a :: l) d = List.last l a.
Proof. revert a d. induction l as [|b l IH]; intros a d; [done|].
  change (List.last (b :: l) d = List.last (b :: l) a). by rewrite (IH b d), (IH b a).
Qed.
End lists.

(** ** Tactics *)

(** Open one layer of bind in a hypothesis about a finished run. *)
Ltac exec_inv H :=
  repeat match type of H with
  | mbind _ _ = Done _ =>
      let a := fresh "a" in let Ha := fresh "Hrun" in
      apply exec_bind_inv in H as (a & Ha & H)
  end.

(** Destruct the condition of the [if] in the goal, remembering it. *)
Ltac case_if :=
  match goal with
  | |- context [if ?b then _ else _] =>
      let E := fresh "Hif" in destruct b eqn:E
  end.

(** Boolean comparisons on [Z] become propositions. *)
Ltac zbool :=
  repeat match goal with
  | H : _ && _ = true |- _ => apply andb_true_iff in H as []
  | H : _ || _ = false |- _ => apply orb_false_iff in H as []
  | H : negb _ = true |- _ => apply negb_true_iff in H
  | H : negb _ = false |- _ => apply negb_false_iff in H
  | H : (_ <? _) = true |- _ => apply Z.ltb_lt in H
  | H : (_ <? _) = false |- _ => apply Z.ltb_ge in H
  | H : (_ <=? _) = true |- _ => apply Z.leb_le in H
  | H : (_ <=? _) = false |- _ => apply Z.leb_gt in H
  | H : (_ =? _) = true |- _ => apply Z.eqb_eq in H
  | H : (_ =? _) = false |- _ => apply Z.eqb_neq in H
  end.
