(* ===== verification/CString.v ===== *)
(** * C strings and character arrays

    Text is [list ascii].  A [char buf[n]] object is a list of exactly [n]
    characters; the C string it holds is its prefix up to the first NUL
    ([c_str]).  The string functions of the C library the program calls are
    defined here on those lists: [strcmp], [strncpy], [strcspn], [strchr],
    [isspace], bounded formatted output ([snprintf]), and the program's own
    [safe_strncpy] (src/app/io_device.c) and [strip] (src/config/app_config.c),
    the latter both on strings and in place on the array. *)
From S2P Require Import Prelude.

Definition nul : ascii := "000".
Definition nl : ascii := "010".
Definition cr : ascii := "013".
Definition dquote : ascii := "034".

(** A string literal. *)
Definition lit (s : string) : list ascii := String.list_ascii_of_string s.
Arguments lit _%_string.

(** Evaluate the lengths of the literals and of the closed lists in the goal. *)
Ltac zlit :=
  repeat match goal with
  | |- context [zlen (lit ?s)] =>
      let v := eval vm_compute in (zlen (lit s)) in change (zlen (lit s)) with v
  | |- context [zlen [?a; ?b]] => change (zlen [a; b]) with 2
  | |- context [zlen [?a]] => change (zlen [a]) with 1
  | |- context [zlen (@nil ?A)] => change (zlen (@nil A)) with 0
  end.

(** ** Comparison *)
Fixpoint str_eqb (s t : list ascii) : bool :=
  match s, t with
  | [], [] => true
  | a :: s, b :: t => Ascii.eqb a b && str_eqb s t
  | _, _ => false
  end.

Lemma str_eqb_spec s t : reflect (s = t) (str_eqb s t).
Proof.
  revert t. induction s as [|a s IH]; intros [|b t]; simpl; try by constructor.
  destruct (Ascii.eqb_spec a b) as [->|]; simpl; [|constructor; congruence].
  destruct (IH t) as [->|]; constructor; congruence.
Qed.

Lemma str_eqb_refl s : str_eqb s s = true.
Proof. by destruct (str_eqb_spec s s). Qed.

(** ** Prefixes: [strcspn], [strlen] *)
Section span.
Context (p : ascii -> bool).

(** The longest prefix whose characters all satisfy [p]. *)
Fixpoint take_while (s : list ascii) : list ascii :=
  match s with
  | [] => []
  | c :: s => if p c then c :: take_while s else []
  end.

Fixpoint drop_while (s : list ascii) : list ascii :=
  match s with
  | [] => []
  | c :: s' => if p c then drop_while s' else s
  end.

Lemma take_while_app_stop s c t :
  Forall (fun x => p x = true) s -> p c = false -> take_while (s ++ c :: t) = s.
Proof using.
  intros Hs Hc. induction Hs as [|x s Hx _ IH]; simpl; [by rewrite Hc|].
  by rewrite Hx, IH.
Qed.

Lemma take_while_all s : Forall (fun x => p x = true) s -> take_while s = s.
Proof using. induction 1 as [|x s Hx _ IH]; simpl; [done|by rewrite Hx, IH]. Qed.

Lemma take_while_Forall s : Forall (fun x => p x = true) (take_while s).
Proof using.
  induction s as [|x s IH]; simpl; [constructor|].
  destruct (p x) eqn:E; [by constructor|constructor].
Qed.

Lemma length_take_while s : (length (take_while s) <= length s)%nat.
Proof using. induction s as [|x s IH]; simpl; [lia|]. destruct (p x); simpl; lia. Qed.

Lemma drop_while_stop c s : p c = false -> drop_while (c :: s) = c :: s.
Proof using. intros Hc. simpl. by rewrite Hc. Qed.

Lemma drop_while_head s c t : drop_while s = c :: t -> p c = false.
Proof using.
  induction s as [|x s IH]; simpl; [done|]. destruct (p x) eqn:E; [done|].
  by intros [= <- <-].
Qed.

(** [drop_while] removes exactly the prefix that [take_while] keeps. *)
Lemma take_drop_while s : take_while s ++ drop_while s = s.
Proof using.
  induction s as [|x s IH]; simpl; [done|]. destruct (p x); simpl; [by rewrite IH|done].
Qed.

Lemma drop_while_all s : Forall (fun x => p x = true) s -> drop_while s = [].
Proof using. induction 1 as [|x s Hx _ IH]; simpl; [done|by rewrite Hx]. Qed.
End span.

Definition not_nul (c : ascii) : bool := negb (Ascii.eqb c nul).

(** The C string held in a character array. *)
Definition c_str (buf : list ascii) : list ascii := take_while not_nul buf.

(** A character array that holds a C string: there is a NUL in it. *)
Definition terminated (buf : list ascii) : Prop := nul ∈ buf.

(** Text that can be the content of a C string. *)
Definition text (s : list ascii) : Prop := Forall (fun c => not_nul c = true) s.

Lemma not_nul_true c : not_nul c = true <-> c <> nul.
Proof. unfold not_nul. destruct (Ascii.eqb_spec c nul); naive_solver. Qed.

Lemma text_c_str buf : text (c_str buf).
Proof. apply take_while_Forall. Qed.

Lemma text_app s t : text (s ++ t) <-> text s /\ text t.
Proof. apply Forall_app. Qed.

Lemma c_str_text s t : text s -> c_str (s ++ nul :: t) = s.
Proof. intros. by apply take_while_app_stop. Qed.

Lemma c_str_all s : text s -> c_str s = s.
Proof. apply take_while_all. Qed.

Lemma length_c_str buf : terminated buf -> (length (c_str buf) < length buf)%nat.
Proof.
  unfold terminated, c_str. induction buf as [|c buf IH]; simpl; [by intros ?%not_elem_of_nil|].
  intros [<-|?]%elem_of_cons; [simpl; lia|].
  destruct (not_nul c); simpl; [specialize (IH H)|]; lia.
Qed.
#[export] Hint Resolve text_c_str : pnet.

#[export] Instance terminated_dec buf : Decision (terminated buf).
Proof. unfold terminated. apply _. Defined.

(** Reading an array as a C string ([%s], [strlen]): without a NUL in it the
    read runs past the end of the object. *)
Definition read_str (buf : list ascii) : exec (list ascii) :=
  access (bool_decide (terminated buf));; Done (c_str buf).

Lemma terminated_app s rest : terminated (s ++ nul :: rest).
Proof. unfold terminated. set_solver. Qed.

Lemma read_str_ok buf : terminated buf -> read_str buf = Done (c_str buf).
Proof. intros. unfold read_str. by rewrite access_ok. Qed.

(** ** [strncpy] *)

(** [strncpy (dst, src, n)]: copies [src] up to [n] characters and pads with
    NULs to exactly [n]; the rest of [dst] is left alone. *)
Definition strncpy (dst src : list ascii) (n : nat) : list ascii :=
  take n (src ++ replicate n nul) ++ drop n dst.

(** An array of [n] characters holding [s] and NULs after it. *)
Definition to_array (n : nat) (s : list ascii) : list ascii :=
  take n (s ++ replicate n nul).

Lemma length_to_array n s : length (to_array n s) = n.
Proof. unfold to_array. rewrite length_take, length_app, length_replicate. lia. Qed.

Lemma to_array_eq n s : (length s <= n)%nat -> to_array n s = s ++ replicate (n - length s) nul.
Proof.
  intros. unfold to_array. rewrite take_app_ge by lia. f_equal.
  rewrite take_replicate. f_equal. lia.
Qed.

Lemma c_str_to_array n s : text s -> (length s < n)%nat -> c_str (to_array n s) = s.
Proof.
  intros Hs Hn. rewrite to_array_eq by lia.
  replace (n - length s)%nat with (S (n - length s - 1)) by lia. simpl.
  by apply c_str_text.
Qed.

Lemma to_array_terminated n s : (length s < n)%nat -> terminated (to_array n s).
Proof.
  intros Hn. rewrite to_array_eq by lia.
  replace (n - length s)%nat with (S (n - length s - 1)) by lia.
  unfold terminated. simpl. set_solver.
Qed.

Lemma length_strncpy dst src n :
  (n <= length dst)%nat -> length (strncpy dst src n) = length dst.
Proof.
  intros. unfold strncpy.
  rewrite length_app, length_take, length_app, length_replicate, length_drop. lia.
Qed.

(** The program's idiom [strncpy (a, s, sizeof a - 1)] on an array whose last
    character is NUL: the result is the array holding [s] cut to fit. *)
Lemma strncpy_idiom dst src n :
  length dst = S n -> dst !! n = Some nul -> strncpy dst src n = to_array (S n) (take n src).
Proof.
  intros Hlen Hlast. unfold strncpy.
  assert (drop n dst = [nul]) as ->.
  { rewrite (drop_S _ _ _ Hlast), drop_ge by lia. done. }
  destruct (decide (n <= length src)%nat) as [Hn|Hn].
  - rewrite take_app_le by lia. rewrite to_array_eq; rewrite length_take; [|lia].
    by replace (S n - n `min` length src)%nat with 1%nat by lia.
  - rewrite (take_ge src) by lia. rewrite to_array_eq by lia.
    rewrite take_app_ge, <-app_assoc, take_replicate by lia. f_equal.
    replace (S n - length src)%nat with (S ((n - length src) `min` n)) by lia.
    apply replicate_snoc.
Qed.

(** [strncpy (dst, src, n)] followed by [dst[n - 1] = 0]. *)
Lemma c_str_truncated dst src n : text src -> (0 < n <= length dst)%nat ->
  c_str (<[(n - 1)%nat := nul]> (strncpy dst src n)) = take (n - 1) src.
Proof.
  intros Hs Hn. pose proof (length_strncpy dst src n ltac:(lia)) as Hl.
  rewrite insert_take_drop by lia. unfold strncpy.
  rewrite take_app_le by (rewrite length_take, length_app, length_replicate; lia).
  rewrite take_take, Nat.min_l, take_app, take_replicate, <-app_assoc by lia.
  assert (forall k t, c_str (take (n - 1) src ++ replicate k nul ++ nul :: t) = take (n - 1) src) as H.
  { intros k t. destruct k; cbn [replicate app]; by apply c_str_text, Forall_take. }
  apply H.
Qed.

(** ** [safe_strncpy] (src/app/io_device.c)

    [size] is the size the caller passes, the [sizeof] of the destination. *)
Definition safe_strncpy (dst src : list ascii) (size : nat) : list ascii :=
  if (size =? 0)%nat then dst
  else
    let copy := if (length src <? size - 1)%nat then length src else (size - 1)%nat in
    take copy src ++ nul :: drop (S copy) dst.

(** Into an array of NULs it stores the string cut to fit. *)
Lemma safe_strncpy_zero n src :
  safe_strncpy (replicate (S n) nul) src (S n) = to_array (S n) (take n src).
Proof.
  unfold safe_strncpy. cbn [Nat.eqb].
  replace (S n - 1)%nat with n by lia.
  set (k := if (length src <? n)%nat then length src else n).
  assert (k = length src `min` n)%nat as Hk.
  { unfold k. destruct (Nat.ltb_spec (length src) n); lia. }
  assert (take k src = take n src) as ->.
  { rewrite Hk. destruct (decide (length src <= n)%nat).
    - rewrite Nat.min_l by lia. rewrite !take_ge by lia. done.
    - by rewrite Nat.min_r by lia. }
  rewrite drop_replicate, to_array_eq; rewrite length_take; [|lia].
  f_equal. rewrite Hk.
  replace (S n - n `min` length src)%nat with (S (S n - S (length src `min` n)))%nat by lia.
  done.
Qed.

(** ** [isspace] and [strip] (src/config/app_config.c) *)

(** [isspace] in the "C" locale. *)
Definition isspace (c : ascii) : bool :=
  let n := N_of_ascii c in ((n =? 32) || ((9 <=? n) && (n <=? 13)))%N.

(** [strip] as a function on strings, which the parser uses; that the loops of
    the code compute it in place is [strip_refines] below.

    The second loop of [strip]: [end] walks left from the last character,
    overwriting white space, and stops at [s] itself; [s] is the string as a
    reversed list, so that its last element is the first character. *)
Fixpoint strip_end (rs : list ascii) : list ascii :=
  match rs with
  | c :: ((_ :: _) as rs') => if isspace c then strip_end rs' else rs
  | _ => rs
  end.

Definition strip (s : list ascii) : list ascii :=
  rev (strip_end (rev (drop_while isspace s))).

(** A string that [strip] leaves alone: it neither starts nor ends with white
    space. *)
Definition stripped (s : list ascii) : Prop :=
  match s with
  | [] => True
  | c :: _ => isspace c = false /\ isspace (List.last s c) = false
  end.

#[export] Instance stripped_dec s : Decision (stripped s).
Proof. destruct s; simpl; apply _. Defined.

Lemma strip_end_keep c s : isspace c = false -> strip_end (c :: s) = c :: s.
Proof. intros Hc. simpl. destruct s; [done|]. by rewrite Hc. Qed.

Lemma strip_end_space c d s : isspace c = true -> strip_end (c :: d :: s) = strip_end (d :: s).
Proof. intros Hc. simpl. by rewrite Hc. Qed.

Lemma strip_stripped_id s : stripped s -> strip s = s.
Proof.
  destruct s as [|c s]; [done|]. intros [Hc Hl]. unfold strip.
  rewrite drop_while_stop by done.
  destruct (exists_last (l := c :: s)) as (s' & x & E); [done|]. rewrite E in *.
  rewrite rev_app_distr. cbn [rev app]. rewrite List.last_last in Hl.
  rewrite strip_end_keep by done. cbn [rev]. by rewrite rev_involutive.
Qed.

Lemma strip_nil : strip [] = [].
Proof. done. Qed.

(** [strip_end] on [rev] of a string whose first character is not a space
    keeps that character and ends before white space. *)
Lemma strip_end_spec rs c :
  isspace c = false ->
  exists rs', strip_end (rs ++ [c]) = rs' ++ [c] /\
    (exists sp, rs = sp ++ rs' /\ Forall (fun x => isspace x = true) sp) /\
    isspace (List.hd c rs') = false.
Proof.
  intros Hc. induction rs as [|x rs IH].
  { exists []. split; [done|]. split; [by exists []|done]. }
  destruct (isspace x) eqn:Hx.
  - destruct IH as (rs' & E & (sp & -> & Hsp) & Hh). exists rs'. split; [|split; [|done]].
    + rewrite <-E. destruct ((sp ++ rs') ++ [c]) eqn:F; [by apply app_eq_nil in F as []|].
      simpl. rewrite F. by rewrite Hx.
    + exists (x :: sp). split; [done|by constructor].
  - exists (x :: rs). split; [by apply strip_end_keep|]. split; [by exists []|done].
Qed.

Lemma last_rev_hd {A} (rs : list A) c d : List.last (c :: rev rs) d = List.hd c rs.
Proof.
  destruct rs as [|x rs]; [done|]. simpl rev.
  change (c :: rev rs ++ [x]) with ((c :: rev rs) ++ [x]). by rewrite List.last_last.
Qed.

(** What [strip] does: it drops leading white space, then trailing white
    space, so its result is stripped and it is the identity on stripped text. *)
Lemma strip_spec s :
  exists l r, s = l ++ strip s ++ r /\ stripped (strip s) /\
    Forall (fun x => isspace x = true) l /\ Forall (fun x => isspace x = true) r.
Proof.
  pose proof (take_drop_while isspace s) as E.
  pose proof (take_while_Forall isspace s) as Hl.
  unfold strip. destruct (drop_while isspace s) as [|c t] eqn:D.
  { rewrite app_nil_r in E. rewrite E in Hl. exists s, []. simpl. by rewrite app_nil_r. }
  pose proof (drop_while_head _ _ _ _ D) as Hc.
  destruct (strip_end_spec (rev t) c Hc) as (rs & Hrs & (sp & Ht & Hsp) & Hh).
  exists (take_while isspace s), (rev sp).
  cbn [rev]. rewrite Hrs, rev_app_distr. cbn [rev app].
  split; [|split; [|split]].
  - rewrite <-E at 1. f_equal. f_equal.
    by rewrite <-rev_app_distr, <-Ht, rev_involutive.
  - split; [done|]. by rewrite last_rev_hd.
  - done.
  - apply Forall_rev, Hsp.
Qed.

Lemma strip_stripped s : stripped (strip s).
Proof. destruct (strip_spec s) as (? & ? & ? & ? & ?). done. Qed.

Lemma strip_idemp s : strip (strip s) = strip s.
Proof. apply strip_stripped_id, strip_stripped. Qed.
#[export] Hint Resolve strip_stripped : pnet.

(** *** [strip] on the character array

    [strip] as the code runs it, in place: [buf] is the array, [s] the index the
    argument points to; the result is the array after the call and the index
    the returned pointer points to.  Every character read or written is
    checked to lie in the array; the pointers themselves are indices, which
    may be formed one before the first character as long as nothing is
    accessed there. *)

(** [while ( *s && isspace (( unsigned char) *s)) s++;], at most [fuel] rounds *)
Fixpoint strip_left (fuel : nat) (buf : list ascii) (s : Z) : exec Z :=
  match fuel with
  | O => Undefined
  | S fuel =>
      c ← arr_get buf s;
      if not_nul c && isspace c then strip_left fuel buf (s + 1) else Done s
  end.

(** [while (end > s && isspace (( unsigned char) *end)) *end-- = 0;] *)
Fixpoint strip_right (fuel : nat) (buf : list ascii) (s last : Z) : exec (list ascii) :=
  match fuel with
  | O => Undefined
  | S fuel =>
      if s <? last then
        c ← arr_get buf last;
        if isspace c then
          buf ← arr_set buf last nul;
          strip_right fuel buf s (last - 1)
        else Done buf
      else Done buf
  end.

(** [end = s + strlen (s) - 1] *)
Definition strip_last (buf : list ascii) (s : Z) : exec Z :=
  str ← read_str (drop (Z.to_nat s) buf);
  Done (s + zlen str - 1).

Definition strip_in_place (buf : list ascii) (s : Z) : exec (list ascii * Z) :=
  s ← strip_left (S (length buf)) buf s;
  last ← strip_last buf s;
  buf ← strip_right (S (length buf)) buf s last;
  Done (buf, s).

(** The three parts of a string: the white space [strip_left] skips, the
    result, and the white space [strip_right] overwrites. *)
Lemma strip_parts s : exists r,
  s = take_while isspace s ++ strip s ++ r /\ Forall (fun x => isspace x = true) r /\
  (strip s = [] -> r = []).
Proof.
  pose proof (take_drop_while isspace s) as E.
  unfold strip. destruct (drop_while isspace s) as [|c t] eqn:D.
  { exists []. cbn. by rewrite app_nil_r in *. }
  pose proof (drop_while_head _ _ _ _ D) as Hc.
  destruct (strip_end_spec (rev t) c Hc) as (rs & Hrs & (sp & Ht & Hsp) & Hh).
  exists (rev sp). cbn [rev]. rewrite Hrs, rev_app_distr. cbn [rev app]. split_and!.
  - rewrite <-E at 1. f_equal. f_equal. by rewrite <-rev_app_distr, <-Ht, rev_involutive.
  - apply Forall_rev, Hsp.
  - done.
Qed.

Lemma strip_left_skips l pre c m fuel : Forall (fun x => not_nul x && isspace x = true) l ->
  not_nul c && isspace c = false -> (length l < fuel)%nat ->
  strip_left fuel (pre ++ l ++ c :: m) (zlen pre) = Done (zlen pre + zlen l).
Proof.
  intros Hl Hc. revert pre fuel. induction Hl as [|x l Hx _ IH]; intros pre [|fuel] Hf;
    cbn [length] in Hf; try lia; cbn [app strip_left]; rewrite arr_get_mid; cbn [mbind exec_bind].
  - rewrite Hc. f_equal. unfold zlen. cbn [length]. lia.
  - rewrite Hx. specialize (IH (pre ++ [x]) fuel ltac:(lia)). rewrite <-app_assoc in IH.
    cbn [app] in IH. rewrite zlen_app in IH. change (zlen [x]) with 1 in IH. rewrite IH.
    f_equal. unfold zlen. cbn [length]. lia.
Qed.

Lemma strip_right_stops v pre rest fuel : v <> [] -> stripped v -> (0 < fuel)%nat ->
  strip_right fuel (pre ++ v ++ rest) (zlen pre) (zlen pre + zlen v - 1) = Done (pre ++ v ++ rest).
Proof.
  intros Hne Hv. destruct fuel as [|fuel]; [lia|]. intros _. cbn [strip_right].
  destruct (Z.ltb_spec (zlen pre) (zlen pre + zlen v - 1)); [|done].
  destruct v as [|c v]; [done|]. destruct Hv as [_ Hl].
  destruct (exists_last (l := c :: v)) as (v' & x & E); [done|]. rewrite E, List.last_last in Hl.
  rewrite E, zlen_app. change (zlen [x]) with 1.
  replace (zlen pre + (zlen v' + 1) - 1) with (zlen (pre ++ v')) by (rewrite zlen_app; lia).
  replace (pre ++ (v' ++ [x]) ++ rest) with ((pre ++ v') ++ x :: rest) by (by rewrite <-!app_assoc).
  rewrite arr_get_mid. cbn [mbind exec_bind]. by rewrite Hl.
Qed.

Lemma strip_right_clears r v pre rest fuel : v <> [] -> stripped v ->
  Forall (fun x => isspace x = true) r -> (length r < fuel)%nat ->
  strip_right fuel (pre ++ v ++ r ++ rest) (zlen pre) (zlen pre + zlen v + zlen r - 1) =
    Done (pre ++ v ++ replicate (length r) nul ++ rest).
Proof.
  intros Hne Hv. revert rest fuel. induction r as [|x r IH] using rev_ind; intros rest fuel Hr Hf.
  { cbn [app length replicate]. change (zlen (@nil ascii)) with 0. rewrite Z.add_0_r.
    by apply strip_right_stops. }
  apply Forall_app in Hr as [Hr Hx]. apply Forall_cons in Hx as [Hx _].
  rewrite length_app in Hf. cbn [length] in Hf. destruct fuel as [|fuel]; [lia|]. cbn [strip_right].
  assert (1 <= zlen v) as Hlv by (destruct v; [done|unfold zlen; cbn [length]; lia]).
  pose proof (zlen_nonneg r). rewrite zlen_app. change (zlen [x]) with 1.
  rewrite (proj2 (Z.ltb_lt _ _)) by lia.
  replace (zlen pre + zlen v + (zlen r + 1) - 1) with (zlen (pre ++ v ++ r)) by (rewrite !zlen_app; lia).
  replace (pre ++ v ++ (r ++ [x]) ++ rest) with ((pre ++ v ++ r) ++ x :: rest)
    by (by rewrite <-!app_assoc).
  rewrite arr_get_mid. cbn [mbind exec_bind]. rewrite Hx, arr_set_mid.
  cbn [mbind exec_bind].
  specialize (IH (nul :: rest) fuel Hr ltac:(lia)). rewrite !zlen_app, <-!app_assoc.
  replace (zlen pre + (zlen v + zlen r) - 1) with (zlen pre + zlen v + zlen r - 1) by lia.
  rewrite IH, length_app, Nat.add_comm. cbn [length Nat.add].
  by rewrite <-(replicate_snoc (length r) nul), <-app_assoc.
Qed.

Lemma isspace_not_nul l : text l -> Forall (fun x => isspace x = true) l ->
  Forall (fun x => not_nul x && isspace x = true) l.
Proof.
  intros Ht Hl. eapply Forall_impl; [apply Forall_and; split; [exact Ht|exact Hl]|].
  intros x [? ?]. by apply andb_true_intro.
Qed.

Lemma strip_left_parts pre s rest : text s ->
  strip_left (S (length (pre ++ s ++ nul :: rest))) (pre ++ s ++ nul :: rest) (zlen pre) =
    Done (zlen pre + zlen (take_while isspace s)).
Proof.
  intros Ht. pose proof (take_drop_while isspace s) as E.
  assert (Forall (fun x => not_nul x && isspace x = true) (take_while isspace s)) as Hl.
  { rewrite <-E in Ht. apply text_app in Ht as [Ht _].
    by apply isspace_not_nul; [|apply take_while_Forall]. }
  assert (length (take_while isspace s) < S (length (pre ++ s ++ nul :: rest)))%nat.
  { pose proof (length_take_while isspace s). rewrite !length_app. lia. }
  rewrite <-E at 2. rewrite <-app_assoc. destruct (drop_while isspace s) as [|c t] eqn:D.
  - by apply strip_left_skips.
  - apply strip_left_skips; [done| |done]. rewrite (drop_while_head _ _ _ _ D). by rewrite andb_false_r.
Qed.

(** C33: [strip] works in place and only there.  For a string [s] that lies in
    an array, at any position and with anything around it, both loops stop, every
    character they read or write is one of the string or its terminator, the
    white space after the text is overwritten by NULs, the array is otherwise
    unchanged, and the returned pointer holds the string [strip s]: [s] without
    the white space at both ends.  The pointer [end] that the second loop starts
    from lies in the array, except when [s] is empty and starts the array: then
    the code forms a pointer before the array, which it does not read. *)
Theorem strip_refines pre s rest : text s ->
  exists buf p r last,
    strip_in_place (pre ++ s ++ nul :: rest) (zlen pre) = Done (buf, p) /\
    s = take_while isspace s ++ strip s ++ r /\ Forall (fun x => isspace x = true) r /\
    stripped (strip s) /\
    buf = pre ++ take_while isspace s ++ strip s ++ replicate (length r) nul ++ nul :: rest /\
    p = zlen pre + zlen (take_while isspace s) /\
    read_str (drop (Z.to_nat p) buf) = Done (strip s) /\
    strip_last (pre ++ s ++ nul :: rest) p = Done last /\ -1 <= last < zlen buf /\
    (last = -1 <-> pre = [] /\ s = []).
Proof.
  intros Ht. destruct (strip_parts s) as (r & E & Hr & Hn).
  pose proof (take_while_Forall isspace s) as Hl. pose proof (strip_stripped s) as Hv.
  set (l := take_while isspace s) in *. set (v := strip s) in *.
  pose proof Ht as Hts. rewrite E in Hts. apply text_app in Hts as [Htl [Htv Htr]%text_app].
  assert (drop (Z.to_nat (zlen pre + zlen l)) (pre ++ s ++ nul :: rest) = (v ++ r) ++ nul :: rest) as Hd.
  { rewrite E. unfold zlen. rewrite <-Nat2Z.inj_add, Nat2Z.id, <-length_app.
    replace (pre ++ (l ++ v ++ r) ++ nul :: rest) with ((pre ++ l) ++ (v ++ r) ++ nul :: rest)
      by (by rewrite <-!app_assoc). by rewrite drop_app_length. }
  assert (strip_last (pre ++ s ++ nul :: rest) (zlen pre + zlen l) =
    Done (zlen pre + zlen l + zlen v + zlen r - 1)) as Hlast.
  { unfold strip_last. rewrite Hd, read_str_ok by apply terminated_app.
    rewrite c_str_text by by apply text_app. cbn [mbind exec_bind]. rewrite zlen_app. f_equal. lia. }
  assert (strip_in_place (pre ++ s ++ nul :: rest) (zlen pre) =
    Done (pre ++ l ++ v ++ replicate (length r) nul ++ nul :: rest, zlen pre + zlen l)) as Hrun.
  { unfold strip_in_place. rewrite strip_left_parts by done. cbn [mbind exec_bind]. fold l.
    rewrite Hlast. cbn [mbind exec_bind]. rewrite E. destruct (decide (v = [])) as [Hv0|Hv0].
    - rewrite (Hn Hv0), Hv0. cbn [app length replicate strip_right].
      change (zlen (@nil ascii)) with 0.
      rewrite (proj2 (Z.ltb_ge _ _)) by lia. by rewrite app_nil_r.
    - pose proof (strip_right_clears r v (pre ++ l) (nul :: rest)
        (S (length (pre ++ (l ++ v ++ r) ++ nul :: rest))) Hv0 Hv Hr) as Hc.
      rewrite zlen_app, <-!app_assoc in Hc. rewrite <-!app_assoc. rewrite Hc; [done|].
      rewrite !length_app. lia. }
  assert (drop (Z.to_nat (zlen pre + zlen l)) (pre ++ l ++ v ++ replicate (length r) nul ++ nul :: rest)
    = v ++ replicate (length r) nul ++ nul :: rest) as Hd2.
  { unfold zlen. rewrite <-Nat2Z.inj_add, Nat2Z.id, <-length_app, app_assoc. by rewrite drop_app_length. }
  eexists _, _, r, _. split_and!; [exact Hrun|exact E|done|done|done|done| |exact Hlast|..].
  - rewrite Hd2, read_str_ok by (destruct (length r); apply terminated_app).
    destruct (length r); cbn [replicate app]; by rewrite c_str_text.
  - pose proof (zlen_nonneg pre). pose proof (zlen_nonneg l). pose proof (zlen_nonneg v).
    pose proof (zlen_nonneg r). lia.
  - rewrite !zlen_app. unfold zlen. cbn [length]. rewrite length_replicate. lia.
  - unfold zlen. split.
    + intros Hz. split; apply nil_length_inv; [lia|]. rewrite E, !length_app. lia.
    + intros [-> Hs]. rewrite Hs in E. symmetry in E. apply app_nil in E as [-> [-> ->]%app_nil]. done.
Qed.

(** A line with white space around it, and an empty one. *)
Lemma strip_refines_witness : exists buf p,
  strip_in_place (lit "  key 	" ++ nul :: lit "xy") 0 = Done (buf, p) /\ p = 2 /\
  buf = lit "  key" ++ [nul; nul; nul] ++ lit "xy".
Proof.
  destruct (strip_refines [] (lit "  key  ") (lit "xy")) as (buf & p & r & last & E & _ & _ & _ & Eb & Ep & _).
  { by apply (bool_decide_eq_true_1 (text _)); vm_compute. }
  exists buf, p. split; [exact E|]. split; [exact Ep|].
  vm_compute in E. injection E as <- _. by vm_compute.
Defined.

(** ** [strchr]: the text before and after the first [c]. *)
Fixpoint split_at (c : ascii) (s : list ascii) : option (list ascii * list ascii) :=
  match s with
  | [] => None
  | x :: s => if Ascii.eqb x c then Some ([], s)
              else '(a, b) ← split_at c s; Some (x :: a, b)
  end.

Lemma split_at_first c a b : c ∉ a -> split_at c (a ++ c :: b) = Some (a, b).
Proof.
  induction a as [|x a IH]; simpl; intros Hc; [by rewrite Ascii.eqb_refl|].
  apply not_elem_of_cons in Hc as [Hx Hc].
  destruct (Ascii.eqb_spec x c) as [->|]; [done|]. by rewrite IH.
Qed.

Lemma split_at_inv c s a b : split_at c s = Some (a, b) -> s = a ++ c :: b.
Proof.
  revert a b. induction s as [|x s IH]; intros a b; [done|]. cbn [split_at].
  destruct (Ascii.eqb_spec x c) as [->|]; [by intros [= <- <-]|].
  destruct (split_at c s) as [[a' b']|]; [|done]. intros [= <- <-]. by rewrite (IH a' b').
Qed.

(** ** Bounded formatted output

    [snprintf_at buf off s] is [snprintf (buf + off, len - off, ...)] where
    the formatted text is [s] and [buf] is an object of [len] characters: it
    stores [s], cut to [len - off - 1] characters, and a NUL after it, and
    returns [strlen s].  With a size of zero nothing is stored.  When [off]
    has passed the end of the buffer, [len - off] has wrapped around: the
    store is outside the object and the run is [Undefined]. *)
Definition snprintf_at (buf : list ascii) (off : Z) (s : list ascii) : exec (Z * list ascii) :=
  access (bool_decide (0 <= off <= zlen buf));;
  let o := Z.to_nat off in
  let room := (length buf - o)%nat in
  if (room =? 0)%nat then Done (zlen s, buf)
  else
    let w := take (room - 1) s ++ [nul] in
    Done (zlen s, take o buf ++ w ++ drop (o + length w) buf).

Section snprintf.
Context (buf : list ascii).

(** Within the buffer, formatted output is defined, returns the length of
    the formatted text and keeps the size of the buffer. *)
Lemma snprintf_at_defined off s :
  0 <= off <= zlen buf ->
  exists buf', snprintf_at buf off s = Done (zlen s, buf') /\ length buf' = length buf.
Proof using.
  intros Hoff. unfold snprintf_at. rewrite access_ok by done. simpl.
  destruct (Nat.eqb_spec (length buf - Z.to_nat off) 0) as [|Hroom]; [by exists buf|].
  eexists. split; [done|]. unfold zlen in Hoff.
  rewrite !length_app, !length_take, length_drop. simpl. lia.
Qed.

Lemma snprintf_at_past off s : zlen buf < off -> snprintf_at buf off s = Undefined.
Proof using. intros. unfold snprintf_at. by rewrite bool_decide_eq_false_2 by lia. Qed.

(** When the text fits behind the [pre] already in the buffer, the buffer
    then starts with both and a NUL. *)
Lemma snprintf_at_fits pre s :
  take (length pre) buf = pre -> zlen pre + zlen s < zlen buf ->
  exists rest, snprintf_at buf (zlen pre) s = Done (zlen s, pre ++ s ++ nul :: rest) /\
    length (pre ++ s ++ nul :: rest) = length buf.
Proof using.
  intros Hpre Hfit. pose proof (zlen_nonneg s). pose proof (zlen_nonneg pre).
  unfold snprintf_at. rewrite access_ok by lia. unfold zlen in *. simpl.
  rewrite Nat2Z.id.
  destruct (Nat.eqb_spec (length buf - length pre) 0); [lia|].
  rewrite (take_ge s) by lia. rewrite Hpre.
  eexists. split.
  - by rewrite <-app_assoc.
  - rewrite !length_app. simpl. rewrite length_drop, ?length_app. simpl. lia.
Qed.
End snprintf.

(** The C string at the start of a buffer filled by [snprintf_at_fits]. *)
Lemma take_prefix_app {A} (s rest : list A) : take (length s) (s ++ rest) = s.
Proof. apply take_app_length. Qed.

(** ** [fgets]

    [fgets_line n s] is the line read from the input [s]: up to [n] characters,
    the newline included; and the input left.  [fgets size s] returns no line
    at the end of the input. *)
Fixpoint fgets_line (n : nat) (s : list ascii) : list ascii * list ascii :=
  match n, s with
  | O, _ => ([], s)
  | _, [] => ([], [])
  | S n, c :: s =>
      if Ascii.eqb c nl then ([c], s)
      else let '(l, r) := fgets_line n s in (c :: l, r)
  end.

Definition fgets (size : nat) (s : list ascii) : option (list ascii * list ascii) :=
  match s with [] => None | _ => Some (fgets_line (size - 1) s) end.

(** Nothing of the input is lost, and every line makes progress. *)
Lemma fgets_line_app n s : let '(l, r) := fgets_line n s in l ++ r = s.
Proof.
  revert s. induction n as [|n IH]; intros [|c s]; try done. cbn [fgets_line].
  destruct (Ascii.eqb c nl); [done|]. specialize (IH s). destruct (fgets_line n s) as [l r].
  cbn [app]. by rewrite IH.
Qed.

Lemma fgets_progress size s l r : (2 <= size)%nat -> fgets size s = Some (l, r) ->
  (length r < length s)%nat.
Proof.
  intros Hs. unfold fgets. destruct s as [|c s]; [done|]. intros [= H].
  pose proof (fgets_line_app (size - 1) (c :: s)) as Happ. rewrite H in Happ.
  rewrite <-Happ, length_app. destruct size as [|[|size]]; [lia..|].
  assert (S (S size) - 1 = S size)%nat as E by lia. rewrite E in H. cbn [fgets_line] in H.
  destruct (Ascii.eqb c nl); [injection H as <- _; simpl; lia|].
  destruct (fgets_line size s). injection H as <- _. simpl. lia.
Qed.

Lemma fgets_line_bound n s : (length (fgets_line n s).1 <= n)%nat.
Proof.
  revert s. induction n as [|n IH]; intros [|c s]; cbn; try lia.
  destruct (Ascii.eqb c nl); cbn; [lia|]. specialize (IH s). destruct (fgets_line n s). cbn in *. lia.
Qed.

Lemma fgets_split size s l r : fgets size s = Some (l, r) ->
  l ++ r = s /\ (length l <= size - 1)%nat.
Proof.
  unfold fgets. destruct s as [|c s]; [done|]. intros [= H].
  pose proof (fgets_line_app (size - 1) (c :: s)) as Ha. rewrite H in Ha.
  pose proof (fgets_line_bound (size - 1) (c :: s)) as Hb. by rewrite H in Hb.
Qed.

(** A complete line that fits the buffer is read whole. *)
Lemma fgets_line_fits n l r :
  nl ∉ l -> (length l < n)%nat -> fgets_line n (l ++ nl :: r) = (l ++ [nl], r).
Proof.
  revert n. induction l as [|c l IH]; intros [|n] Hl Hn; simpl in *; try lia; [done|].
  apply not_elem_of_cons in Hl as [Hc Hl].
  destruct (Ascii.eqb_spec c nl) as [->|]; [done|]. by rewrite IH by (done || lia).
Qed.

Lemma fgets_fits size l r : nl ∉ l -> (length l + 1 < size)%nat ->
  fgets size (l ++ nl :: r) = Some (l ++ [nl], r).
Proof.
  intros Hl Hs. unfold fgets. destruct (l ++ nl :: r) as [|c s] eqn:E; [by destruct l|].
  rewrite <-E, fgets_line_fits by (done || lia). done.
Qed.

(** A line too long for the buffer is read up to its size, a last line without
    a newline up to the end. *)
Lemma fgets_line_full n l r : nl ∉ l -> length l = n -> fgets_line n (l ++ r) = (l, r).
Proof.
  revert n. induction l as [|c l IH]; intros n Hl <-; [done|]. cbn [fgets_line length app].
  apply not_elem_of_cons in Hl as [Hc Hl].
  destruct (Ascii.eqb_spec c nl) as [->|]; [done|]. by rewrite IH.
Qed.

Lemma fgets_line_last n l : nl ∉ l -> (length l <= n)%nat -> fgets_line n l = (l, []).
Proof.
  revert n. induction l as [|c l IH]; intros n Hl Hn; [by destruct n|].
  destruct n as [|n]; [simpl in Hn; lia|]. cbn [fgets_line].
  apply not_elem_of_cons in Hl as [Hc Hl].
  destruct (Ascii.eqb_spec c nl) as [->|]; [done|]. rewrite IH; [done..|simpl in Hn; lia].
Qed.

(** And there is no other way a read ends. *)
Lemma fgets_line_cases n s : let '(l, r) := fgets_line n s in
  (exists l', l = l' ++ [nl] /\ nl ∉ l' /\ (length l' < n)%nat) \/
  nl ∉ l /\ (length l = n \/ (length l < n)%nat /\ r = []).
Proof.
  revert s. induction n as [|n IH]; intros s; [right; split; [apply not_elem_of_nil|by left]|].
  destruct s as [|c s]; cbn [fgets_line].
  { right. split; [apply not_elem_of_nil|]. right. split; [simpl; lia|done]. }
  destruct (Ascii.eqb_spec c nl) as [->|Hc].
  { left. exists []. split; [done|]. split; [apply not_elem_of_nil|simpl; lia]. }
  specialize (IH s). destruct (fgets_line n s) as [l r].
  destruct IH as [(l' & -> & Hl' & Hn)|[Hl Hn]].
  - left. exists (c :: l'). split; [done|]. split; [|simpl; lia].
    by apply not_elem_of_cons.
  - right. split; [by apply not_elem_of_cons|]. simpl.
    destruct Hn as [?|[? ?]]; [left; lia|right; split; [lia|done]].
Qed.

Lemma fgets_long size l r : nl ∉ l -> length l = (size - 1)%nat -> l <> [] ->
  fgets size (l ++ r) = Some (l, r).
Proof.
  intros Hl Hn Hne. unfold fgets. destruct (l ++ r) as [|c s] eqn:E; [by destruct l|].
  by rewrite <-E, fgets_line_full.
Qed.

Lemma fgets_last size l : nl ∉ l -> (length l <= size - 1)%nat -> l <> [] ->
  fgets size l = Some (l, []).
Proof. intros Hl Hn Hne. unfold fgets. destruct l; [done|]. by rewrite fgets_line_last. Qed.

Lemma fgets_cases size s l r : fgets size s = Some (l, r) ->
  s = l ++ r /\
  ((exists l', l = l' ++ [nl] /\ nl ∉ l' /\ (length l' < size - 1)%nat) \/
   nl ∉ l /\ (length l = (size - 1)%nat \/ (length l < size - 1)%nat /\ r = [])).
Proof.
  unfold fgets. destruct s as [|c s]; [done|]. intros [= E].
  pose proof (fgets_line_app (size - 1) (c :: s)) as Ha.
  pose proof (fgets_line_cases (size - 1) (c :: s)) as Hc. by rewrite E in Ha, Hc.
Qed.

(** Cutting a string at the first character of a set: the [strcspn] idiom. *)
Definition cut_at (stop : ascii -> bool) (s : list ascii) : list ascii :=
  take_while (fun c => negb (stop c)) s.

(** Formatted output behind [pre], cut to the room that is left. *)
Lemma snprintf_at_cut buf pre s :
  take (length pre) buf = pre -> zlen pre < zlen buf -> text pre -> text s ->
  exists buf', snprintf_at buf (zlen pre) s = Done (zlen s, buf') /\
    length buf' = length buf /\ c_str buf' = take (length buf - 1) (pre ++ s) /\
    (zlen pre + zlen s < zlen buf -> take (length (pre ++ s)) buf' = pre ++ s).
Proof.
  intros Hpre Hlt Htp Hts. pose proof (zlen_nonneg pre).
  destruct (snprintf_at_defined buf (zlen pre) s) as (buf' & E & Hl); [lia|].
  exists buf'. split; [done|]. split; [done|].
  unfold snprintf_at in E. rewrite access_ok in E by lia. unfold zlen in *. simpl in E.
  rewrite Nat2Z.id in E. destruct (Nat.eqb_spec (length buf - length pre) 0); [lia|].
  injection E as <-. rewrite Hpre.
  set (t := take _ s). set (rest := drop _ buf).
  replace (pre ++ (t ++ [nul]) ++ rest) with ((pre ++ t) ++ nul :: rest)
    by (by rewrite <-!app_assoc). split.
  - rewrite c_str_text by (apply text_app; split; [done|by apply Forall_take]).
    rewrite take_app_ge by lia. f_equal. unfold t. f_equal. lia.
  - intros Hfit. unfold t. rewrite (take_ge s) by lia. apply take_app_length.
Qed.
