(* ===== verification/CFormat.v ===== *)
(** * Formatted numbers: printf and scanf conversions

    The conversions the program uses: [%u], [%d], [%04X] and [%s] on output;
    [strtoul (_, _, 0)], [atoi] and the [%u]/[%d] directives of the scanf
    family on input.  [unsigned long] and [long] have 64 bits, [int] and
    [unsigned] 32, as on the platforms the program is built for.  Where the C
    standard leaves the result of an out-of-range [%u]/[%d]/[atoi] open, the
    definitions say what the GNU C library computes (the value is read as a
    64-bit number, clamped there, and then cut to 32 bits). *)
From S2P Require Import Prelude CString.

(** ** Digits of a number in a base *)

(** Most significant digit first; [fuel] bounds the number of digits. *)
Fixpoint digits_fuel (fuel : nat) (b n : Z) : list Z :=
  match fuel with
  | O => [n]
  | S fuel => if n <? b then [n] else digits_fuel fuel b (n / b) ++ [n mod b]
  end.

(** A number below [2 ^ k] has at most [k] digits in any base from 2. *)
Definition digits (b n : Z) : list Z := digits_fuel (Z.to_nat (Z.log2 n)) b n.

Definition of_digits_acc (b acc : Z) (ds : list Z) : Z :=
  foldl (fun acc d => acc * b + d) acc ds.
Definition of_digits (b : Z) (ds : list Z) : Z := of_digits_acc b 0 ds.

Definition is_digit (b d : Z) : Prop := 0 <= d < b.

Section digits.
Context (b : Z) (Hb : 2 <= b).

Lemma of_digits_acc_app acc ds es :
  of_digits_acc b acc (ds ++ es) = of_digits_acc b (of_digits_acc b acc ds) es.
Proof using. apply foldl_app. Qed.

Lemma digits_fuel_correct fuel n :
  0 <= n < 2 ^ (Z.of_nat fuel + 1) ->
  of_digits b (digits_fuel fuel b n) = n /\ Forall (is_digit b) (digits_fuel fuel b n).
Proof using Hb.
  revert n. induction fuel as [|fuel IH]; intros n Hn; simpl.
  { unfold of_digits. simpl. split; [lia|]. repeat constructor; lia. }
  destruct (Z.ltb_spec n b) as [Hlt|Hge].
  { unfold of_digits. simpl. split; [lia|]. repeat constructor; lia. }
  assert (0 <= n / b < 2 ^ (Z.of_nat fuel + 1)) as Hq.
  { rewrite Nat2Z.inj_succ in Hn.
    replace (Z.succ (Z.of_nat fuel) + 1) with (1 + (Z.of_nat fuel + 1)) in Hn by lia.
    rewrite Z.pow_add_r in Hn by lia. split; [apply Z.div_pos; lia|].
    apply Z.div_lt_upper_bound; nia. }
  destruct (IH _ Hq) as [E F]. unfold of_digits in *.
  rewrite of_digits_acc_app, E. simpl. split.
  - rewrite (Z.div_mod n b) at 3 by lia. ring.
  - apply Forall_app. split; [done|]. repeat constructor; apply Z.mod_pos_bound; lia.
Qed.

Lemma digits_log2 n : 0 <= n -> 0 <= n < 2 ^ (Z.of_nat (Z.to_nat (Z.log2 n)) + 1).
Proof using.
  intros Hn. split; [done|]. pose proof (Z.log2_nonneg n). rewrite Z2Nat.id by done.
  destruct (decide (n = 0)) as [->|]; [done|]. by apply Z.log2_spec; lia.
Qed.

(** Reading back the digits of [n] gives [n]. *)
Lemma of_digits_digits n : 0 <= n -> of_digits b (digits b n) = n.
Proof using Hb. intros. by apply digits_fuel_correct, digits_log2. Qed.

Lemma digits_range n : 0 <= n -> Forall (is_digit b) (digits b n).
Proof using Hb. intros. by apply digits_fuel_correct, digits_log2. Qed.

Lemma digits_nonempty n : digits b n <> [].
Proof using.
  unfold digits. destruct (Z.to_nat (Z.log2 n)); simpl; [done|].
  destruct (n <? b); [done|]. by intros []%app_eq_nil.
Qed.

(** A number below [b ^ k] has at most [k] digits. *)
Lemma length_digits_fuel fuel n k :
  0 <= n < b ^ Z.of_nat k -> (0 < k)%nat -> (length (digits_fuel fuel b n) <= k)%nat.
Proof using Hb.
  revert n k. induction fuel as [|fuel IH]; intros n k Hn Hk; simpl; [lia|].
  destruct (Z.ltb_spec n b); simpl; [lia|].
  rewrite length_app. simpl. destruct k as [|[|k]]; [lia| |].
  { change (Z.of_nat 1) with 1 in Hn. lia. }
  rewrite Nat2Z.inj_succ, Z.pow_succ_r in Hn by lia.
  specialize (IH (n / b) (S k)).
  assert (0 <= n / b < b ^ Z.of_nat (S k)).
  { split; [apply Z.div_pos; lia|]. by apply Z.div_lt_upper_bound; lia. }
  lia.
Qed.

Lemma length_digits n k :
  0 <= n < b ^ Z.of_nat k -> (0 < k)%nat -> (length (digits b n) <= k)%nat.
Proof using Hb. apply length_digits_fuel. Qed.
End digits.

(** ** Output *)

Definition digit_char (d : Z) : ascii :=
  ascii_of_N (Z.to_N (if d <? 10 then 48 + d else 55 + d)).

(** [%u] *)
Definition fmt_u (n : Z) : list ascii := map digit_char (digits 10 n).
(** [%d] *)
Definition fmt_d (n : Z) : list ascii := if n <? 0 then "-"%char :: fmt_u (- n) else fmt_u n.
(** [%04X] *)
Definition fmt_04X (n : Z) : list ascii :=
  let s := map digit_char (digits 16 n) in replicate (4 - length s) "0"%char ++ s.

(** [%x] in at least [w] digits: [%02x], [%04x], [%08x]. *)
Definition hex_char (d : Z) : ascii :=
  ascii_of_N (Z.to_N (if d <? 10 then 48 + d else 87 + d)).
Definition fmt_x (w : nat) (n : Z) : list ascii :=
  let s := map hex_char (digits 16 n) in replicate (w - length s) "0"%char ++ s.

(** ** Input *)

(** The value of a character as a digit of base [b], either case. *)
Definition char_digit (b : Z) (c : ascii) : option Z :=
  let n := Z.of_N (N_of_ascii c) in
  let d := if (48 <=? n) && (n <=? 57) then Some (n - 48)
           else if (65 <=? n) && (n <=? 90) then Some (n - 55)
           else if (97 <=? n) && (n <=? 122) then Some (n - 87)
           else None in
  d ← d; if d <? b then Some d else None.

(** The longest prefix of digits and what follows it. *)
Fixpoint scan_digits (b : Z) (s : list ascii) : list Z * list ascii :=
  match s with
  | [] => ([], [])
  | c :: s' => match char_digit b c with
               | Some d => let '(ds, r) := scan_digits b s' in (d :: ds, r)
               | None => ([], s)
               end
  end.

(** An optional sign: whether it is a minus, and what follows. *)
Definition scan_sign (s : list ascii) : bool * list ascii :=
  match s with
  | c :: s' => if Ascii.eqb c "-" then (true, s')
               else if Ascii.eqb c "+" then (false, s') else (false, s)
  | [] => (false, s)
  end.

Definition ULONG_MAX : Z := 2 ^ 64 - 1.
Definition LONG_MAX : Z := 2 ^ 63 - 1.
Definition LONG_MIN : Z := - 2 ^ 63.

(** The value [strtoul] gives a sign and a magnitude. *)
Definition ulong_value (neg : bool) (v : Z) : Z :=
  if v >? ULONG_MAX then ULONG_MAX else if neg then u64 (- v) else v.
(** The value [strtol] gives a sign and a magnitude. *)
Definition long_value (neg : bool) (v : Z) : Z :=
  Z.max LONG_MIN (Z.min LONG_MAX (if neg then - v else v)).

(** The base [strtoul] chooses for base 0, and the digits' text. *)
Definition detect_base (s : list ascii) : Z * list ascii :=
  match s with
  | z :: x :: h :: _ =>
      if Ascii.eqb z "0" then
        if (Ascii.eqb x "x" || Ascii.eqb x "X") && bool_decide (is_Some (char_digit 16 h))
        then (16, drop 2 s) else (8, s)
      else (10, s)
  | z :: _ => if Ascii.eqb z "0" then (8, s) else (10, s)
  | [] => (10, s)
  end.

(** [strtoul (s, NULL, 0)] *)
Definition strtoul0 (s : list ascii) : Z :=
  let '(neg, s) := scan_sign (drop_while isspace s) in
  let '(b, s) := detect_base s in
  ulong_value neg (of_digits b (fst (scan_digits b s))).

(** [atoi (s)], that is [(int) strtol (s, NULL, 10)] *)
Definition atoi (s : list ascii) : Z :=
  let '(neg, s) := scan_sign (drop_while isspace s) in
  s32 (long_value neg (of_digits 10 (fst (scan_digits 10 s)))).

(** One [%u] / [%d] directive of [sscanf]: the value stored and the rest of
    the input, or a matching failure. *)
Definition scan_num (conv : bool -> Z -> Z) (s : list ascii) : option (Z * list ascii) :=
  let '(neg, s) := scan_sign (drop_while isspace s) in
  match scan_digits 10 s with
  | ([], _) => None
  | (ds, r) => Some (conv neg (of_digits 10 ds), r)
  end.
Definition scan_u : list ascii -> option (Z * list ascii) :=
  scan_num (fun neg v => u32 (ulong_value neg v)).
Definition scan_d : list ascii -> option (Z * list ascii) :=
  scan_num (fun neg v => s32 (long_value neg v)).

(** An ordinary character of a scanf format. *)
Definition scan_char (c : ascii) (s : list ascii) : option (list ascii) :=
  match s with
  | x :: s => if Ascii.eqb x c then Some s else None
  | [] => None
  end.

(** ** Facts about digit characters *)

Lemma is_digit_16_cases d : is_digit 16 d ->
  d ∈ [0; 1; 2; 3; 4; 5; 6; 7; 8; 9; 10; 11; 12; 13; 14; 15].
Proof. unfold is_digit. intros. repeat (rewrite elem_of_cons). lia. Qed.

(** A decidable fact about the sixteen digits is checked by evaluation. *)
Ltac digit_cases H :=
  apply is_digit_16_cases in H;
  repeat (apply elem_of_cons in H as [->|H]; [try by vm_compute|]);
  try by apply not_elem_of_nil in H.

Lemma char_digit_char b d : b <= 16 -> is_digit b d -> char_digit b (digit_char d) = Some d.
Proof.
  intros Hb Hd. assert (is_digit 16 d) as H by (unfold is_digit in *; lia).
  assert (char_digit 16 (digit_char d) = Some d) as E by (clear Hd; digit_cases H).
  unfold char_digit in *. destruct (if _ && _ then _ else _) as [x|] in *; [|done].
  simpl in *. destruct (x <? 16); [|done]. injection E as ->.
  destruct (Z.ltb_spec d b); [done|]. unfold is_digit in Hd. lia.
Qed.

(** Characters that no number contains, apart from its sign and base. *)
Definition plain (c : ascii) : bool :=
  negb (isspace c) && not_nul c && negb (Ascii.eqb c "-") && negb (Ascii.eqb c "+").

Lemma digit_char_plain d : is_digit 16 d -> plain (digit_char d) = true.
Proof. intros H. digit_cases H. Qed.

Lemma digits_plain b n :
  2 <= b <= 16 -> 0 <= n -> Forall (fun c => plain c = true) (map digit_char (digits b n)).
Proof.
  intros Hb Hn. apply Forall_map. eapply Forall_impl; [by apply digits_range; lia|].
  intros d Hd. apply digit_char_plain. unfold is_digit in *. lia.
Qed.

(** Reading stops at [r]: it does not start with a digit of base [b]. *)
Definition no_digit (b : Z) (r : list ascii) : Prop :=
  match r with [] => True | c :: _ => char_digit b c = None end.

Lemma scan_digits_map b ds r :
  b <= 16 -> Forall (is_digit b) ds -> no_digit b r ->
  scan_digits b (map digit_char ds ++ r) = (ds, r).
Proof.
  intros Hb Hds Hr. induction Hds as [|d ds Hd _ IH]; simpl.
  - destruct r as [|c r]; simpl in *; [done|]. by rewrite Hr.
  - by rewrite char_digit_char, IH.
Qed.

Lemma plain_head c s :
  plain c = true -> drop_while isspace (c :: s) = c :: s /\ scan_sign (c :: s) = (false, c :: s).
Proof.
  unfold plain. intros H. simpl.
  destruct (isspace c), (not_nul c), (Ascii.eqb c "-"), (Ascii.eqb c "+"); done.
Qed.

(** Formatted text starting with a plain character is read without a sign. *)
Lemma plain_start s r :
  s <> [] -> Forall (fun c => plain c = true) s ->
  scan_sign (drop_while isspace (s ++ r)) = (false, s ++ r).
Proof.
  intros Hs Hp. destruct Hp as [|c s Hc _]; [done|]. cbn [app].
  by destruct (plain_head c (s ++ r) Hc) as [-> ->].
Qed.

(** ** Round trips: reading back what was printed *)

Lemma digits_head b n : 2 <= b -> 0 < n -> forall d, head (digits b n) = Some d -> d <> 0.
Proof.
  intros Hb Hn d. unfold digits.
  pose proof (digits_log2 n ltac:(lia)) as Hlog. revert Hlog.
  generalize (Z.to_nat (Z.log2 n)) as fuel. intros fuel.
  revert n Hn d. induction fuel as [|fuel IH]; intros n Hn d Hlog; simpl.
  { intros [= <-]. lia. }
  destruct (Z.ltb_spec n b); [intros [= <-]; lia|].
  destruct (digits_fuel fuel b (n / b)) as [|x l] eqn:E.
  { destruct fuel; simpl in E; [done|]. destruct (_ <? _); [done|]. by apply app_eq_nil in E as []. }
  simpl. intros [= ->]. apply (IH (n / b)).
  - apply Z.div_str_pos. lia.
  - rewrite Nat2Z.inj_succ in Hlog.
    replace (Z.succ (Z.of_nat fuel) + 1) with (1 + (Z.of_nat fuel + 1)) in Hlog by lia.
    rewrite Z.pow_add_r in Hlog by lia. split; [apply Z.div_pos; lia|].
    apply Z.div_lt_upper_bound; nia.
  - by rewrite E.
Qed.

Lemma fmt_u_plain n : 0 <= n -> Forall (fun c => plain c = true) (fmt_u n).
Proof. intros. apply digits_plain; lia. Qed.

Lemma fmt_u_nonempty n : fmt_u n <> [].
Proof. unfold fmt_u. pose proof (digits_nonempty 10 n). by destruct (digits 10 n). Qed.

Lemma scan_digits_fmt_u n r :
  0 <= n -> no_digit 10 r ->
  scan_digits 10 (fmt_u n ++ r) = (digits 10 n, r).
Proof. intros. apply scan_digits_map; [lia|by apply digits_range; lia|done]. Qed.

Lemma ulong_value_small v : in_u 64 v -> ulong_value false v = v.
Proof. unfold in_u, ulong_value, ULONG_MAX. intros. destruct (Z.gtb_spec v (2 ^ 64 - 1)); lia. Qed.

Lemma scan_num_fmt_u conv n r :
  0 <= n -> no_digit 10 r -> scan_num conv (fmt_u n ++ r) = Some (conv false n, r).
Proof.
  intros Hn Hr. unfold scan_num.
  rewrite plain_start by eauto using fmt_u_plain, fmt_u_nonempty.
  rewrite scan_digits_fmt_u by done.
  pose proof (digits_nonempty 10 n). pose proof (of_digits_digits 10 ltac:(lia) n Hn) as E.
  destruct (digits 10 n); [done|]. by rewrite E.
Qed.

(** A conversion skips white space first. *)
Lemma scan_num_blanks conv b s :
  Forall (fun c => isspace c = true) b -> scan_num conv (b ++ s) = scan_num conv s.
Proof.
  induction 1 as [|c b Hc _ IH]; [done|]. rewrite <-IH. unfold scan_num. cbn [app drop_while].
  by rewrite Hc.
Qed.

(** [%u] is read back by [%u]. *)
Lemma scan_u_fmt_u n r : in_u 32 n -> no_digit 10 r -> scan_u (fmt_u n ++ r) = Some (n, r).
Proof.
  unfold in_u. intros Hn Hr. unfold scan_u. rewrite scan_num_fmt_u by (done || lia).
  rewrite ulong_value_small by (unfold in_u; lia). unfold u32. by rewrite wrapu_small.
Qed.

Lemma scan_num_fmt_neg conv n r :
  n < 0 -> no_digit 10 r -> scan_num conv (fmt_d n ++ r) = Some (conv true (- n), r).
Proof.
  intros Hn Hr. unfold scan_num, fmt_d. destruct (Z.ltb_spec n 0); [|lia].
  simpl. rewrite scan_digits_fmt_u by (done || lia).
  pose proof (digits_nonempty 10 (- n)).
  pose proof (of_digits_digits 10 ltac:(lia) (- n) ltac:(lia)) as E.
  destruct (digits 10 (- n)); [done|]. by rewrite E.
Qed.

(** [%d] is read back by [%d]. *)
Lemma scan_d_fmt_d n r : in_s32 n -> no_digit 10 r -> scan_d (fmt_d n ++ r) = Some (n, r).
Proof.
  unfold in_s32. intros Hn Hr. unfold scan_d. destruct (decide (n < 0)).
  - rewrite scan_num_fmt_neg by done. do 2 f_equal. unfold long_value, LONG_MIN, LONG_MAX.
    rewrite s32_small; unfold in_s32; lia.
  - unfold fmt_d. destruct (Z.ltb_spec n 0); [lia|].
    rewrite scan_num_fmt_u by (done || lia). do 2 f_equal.
    unfold long_value, LONG_MIN, LONG_MAX. rewrite s32_small; unfold in_s32; lia.
Qed.

(** [atoi] is the number a [%d] directive reads, 0 when there is none. *)
Lemma atoi_scan_d s : atoi s = match scan_d s with Some (n, _) => n | None => 0 end.
Proof.
  unfold atoi, scan_d, scan_num. destruct (scan_sign _) as [neg t].
  destruct (scan_digits 10 t) as [[|d ds] r]; [|done]. simpl. by destruct neg.
Qed.

Lemma atoi_fmt_d n : in_s32 n -> atoi (fmt_d n) = n.
Proof.
  intros. rewrite atoi_scan_d, <-(app_nil_r (fmt_d n)). by rewrite scan_d_fmt_d.
Qed.

(** [strtoul] with base 0 reads [%u] in base 10 ... *)
Lemma detect_base_fmt_u n : 0 <= n ->
  detect_base (fmt_u n) = (if n =? 0 then 8 else 10, fmt_u n).
Proof.
  intros Hn. destruct (Z.eqb_spec n 0) as [->|]; [done|].
  unfold fmt_u. pose proof (digits_head 10 n ltac:(lia) ltac:(lia)) as Hd.
  pose proof (digits_range 10 ltac:(lia) n Hn) as Hr. pose proof (digits_nonempty 10 n).
  destruct (digits 10 n) as [|d ds]; [done|].
  apply Forall_cons_1 in Hr as [Hr _]. specialize (Hd d eq_refl).
  assert (Ascii.eqb (digit_char d) "0" = false) as E.
  { clear -Hd Hr. assert (is_digit 16 d) as H by (unfold is_digit in *; lia).
    digit_cases H. }
  simpl. destruct ds as [|? [|? ?]]; simpl; by rewrite E.
Qed.

Lemma strtoul0_fmt_u n : in_u 64 n -> strtoul0 (fmt_u n) = n.
Proof.
  intros Hn. assert (0 <= n) by (unfold in_u in Hn; lia). unfold strtoul0.
  rewrite <-(app_nil_r (fmt_u n)).
  rewrite plain_start by eauto using fmt_u_plain, fmt_u_nonempty.
  rewrite app_nil_r, detect_base_fmt_u by done.
  destruct (Z.eqb_spec n 0) as [->|]; [done|].
  rewrite <-(app_nil_r (fmt_u n)), scan_digits_fmt_u by done. simpl.
  by rewrite of_digits_digits, ulong_value_small by (done || lia).
Qed.

(** ... and the [0x%04X] form in base 16. *)
Lemma of_digits_zeros b k ds : of_digits b (replicate k 0 ++ ds) = of_digits b ds.
Proof. induction k as [|k IH]; simpl; [done|]. unfold of_digits in *. simpl. by rewrite <-IH. Qed.

Lemma fmt_04X_digits n :
  fmt_04X n = map digit_char (replicate (4 - length (digits 16 n)) 0 ++ digits 16 n).
Proof.
  unfold fmt_04X. rewrite List.length_map, List.map_app. f_equal.
  change (map digit_char) with (fmap digit_char (M := list)). by rewrite fmap_replicate.
Qed.

Lemma strtoul0_hex n : in_u 64 n -> strtoul0 (lit "0x" ++ fmt_04X n) = n.
Proof.
  intros Hn. assert (0 <= n) by (unfold in_u in Hn; lia). unfold strtoul0.
  rewrite fmt_04X_digits. set (ds := _ ++ digits 16 n).
  assert (Forall (is_digit 16) ds) as Hds.
  { apply Forall_app. split; [|by apply digits_range].
    apply Forall_replicate. unfold is_digit. lia. }
  assert (ds <> []) as Hne.
  { unfold ds. pose proof (digits_nonempty 16 n). by intros []%app_eq_nil. }
  assert (of_digits 16 ds = n) as Hval.
  { unfold ds. by rewrite of_digits_zeros, of_digits_digits by (done || lia). }
  clearbody ds. destruct ds as [|d ds]; [done|].
  assert (char_digit 16 (digit_char d) = Some d) as Hd.
  { apply char_digit_char; [done|]. by apply Forall_cons_1 in Hds as []. }
  assert (detect_base (lit "0x" ++ map digit_char (d :: ds)) =
    (16, map digit_char (d :: ds))) as Hb.
  { cbn [lit map app String.list_ascii_of_string detect_base].
    rewrite bool_decide_eq_true_2 by (by rewrite Hd). done. }
  change (scan_sign _) with (false, lit "0x" ++ map digit_char (d :: ds)).
  cbv beta iota. rewrite Hb. cbv beta iota.
  rewrite <-(app_nil_r (map _ _)), scan_digits_map by done. simpl fst.
  by rewrite Hval, ulong_value_small.
Qed.

(** ** Formatted numbers are text *)

Lemma fmt_u_text n : 0 <= n -> text (fmt_u n).
Proof.
  intros. eapply Forall_impl; [by apply fmt_u_plain|]. intros c. unfold plain.
  by destruct (isspace c), (not_nul c).
Qed.

Lemma fmt_d_text n : text (fmt_d n).
Proof.
  unfold fmt_d. destruct (Z.ltb_spec n 0); [constructor; [done|]|]; apply fmt_u_text; lia.
Qed.
#[export] Hint Resolve fmt_d_text : pnet.
