(* ===== verification/NetAddr.v ===== *)
(** * IPv4 addresses

    The address helpers of src/net/network_config.c ([net_ip_from_string],
    [net_ip_to_string], [net_ip_is_valid]) and the library functions they
    rest on: byte order ([htonl], [ntohl]), [inet_ntop] and [inet_pton].

    An [s_addr] is the [uint32_t] view of four octets in memory, so its value
    depends on the byte order of the machine; everything here takes that order
    as an argument ([le] is true on a little-endian machine). *)
From S2P Require Import Prelude CString CFormat.

(** ** Dotted quads *)
Definition dot : ascii := ".".

(** [printf ("%u.%u.%u.%u", a, b, c, d)] *)
Definition fmt_quad (a b c d : Z) : list ascii :=
  fmt_u a ++ [dot] ++ fmt_u b ++ [dot] ++ fmt_u c ++ [dot] ++ fmt_u d.

(** The octets [(ip >> 24) & 0xFF], ..., [ip & 0xFF] as a dotted quad. *)
Definition fmt_ip (ip : Z) : list ascii :=
  fmt_quad (byte_of 3 ip) (byte_of 2 ip) (byte_of 1 ip) (byte_of 0 ip).

(** [sscanf (s, "%u.%u.%u.%u", ...) == 4] *)
Definition scan_quad (s : list ascii) : option (Z * Z * Z * Z) :=
  '(a, s) ← scan_u s; s ← scan_char dot s;
  '(b, s) ← scan_u s; s ← scan_char dot s;
  '(c, s) ← scan_u s; s ← scan_char dot s;
  '(d, _) ← scan_u s; Some (a, b, c, d).

Lemma scan_quad_fmt a b c d :
  in_u 32 a -> in_u 32 b -> in_u 32 c -> in_u 32 d ->
  scan_quad (fmt_quad a b c d) = Some (a, b, c, d).
Proof.
  intros. unfold scan_quad, fmt_quad. rewrite scan_u_fmt_u by done. simpl.
  rewrite scan_u_fmt_u by done. simpl. rewrite scan_u_fmt_u by done. simpl.
  by rewrite <-(app_nil_r (fmt_u d)), scan_u_fmt_u by done.
Qed.

Lemma length_fmt_octet n : in_u 8 n -> (length (fmt_u n) <= 3)%nat.
Proof.
  unfold in_u. intros. unfold fmt_u. rewrite List.length_map. apply length_digits; lia.
Qed.

(** Every dotted quad fits [INET_ADDRSTRLEN], 16 with its NUL. *)
Lemma length_fmt_quad a b c d :
  in_u 8 a -> in_u 8 b -> in_u 8 c -> in_u 8 d -> zlen (fmt_quad a b c d) <= 15.
Proof.
  intros. unfold zlen, fmt_quad. rewrite !length_app. simpl.
  pose proof (length_fmt_octet a ltac:(done)). pose proof (length_fmt_octet b ltac:(done)).
  pose proof (length_fmt_octet c ltac:(done)). pose proof (length_fmt_octet d ltac:(done)). lia.
Qed.

Lemma length_fmt_ip ip : zlen (fmt_ip ip) <= 15.
Proof. apply length_fmt_quad; apply byte_of_range; lia. Qed.

Lemma fmt_ip_text ip : text (fmt_ip ip).
Proof.
  assert (forall i, 0 <= i -> text (fmt_u (byte_of i ip))).
  { intros i Hi. apply fmt_u_text. pose proof (byte_of_range i ip Hi) as []. done. }
  unfold fmt_ip, fmt_quad. rewrite !text_app. repeat split; auto with lia; by repeat constructor.
Qed.
#[export] Hint Resolve fmt_u_text fmt_ip_text : pnet.

(** ** Byte order *)

(** The memory octets of an [s_addr], lowest address first, and back. *)
Definition addr_octets (le : bool) (x : Z) : Z * Z * Z * Z :=
  if le then (byte_of 0 x, byte_of 1 x, byte_of 2 x, byte_of 3 x)
  else (byte_of 3 x, byte_of 2 x, byte_of 1 x, byte_of 0 x).

Definition quad_value (q : Z * Z * Z * Z) : Z :=
  let '(a, b, c, d) := q in a * 2 ^ 24 + b * 2 ^ 16 + c * 2 ^ 8 + d.

Definition swap_quad (q : Z * Z * Z * Z) : Z * Z * Z * Z :=
  let '(a, b, c, d) := q in (d, c, b, a).

Definition octets_addr (le : bool) (q : Z * Z * Z * Z) : Z :=
  quad_value (if le then swap_quad q else q).

Definition quad_ok (q : Z * Z * Z * Z) : Prop :=
  let '(a, b, c, d) := q in in_u 8 a /\ in_u 8 b /\ in_u 8 c /\ in_u 8 d.

(** [htonl] stores the most significant octet first; [ntohl] is the same map. *)
Definition htonl (le : bool) (x : Z) : Z := octets_addr le (addr_octets false x).
Definition ntohl (le : bool) (x : Z) : Z := quad_value (addr_octets le x).

Lemma byte_of_quad a b c d : quad_ok (a, b, c, d) ->
  let x := quad_value (a, b, c, d) in
  byte_of 3 x = a /\ byte_of 2 x = b /\ byte_of 1 x = c /\ byte_of 0 x = d.
Proof.
  unfold quad_ok, in_u. intros H. cbv zeta. rewrite !byte_of_div by lia. unfold quad_value.
  change (2 ^ (8 * 3)) with 16777216. change (2 ^ (8 * 2)) with 65536.
  change (2 ^ (8 * 1)) with 256. change (2 ^ (8 * 0)) with 1.
  Z.to_euclidean_division_equations. lia.
Qed.

Lemma addr_octets_ok le x : quad_ok (addr_octets le x).
Proof. destruct le; simpl; repeat split; apply byte_of_range; lia. Qed.

Lemma quad_value_range q : quad_ok q -> in_u 32 (quad_value q).
Proof. destruct q as [[[a b] c] d]. unfold quad_ok, in_u, quad_value. lia. Qed.

Lemma swap_quad_ok q : quad_ok q -> quad_ok (swap_quad q).
Proof. destruct q as [[[a b] c] d]. simpl. tauto. Qed.

Lemma octets_addr_range le q : quad_ok q -> in_u 32 (octets_addr le q).
Proof. intros. destruct le; apply quad_value_range; [by apply swap_quad_ok|done]. Qed.

Lemma addr_octets_addr le q : quad_ok q -> addr_octets le (octets_addr le q) = q.
Proof.
  destruct q as [[[a b] c] d]. intros Hq.
  destruct le; unfold addr_octets, octets_addr, swap_quad.
  - destruct (byte_of_quad d c b a) as (-> & -> & -> & ->); [simpl in *; tauto|done].
  - destruct (byte_of_quad a b c d) as (-> & -> & -> & ->); done.
Qed.

Lemma octets_addr_octets le x : in_u 32 x -> octets_addr le (addr_octets le x) = x.
Proof. intros Hx. destruct le; simpl; symmetry; by apply octets_eq. Qed.

Lemma ntohl_htonl le x : in_u 32 x -> ntohl le (htonl le x) = x.
Proof.
  intros Hx. unfold ntohl, htonl. rewrite addr_octets_addr by apply addr_octets_ok.
  exact (octets_addr_octets false x Hx).
Qed.

(** ** Address and text: [inet_ntop], [inet_pton] *)

(** [inet_ntop (AF_INET, &addr, buf, size)] fails ([None]) when the text and
    its NUL do not fit [size] characters. *)
Definition inet_ntop (le : bool) (s_addr : Z) (size : Z) : option (list ascii) :=
  let '(a, b, c, d) := addr_octets le s_addr in
  let s := fmt_quad a b c d in
  if zlen s <? size then Some s else None.











(** ** Address utilities of src/net/network_config.c *)



Definition net_ip_is_valid (le : bool) (ip : Z) : bool :=
  let host_ip := ntohl le ip in
  if host_ip =? 0 then false
  else if host_ip =? 0xFFFFFFFF then false
  else if Z.land host_ip 0xFF000000 =? 0 then false
  else if Z.land host_ip 0xF0000000 =? 0xF0000000 then false
  else true.

(** ** Properties *)

Lemma land_shiftl_high x m k :
  0 <= k -> Z.land x (Z.shiftl m k) = Z.shiftl (Z.land (Z.shiftr x k) m) k.
Proof.
  intros Hk. apply Z.bits_inj'. intros n Hn.
  rewrite Z.land_spec, !Z.shiftl_spec by done.
  destruct (decide (n < k)).
  - by rewrite !(Z.testbit_neg_r _ (n - k)), andb_false_r by lia.
  - rewrite Z.land_spec, Z.shiftr_spec by lia. do 2 f_equal. lia.
Qed.

Lemma high_octet x : in_u 32 x -> Z.shiftr x 24 = byte_of 3 x.
Proof.
  unfold in_u. intros. rewrite byte_of_div, Z.shiftr_div_pow2 by lia.
  rewrite Z.mod_small; [done|]. split; [apply Z.div_pos; lia|].
  apply Z.div_lt_upper_bound; lia.
Qed.

Lemma first_octet_zero x : in_u 32 x -> (Z.land x 0xFF000000 =? 0) = (byte_of 3 x =? 0).
Proof.
  intros Hx. change 0xFF000000 with (Z.shiftl 255 24). rewrite land_shiftl_high by lia.
  rewrite high_octet by done. change 255 with (Z.ones 8).
  rewrite Z.land_ones, Z.mod_small by (lia || apply byte_of_range; lia).
  rewrite Z.shiftl_mul_pow2 by lia.
  destruct (Z.eqb_spec (byte_of 3 x) 0) as [->|]; [done|]. apply Z.eqb_neq. lia.
Qed.

Lemma first_octet_class_e x : in_u 32 x ->
  (Z.land x 0xF0000000 =? 0xF0000000) = (240 <=? byte_of 3 x).
Proof.
  intros Hx. change 0xF0000000 with (Z.shiftl 240 24). rewrite land_shiftl_high by lia.
  rewrite high_octet by done. pose proof (byte_of_range 3 x ltac:(lia)) as Hr.
  change 240 with (Z.shiftl 15 4) at 1. rewrite land_shiftl_high by lia.
  change 15 with (Z.ones 4). rewrite Z.land_ones, Z.shiftr_div_pow2 by lia.
  rewrite !Z.shiftl_mul_pow2 by lia. unfold in_u in Hr.
  destruct (Z.leb_spec 240 (byte_of 3 x)); [apply Z.eqb_eq|apply Z.eqb_neq];
    Z.to_euclidean_division_equations; lia.
Qed.

Lemma inet_ntop_fits le ip size : 16 <= size ->
  let '(a, b, c, d) := addr_octets le ip in inet_ntop le ip size = Some (fmt_quad a b c d).
Proof.
  intros. unfold inet_ntop. pose proof (addr_octets_ok le ip) as Hq.
  destruct (addr_octets le ip) as [[[a b] c] d]. destruct Hq as (? & ? & ? & ?).
  pose proof (length_fmt_quad a b c d ltac:(done) ltac:(done) ltac:(done) ltac:(done)).
  by rewrite (proj2 (Z.ltb_lt _ _)) by lia.
Qed.

(** [ip_to_str] of the security component: [htonl] then [inet_ntop] prints the
    octets of the host-order value, on either byte order. *)
Lemma inet_ntop_htonl le ip size : 16 <= size -> inet_ntop le (htonl le ip) size = Some (fmt_ip ip).
Proof.
  intros Hs. pose proof (inet_ntop_fits le (htonl le ip) size Hs) as H.
  unfold htonl in *. rewrite addr_octets_addr in H by apply addr_octets_ok. exact H.
Qed.




(** The validity check accepts exactly the addresses whose first octet, as it
    is on the wire, lies between 1 and 239: of its four tests, the third and
    the fourth decide, and the broadcast address is in 240.0.0.0/4. *)
Theorem net_ip_is_valid_spec le ip :
  net_ip_is_valid le ip = true <->
  (let '(a, _, _, _) := addr_octets le ip in 1 <= a <= 239).
Proof.
  unfold net_ip_is_valid, ntohl. pose proof (addr_octets_ok le ip) as Hq.
  pose proof (quad_value_range _ Hq) as Hr.
  destruct (addr_octets le ip) as [[[a b] c] d]. destruct (byte_of_quad _ _ _ _ Hq) as [H3 _].
  rewrite first_octet_zero, first_octet_class_e, H3 by done.
  unfold quad_ok, in_u in Hq. unfold quad_value in *.
  repeat case_if; zbool; split; intros; first [done | lia | exfalso; lia].
Qed.

