(* ===== verification/SecurityPolicy.v ===== *)
(** * Security policy (src/security/security_policy.c, include/security_policy.h)

    The firewall rule table, the generated iptables script, its execution and
    the audit report.  A rule table is the C object: an array of
    [MAX_FW_RULES] rule slots and a count.  The abstract view of a table is
    the list of its rules ([policy_of]); each operation refines a list
    operation.  Text is produced by [snprintf_at] into buffers of the sizes
    the code uses, so truncation and overruns are visible. *)
From S2P Require Import Prelude CString CFormat NetAddr.

(** ** Data *)

(** The enumerations; a C object of enumeration type can also hold another
    value, which the [switch] statements send to their [default]. *)
Inductive sec_action_t :=
  | SEC_ACTION_ACCEPT | SEC_ACTION_DROP | SEC_ACTION_REJECT | SEC_ACTION_OTHER (v : Z).
Inductive sec_chain_t :=
  | SEC_CHAIN_INPUT | SEC_CHAIN_OUTPUT | SEC_CHAIN_FORWARD | SEC_CHAIN_OTHER (v : Z).

#[export] Instance sec_action_eq_dec : EqDecision sec_action_t.
Proof. solve_decision. Defined.
#[export] Instance sec_chain_eq_dec : EqDecision sec_chain_t.
Proof. solve_decision. Defined.

Definition MAX_FW_RULES : Z := 64.

Record sec_rule_t := mk_rule {
  chain : sec_chain_t;
  src_ip : Z;
  src_mask : Z;
  dst_port : Z;
  protocol : Z;
  action : sec_action_t;
  priority : Z;
  active : bool;
  comment : list ascii;  (* char comment[64] *)
}.

Record sec_policy_t := mk_policy {
  rules : list sec_rule_t;  (* sec_rule_t rules[MAX_FW_RULES] *)
  rule_count : Z;
  enabled : bool;
}.

(** A rule whose bytes are all zero. *)
Definition zero_rule : sec_rule_t :=
  mk_rule SEC_CHAIN_INPUT 0 0 0 0 SEC_ACTION_ACCEPT 0 false (replicate 64 nul).

Definition set_active (b : bool) (r : sec_rule_t) : sec_rule_t :=
  mk_rule (chain r) (src_ip r) (src_mask r) (dst_port r) (protocol r) (action r)
    (priority r) b (comment r).

(** ** Policy lifecycle

    A null pointer is [None].  An operation gives its return value and the
    policy object afterwards. *)

Definition sec_policy_init (policy : option sec_policy_t) : exec (Z * option sec_policy_t) :=
  match policy with
  | None => Done (- EINVAL, None)
  | Some _ => Done (0, Some (mk_policy (replicate (Z.to_nat MAX_FW_RULES) zero_rule) 0 false))
  end.

Definition sec_policy_add_rule (policy : option sec_policy_t) (rule : option sec_rule_t)
    : exec (Z * option sec_policy_t) :=
  match policy, rule with
  | Some p, Some r =>
      if MAX_FW_RULES <=? rule_count p then Done (- ENOSPC, Some p)
      else
        rs ← arr_set (rules p) (rule_count p) r;
        r' ← arr_get rs (rule_count p);
        rs ← arr_set rs (rule_count p) (set_active true r');
        Done (0, Some (mk_policy rs (rule_count p + 1) (enabled p)))
  | _, _ => Done (- EINVAL, policy)
  end.

(** [n] iterations of [rules[i] = rules[i + 1]], from index [i]. *)
Fixpoint shift_rules (n : nat) (i : Z) (rs : list sec_rule_t) : exec (list sec_rule_t) :=
  match n with
  | O => Done rs
  | S n => r ← arr_get rs (i + 1); rs ← arr_set rs i r; shift_rules n (i + 1) rs
  end.

Definition sec_policy_remove_rule (policy : option sec_policy_t) (index : Z)
    : exec (Z * option sec_policy_t) :=
  match policy with
  | None => Done (- EINVAL, None)
  | Some p =>
      if (index <? 0) || (rule_count p <=? index) then Done (- ERANGE, Some p)
      else
        rs ← shift_rules (Z.to_nat (rule_count p - 1 - index)) index (rules p);
        rs ← arr_set rs (rule_count p - 1) zero_rule;
        Done (0, Some (mk_policy rs (rule_count p - 1) (enabled p)))
  end.

Definition sec_policy_flush (policy : option sec_policy_t) : exec (Z * option sec_policy_t) :=
  match policy with
  | None => Done (- EINVAL, None)
  | Some p =>
      Done (0, Some (mk_policy (replicate (length (rules p)) zero_rule) 0 (enabled p)))
  end.

(** ** Script generation *)

Definition action_to_str (a : sec_action_t) : list ascii :=
  match a with
  | SEC_ACTION_ACCEPT => lit "ACCEPT"
  | SEC_ACTION_DROP => lit "DROP"
  | SEC_ACTION_REJECT => lit "REJECT"
  | SEC_ACTION_OTHER _ => lit "DROP"
  end.

Definition chain_to_str (c : sec_chain_t) : list ascii :=
  match c with
  | SEC_CHAIN_INPUT => lit "INPUT"
  | SEC_CHAIN_OUTPUT => lit "OUTPUT"
  | SEC_CHAIN_FORWARD => lit "FORWARD"
  | SEC_CHAIN_OTHER _ => lit "INPUT"
  end.

Definition proto_to_str (protocol : Z) : list ascii :=
  if protocol =? 6 then lit "tcp"
  else if protocol =? 17 then lit "udp"
  else if protocol =? 0 then lit "all"
  else lit "all".

Definition INET_ADDRSTRLEN : Z := 16.

Section script.
Context (le : bool).

(** [ip_to_str]: the text left in the caller's buffer of [len] characters;
    when [inet_ntop] fails the buffer stays uninitialised and reading it is
    undefined. *)
Definition ip_to_str (ip : Z) (len : Z) : exec (list ascii) :=
  match inet_ntop le (htonl le ip) len with Some s => Done s | None => Undefined end.

(** [generate_rule_line (buf, sizeof buf, rule)]: the return value and the
    buffer. *)
Definition generate_rule_line (buf : list ascii) (rule : sec_rule_t) : exec (Z * list ascii) :=
  if negb (active rule) then
    c ← read_str (comment rule);
    snprintf_at buf 0 (lit "# [inactive] rule: " ++ c ++ [nl])
  else
    '(written, buf) ←
      (if negb (src_ip rule =? 0) then
         src_buf ← ip_to_str (src_ip rule) INET_ADDRSTRLEN;
         if negb (src_mask rule =? 0) then
           mask_buf ← ip_to_str (src_mask rule) INET_ADDRSTRLEN;
           snprintf_at buf 0
             (lit "iptables -A " ++ chain_to_str (chain rule) ++ lit " -s " ++ src_buf ++
              lit "/" ++ mask_buf ++ lit " -p " ++ proto_to_str (protocol rule) ++
              lit " --dport " ++ fmt_u (dst_port rule) ++ lit " -j " ++
              action_to_str (action rule))
         else
           snprintf_at buf 0
             (lit "iptables -A " ++ chain_to_str (chain rule) ++ lit " -s " ++ src_buf ++
              lit " -p " ++ proto_to_str (protocol rule) ++ lit " --dport " ++
              fmt_u (dst_port rule) ++ lit " -j " ++ action_to_str (action rule))
       else
         snprintf_at buf 0
           (lit "iptables -A " ++ chain_to_str (chain rule) ++ lit " -p " ++
            proto_to_str (protocol rule) ++ lit " --dport " ++ fmt_u (dst_port rule) ++
            lit " -j " ++ action_to_str (action rule)));
    if (written <? 0) || (zlen buf <=? written) then Done (-1, buf) else Done (written, buf).

Definition script_header (count : Z) : list ascii :=
  lit "#!/bin/bash" ++ [nl] ++
  lit "# Auto-generated PROFINET security policy" ++ [nl] ++
  lit "# Rule count: " ++ fmt_d count ++ [nl; nl] ++ lit "set -e" ++ [nl; nl].

Definition script_footer (count : Z) : list ascii :=
  lit "echo " ++ [dquote] ++ lit "PROFINET security policy applied: " ++ fmt_d count ++
  lit " rules" ++ [dquote; nl].

(** The loop over the rules, [n] of them from index [i]: [None] when the
    function returns [-ENOSPC] from inside it, [Some offset] otherwise. *)
Fixpoint script_rules (n : nat) (i : Z) (rs : list sec_rule_t) (offset : Z) (buf : list ascii)
    : exec (option Z * list ascii) :=
  match n with
  | O => Done (Some offset, buf)
  | S n =>
      r ← arr_get rs i;
      '(line_len, line) ← generate_rule_line (replicate 256 nul) r;
      if line_len <? 0 then script_rules n (i + 1) rs offset buf
      else
        c ← read_str (comment r);
        l ← read_str line;
        '(written, buf) ← snprintf_at buf offset
           (lit "# Rule " ++ fmt_d i ++ lit ": " ++ c ++ [nl] ++ l ++ [nl; nl]);
        if (written <? 0) || (zlen buf <=? offset + written) then Done (None, buf)
        else script_rules n (i + 1) rs (offset + written) buf
  end.

(** [len] is the size of [buf]; a null pointer is [None]. *)
Definition sec_policy_generate_script (policy : option sec_policy_t) (buf : option (list ascii))
    : exec (Z * option (list ascii)) :=
  match policy, buf with
  | Some p, Some buf =>
      if zlen buf =? 0 then Done (- EINVAL, Some buf)
      else
        '(written, buf) ← snprintf_at buf 0 (script_header (rule_count p));
        if (written <? 0) || (zlen buf <=? 0 + written) then Done (- ENOSPC, Some buf)
        else
          '(offset, buf) ← script_rules (Z.to_nat (rule_count p)) 0 (rules p) written buf;
          match offset with
          | None => Done (- ENOSPC, Some buf)
          | Some offset =>
              '(written, buf) ← snprintf_at buf offset (script_footer (rule_count p));
              if (written <? 0) || (zlen buf <=? offset + written)
              then Done (- ENOSPC, Some buf) else Done (0, Some buf)
          end
  | _, _ => Done (- EINVAL, buf)
  end.

(** [sec_policy_apply]: the return value and the commands handed to
    [system], in order; [linux] is the build's [PLATFORM_LINUX] and
    [system] gives the status each command ends with. *)
Definition sec_policy_apply (linux : bool) (system : list ascii -> Z)
    (policy : option sec_policy_t) : exec (Z * list (list ascii)) :=
  match policy with
  | None => Done (- EINVAL, [])
  | Some p =>
      '(ret, script) ← sec_policy_generate_script (Some p) (Some (replicate 4096 nul));
      if ret <? 0 then Done (ret, [])
      else if linux then
        let flush := lit "iptables -F PNET_CHAIN 2>/dev/null" in
        match script with
        | Some script =>
            s ← read_str script;
            if negb (system s =? 0) then Done (- EIO, [flush; s]) else Done (0, [flush; s])
        | None => Undefined
        end
      else Done (0, [])
  end.
End script.

(** ** Audit *)

(** The loops of the audit that look for a rule: [n] iterations from index
    [i], leaving at the first rule that satisfies [f]. *)
Fixpoint find_rule (f : sec_rule_t -> bool) (n : nat) (i : Z) (rs : list sec_rule_t)
    : exec bool :=
  match n with
  | O => Done false
  | S n => r ← arr_get rs i; if f r then Done true else find_rule f n (i + 1) rs
  end.

(** The loop that counts the inactive rules. *)
Fixpoint count_inactive (n : nat) (i : Z) (rs : list sec_rule_t) (inactive_count : Z) : exec Z :=
  match n with
  | O => Done inactive_count
  | S n =>
      r ← arr_get rs i;
      count_inactive n (i + 1) rs (if negb (active r) then inactive_count + 1 else inactive_count)
  end.

Definition is_default_deny (r : sec_rule_t) : bool :=
  bool_decide (chain r = SEC_CHAIN_INPUT) && (protocol r =? 0) && (dst_port r =? 0) &&
  (src_ip r =? 0) &&
  (bool_decide (action r = SEC_ACTION_DROP) || bool_decide (action r = SEC_ACTION_REJECT)).

Definition is_ipsec_rule (r : sec_rule_t) : bool :=
  (protocol r =? 17) && ((dst_port r =? 500) || (dst_port r =? 4500)).

Definition yes_no (b : bool) : list ascii := if b then lit "yes" else lit "no".

Definition audit_header (count : Z) (enabled : bool) : list ascii :=
  lit "=== PROFINET Security Policy Audit Report ===" ++ [nl] ++
  lit "Total rules: " ++ fmt_d count ++ lit " / " ++ fmt_d MAX_FW_RULES ++ [nl] ++
  lit "Policy enabled: " ++ yes_no enabled ++ [nl; nl].

Definition msg_disabled : list ascii :=
  lit "[WARN] Policy is disabled - no rules are enforced" ++ [nl].
Definition msg_empty : list ascii := lit "[WARN] No firewall rules defined" ++ [nl].
Definition msg_no_deny : list ascii := lit "[WARN] No default-deny rule on INPUT chain" ++ [nl].
Definition msg_no_ipsec : list ascii :=
  lit "[WARN] No IPSec (UDP 500/4500) rules found - " ++
  lit "consider enabling IPSec for encrypted traffic" ++ [nl].
Definition msg_inactive (n : Z) : list ascii :=
  lit "[INFO] " ++ fmt_d n ++ lit " inactive rule(s) present" ++ [nl].
Definition msg_full (count : Z) : list ascii :=
  lit "[WARN] Rule table is " ++ fmt_d (Z.quot (count * 100) MAX_FW_RULES) ++ lit "% full (" ++
  fmt_d count ++ lit "/" ++ fmt_d MAX_FW_RULES ++ lit ") - " ++
  lit "consider consolidating rules" ++ [nl].
Definition msg_summary (warnings : Z) : list ascii :=
  [nl] ++ lit "Audit complete: " ++ fmt_d warnings ++ lit " warning(s)" ++ [nl].

(** One conditional report line: when [cond] holds it is printed at the
    offset and, if the return value is positive, the offset moves past it and
    the warnings grow by [w].  Nothing compares the offset with the size of
    the buffer here. *)
Definition audit_line (cond : bool) (w : Z) (msg : list ascii)
    (st : Z * Z * list ascii) : exec (Z * Z * list ascii) :=
  if cond then
    let '(offset, warnings, report) := st in
    '(written, report) ← snprintf_at report offset msg;
    if 0 <? written then Done (offset + written, warnings + w, report)
    else Done (offset, warnings, report)
  else Done st.

(** [len] is the size of [report].  The result is the return value and the
    report buffer. *)
Definition sec_policy_audit (policy : option sec_policy_t) (report : option (list ascii))
    : exec (Z * option (list ascii)) :=
  match policy, report with
  | Some p, Some report =>
      if zlen report =? 0 then Done (- EINVAL, Some report)
      else
        let n := Z.to_nat (rule_count p) in
        '(written, report) ← snprintf_at report 0 (audit_header (rule_count p) (enabled p));
        if (written <? 0) || (zlen report <=? 0 + written) then Done (- ENOSPC, Some report)
        else
          st ← audit_line (negb (enabled p)) 1 msg_disabled (written, 0, report);
          st ← audit_line (rule_count p =? 0) 1 msg_empty st;
          has_default_deny ← find_rule is_default_deny n 0 (rules p);
          st ← audit_line (negb has_default_deny) 1 msg_no_deny st;
          has_ipsec_rules ← find_rule is_ipsec_rule n 0 (rules p);
          st ← audit_line (negb has_ipsec_rules) 1 msg_no_ipsec st;
          inactive_count ← count_inactive n 0 (rules p) 0;
          st ← audit_line (0 <? inactive_count) 0 (msg_inactive inactive_count) st;
          st ← audit_line (Z.quot (MAX_FW_RULES * 3) 4 <? rule_count p) 1
                 (msg_full (rule_count p)) st;
          let '(offset, warnings, report) := st in
          '(written, report) ← snprintf_at report offset (msg_summary warnings);
          if (written <? 0) || (zlen report <=? offset + written)
          then Done (- ENOSPC, Some report) else Done (warnings, Some report)
  | _, _ => Done (- EINVAL, report)
  end.

(** ** IPSec tunnels

    The part of the file system the tunnels use: the content and the mode of
    each file by path; [denied] says which paths the process may not open or
    remove.  [remove] sets [errno] when it fails and leaves it alone when it
    succeeds. *)
Record file := mk_file { content : list ascii; mode : Z }.
Abbreviation fs := (gmap (list ascii) file).

Definition IPSEC_CONF_DIR : list ascii := lit "/etc/ipsec.d".

(** [snprintf (path, 256, "%s/%s<ext>", IPSEC_CONF_DIR, name)] *)
Definition ipsec_path (name ext : list ascii) : list ascii :=
  take 255 (IPSEC_CONF_DIR ++ lit "/" ++ name ++ ext).

Section ipsec.
Context (le : bool) (denied : list ascii -> bool) (umask_mode : Z).

(** [fopen (path, "w")]: truncates an existing file, keeping its mode, or
    creates one with the default mode. *)
Definition fopen_w (m : fs) (path : list ascii) : option fs :=
  if denied path then None
  else Some (<[path := mk_file [] (match m !! path with Some f => mode f | None => umask_mode end)]> m).

(** [fprintf] to a file opened above: appends. *)
Definition file_append (m : fs) (path s : list ascii) : fs :=
  alter (fun f => mk_file (content f ++ s) (mode f)) path m.

Definition chmod (m : fs) (path : list ascii) (md : Z) : fs :=
  alter (fun f => mk_file (content f) md) path m.

Definition conn_block (name l r : list ascii) : list ascii :=
  lit "conn " ++ name ++ [nl] ++
  lit "    authby=secret" ++ [nl] ++
  lit "    left=%defaultroute" ++ [nl] ++
  lit "    leftid=" ++ l ++ [nl] ++
  lit "    leftsubnet=" ++ l ++ lit "/32" ++ [nl] ++
  lit "    right=" ++ r ++ [nl] ++
  lit "    rightsubnet=" ++ r ++ lit "/32" ++ [nl] ++
  lit "    ike=aes256-sha256-modp2048" ++ [nl] ++
  lit "    esp=aes256-sha256" ++ [nl] ++
  lit "    keyexchange=ikev2" ++ [nl] ++
  lit "    auto=start" ++ [nl] ++
  lit "    type=transport" ++ [nl] ++ [nl].

Definition sec_ipsec_create_tunnel (m : fs) (name : option (list ascii)) (local_ip remote_ip : Z)
    (psk : option (list ascii)) : exec (Z * fs) :=
  match name, psk with
  | Some name, Some psk =>
      local_str ← ip_to_str le local_ip INET_ADDRSTRLEN;
      remote_str ← ip_to_str le remote_ip INET_ADDRSTRLEN;
      let conf_path := ipsec_path name (lit ".conf") in
      match fopen_w m conf_path with
      | None => Done (- EIO, m)
      | Some m =>
          let m := file_append m conf_path (conn_block name local_str remote_str) in
          let secrets_path := ipsec_path name (lit ".secrets") in
          match fopen_w m secrets_path with
          | None => Done (- EIO, m)
          | Some m =>
              let m := file_append m secrets_path
                (local_str ++ lit " " ++ remote_str ++ lit " : PSK " ++ [dquote] ++ psk ++
                 [dquote; nl]) in
              Done (0, chmod m secrets_path 0x180)
          end
      end
  | _, _ => Done (- EINVAL, m)
  end.

(** [remove (path)]: return value, [errno] and files afterwards. *)
Definition remove (errno : Z) (m : fs) (path : list ascii) : Z * Z * fs :=
  match m !! path with
  | None => (-1, ENOENT, m)
  | Some _ => if denied path then (-1, EACCES, m) else (0, errno, delete path m)
  end.

Definition sec_ipsec_remove_tunnel (errno : Z) (m : fs) (name : option (list ascii)) : Z * fs :=
  match name with
  | None => (- EINVAL, m)
  | Some name =>
      let conf_path := ipsec_path name (lit ".conf") in
      let secrets_path := ipsec_path name (lit ".secrets") in
      let '(ret_conf, errno, m) := remove errno m conf_path in
      let '(ret_secret, errno, m) := remove errno m secrets_path in
      if negb (ret_conf =? 0) && negb (errno =? ENOENT) then (- EIO, m)
      else if negb (ret_secret =? 0) && negb (errno =? ENOENT) then (- EIO, m)
      else (0, m)
  end.
End ipsec.

(** ** Abstract rule tables

    A table is a list of at most [MAX_FW_RULES] rules; [policy_of] is the one
    C object that represents it: the rules in order, then zeroed slots. *)
Definition policy_of (l : list sec_rule_t) (en : bool) : sec_policy_t :=
  mk_policy (l ++ replicate (64 - length l) zero_rule) (zlen l) en.

Definition table_ok (l : list sec_rule_t) : Prop := (length l <= 64)%nat.

Inductive table_op := OpAdd (r : sec_rule_t) | OpRemove (i : Z) | OpFlush.

(** What each operation promises: its return value and the new table. *)
Definition spec_op (l : list sec_rule_t) (op : table_op) : Z * list sec_rule_t :=
  match op with
  | OpAdd r => if MAX_FW_RULES <=? zlen l then (- ENOSPC, l) else (0, l ++ [set_active true r])
  | OpRemove i =>
      if (i <? 0) || (zlen l <=? i) then (- ERANGE, l)
      else (0, take (Z.to_nat i) l ++ drop (S (Z.to_nat i)) l)
  | OpFlush => (0, [])
  end.

(** What the code does. *)
Definition code_op (p : option sec_policy_t) (op : table_op) : exec (Z * option sec_policy_t) :=
  match op with
  | OpAdd r => sec_policy_add_rule p (Some r)
  | OpRemove i => sec_policy_remove_rule p i
  | OpFlush => sec_policy_flush p
  end.

Fixpoint spec_run (l : list sec_rule_t) (ops : list table_op) : list Z * list sec_rule_t :=
  match ops with
  | [] => ([], l)
  | op :: ops =>
      let '(ret, l) := spec_op l op in let '(rets, l) := spec_run l ops in (ret :: rets, l)
  end.

Fixpoint code_run (p : option sec_policy_t) (ops : list table_op)
    : exec (list Z * option sec_policy_t) :=
  match ops with
  | [] => Done ([], p)
  | op :: ops =>
      '(ret, p) ← code_op p op; '(rets, p) ← code_run p ops; Done (ret :: rets, p)
  end.

Lemma spec_op_ok l op : table_ok l -> table_ok (spec_op l op).2.
Proof.
  unfold table_ok, MAX_FW_RULES. destruct op as [r|i|]; simpl; intros Hl; [| |lia].
  - destruct (Z.leb_spec MAX_FW_RULES (zlen l)) as [|H]; simpl; [done|].
    unfold MAX_FW_RULES, zlen in H. rewrite length_app. simpl. lia.
  - destruct (_ || _); simpl; [done|]. rewrite length_app, length_take, length_drop. lia.
Qed.

Lemma add_rule_refines l r en : table_ok l ->
  code_op (Some (policy_of l en)) (OpAdd r) =
  let '(ret, l') := spec_op l (OpAdd r) in Done (ret, Some (policy_of l' en)).
Proof.
  intros Hl. simpl. destruct (Z.leb_spec MAX_FW_RULES (zlen l)) as [|H]; [done|].
  unfold MAX_FW_RULES, zlen in H. simpl.
  replace (64 - length l)%nat with (S (64 - S (length l))) by lia. simpl replicate.
  rewrite arr_set_mid. simpl. rewrite arr_get_mid. simpl. rewrite arr_set_mid. simpl.
  unfold policy_of. rewrite length_app, zlen_app, <-app_assoc. simpl.
  by replace (length l + 1)%nat with (S (length l)) by lia.
Qed.

Lemma shift_rules_spec l2 : forall l1 r z,
  shift_rules (length l2) (zlen l1) (l1 ++ r :: l2 ++ z) =
  Done (l1 ++ l2 ++ List.last l2 r :: z).
Proof.
  induction l2 as [|s l2 IH]; intros l1 r z; [done|]. cbn [shift_rules length].
  replace (zlen l1 + 1) with (zlen (l1 ++ [r])) by (rewrite zlen_app; done).
  replace (l1 ++ r :: (s :: l2) ++ z) with ((l1 ++ [r]) ++ s :: l2 ++ z)
    by (by rewrite <-app_assoc).
  rewrite arr_get_mid. cbn [mbind exec_bind].
  rewrite <-app_assoc. cbn [app]. rewrite arr_set_mid. cbn [mbind exec_bind].
  replace (zlen (l1 ++ [r])) with (zlen (l1 ++ [s])) by (rewrite !zlen_app; done).
  replace (l1 ++ s :: s :: l2 ++ z) with ((l1 ++ [s]) ++ s :: l2 ++ z)
    by (by rewrite <-app_assoc).
  rewrite IH, <-app_assoc. cbn [app]. by rewrite last_cons_default.
Qed.

Lemma remove_rule_refines l i en : table_ok l ->
  code_op (Some (policy_of l en)) (OpRemove i) =
  let '(ret, l') := spec_op l (OpRemove i) in Done (ret, Some (policy_of l' en)).
Proof.
  intros Hl. simpl. destruct (_ || _) eqn:Hr; [done|]. zbool. unfold zlen in *.
  set (n := Z.to_nat i). assert (n < length l)%nat as Hn by lia.
  destruct (lookup_lt_is_Some_2 l n Hn) as [r Hr].
  pose proof (take_drop_middle _ _ _ Hr) as E. set (l1 := take n l) in *. set (l2 := drop (S n) l) in *.
  assert (length l = length l1 + S (length l2))%nat as Hlen
    by (rewrite <-E, length_app; done).
  assert (length l1 = n) as Hl1 by (unfold l1; rewrite length_take; lia).
  replace (Z.to_nat (Z.of_nat (length l) - 1 - i)) with (length l2) by lia.
  rewrite <-E at 1 2. rewrite <-app_assoc. cbn [app].
  replace i with (zlen l1) by (unfold zlen; lia). rewrite shift_rules_spec. simpl.
  replace (Z.of_nat (length l) - 1) with (zlen (l1 ++ l2))
    by (unfold zlen; rewrite length_app; lia).
  rewrite app_assoc, arr_set_mid. simpl. unfold policy_of, table_ok in *. rewrite E.
  replace (64 - length (l1 ++ l2))%nat with (S (64 - length l)) by (rewrite length_app; lia).
  done.
Qed.

Lemma code_op_refines l op en : table_ok l ->
  code_op (Some (policy_of l en)) op =
  let '(ret, l') := spec_op l op in Done (ret, Some (policy_of l' en)).
Proof.
  intros Hl. destruct op; [by apply add_rule_refines|by apply remove_rule_refines|].
  simpl. replace (length (l ++ replicate (64 - length l) zero_rule)) with 64%nat; [done|].
  rewrite length_app, length_replicate. unfold table_ok in Hl. lia.
Qed.

(** ** The script as a text

    What the code prints for a table, as one text without buffers. *)

(** A rule as the C type constrains it: 32-bit and 8-bit fields and a comment
    that is a C string. *)
Definition rule_ok (r : sec_rule_t) : Prop :=
  in_u 32 (src_ip r) /\ in_u 32 (src_mask r) /\ in_u 32 (dst_port r) /\ in_u 8 (protocol r) /\
  length (comment r) = 64%nat /\ terminated (comment r).

#[export] Instance rule_ok_dec r : Decision (rule_ok r).
Proof. unfold rule_ok. apply _. Defined.

(** The source part of the match: nothing, an address, or address and mask. *)
Definition source_match (r : sec_rule_t) : list ascii :=
  if src_ip r =? 0 then []
  else lit " -s " ++ fmt_ip (src_ip r) ++
       (if src_mask r =? 0 then [] else lit "/" ++ fmt_ip (src_mask r)).

Definition rule_text (r : sec_rule_t) : list ascii :=
  if active r then
    lit "iptables -A " ++ chain_to_str (chain r) ++ source_match r ++ lit " -p " ++
    proto_to_str (protocol r) ++ lit " --dport " ++ fmt_u (dst_port r) ++ lit " -j " ++
    action_to_str (action r)
  else lit "# [inactive] rule: " ++ c_str (comment r) ++ [nl].

Definition rule_block (i : Z) (r : sec_rule_t) : list ascii :=
  lit "# Rule " ++ fmt_d i ++ lit ": " ++ c_str (comment r) ++ [nl] ++ rule_text r ++ [nl; nl].

Fixpoint rule_blocks (i : Z) (l : list sec_rule_t) : list ascii :=
  match l with
  | [] => []
  | r :: l => rule_block i r ++ rule_blocks (i + 1) l
  end.

Definition script_text (l : list sec_rule_t) : list ascii :=
  script_header (zlen l) ++ rule_blocks 0 l ++ script_footer (zlen l).

Lemma chain_to_str_len c : zlen (chain_to_str c) <= 7.
Proof. by destruct c. Qed.
Lemma proto_to_str_len p : zlen (proto_to_str p) = 3.
Proof. unfold proto_to_str. repeat case_if; done. Qed.
Lemma action_to_str_len a : zlen (action_to_str a) <= 6.
Proof. by destruct a. Qed.
Lemma fmt_u_len32 n : in_u 32 n -> zlen (fmt_u n) <= 10.
Proof.
  unfold in_u, zlen, fmt_u. intros. rewrite List.length_map.
  pose proof (length_digits 10 ltac:(lia) n 10 ltac:(lia)). lia.
Qed.

(** Every rule line fits the 256 characters of [line]. *)
Lemma rule_text_len r : rule_ok r -> zlen (rule_text r) <= 90.
Proof.
  intros (_ & _ & Hp & _ & Hc & Ht). unfold rule_text. destruct (active r).
  - rewrite !zlen_app.
    pose proof (chain_to_str_len (chain r)). pose proof (proto_to_str_len (protocol r)).
    pose proof (action_to_str_len (action r)). pose proof (fmt_u_len32 _ Hp).
    assert (zlen (source_match r) <= 35).
    { unfold source_match. pose proof (length_fmt_ip (src_ip r)).
      pose proof (length_fmt_ip (src_mask r)).
      repeat case_if; rewrite ?zlen_app; zlit; lia. }
    zlit. lia.
  - rewrite !zlen_app. pose proof (length_c_str _ Ht). zlit. unfold zlen. lia.
Qed.

Lemma text_lit_b s : forallb not_nul s = true -> text s.
Proof. intros H. apply Forall_forall. intros x Hx. rewrite forallb_forall in H. by apply H, list_elem_of_In. Qed.

Lemma rule_text_text r : rule_ok r -> text (rule_text r).
Proof.
  intros (Hs & Hm & Hp & _). assert (text (source_match r)).
  { unfold source_match. repeat case_if; rewrite ?text_app; repeat split;
      auto using text_lit_b with pnet; by constructor. }
  unfold rule_text. destruct (active r); rewrite !text_app; repeat split;
    auto using text_lit_b with pnet; try by apply text_lit_b.
  - destruct (chain r); by apply text_lit_b.
  - unfold proto_to_str. repeat case_if; by apply text_lit_b.
  - apply fmt_u_text. unfold in_u in Hp. lia.
  - destruct (action r); by apply text_lit_b.
Qed.

Section script_proofs.
Context (le : bool).

Lemma ip_to_str_eq ip : ip_to_str le ip INET_ADDRSTRLEN = Done (fmt_ip ip).
Proof using. unfold ip_to_str. by rewrite inet_ntop_htonl by done. Qed.

Lemma snprintf_line s :
  text s -> zlen s < 256 ->
  exists line, snprintf_at (replicate 256 nul) 0 s = Done (zlen s, line) /\
    zlen line = 256 /\ terminated line /\ c_str line = s.
Proof using.
  intros Ht Hs. destruct (snprintf_at_fits (replicate 256 nul) [] s) as (rest & E & Hl);
    [done|by unfold zlen in *; simpl|].
  change (zlen []) with 0 in E. exists (s ++ nul :: rest). cbn [app] in *. split; [done|].
  split; [unfold zlen; by rewrite Hl|]. split; [apply terminated_app|].
  by apply c_str_text.
Qed.

(** [generate_rule_line] never truncates and never fails. *)
Lemma generate_rule_line_eq r : rule_ok r ->
  exists line, generate_rule_line le (replicate 256 nul) r = Done (zlen (rule_text r), line) /\
    terminated line /\ c_str line = rule_text r.
Proof using.
  intros Hr. pose proof (rule_text_len r Hr) as Hlen. pose proof (rule_text_text r Hr) as Ht.
  destruct (snprintf_line (rule_text r) Ht ltac:(lia)) as (line & E & Hl & Hterm & Hstr).
  exists line. split; [|done]. pose proof (zlen_nonneg (rule_text r)) as Hpos.
  assert (((zlen (rule_text r) <? 0) || (zlen line <=? zlen (rule_text r))) = false) as Hfit.
  { apply orb_false_iff. rewrite Z.ltb_ge, Z.leb_gt. lia. }
  clear Hlen Ht Hstr Hpos. unfold generate_rule_line, rule_text, source_match in *.
  destruct (active r); cbn [negb].
  - destruct (src_ip r =? 0); cbn [negb]; [|destruct (src_mask r =? 0); cbn [negb]];
      rewrite ?ip_to_str_eq; cbn [mbind exec_bind]; rewrite <-?app_assoc in *;
      cbn [app] in *; rewrite E; cbn [mbind exec_bind]; by rewrite Hfit.
  - destruct Hr as (_ & _ & _ & _ & _ & Hc). by rewrite read_str_ok.
Qed.

(** One formatted line appended at the end [pre] of the text in [buf]: it
    fits, or the code sees that it does not. *)
Lemma append_step buf pre s :
  take (length pre) buf = pre -> zlen pre <= zlen buf ->
  exists buf', snprintf_at buf (zlen pre) s = Done (zlen s, buf') /\
    zlen buf' = zlen buf /\
    ((zlen s <? 0) || (zlen buf' <=? zlen pre + zlen s)) = (zlen buf <=? zlen (pre ++ s)) /\
    (zlen (pre ++ s) < zlen buf -> take (length (pre ++ s)) buf' = pre ++ s /\
       exists rest, buf' = (pre ++ s) ++ nul :: rest).
Proof using.
  intros Hpre Hle. pose proof (zlen_nonneg s) as Hs. pose proof (zlen_nonneg pre).
  rewrite zlen_app. destruct (decide (zlen pre + zlen s < zlen buf)) as [Hfit|Hfit].
  - destruct (snprintf_at_fits buf pre s Hpre Hfit) as (rest & E & Hl).
    eexists. split; [exact E|]. unfold zlen in *. rewrite Hl. split; [done|].
    rewrite (proj2 (Z.ltb_ge _ _)) by lia. split; [done|]. intros _.
    rewrite app_assoc. split; [apply take_prefix_app|by exists rest].
  - destruct (snprintf_at_defined buf (zlen pre) s ltac:(lia)) as (buf' & E & Hl).
    exists buf'. split; [done|]. unfold zlen in *. rewrite Hl. split; [done|].
    rewrite (proj2 (Z.ltb_ge _ _)) by lia. split; [done|]. lia.
Qed.

Lemma script_rules_spec l2 : forall l1 zs buf pre,
  Forall rule_ok l2 -> take (length pre) buf = pre -> zlen pre < zlen buf ->
  let s := pre ++ rule_blocks (zlen l1) l2 in
  exists buf', zlen buf' = zlen buf /\
    script_rules le (length l2) (zlen l1) (l1 ++ l2 ++ zs) (zlen pre) buf =
      Done (if zlen buf <=? zlen s then None else Some (zlen s), buf') /\
    (zlen s < zlen buf -> take (length s) buf' = s).
Proof using.
  induction l2 as [|r l2 IH]; intros l1 zs buf pre Hok Hpre Hlt; cbn [rule_blocks].
  { rewrite app_nil_r. exists buf. split; [done|]. split; [|done].
    by rewrite (proj2 (Z.leb_gt _ _)). }
  apply Forall_cons_1 in Hok as [Hr Hok]. cbn [script_rules length].
  change ((r :: l2) ++ zs) with (r :: l2 ++ zs). rewrite arr_get_mid. cbn [mbind exec_bind].
  destruct (generate_rule_line_eq r Hr) as (line & -> & Hterm & Hstr).
  cbn [mbind exec_bind]. rewrite (proj2 (Z.ltb_ge _ _)) by apply zlen_nonneg.
  destruct Hr as (_ & _ & _ & _ & _ & Hc).
  rewrite !read_str_ok by done. cbn [mbind exec_bind]. rewrite Hstr.
  change (lit "# Rule " ++ fmt_d (zlen l1) ++ lit ": " ++ c_str (comment r) ++ [nl] ++
    rule_text r ++ [nl; nl]) with (rule_block (zlen l1) r).
  set (blk := rule_block (zlen l1) r).
  destruct (append_step buf pre blk Hpre ltac:(lia)) as (buf1 & -> & Hl1 & Hcond & Hfit).
  cbn [mbind exec_bind]. rewrite Hcond.
  rewrite app_assoc. set (rest := rule_blocks (zlen l1 + 1) l2).
  pose proof (zlen_nonneg rest). destruct (Z.leb_spec (zlen buf) (zlen (pre ++ blk))) as [Hge|Hlt'].
  - exists buf1. split; [done|]. rewrite (zlen_app _ rest).
    split; [by rewrite (proj2 (Z.leb_le _ _)) by lia|lia].
  - destruct (Hfit Hlt') as [Htake _].
    destruct (IH (l1 ++ [r]) zs buf1 (pre ++ blk) Hok Htake ltac:(lia)) as (buf2 & Hl2 & E & Ht).
    assert (zlen (l1 ++ [r]) = zlen l1 + 1) as E1 by (rewrite zlen_app; done).
    rewrite E1 in *. fold rest in E, Ht. rewrite Hl1 in *.
    exists buf2. split; [lia|]. split; [|done].
    rewrite <-(app_assoc l1 [r]) in E. change ([r] ++ l2 ++ zs) with (r :: l2 ++ zs) in E.
    by rewrite <-(zlen_app pre blk), E.
Qed.
End script_proofs.

Lemma rule_blocks_text l : Forall rule_ok l -> forall i, text (rule_blocks i l).
Proof.
  induction 1 as [|r l Hr Hl IH]; intros i; cbn [rule_blocks]; [by constructor|].
  unfold rule_block. rewrite !text_app.
  repeat split; auto using rule_text_text with pnet; by apply text_lit_b.
Qed.

Lemma script_text_text l : Forall rule_ok l -> text (script_text l).
Proof.
  intros Hl. unfold script_text, script_header, script_footer. rewrite !text_app.
  repeat split; auto using rule_blocks_text with pnet; by apply text_lit_b.
Qed.

(** Generating a script into a buffer: the whole text or [-ENOSPC]. *)
Lemma generate_script_eq le l en buf :
  table_ok l -> Forall rule_ok l -> 0 < zlen buf ->
  exists buf', zlen buf' = zlen buf /\
    sec_policy_generate_script le (Some (policy_of l en)) (Some buf) =
      Done (if zlen buf <=? zlen (script_text l) then - ENOSPC else 0, Some buf') /\
    (zlen (script_text l) < zlen buf -> exists rest, buf' = script_text l ++ nul :: rest).
Proof.
  intros Hok Hl Hbuf. unfold sec_policy_generate_script, script_text.
  rewrite (proj2 (Z.eqb_neq _ _)) by lia. simpl rule_count. simpl rules.
  set (h := script_header (zlen l)). set (f := script_footer (zlen l)).
  set (b := rule_blocks 0 l). pose proof (zlen_nonneg f). pose proof (zlen_nonneg b).
  destruct (append_step buf [] h) as (buf1 & E1 & Hl1 & Hc1 & Hf1); [done|zlit; lia|].
  change (zlen []) with 0 in *. rewrite E1. cbn [mbind exec_bind]. rewrite Hc1. cbn [app] in *.
  destruct (Z.leb_spec (zlen buf) (zlen h)) as [Hge|Hlt].
  { exists buf1. split; [done|]. rewrite !zlen_app, (proj2 (Z.leb_le _ _)) by lia.
    split; [done|lia]. }
  destruct (Hf1 Hlt) as [Ht1 _].
  destruct (script_rules_spec le l [] (replicate (64 - length l) zero_rule) buf1 h Hl Ht1
    ltac:(lia)) as (buf2 & Hl2 & E2 & Hf2).
  change (zlen []) with 0 in *. cbn [app] in E2. fold b in E2, Hf2.
  replace (Z.to_nat (zlen l)) with (length l) by (unfold zlen; lia). rewrite E2. cbn [mbind exec_bind]. rewrite Hl1 in *.
  destruct (Z.leb_spec (zlen buf) (zlen (h ++ b))) as [Hge|Hlt2].
  { exists buf2. split; [done|]. rewrite app_assoc, zlen_app, (proj2 (Z.leb_le _ _)) by lia.
    split; [done|lia]. }
  destruct (append_step buf2 (h ++ b) f (Hf2 Hlt2) ltac:(lia)) as (buf3 & -> & Hl3 & Hc3 & Hf3).
  cbn [mbind exec_bind]. rewrite Hc3, Hl2, <-app_assoc in *.
  exists buf3. split; [lia|]. split; [by case_if|]. intros Hfit. by apply Hf3.
Qed.

Lemma policy_apply_eq le linux system l en :
  table_ok l -> Forall rule_ok l ->
  sec_policy_apply le linux system (Some (policy_of l en)) =
  Done (if 4096 <=? zlen (script_text l) then (- ENOSPC, [])
        else if linux then
          (if system (script_text l) =? 0 then 0 else - EIO,
           [lit "iptables -F PNET_CHAIN 2>/dev/null"; script_text l])
        else (0, [])).
Proof.
  intros Hok Hl. unfold sec_policy_apply.
  destruct (generate_script_eq le l en (replicate 4096 nul) Hok Hl ltac:(done))
    as (buf & Hlen & -> & Hfit).
  cbn [mbind exec_bind]. change (zlen (replicate 4096 nul)) with 4096 in *.
  destruct (Z.leb_spec 4096 (zlen (script_text l))); [done|].
  destruct linux; [|done]. destruct Hfit as [rest ->]; [lia|].
  simpl (0 <? 0). cbv iota. rewrite read_str_ok by apply terminated_app.
  cbn [mbind exec_bind]. rewrite c_str_text by (by apply script_text_text).
  by destruct (system _ =? 0).
Qed.

(** ** How many rules fit *)
Lemma rule_blocks_len l : Forall rule_ok l -> forall i, 0 <= i -> i + zlen l <= 100 ->
  zlen (rule_blocks i l) <= 167 * zlen l.
Proof.
  induction 1 as [|r l Hr Hl IH]; intros i Hi Hn; [done|]. cbn [rule_blocks].
  rewrite zlen_cons in *. specialize (IH (i + 1) ltac:(lia) ltac:(lia)).
  rewrite zlen_app. unfold rule_block. rewrite !zlen_app.
  pose proof (rule_text_len r Hr). destruct Hr as (_ & _ & _ & _ & Hc & Ht).
  pose proof (length_c_str _ Ht). assert (zlen (c_str (comment r)) <= 63) by (unfold zlen; lia).
  assert (zlen (fmt_d i) <= 2).
  { unfold fmt_d, fmt_u, zlen. rewrite (proj2 (Z.ltb_ge _ _)), List.length_map by lia.
    pose proof (length_digits 10 ltac:(lia) i 2 ltac:(pose proof (zlen_nonneg l); lia)). lia. }
  zlit. lia.
Qed.

(** ** The audit as a text and a count *)

Definition b2z (b : bool) : Z := if b then 1 else 0.
Definition when (b : bool) (s : list ascii) : list ascii := if b then s else [].

Definition inactive_rules (l : list sec_rule_t) : Z :=
  zlen (List.filter (fun r => negb (active r)) l).

Section audit_spec.
Context (l : list sec_rule_t) (en : bool).

(** The report lines, each with its condition and its share of the warnings. *)
Definition audit_checks : list (bool * Z * list ascii) :=
  [(negb en, 1, msg_disabled);
   (zlen l =? 0, 1, msg_empty);
   (negb (existsb is_default_deny l), 1, msg_no_deny);
   (negb (existsb is_ipsec_rule l), 1, msg_no_ipsec);
   (0 <? inactive_rules l, 0, msg_inactive (inactive_rules l));
   (48 <? zlen l, 1, msg_full (zlen l))].

Definition audit_warnings : Z :=
  foldl (fun n '(c, w, _) => n + if c : bool then w else 0) 0 audit_checks.

Definition audit_text : list ascii :=
  foldl (fun s '(c, _, m) => s ++ when c m) (audit_header (zlen l) en) audit_checks
  ++ msg_summary audit_warnings.
End audit_spec.

Lemma find_rule_eq f l2 : forall l1 zs,
  find_rule f (length l2) (zlen l1) (l1 ++ l2 ++ zs) = Done (existsb f l2).
Proof.
  induction l2 as [|r l2 IH]; intros l1 zs; [done|]. cbn [find_rule length].
  change ((r :: l2) ++ zs) with (r :: l2 ++ zs). rewrite arr_get_mid. cbn [mbind exec_bind existsb].
  destruct (f r); [done|]. specialize (IH (l1 ++ [r]) zs).
  rewrite <-app_assoc, zlen_app in IH. exact IH.
Qed.

Lemma count_inactive_eq l2 : forall l1 zs n,
  count_inactive (length l2) (zlen l1) (l1 ++ l2 ++ zs) n = Done (n + inactive_rules l2).
Proof.
  unfold inactive_rules.
  induction l2 as [|r l2 IH]; intros l1 zs n; cbn [count_inactive length List.filter].
  { by rewrite Z.add_0_r. }
  change ((r :: l2) ++ zs) with (r :: l2 ++ zs). rewrite arr_get_mid. cbn [mbind exec_bind].
  specialize (IH (l1 ++ [r]) zs). rewrite <-app_assoc, zlen_app in IH.
  change (zlen [r]) with 1 in IH. change ([r] ++ l2 ++ zs) with (r :: l2 ++ zs) in IH. rewrite IH.
  destruct (active r); cbn [negb]; [done|]. rewrite zlen_cons. f_equal. lia.
Qed.

(** One conditional line, while the text so far is inside the buffer. *)
Lemma audit_line_step c w msg pre n buf :
  0 < zlen msg -> zlen pre <= zlen buf -> take (length pre) buf = pre ->
  exists buf', audit_line c w msg (zlen pre, n, buf) =
      Done (zlen (pre ++ when c msg), n + (if c then w else 0), buf') /\
    zlen buf' = zlen buf /\
    (zlen (pre ++ when c msg) < zlen buf ->
     take (length (pre ++ when c msg)) buf' = pre ++ when c msg).
Proof.
  intros Hm Hle Hpre. unfold audit_line. destruct c; cbn [when].
  - destruct (append_step buf pre msg Hpre Hle) as (buf' & -> & Hl & _ & Hfit).
    cbn [mbind exec_bind]. rewrite (proj2 (Z.ltb_lt _ _)) by lia. exists buf'.
    rewrite zlen_app in *. split; [done|]. split; [done|]. intros H. by apply Hfit.
  - exists buf. rewrite app_nil_r, Z.add_0_r. done.
Qed.

(** Past the end of the buffer, the next line is an overrun. *)
Lemma audit_line_past c w msg off n buf :
  c = true -> zlen buf < off -> audit_line c w msg (off, n, buf) = Undefined.
Proof. intros -> Hoff. unfold audit_line. by rewrite snprintf_at_past. Qed.

Lemma zlen_pos {A} (s : list A) : s <> [] -> 0 < zlen s.
Proof. destruct s; [done|]. intros _. rewrite zlen_cons. pose proof (zlen_nonneg s). lia. Qed.

(** Run the next conditional line of the goal. *)
Ltac audit_next :=
  match goal with
  | |- context [audit_line ?c ?w ?m (zlen ?pre, ?n, ?b)] =>
      let b' := fresh "buf" in let E := fresh "E" in
      let Hl := fresh "Hl" in let Ht := fresh "Ht" in
      destruct (audit_line_step c w m pre n b) as (b' & E & Hl & Ht);
      [by apply zlen_pos | rewrite ?zlen_app in *; lia | auto with lia |
       rewrite E; cbn [mbind exec_bind]; clear E;
       specialize (Ht ltac:(rewrite ?zlen_app in *; lia))]
  end.

(** A printed line whose offset is inside the buffer. *)
Lemma audit_line_at w msg off n buf :
  0 < zlen msg -> 0 <= off <= zlen buf ->
  exists buf', audit_line true w msg (off, n, buf) = Done (off + zlen msg, n + w, buf') /\
    zlen buf' = zlen buf.
Proof.
  intros Hm Hoff. destruct (snprintf_at_defined buf off msg Hoff) as (buf' & E & Hl).
  exists buf'. unfold audit_line. rewrite E. cbn [mbind exec_bind].
  rewrite (proj2 (Z.ltb_lt _ _)) by done. unfold zlen in *. by rewrite Hl.
Qed.

(** The conditional lines one after the other. *)
Fixpoint audit_lines (cs : list (bool * Z * list ascii)) (st : Z * Z * list ascii)
    : exec (Z * Z * list ascii) :=
  match cs with
  | [] => Done st
  | (c, w, m) :: cs => st ← audit_line c w m st; audit_lines cs st
  end.

(** What they print after [pre], and the warnings they count. *)
Definition printed (pre : list ascii) (cs : list (bool * Z * list ascii)) : list ascii :=
  foldl (fun s '(c, _, m) => s ++ when c m) pre cs.
Definition counted (n : Z) (cs : list (bool * Z * list ascii)) : Z :=
  foldl (fun n '(c, w, _) => n + if c : bool then w else 0) n cs.

Lemma printed_len pre cs : zlen pre <= zlen (printed pre cs).
Proof.
  unfold printed. revert pre. induction cs as [|[[c w] m] cs IH]; intros pre; [done|]. cbn [foldl].
  pose proof (IH (pre ++ when c m)). rewrite zlen_app in *. pose proof (zlen_nonneg (when c m)). lia.
Qed.

(** They end where the text ends, unless one starts past the buffer. *)
Lemma audit_lines_cases cs pre n buf : Forall (fun '(_, _, m) => 0 < zlen m) cs ->
  (exists buf', zlen buf' = zlen buf /\
     audit_lines cs (zlen pre, n, buf) = Done (zlen (printed pre cs), counted n cs, buf')) \/
  audit_lines cs (zlen pre, n, buf) = Undefined /\ zlen buf < zlen (printed pre cs).
Proof.
  revert pre n buf. induction cs as [|[[c w] m] cs IH]; intros pre n buf; [by left; exists buf|].
  intros [Hm Hcs]%Forall_cons. cbn [audit_lines printed counted foldl].
  pose proof (zlen_nonneg pre). destruct c; cbn [when].
  - destruct (Z.le_gt_cases (zlen pre) (zlen buf)).
    + destruct (audit_line_at w m (zlen pre) n buf) as (b & -> & Hb); [done|lia|].
      cbn [mbind exec_bind]. rewrite <-zlen_app.
      destruct (IH (pre ++ m) (n + w) b Hcs) as [(b' & ? & E)|[E ?]]; [left|right].
      * exists b'. split; [congruence|exact E].
      * split; [exact E|]. by rewrite <-Hb.
    + right. rewrite audit_line_past by done. split; [done|].
      pose proof (printed_len (pre ++ m) cs). rewrite zlen_app in *. unfold printed in *. lia.
  - cbn [audit_line mbind exec_bind]. rewrite app_nil_r, Z.add_0_r. by apply IH.
Qed.

(** The audit of a table is its header, these lines and the summary. *)
Lemma audit_as_lines l en buf : zlen buf <> 0 ->
  sec_policy_audit (Some (policy_of l en)) (Some buf) =
    '(written, buf) ← snprintf_at buf 0 (audit_header (zlen l) en);
    if (written <? 0) || (zlen buf <=? written) then Done (- ENOSPC, Some buf)
    else
      '(offset, warnings, buf) ← audit_lines (audit_checks l en) (written, 0, buf);
      '(written, buf) ← snprintf_at buf offset (msg_summary warnings);
      if (written <? 0) || (zlen buf <=? offset + written)
      then Done (- ENOSPC, Some buf) else Done (warnings, Some buf).
Proof.
  intros Hb. unfold sec_policy_audit. rewrite (proj2 (Z.eqb_neq _ _)) by done.
  simpl rule_count. simpl rules. simpl enabled.
  destruct (snprintf_at buf 0 _) as [[written buf0]|]; [|done]. cbn [mbind exec_bind].
  rewrite Z.add_0_l. destruct (_ || _); [done|].
  replace (Z.to_nat (zlen l)) with (length l) by (unfold zlen; lia).
  set (zs := replicate _ zero_rule).
  pose proof (fun f => find_rule_eq f l [] zs) as Hfind.
  pose proof (fun n => count_inactive_eq l [] zs n) as Hcount.
  change (zlen []) with 0 in *. cbn [app] in Hfind, Hcount. rewrite !Hfind, Hcount.
  rewrite Z.add_0_l. change (Z.quot (MAX_FW_RULES * 3) 4) with 48.
  cbn [audit_checks audit_lines].
  repeat (match goal with |- context [audit_line ?c ?w ?m ?st] =>
    destruct (audit_line c w m st) as [[[] ?]|]; [|done] end; cbn [mbind exec_bind]).
  done.
Qed.

Lemma audit_checks_text l en : Forall (fun '(_, _, m) => 0 < zlen m) (audit_checks l en).
Proof. repeat constructor; by apply zlen_pos. Qed.

(** With room for the whole text, the audit returns its warnings and leaves
    the text in the buffer. *)
Lemma audit_eq l en buf :
  table_ok l -> zlen (audit_text l en) < zlen buf ->
  exists rest, sec_policy_audit (Some (policy_of l en)) (Some buf) =
      Done (audit_warnings l en, Some (audit_text l en ++ nul :: rest)) /\
    zlen (audit_text l en ++ nul :: rest) = zlen buf.
Proof.
  intros Hok Hfit. pose proof (zlen_nonneg (audit_text l en)).
  unfold sec_policy_audit. rewrite (proj2 (Z.eqb_neq _ _)) by lia.
  simpl rule_count. simpl rules. simpl enabled.
  replace (Z.to_nat (zlen l)) with (length l) by (unfold zlen; lia).
  set (zs := replicate _ zero_rule).
  pose proof (fun f => find_rule_eq f l [] zs) as Hfind.
  pose proof (fun n => count_inactive_eq l [] zs n) as Hcount.
  change (zlen []) with 0 in *. cbn [app] in Hfind, Hcount. rewrite !Hfind, Hcount.
  unfold audit_text, audit_warnings in *. cbn [audit_checks foldl] in *.
  rewrite Z.add_0_l. change (Z.quot (MAX_FW_RULES * 3) 4) with 48.
  set (h := audit_header (zlen l) en) in *. set (m := msg_summary _) in *.
  repeat match type of Hfit with
  | context [zlen (_ ++ when ?c ?x)] =>
      lazymatch goal with
      | _ : 0 <= zlen (when c x) |- _ => fail
      | _ => pose proof (zlen_nonneg (when c x))
      end
  | _ => rewrite zlen_app in Hfit
  end.
  pose proof (zlen_nonneg h). pose proof (zlen_nonneg m).
  destruct (append_step buf [] h) as (buf0 & E0 & Hl0 & Hc0 & Hf0); [done|zlit; lia|].
  change (zlen []) with 0 in *. cbn [app] in *.
  rewrite E0. cbn [mbind exec_bind]. rewrite Hc0, (proj2 (Z.leb_gt _ _)) by lia.
  destruct Hf0 as [Ht0 _]; [lia|]. clear E0 Hc0.
  do 6 audit_next. fold m.
  match goal with
  | Htk : take (length ?p) ?b = ?p |- context [snprintf_at ?b (zlen ?p) ?s] =>
      destruct (append_step b p s Htk) as (b' & E & Hlast & Hc & Hf);
      [rewrite ?zlen_app in *; lia|]
  end.
  destruct Hf as [_ [rest Hrest]]; [rewrite ?zlen_app in *; lia|].
  rewrite E. cbn [mbind exec_bind]. rewrite Hc, (proj2 (Z.leb_gt _ _))
    by (rewrite ?zlen_app in *; lia).
  exists rest. rewrite Hrest in *. split; [done|lia].
Qed.

Lemma fmt_d_len n k :
  0 <= n < 10 ^ Z.of_nat k -> (0 < k)%nat -> zlen (fmt_d n) <= Z.of_nat k.
Proof.
  intros Hn Hk. unfold fmt_d, fmt_u, zlen. rewrite (proj2 (Z.ltb_ge _ _)), List.length_map by lia.
  pose proof (length_digits 10 ltac:(lia) n k Hn Hk). lia.
Qed.

Lemma inactive_rules_range l : 0 <= inactive_rules l <= zlen l.
Proof.
  unfold inactive_rules, zlen. pose proof (List.filter_length_le (fun r => negb (active r)) l). lia.
Qed.

Lemma when_len b s : zlen (when b s) <= zlen s.
Proof. destruct b; simpl; [lia|]. apply zlen_nonneg. Qed.

Lemma audit_warnings_range l en : 0 <= audit_warnings l en <= 5.
Proof. unfold audit_warnings. cbn [audit_checks foldl]. repeat case_if; lia. Qed.

(** No report of a well-formed table is longer than 511 characters. *)
Lemma audit_text_len l en : table_ok l -> zlen (audit_text l en) <= 511.
Proof.
  intros Hok. assert (0 <= zlen l <= 64) as Hl by (unfold table_ok, zlen in *; lia).
  pose proof (inactive_rules_range l). pose proof (audit_warnings_range l en).
  assert (0 <= Z.quot (zlen l * 100) MAX_FW_RULES < 1000).
  { unfold MAX_FW_RULES. rewrite Z.quot_div_nonneg by lia.
    split; [apply Z.div_pos; lia|apply Z.div_lt_upper_bound; lia]. }
  unfold audit_text. cbn [audit_checks foldl]. rewrite !zlen_app.
  repeat match goal with
  | |- context [zlen (when ?b ?s)] =>
      pose proof (when_len b s); set (zlen (when b s)) in *
  end.
  unfold audit_header, msg_disabled, msg_empty, msg_no_deny, msg_no_ipsec, msg_inactive,
    msg_full, msg_summary in *.
  rewrite !zlen_app in *.
  pose proof (fmt_d_len (zlen l) 2 ltac:(lia) ltac:(lia)).
  pose proof (fmt_d_len (inactive_rules l) 2 ltac:(lia) ltac:(lia)).
  pose proof (fmt_d_len (audit_warnings l en) 1 ltac:(lia) ltac:(lia)).
  pose proof (fmt_d_len _ 3 ltac:(eassumption) ltac:(lia)).
  pose proof (fmt_d_len MAX_FW_RULES 2 ltac:(done) ltac:(lia)).
  assert (zlen (yes_no en) <= 3) by (by destruct en).
  repeat match goal with z := zlen _ |- _ => clearbody z end.
  repeat match goal with H : _ <= _ |- _ => revert H end. zlit. lia.
Qed.

Lemma text_when b s : text s -> text (when b s).
Proof. destruct b; [done|]. by constructor. Qed.

Lemma audit_text_text l en : text (audit_text l en).
Proof.
  unfold audit_text, audit_header, msg_summary. cbn [audit_checks foldl]. rewrite !text_app.
  repeat split; auto with pnet; try (by apply text_lit_b); try apply text_when;
    try (by apply text_lit_b).
  - by destruct en; apply text_lit_b.
  - unfold msg_inactive. rewrite !text_app. repeat split; auto with pnet; by apply text_lit_b.
  - unfold msg_full. rewrite !text_app. repeat split; auto with pnet; by apply text_lit_b.
Qed.

(** ** IPSec lemmas *)

Lemma ipsec_path_short name ext :
  zlen name + zlen ext <= 242 -> ipsec_path name ext = IPSEC_CONF_DIR ++ lit "/" ++ name ++ ext.
Proof.
  intros H. unfold ipsec_path. apply take_ge.
  assert (zlen (IPSEC_CONF_DIR ++ lit "/" ++ name ++ ext) <= 255) as E.
  { rewrite !zlen_app. change (zlen IPSEC_CONF_DIR) with 12. zlit. lia. }
  unfold zlen in E. lia.
Qed.

Lemma ipsec_paths_differ name :
  zlen name <= 234 -> ipsec_path name (lit ".conf") <> ipsec_path name (lit ".secrets").
Proof.
  intros H. rewrite !ipsec_path_short by (zlit; lia). intros E.
  apply (app_inv_head IPSEC_CONF_DIR), (app_inv_head (lit "/")), (app_inv_head name) in E. done.
Qed.

Section ipsec_lemmas.
Context (le : bool) (denied : list ascii -> bool) (umask_mode : Z).

(** A successful creation leaves the two files, and nothing else changed. *)
Lemma create_tunnel_eq m name lip rip psk :
  zlen name <= 234 ->
  let cp := ipsec_path name (lit ".conf") in
  let sp := ipsec_path name (lit ".secrets") in
  denied cp = false -> denied sp = false ->
  exists conf_mode,
  sec_ipsec_create_tunnel le denied umask_mode m (Some name) lip rip (Some psk) =
  Done (0, <[sp := mk_file (fmt_ip lip ++ lit " " ++ fmt_ip rip ++ lit " : PSK " ++ [dquote] ++
                            psk ++ [dquote; nl]) 0x180]>
           (<[cp := mk_file (conn_block name (fmt_ip lip) (fmt_ip rip)) conf_mode]> m)).
Proof using.
  intros Hn cp sp Hc Hs. pose proof (ipsec_paths_differ name Hn) as Hne. fold cp sp in Hne.
  eexists. unfold sec_ipsec_create_tunnel. rewrite !ip_to_str_eq. cbn [mbind exec_bind].
  fold cp sp. unfold fopen_w. rewrite Hc, Hs. unfold file_append, chmod.
  by rewrite !alter_insert_eq.
Qed.
End ipsec_lemmas.

(** A concrete list of rules is checked by evaluation. *)
Lemma rules_ok_b l : forallb (fun r => bool_decide (rule_ok r)) l = true -> Forall rule_ok l.
Proof.
  intros H. apply Forall_forall. intros r Hr. rewrite forallb_forall in H.
  eapply bool_decide_eq_true_1, H. by apply list_elem_of_In.
Qed.

(** ** Properties *)

(** C5: The rule table refines a list of at most 64 rules.  Starting from any
    object, [sec_policy_init] followed by any sequence of additions, removals
    and flushes never leaves the array, returns for each operation exactly the
    code the list specification gives (0, -ENOSPC on a full table, -ERANGE on
    a bad index), and ends in the object that represents the specified list,
    with the unused slots zeroed. *)
Theorem rule_table_refinement (p : sec_policy_t) (ops : list table_op) :
  ('(_, p) ← sec_policy_init (Some p); code_run p ops) =
  Done (let '(rets, l) := spec_run [] ops in (rets, Some (policy_of l false))).
Proof.
  change (sec_policy_init (Some p)) with (Done (0, Some (policy_of [] false))).
  cbn [mbind exec_bind].
  assert (table_ok []) as Hok by (unfold table_ok; simpl; lia). revert Hok.
  generalize (@nil sec_rule_t) as l.
  induction ops as [|op ops IH]; intros l Hok; [done|]. cbn [code_run spec_run].
  rewrite code_op_refines by done. pose proof (spec_op_ok l op Hok) as Hok'.
  destruct (spec_op l op) as [ret l']. cbn [mbind exec_bind]. rewrite IH by done.
  by destruct (spec_run l' ops) as [rets l''].
Qed.

(** Every rule of a table built through the interface is active, and the
    table never holds more than 64 rules: the inactive-rule branches of the
    script generator and of the audit cannot be reached through it. *)
Theorem reachable_rules_active (ops : list table_op) :
  let l := (spec_run [] ops).2 in
  table_ok l /\ Forall (fun r => active r = true) l /\ inactive_rules l = 0.
Proof.
  enough (forall l, table_ok l -> Forall (fun r => active r = true) l ->
    table_ok (spec_run l ops).2 /\ Forall (fun r => active r = true) (spec_run l ops).2) as H.
  { destruct (H []) as [H1 H2]; [unfold table_ok; simpl; lia|constructor|].
    split; [done|]. split; [done|]. unfold inactive_rules. clear H1.
    induction H2 as [|r l Hr _ IH]; [done|]. simpl. by rewrite Hr. }
  induction ops as [|op ops IH]; intros l Hok Hact; [done|]. cbn [spec_run].
  pose proof (spec_op_ok l op Hok) as Hok'.
  assert (Forall (fun r => active r = true) (spec_op l op).2) as Hact'.
  { destruct op as [r|i|]; cbn [spec_op]; [| |constructor]; case_if; try done; cbn [snd].
    - apply Forall_app. split; [done|]. by repeat constructor.
    - apply Forall_app. split; [by apply Forall_take|by apply Forall_drop]. }
  destruct (spec_op l op) as [ret l']. cbn [snd] in *.
  specialize (IH l' Hok' Hact'). by destruct (spec_run l' ops).
Qed.

(** C11: Script generation is all or nothing.  For a table of well-formed
    rules and a buffer of at least one character the run never leaves a
    buffer, no rule is skipped, and the result is 0 with the whole script (the
    header, one commented line per rule in table order, the footer) as the C
    string in the buffer exactly when that text and its NUL fit, -ENOSPC
    otherwise. *)
Theorem generate_script_correct le l en buf :
  table_ok l -> Forall rule_ok l -> 0 < zlen buf ->
  exists buf', zlen buf' = zlen buf /\
    sec_policy_generate_script le (Some (policy_of l en)) (Some buf) =
      Done (if zlen buf <=? zlen (script_text l) then - ENOSPC else 0, Some buf') /\
    (zlen (script_text l) < zlen buf -> read_str buf' = Done (script_text l)).
Proof.
  intros Hok Hl Hbuf. destruct (generate_script_eq le l en buf Hok Hl Hbuf) as (buf' & H1 & H2 & H3).
  exists buf'. split; [done|]. split; [done|]. intros Hfit. destruct (H3 Hfit) as [rest ->].
  rewrite read_str_ok by apply terminated_app.
  by rewrite c_str_text by (by apply script_text_text).
Qed.

Definition example_rule : sec_rule_t :=
  mk_rule SEC_CHAIN_INPUT 0xC0A80164 0xFFFFFF00 102 6 SEC_ACTION_ACCEPT 1 true
    (to_array 64 (lit "Allow Profinet")).

Lemma generate_script_correct_witness :
  exists buf', zlen buf' = 256 /\
    sec_policy_generate_script true (Some (policy_of [example_rule] true))
      (Some (replicate 256 nul)) = Done (0, Some buf') /\
    read_str buf' = Done (script_text [example_rule]).
Proof.
  destruct (generate_script_correct true [example_rule] true (replicate 256 nul))
    as (buf' & H1 & H2 & H3).
  - unfold table_ok. simpl. lia.
  - apply rules_ok_b. by vm_compute.
  - done.
  - exists buf'. split; [exact H1|]. split; [exact H2|]. apply H3. done.
Defined.

(** The longest rule: every field at its maximal width. *)
Definition longest_rule : sec_rule_t :=
  mk_rule SEC_CHAIN_FORWARD (2 ^ 32 - 1) (2 ^ 32 - 1) (2 ^ 32 - 1) 6 SEC_ACTION_ACCEPT 0 true
    (replicate 63 "a"%char ++ [nul]).

(** The 4096-character script buffer of [sec_policy_apply] holds the
    script of every table of at most 23 well-formed rules, and the commands
    executed are the flush and that script; but 24 well-formed rules can
    exceed it, although the table holds 64, and then nothing is executed and
    the result is -ENOSPC. *)
Theorem apply_capacity le system :
  (forall l en, Forall rule_ok l -> zlen l <= 23 ->
     sec_policy_apply le true system (Some (policy_of l en)) =
     Done (if system (script_text l) =? 0 then 0 else - EIO,
           [lit "iptables -F PNET_CHAIN 2>/dev/null"; script_text l])) /\
  (exists l, Forall rule_ok l /\ zlen l = 24 /\
     forall en, sec_policy_apply le true system (Some (policy_of l en)) = Done (- ENOSPC, [])).
Proof.
  split.
  - intros l en Hl Hn. rewrite policy_apply_eq; [|unfold table_ok, zlen in *; lia|done].
    rewrite (proj2 (Z.leb_gt _ _)); [done|]. unfold script_text, script_header, script_footer.
    pose proof (rule_blocks_len l Hl 0 ltac:(lia) ltac:(lia)).
    pose proof (fmt_d_len (zlen l) 2 ltac:(pose proof (zlen_nonneg l); lia) ltac:(lia)).
    rewrite !zlen_app. zlit. lia.
  - exists (replicate 24 longest_rule). split; [|split; [done|]].
    + apply rules_ok_b. by vm_compute.
    + intros en. rewrite policy_apply_eq; [|unfold table_ok; simpl; lia|by apply rules_ok_b; vm_compute].
      assert ((4096 <=? zlen (script_text (replicate 24 longest_rule))) = true) as -> by (by vm_compute).
      done.
Qed.

(** [sec_policy_apply] does not look at the [enabled] flag: a disabled
    policy is executed exactly as an enabled one, although the audit reports
    of it that no rules are enforced. *)
Theorem apply_ignores_enabled le linux system l :
  table_ok l -> Forall rule_ok l ->
  sec_policy_apply le linux system (Some (policy_of l false)) =
    sec_policy_apply le linux system (Some (policy_of l true)) /\
  exists report rest, report = audit_header (zlen l) false ++ msg_disabled ++ rest /\
    (sec_policy_audit (Some (policy_of l false)) (Some (replicate 1024 nul))
       ≫= fun '(_, r) => match r with Some r => read_str r | None => Undefined end) = Done report.
Proof.
  intros Hok Hl. split; [by rewrite !policy_apply_eq|].
  pose proof (audit_text_len l false Hok).
  destruct (audit_eq l false (replicate 1024 nul) Hok) as (rest & -> & _).
  { change (zlen (replicate 1024 nul)) with 1024. lia. }
  cbn [mbind exec_bind]. rewrite read_str_ok by apply terminated_app.
  rewrite c_str_text by apply audit_text_text. unfold audit_text. cbn [audit_checks foldl negb when].
  rewrite <-!app_assoc. eexists _, _. split; [done|done].
Qed.

Lemma apply_ignores_enabled_witness :
  sec_policy_apply true true (fun _ => 0) (Some (policy_of [example_rule] false)) =
    sec_policy_apply true true (fun _ => 0) (Some (policy_of [example_rule] true)).
Proof.
  apply (apply_ignores_enabled true true (fun _ => 0) [example_rule]).
  - unfold table_ok. simpl. lia.
  - apply rules_ok_b. by vm_compute.
Defined.

(** C19: The audit of a table of at most 64 rules, with a report buffer of 512
    characters or more, never leaves the buffer, returns the number of
    warnings (policy disabled, no rules, no default deny on INPUT, no IPSec
    rule, table more than three quarters full) and leaves the whole report as
    the C string in the buffer. *)
Theorem audit_correct l en buf :
  table_ok l -> 512 <= zlen buf ->
  exists buf', sec_policy_audit (Some (policy_of l en)) (Some buf) =
      Done (audit_warnings l en, Some buf') /\
    zlen buf' = zlen buf /\ read_str buf' = Done (audit_text l en).
Proof.
  intros Hok Hbuf. pose proof (audit_text_len l en Hok).
  destruct (audit_eq l en buf Hok ltac:(lia)) as (rest & E & Hl).
  eexists. split; [exact E|]. split; [done|].
  rewrite read_str_ok by apply terminated_app. by rewrite c_str_text by apply audit_text_text.
Qed.

Lemma audit_correct_witness :
  exists buf', sec_policy_audit (Some (policy_of [example_rule] false)) (Some (replicate 1024 nul)) =
      Done (3, Some buf') /\ read_str buf' = Done (audit_text [example_rule] false).
Proof.
  destruct (audit_correct [example_rule] false (replicate 1024 nul)) as (buf' & H1 & H2 & H3).
  - unfold table_ok. simpl. lia.
  - by vm_compute.
  - exists buf'. split; [exact H1|exact H3].
Defined.

(** C20: Exactly which report buffers the audit overruns.  For any table and a
    buffer of any size, with [body] the report without its summary line: the
    audit writes past the buffer if and only if the buffer is larger than the
    header but smaller than the body, because no line between the header and
    the summary is compared with the size.  Of the other sizes, 0 gives -EINVAL,
    one that does not hold the whole report with its NUL gives -ENOSPC, and
    every larger one gives the number of warnings. *)
Theorem audit_overrun l en buf : table_ok l ->
  let header := zlen (audit_header (zlen l) en) in
  let report := zlen (audit_text l en) in
  let body := report - zlen (msg_summary (audit_warnings l en)) in
  let run := sec_policy_audit (Some (policy_of l en)) (Some buf) in
  (run = Undefined <-> header < zlen buf < body) /\
  (zlen buf = 0 -> run = Done (- EINVAL, Some buf)) /\
  (0 < zlen buf <= report -> ~ header < zlen buf < body ->
     exists buf', run = Done (- ENOSPC, Some buf') /\ zlen buf' = zlen buf) /\
  (report < zlen buf -> exists buf', run = Done (audit_warnings l en, Some buf')).
Proof.
  intros Hok. cbv zeta. set (run := sec_policy_audit _ _).
  set (h := audit_header (zlen l) en). set (S := msg_summary (audit_warnings l en)).
  assert (zlen (audit_text l en) = zlen (printed h (audit_checks l en)) + zlen S) as HT
    by (rewrite <-zlen_app; done).
  pose proof (printed_len h (audit_checks l en)) as Hh. pose proof (zlen_nonneg h).
  assert (0 < zlen S) as HS by (by apply zlen_pos). assert (0 < zlen h) by (by apply zlen_pos).
  destruct (decide (zlen buf = 0)) as [Hz0|Hz0].
  { assert (run = Done (- EINVAL, Some buf)) as -> by
      (unfold run, sec_policy_audit; by rewrite (proj2 (Z.eqb_eq _ _) Hz0)).
    split; [split; [done|lia]|]. split; [done|]. split; lia. }
  pose proof (zlen_nonneg buf). subst run. rewrite audit_as_lines by done. fold h.
  destruct (snprintf_at_defined buf 0 h ltac:(lia)) as (b0 & -> & Hb0). cbn [mbind exec_bind].
  assert (zlen b0 = zlen buf) as Hz by (unfold zlen; by rewrite Hb0).
  rewrite (proj2 (Z.ltb_ge (zlen h) 0)), Hz by lia. cbn [orb].
  destruct (Z.leb_spec (zlen buf) (zlen h)).
  { split; [split; [done|lia]|]. split; [lia|]. split; [by exists b0|lia]. }
  destruct (audit_lines_cases (audit_checks l en) h 0 b0 (audit_checks_text l en))
    as [(b1 & Hb1 & ->)|[-> ?]]; cbn [mbind exec_bind].
  2:{ split; [split; [lia|done]|]. split; [lia|]. split; lia. }
  change (counted 0 (audit_checks l en)) with (audit_warnings l en). fold S.
  destruct (Z.lt_ge_cases (zlen buf) (zlen (printed h (audit_checks l en)))).
  { rewrite snprintf_at_past by lia. split; [split; [lia|done]|]. split; [lia|]. split; lia. }
  destruct (snprintf_at_defined b1 (zlen (printed h (audit_checks l en))) S ltac:(lia))
    as (b2 & -> & Hb2). cbn [mbind exec_bind].
  assert (zlen b2 = zlen buf) as -> by (rewrite <-Hz, <-Hb1; unfold zlen; by rewrite Hb2).
  rewrite (proj2 (Z.ltb_ge (zlen S) 0)) by lia. cbn [orb].
  destruct (Z.leb_spec (zlen buf) (zlen (printed h (audit_checks l en)) + zlen S)).
  - split; [split; [done|lia]|]. split; [lia|]. split; [|lia]. intros _ _. exists b2. split; [done|].
    rewrite <-Hz, <-Hb1. unfold zlen. by rewrite Hb2.
  - split; [split; [done|lia]|]. split; [lia|]. split; [lia|]. intros _. by exists b2.
Qed.

Lemma audit_overrun_witness :
  sec_policy_audit (Some (policy_of [] false)) (Some (replicate 128 nul)) = Undefined.
Proof.
  apply (audit_overrun [] false (replicate 128 nul)); [unfold table_ok; simpl; lia|].
  split; vm_compute; reflexivity.
Defined.

Section ipsec_properties.
Context (le : bool) (denied : list ascii -> bool) (umask_mode : Z).

(** C30: For a tunnel name of at most 234 characters whose two files can be
    opened, creating the tunnel succeeds; the connection file holds the
    connection block, the key file the line with the two addresses and the key
    and is readable by its owner only; no other file changes; and removing the
    tunnel afterwards succeeds and gives back the files there were before. *)
Theorem ipsec_create_remove m name lip rip psk errno :
  zlen name <= 234 ->
  let cp := ipsec_path name (lit ".conf") in
  let sp := ipsec_path name (lit ".secrets") in
  denied cp = false -> denied sp = false -> m !! cp = None -> m !! sp = None ->
  exists m', sec_ipsec_create_tunnel le denied umask_mode m (Some name) lip rip (Some psk) =
      Done (0, m') /\
    (content <$> m' !! cp) = Some (conn_block name (fmt_ip lip) (fmt_ip rip)) /\
    m' !! sp = Some (mk_file (fmt_ip lip ++ lit " " ++ fmt_ip rip ++ lit " : PSK " ++ [dquote] ++
                              psk ++ [dquote; nl]) 0x180) /\
    (forall path, path <> cp -> path <> sp -> m' !! path = m !! path) /\
    sec_ipsec_remove_tunnel denied errno m' (Some name) = (0, m).
Proof using.
  intros Hn cp sp Hc Hs Hmc Hms. pose proof (ipsec_paths_differ name Hn) as Hne.
  destruct (create_tunnel_eq le denied umask_mode m name lip rip psk Hn Hc Hs) as (cm & E).
  fold cp sp in Hne, E. eexists. split; [exact E|].
  split; [by rewrite lookup_insert_ne, lookup_insert_eq by done|].
  split; [by rewrite lookup_insert_eq|].
  split; [intros path Hp1 Hp2; by rewrite !lookup_insert_ne by done|].
  unfold sec_ipsec_remove_tunnel, remove. fold cp sp.
  rewrite lookup_insert_ne, lookup_insert_eq, Hc by done.
  rewrite delete_insert_ne, lookup_insert_eq, Hs by done. cbn [negb andb Z.eqb].
  f_equal. rewrite delete_insert_id; [by rewrite delete_insert_id|].
  by rewrite lookup_delete_ne, lookup_insert_ne.
Qed.

(** The value of [errno] is read after both removals, so a failure to
    remove the connection file goes unreported when the key file does not
    exist: the call returns 0 and the connection file is still there. *)
Theorem ipsec_remove_masks_failure m name errno f :
  zlen name <= 234 ->
  let cp := ipsec_path name (lit ".conf") in
  m !! cp = Some f -> denied cp = true -> m !! ipsec_path name (lit ".secrets") = None ->
  sec_ipsec_remove_tunnel denied errno m (Some name) = (0, m) /\ m !! cp = Some f.
Proof using.
  intros Hn cp Hc Hd Hs. split; [|done].
  unfold sec_ipsec_remove_tunnel, remove. fold cp. by rewrite Hc, Hd, Hs.
Qed.
End ipsec_properties.

Lemma ipsec_create_remove_witness :
  exists m', sec_ipsec_create_tunnel true (fun _ => false) 0x1A4 ∅ (Some (lit "plc")) 1 2
      (Some (lit "key")) = Done (0, m') /\
    sec_ipsec_remove_tunnel (fun _ => false) 0 m' (Some (lit "plc")) = (0, ∅).
Proof.
  destruct (ipsec_create_remove true (fun _ => false) 0x1A4 ∅ (lit "plc") 1 2 (lit "key") 0)
    as (m' & H1 & _ & _ & _ & H2); [by vm_compute|done|done|done|done|].
  by exists m'.
Defined.

Lemma ipsec_remove_masks_failure_witness :
  let cp := ipsec_path (lit "plc") (lit ".conf") in
  let m : fs := {[ cp := mk_file [] 0x1A4 ]} in
  sec_ipsec_remove_tunnel (fun _ => true) 0 m (Some (lit "plc")) = (0, m) /\
  m !! cp = Some (mk_file [] 0x1A4).
Proof.
  cbv zeta. apply ipsec_remove_masks_failure; [by vm_compute| |done|].
  - apply lookup_singleton_eq.
  - by vm_compute.
Defined.
