(* ===== verification/PnetApi.v ===== *)
(** * The p-net stack as the application sees it

    The types of tests/mock/pnet_api_mock.h (the shape of the p-net API the
    default build uses) and the stack behind them as an interface: a class
    [PnetStack] of the functions the application calls and a class
    [PnetStackOk] of what it may rely on.  The IO device is written and
    verified against these two classes; the mock stack implements them, and
    the real stack, a git submodule with a richer interface, is the subject
    of RealStack, which adapts it to these classes. *)
From S2P Require Import Prelude CString.
From Stdlib Require Strings.Byte.

(** [uint8_t] data. *)
Abbreviation byte := Corelib.Init.Byte.byte.

#[export] Instance byte_eq_dec : EqDecision byte.
Proof. exact Strings.Byte.byte_eq_dec. Defined.

(** ** Constants *)
Definition PNET_API_NO_APPLICATION_PROFILE : Z := 0.
Definition PNET_SLOT_DAP_IDENT : Z := 0x00000000.
Definition PNET_SUBSLOT_DAP_WHOLE_MODULE : Z := 0x00000000.
Definition PNET_SUBSLOT_DAP_INTERFACE_1_IDENT : Z := 0x00008000.
Definition PNET_SUBSLOT_DAP_INTERFACE_1_PORT_1_IDENT : Z := 0x00008001.
Definition PNET_MOD_DAP_IDENT : Z := 0x00000001.
Definition PNET_SUBMOD_DAP_IDENT : Z := 0x00000001.
Definition PNET_SUBMOD_DAP_INTERFACE_1_IDENT : Z := 0x00008000.
Definition PNET_SUBMOD_DAP_INTERFACE_1_PORT_1_IDENT : Z := 0x00008001.
Definition PNET_SUPPORTED_IM1 : Z := 0x0002.
Definition PNET_IOXS_BAD : Z := 0x00.
Definition PNET_IOXS_GOOD : Z := 0x80.

(** ** Enumerations *)
Inductive pnet_event_values_t :=
  | PNET_EVENT_ABORT | PNET_EVENT_STARTUP | PNET_EVENT_PRMEND | PNET_EVENT_APPLRDY
  | PNET_EVENT_DATA | PNET_EVENT_OTHER (v : Z).

Inductive pnet_submodule_dir_t :=
  | PNET_DIR_NO_IO | PNET_DIR_INPUT | PNET_DIR_OUTPUT | PNET_DIR_IO.

#[export] Instance pnet_event_eq_dec : EqDecision pnet_event_values_t.
Proof. solve_decision. Defined.

(** ** Configuration structures *)
Record pnet_cfg_device_id_t := mk_device_id {
  vendor_id_high : Z;
  vendor_id_low : Z;
  device_id_high : Z;
  device_id_low : Z;
}.

Record pnet_im_0_t := mk_im_0 {
  im_vendor_id_hi : Z;
  im_vendor_id_lo : Z;
  im_order_id : list ascii;       (* char[21] *)
  im_serial_number : list ascii;  (* char[17] *)
  im_hardware_revision : Z;
  im_sw_revision_prefix : ascii;
  im_sw_revision_functional_enhancement : Z;
  im_sw_revision_bug_fix : Z;
  im_sw_revision_internal_change : Z;
  im_revision_counter : Z;
  im_profile_id : Z;
  im_profile_specific_type : Z;
  im_version_major : Z;
  im_version_minor : Z;
  im_supported : Z;
}.

Record pnet_if_cfg_t := mk_if_cfg {
  netif_name : list ascii;  (* char[16] *)
  eth_addr : list byte;     (* uint8_t[6] *)
}.

Record pnal_cfg_t := mk_pnal_cfg {
  pnal_if_name : list ascii;  (* char[16] *)
  pnal_use_dhcp : bool;
  pnal_ip_addr : Z;
  pnal_netmask : Z;
  pnal_gateway : Z;
}.

(** [pnet_cfg_t], without the function pointers (each callback is a
    constructor of [indication] below), [cb_arg] and the I&M1-4 records, which
    the application leaves zeroed. *)
Record pnet_cfg_t := mk_pnet_cfg {
  pn_tick_us : Z;
  pn_im_0_data : pnet_im_0_t;
  pn_device_id : pnet_cfg_device_id_t;
  pn_oem_device_id : pnet_cfg_device_id_t;
  pn_station_name : list ascii;    (* char[241] *)
  pn_product_name : list ascii;    (* char[26] *)
  pn_min_device_interval : Z;
  pn_pnal_cfg : pnal_cfg_t;
  pn_send_hello : bool;
  pn_num_physical_ports : Z;
  pn_use_qualified_diagnosis : bool;
  pn_if_cfg : pnet_if_cfg_t;
  pn_file_directory : list ascii;  (* char[240] *)
}.

(** ** Callbacks

    One constructor per callback prototype; the stack returns the indications
    it raises, in order, with their arguments. *)
Inductive indication :=
  | state_ind (arep : Z) (event : pnet_event_values_t)
  | connect_ind (arep : Z)
  | release_ind (arep : Z)
  | dcontrol_ind (arep control_command : Z)
  | ccontrol_cnf (arep control_command : Z)
  | write_ind (arep api slot subslot index record_length : Z) (data : list byte)
  | read_ind (arep api slot subslot index : Z)
  | exp_module_ind (api slot module_ident : Z)
  | exp_submodule_ind (api slot subslot module_ident submodule_ident : Z)
      (direction : pnet_submodule_dir_t)
  | new_data_status_ind (arep changes : Z)
  | alarm_ind (arep api slot subslot : Z) (data : list byte)
  | alarm_cnf (arep : Z)
  | alarm_ack_cnf (arep : Z)
  | reset_ind (should_reset : bool)
  | signal_led_ind
  | sm_released_ind (arep api slot subslot : Z).

(** ** The stack

    [net] is the type of the object behind a [pnet_t *].  [pnet_init] may
    fail.  The data functions touch buffers of the caller, so they may run
    outside them. *)
Class PnetStack (net : Type) := {
  pnet_init : pnet_cfg_t -> option net;
  pnet_handle_periodic : net -> net * list indication;
  pnet_plug_module : net -> Z -> Z -> Z -> Z * net;
  pnet_plug_submodule :
    net -> Z -> Z -> Z -> Z -> Z -> pnet_submodule_dir_t -> Z -> Z -> exec (Z * net);
  (* net, api, slot, subslot, data, iops *)
  pnet_input_set_data_and_iops : net -> Z -> Z -> Z -> list byte -> Z -> exec (Z * net);
  (* net, api, slot, subslot, data, *data_len, *iops; returns the last three as well *)
  pnet_output_get_data_and_iops :
    net -> Z -> Z -> Z -> list byte -> Z -> Z -> exec (Z * net * (list byte * Z * Z));
  pnet_factory_reset : net -> Z * net;
}.

(** What the application may rely on: an invariant [stack_ok] of the stack
    object that every call that returns keeps, calls that stay inside the
    caller's buffers when these are as long as the stack takes them to be
    ([input_need] bytes for the input data, which come without a length;
    [*data_len] bytes for the output data), and an output length that never
    exceeds the length offered. *)
Class PnetStackOk (net : Type) {S : PnetStack net} := {
  stack_ok : net -> Prop;
  input_need : net -> Z -> Z -> Z -> Z;
  init_ok cfg n : pnet_init cfg = Some n -> stack_ok n;
  periodic_ok n n' inds : stack_ok n -> pnet_handle_periodic n = (n', inds) -> stack_ok n';
  plug_module_ok n api slot ident ret n' :
    stack_ok n -> pnet_plug_module n api slot ident = (ret, n') -> stack_ok n';
  plug_submodule_ok n api slot subslot mi si dir il ol :
    stack_ok n -> 0 <= il <= 256 -> 0 <= ol <= 256 ->
    exists ret n', pnet_plug_submodule n api slot subslot mi si dir il ol = Done (ret, n') /\
      stack_ok n';
  input_set_ok n api slot subslot data iops :
    stack_ok n -> input_need n api slot subslot <= zlen data ->
    exists ret n', pnet_input_set_data_and_iops n api slot subslot data iops = Done (ret, n') /\
      stack_ok n';
  input_set_keeps n api slot subslot data iops ret n' :
    stack_ok n -> pnet_input_set_data_and_iops n api slot subslot data iops = Done (ret, n') ->
    stack_ok n';
  output_get_ok n api slot subslot data len iops :
    stack_ok n -> 0 <= len <= zlen data ->
    exists ret n' data' len' iops',
      pnet_output_get_data_and_iops n api slot subslot data len iops =
        Done (ret, n', (data', len', iops')) /\
      stack_ok n' /\ zlen data' = zlen data /\ (ret = 0 -> 0 <= len' <= len);
}.
