(* ===== verification/Pnal.v ===== *)
(** * The platform layer headers (include/pnal_config.h, include/pnal_sys.h)

    The clock the stack's platform layer reads, in units of 10 ms.  [pnal_cfg_t]
    of pnal_sys.h is the record of PnetApi.  The types for threads, mutexes,
    semaphores and sockets and the logging macros have no code. *)
From S2P Require Import Prelude PnetApi.

Definition PNAL_IF_NAME_MAX_SIZE : nat := 16.
Definition PNAL_INVALID_SOCKET : Z := -1.

(** [struct timespec] as [clock_gettime (CLOCK_MONOTONIC, &ts)] fills it. *)
Record timespec := mk_timespec {
  tv_sec : Z;   (* time_t, 64 bits *)
  tv_nsec : Z;
}.

Definition timespec_ok (ts : timespec) : Prop := 0 <= tv_sec ts /\ 0 <= tv_nsec ts < 10 ^ 9.

(** A sum or product of [long]s; overflow is undefined. *)
Definition long_op (x : Z) : exec Z := access (bool_decide (- 2 ^ 63 <= x < 2 ^ 63));; Done x.

Definition pnal_get_system_uptime_10ms (ts : timespec) : exec Z :=
  s ← long_op (tv_sec ts * 100);
  t ← long_op (s + Z.quot (tv_nsec ts) 10000000);
  Done (u32 t).

(** Nanoseconds since the clock's start. *)
Definition nanoseconds (ts : timespec) : Z := tv_sec ts * 10 ^ 9 + tv_nsec ts.

Lemma uptime_eq ts : timespec_ok ts -> tv_sec ts < 2 ^ 56 ->
  pnal_get_system_uptime_10ms ts = Done (u32 (nanoseconds ts / 10 ^ 7)).
Proof.
  intros [Hs Hn] Hb. unfold pnal_get_system_uptime_10ms, long_op, nanoseconds.
  rewrite Z.quot_div_nonneg by lia. change 10000000 with (10 ^ 7).
  assert (0 <= tv_nsec ts / 10 ^ 7 < 100).
  { split; [apply Z.div_pos; lia|]. apply Z.div_lt_upper_bound; lia. }
  rewrite access_ok by lia. cbn [mbind exec_bind]. rewrite access_ok by lia. cbn [mbind exec_bind].
  do 2 f_equal. replace (tv_sec ts * 10 ^ 9 + tv_nsec ts) with (tv_nsec ts + tv_sec ts * 100 * 10 ^ 7) by lia.
  rewrite Z.div_add by lia. lia.
Qed.

Lemma mod_eq_iff x y m : 0 < m -> x mod m = y mod m <-> exists k, y = x + k * m.
Proof.
  intros Hm. split.
  - intros E. exists (y / m - x / m). pose proof (Z.div_mod x m). pose proof (Z.div_mod y m). lia.
  - intros [k ->]. by rewrite Z.mod_add by lia.
Qed.

(** C40: The uptime of the platform layer.  For a clock that has run less than two
    billion years nothing overflows, and the value is the time in whole units
    of 10 ms since the clock's start, rounded down, modulo 2^32.  Two readings
    are equal exactly when a multiple of 2^32 units lies between them.  As long
    as less than 497 days pass, the difference of two readings, as 32-bit
    numbers, is the number of units begun between them whatever wrap-around lies
    in between, and so the time between them to within one unit. *)
Theorem uptime_10ms_spec ts1 ts2 : timespec_ok ts1 -> timespec_ok ts2 ->
  tv_sec ts1 < 2 ^ 56 -> tv_sec ts2 < 2 ^ 56 ->
  exists u1 u2, pnal_get_system_uptime_10ms ts1 = Done u1 /\ pnal_get_system_uptime_10ms ts2 = Done u2 /\
    u1 = (nanoseconds ts1 / 10000000) mod 4294967296 /\
    u2 = (nanoseconds ts2 / 10000000) mod 4294967296 /\
    (u1 = u2 <-> exists k, nanoseconds ts2 / 10000000 = nanoseconds ts1 / 10000000 + k * 4294967296) /\
    (nanoseconds ts1 <= nanoseconds ts2 < nanoseconds ts1 + (2 ^ 32 - 1) * 10 ^ 7 ->
     u32 (u2 - u1) = nanoseconds ts2 / 10000000 - nanoseconds ts1 / 10000000 /\
     (u32 (u2 - u1) - 1) * 10 ^ 7 < nanoseconds ts2 - nanoseconds ts1 < (u32 (u2 - u1) + 1) * 10 ^ 7).
Proof.
  intros H1 H2 B1 B2. eexists _, _. split; [by apply uptime_eq|]. split; [by apply uptime_eq|].
  do 2 (split; [done|]). unfold u32, wrapu. change (2 ^ 32) with 4294967296.
  change (10 ^ 7) with 10000000.
  set (a := nanoseconds ts1). set (b := nanoseconds ts2). split; [apply mod_eq_iff; lia|].
  intros [Hle Hlt]. rewrite <-Zminus_mod.
  pose proof (Z.div_mod b 10000000 ltac:(lia)). pose proof (Z.div_mod a 10000000 ltac:(lia)).
  pose proof (Z.mod_pos_bound b 10000000 ltac:(lia)). pose proof (Z.mod_pos_bound a 10000000 ltac:(lia)).
  pose proof (Z.div_le_mono a b 10000000 ltac:(lia) Hle).
  rewrite Z.mod_small by lia. split; [done|]. lia.
Qed.

(** A second around the wrap at 497.1 days. *)
Lemma uptime_10ms_spec_witness : exists u1 u2,
  pnal_get_system_uptime_10ms (mk_timespec 42949672 950000000) = Done u1 /\
  pnal_get_system_uptime_10ms (mk_timespec 42949673 950000000) = Done u2 /\
  u1 = 4294967295 /\ u2 = 99 /\ u32 (u2 - u1) = 100.
Proof.
  destruct (uptime_10ms_spec (mk_timespec 42949672 950000000) (mk_timespec 42949673 950000000))
    as (u1 & u2 & E1 & E2 & _ & _ & _ & Hd).
  1-4: by vm_compute.
  destruct Hd as [Hd _]; [by vm_compute|]. exists u1, u2. split; [exact E1|]. split; [exact E2|].
  vm_compute in E1, E2. injection E1 as <-. injection E2 as <-. split; [done|]. split; [done|].
  rewrite Hd. by vm_compute.
Defined.
