(* ===== verification/PnetMock.v ===== *)
(** * The mock p-net stack (tests/mock/pnet_api_mock.c)

    The stack object is a table of at most 32 submodules with their data
    buffers.  The mock implements the interface of PnetApi; it raises no
    indications. *)
From S2P Require Import Prelude CString PnetApi.

Definition MOCK_MAX_SUBMODULES : Z := 32.

Record mock_submodule_t := mk_sm {
  sm_api : Z;
  sm_slot : Z;
  sm_subslot : Z;
  sm_module_ident : Z;
  sm_submodule_ident : Z;
  sm_direction : pnet_submodule_dir_t;
  sm_input_len : Z;
  sm_output_len : Z;
  sm_input_data : list byte;   (* uint8_t[256] *)
  sm_output_data : list byte;  (* uint8_t[256] *)
  sm_input_iops : Z;
  sm_output_iops : Z;
  sm_plugged : bool;
}.

Definition zero_sm : mock_submodule_t :=
  mk_sm 0 0 0 0 0 PNET_DIR_NO_IO 0 0 (replicate 256 Byte.x00) (replicate 256 Byte.x00)
    PNET_IOXS_BAD PNET_IOXS_BAD false.

(** [struct pnet] *)
Record pnet := mk_pnet {
  mock_cfg : pnet_cfg_t;
  initialized : bool;
  primary : bool;
  next_arep : Z;
  tick_count : Z;
  submodules : list mock_submodule_t;  (* mock_submodule_t[32] *)
  submodule_count : Z;
}.

Definition set_submodules (sms : list mock_submodule_t) (count : Z) (net : pnet) : pnet :=
  mk_pnet (mock_cfg net) (initialized net) (primary net) (next_arep net) (tick_count net) sms count.

(** ** The API functions

    The handle is not null where the application calls them; a failing
    [calloc] is the parameter [calloc_ok]. *)
Definition mock_init (calloc_ok : bool) (cfg : pnet_cfg_t) : option pnet :=
  if calloc_ok
  then Some (mk_pnet cfg true true 1 0 (replicate (Z.to_nat MOCK_MAX_SUBMODULES) zero_sm) 0)
  else None.

Definition mock_handle_periodic (net : pnet) : pnet * list indication :=
  if negb (initialized net) then (net, [])
  else (mk_pnet (mock_cfg net) (initialized net) (primary net) (next_arep net)
          (u32 (tick_count net + 1)) (submodules net) (submodule_count net), []).

Definition mock_application_ready (net : pnet) (arep : Z) : Z :=
  if negb (initialized net) then -1 else 0.

Definition mock_plug_module (net : pnet) (api slot module_ident : Z) : Z * pnet :=
  if negb (initialized net) then (-1, net) else (0, net).

Definition mock_plug_submodule (net : pnet) (api slot subslot module_ident submodule_ident : Z)
    (direction : pnet_submodule_dir_t) (length_input length_output : Z) : exec (Z * pnet) :=
  if negb (initialized net) then Done (-1, net)
  else if MOCK_MAX_SUBMODULES <=? submodule_count net then Done (-1, net)
  else
    sm ← arr_get (submodules net) (submodule_count net);
    sms ← arr_set (submodules net) (submodule_count net)
      (mk_sm api slot subslot module_ident submodule_ident direction length_input length_output
         (sm_input_data sm) (sm_output_data sm) PNET_IOXS_GOOD PNET_IOXS_GOOD true);
    Done (0, set_submodules sms (submodule_count net + 1) net).

Definition at_address (api slot subslot : Z) (sm : mock_submodule_t) : bool :=
  (sm_api sm =? api) && (sm_slot sm =? slot) && (sm_subslot sm =? subslot).

(** The search loops: [n] iterations from index [i]; the index and the first
    submodule that satisfies [f]. *)
Fixpoint find_sm (f : mock_submodule_t -> bool) (n : nat) (i : Z) (sms : list mock_submodule_t)
    : exec (option (Z * mock_submodule_t)) :=
  match n with
  | O => Done None
  | S n => sm ← arr_get sms i; if f sm then Done (Some (i, sm)) else find_sm f n (i + 1) sms
  end.

Definition set_plugged (b : bool) (sm : mock_submodule_t) : mock_submodule_t :=
  mk_sm (sm_api sm) (sm_slot sm) (sm_subslot sm) (sm_module_ident sm) (sm_submodule_ident sm)
    (sm_direction sm) (sm_input_len sm) (sm_output_len sm) (sm_input_data sm) (sm_output_data sm)
    (sm_input_iops sm) (sm_output_iops sm) b.

Definition set_input (data : list byte) (iops : Z) (sm : mock_submodule_t) : mock_submodule_t :=
  mk_sm (sm_api sm) (sm_slot sm) (sm_subslot sm) (sm_module_ident sm) (sm_submodule_ident sm)
    (sm_direction sm) (sm_input_len sm) (sm_output_len sm) data (sm_output_data sm)
    iops (sm_output_iops sm) (sm_plugged sm).

Definition mock_pull_submodule (net : pnet) (api slot subslot : Z) : exec (Z * pnet) :=
  r ← find_sm (at_address api slot subslot) (Z.to_nat (submodule_count net)) 0 (submodules net);
  match r with
  | Some (i, sm) =>
      sms ← arr_set (submodules net) i (set_plugged false sm);
      Done (0, set_submodules sms (submodule_count net) net)
  | None => Done (-1, net)
  end.

(** [memcpy (dst, src, n)] *)
Definition memcpy (dst src : list byte) (n : Z) : exec (list byte) :=
  access (bool_decide (0 <= n <= zlen src /\ n <= zlen dst));;
  Done (take (Z.to_nat n) src ++ drop (Z.to_nat n) dst).

Definition mock_input_set_data_and_iops (net : pnet) (api slot subslot : Z) (data : list byte)
    (iops : Z) : exec (Z * pnet) :=
  r ← find_sm (fun sm => at_address api slot subslot sm && sm_plugged sm)
        (Z.to_nat (submodule_count net)) 0 (submodules net);
  match r with
  | Some (i, sm) =>
      let len := if sm_input_len sm <? 256 then sm_input_len sm else 256 in
      d ← memcpy (sm_input_data sm) data len;
      sms ← arr_set (submodules net) i (set_input d iops sm);
      Done (0, set_submodules sms (submodule_count net) net)
  | None => Done (-1, net)
  end.

Definition mock_output_get_data_and_iops (net : pnet) (api slot subslot : Z) (data : list byte)
    (data_len iops : Z) : exec (Z * pnet * (list byte * Z * Z)) :=
  r ← find_sm (fun sm => at_address api slot subslot sm && sm_plugged sm)
        (Z.to_nat (submodule_count net)) 0 (submodules net);
  match r with
  | Some (_, sm) =>
      let len := if sm_output_len sm <? data_len then sm_output_len sm else data_len in
      d ← memcpy data (sm_output_data sm) len;
      Done (0, net, (d, u16 len, sm_output_iops sm))
  | None => Done (-1, net, (data, data_len, iops))
  end.

Definition mock_set_primary_state (net : pnet) (b : bool) : Z * pnet :=
  (0, mk_pnet (mock_cfg net) (initialized net) b (next_arep net) (tick_count net)
        (submodules net) (submodule_count net)).

(** Calls that answer without looking at the stack object. *)
Definition mock_pull_module (net : pnet) (api slot : Z) : Z * pnet := (0, net).
Definition mock_ar_abort (net : pnet) (arep : Z) : Z * pnet := (0, net).
Definition mock_remove_data_files (file_directory : list ascii) : Z := 0.

(** The return value and [*iocs]. *)
Definition mock_input_get_iocs (net : pnet) (api slot subslot : Z) : Z * Z := (0, PNET_IOXS_GOOD).

Definition mock_factory_reset (net : pnet) : Z * pnet := (0, net).

#[export] Instance mock_stack (calloc_ok : bool) : PnetStack pnet := {|
  pnet_init := mock_init calloc_ok;
  pnet_handle_periodic := mock_handle_periodic;
  pnet_plug_module := mock_plug_module;
  pnet_plug_submodule := mock_plug_submodule;
  pnet_input_set_data_and_iops := mock_input_set_data_and_iops;
  pnet_output_get_data_and_iops := mock_output_get_data_and_iops;
  pnet_factory_reset := mock_factory_reset;
|}.

(** ** The search loop as a list function *)
Fixpoint find_at (f : mock_submodule_t -> bool) (i : Z) (l : list mock_submodule_t)
    : option (Z * mock_submodule_t) :=
  match l with
  | [] => None
  | sm :: l => if f sm then Some (i, sm) else find_at f (i + 1) l
  end.

Lemma find_sm_eq f l2 : forall l1 zs,
  find_sm f (length l2) (zlen l1) (l1 ++ l2 ++ zs) = Done (find_at f (zlen l1) l2).
Proof.
  induction l2 as [|sm l2 IH]; intros l1 zs; [done|]. cbn [find_sm length find_at].
  change ((sm :: l2) ++ zs) with (sm :: l2 ++ zs). rewrite arr_get_mid. cbn [mbind exec_bind].
  destruct (f sm); [done|]. specialize (IH (l1 ++ [sm]) zs).
  rewrite <-app_assoc, zlen_app in IH. exact IH.
Qed.

Lemma find_at_Some f l i j sm :
  find_at f i l = Some (j, sm) ->
  f sm = true /\ i <= j < i + zlen l /\ l !! Z.to_nat (j - i) = Some sm.
Proof.
  revert i. induction l as [|x l IH]; intros i; [done|]. cbn [find_at]. rewrite zlen_cons.
  pose proof (zlen_nonneg l). destruct (f x) eqn:Hf.
  - intros [= <- <-]. split; [done|]. split; [lia|]. by rewrite Z.sub_diag.
  - intros H'. destruct (IH _ H') as (? & ? & Hl). split; [done|]. split; [lia|].
    by replace (Z.to_nat (j - i)) with (S (Z.to_nat (j - (i + 1)))) by lia.
Qed.

Lemma find_at_find f l i : snd <$> find_at f i l = List.find f l.
Proof.
  revert i. induction l as [|x l IH]; intros i; [done|]. cbn [find_at List.find].
  destruct (f x); [done|]. apply IH.
Qed.

(** ** The stack invariant *)
Definition sm_ok (sm : mock_submodule_t) : Prop :=
  zlen (sm_input_data sm) = 256 /\ zlen (sm_output_data sm) = 256 /\
  0 <= sm_input_len sm <= 256 /\ 0 <= sm_output_len sm <= 256.

Definition mock_ok (net : pnet) : Prop :=
  zlen (submodules net) = MOCK_MAX_SUBMODULES /\
  0 <= submodule_count net <= MOCK_MAX_SUBMODULES /\
  Forall sm_ok (submodules net).

#[export] Instance sm_ok_dec sm : Decision (sm_ok sm).
Proof. unfold sm_ok. apply _. Defined.
#[export] Instance mock_ok_dec net : Decision (mock_ok net).
Proof. unfold mock_ok. apply _. Defined.

(** The submodules in use, in the order they were plugged. *)
Definition plugged_list (net : pnet) : list mock_submodule_t :=
  take (Z.to_nat (submodule_count net)) (submodules net).

Section mock_lemmas.
Context (net : pnet) (Hok : mock_ok net).

Lemma find_sm_mock f :
  find_sm f (Z.to_nat (submodule_count net)) 0 (submodules net) =
  Done (find_at f 0 (plugged_list net)).
Proof using Hok.
  destruct Hok as (Hl & Hc & _). unfold plugged_list, MOCK_MAX_SUBMODULES in *.
  set (n := Z.to_nat (submodule_count net)).
  assert (length (take n (submodules net)) = n) as Hn.
  { rewrite length_take. unfold zlen in Hl. lia. }
  pose proof (find_sm_eq f (take n (submodules net)) [] (drop n (submodules net))) as E.
  rewrite Hn in E. cbn [app] in E. by rewrite take_drop in E.
Qed.

Lemma plugged_lookup i sm : plugged_list net !! i = Some sm -> submodules net !! i = Some sm.
Proof using.
  unfold plugged_list. intros H. rewrite lookup_take in H. by destruct (decide _).
Qed.

(** The submodule the search finds is a well-formed entry of the table. *)
Lemma find_at_ok f i sm : find_at f 0 (plugged_list net) = Some (i, sm) ->
  f sm = true /\ 0 <= i < submodule_count net /\ submodules net !! Z.to_nat i = Some sm /\ sm_ok sm.
Proof using Hok.
  intros H. destruct (find_at_Some _ _ _ _ _ H) as (Hf & Hi & Hl).
  rewrite Z.sub_0_r in Hl. apply plugged_lookup in Hl. split; [done|].
  destruct Hok as (Hlen & Hc & Hall). split; [|split; [done|]].
  - assert (zlen (plugged_list net) <= submodule_count net); [|lia].
    unfold plugged_list, zlen. rewrite length_take. lia.
  - rewrite Forall_lookup in Hall. by eapply Hall.
Qed.

Lemma arr_set_sm i sm (x : mock_submodule_t) :
  submodules net !! Z.to_nat i = Some sm -> 0 <= i ->
  arr_set (submodules net) i x = Done (<[Z.to_nat i := x]> (submodules net)).
Proof using.
  intros Hl Hi. unfold arr_set. rewrite access_ok; [done|]. split; [done|].
  apply lookup_lt_Some in Hl. unfold zlen. lia.
Qed.

Lemma set_submodules_ok i x c :
  sm_ok x -> 0 <= c <= MOCK_MAX_SUBMODULES ->
  mock_ok (set_submodules (<[i := x]> (submodules net)) c net).
Proof using Hok.
  intros Hx Hc. destruct Hok as (Hlen & _ & Hall). unfold mock_ok. cbn [submodules submodule_count set_submodules].
  split; [|split; [done|by apply Forall_insert]].
  unfold zlen in *. by rewrite length_insert.
Qed.
End mock_lemmas.

Lemma memcpy_ok dst src n : 0 <= n -> n <= zlen src -> n <= zlen dst ->
  exists d, memcpy dst src n = Done d /\ zlen d = zlen dst /\
    take (Z.to_nat n) d = take (Z.to_nat n) src /\ drop (Z.to_nat n) d = drop (Z.to_nat n) dst.
Proof.
  intros H0 Hs Hd. unfold memcpy. rewrite access_ok by done. eexists. split; [done|].
  unfold zlen in *. assert (length (take (Z.to_nat n) src) = Z.to_nat n) as Hl
    by (rewrite length_take; lia).
  split; [|split].
  - rewrite length_app, Hl, length_drop. lia.
  - rewrite <-Hl at 1. apply take_app_length.
  - rewrite <-Hl at 1. apply drop_app_length.
Qed.

(** A copy that returns was inside both buffers. *)
Lemma memcpy_inv dst src n d : memcpy dst src n = Done d ->
  0 <= n <= zlen src /\ n <= zlen dst.
Proof. unfold memcpy. intros ([] & H%access_inv & _)%exec_bind_inv. by apply bool_decide_eq_true in H. Qed.

Lemma memcpy_length dst src n d : memcpy dst src n = Done d -> zlen d = zlen dst.
Proof.
  intros H. destruct (memcpy_inv _ _ _ _ H) as [[? ?] ?].
  destruct (memcpy_ok dst src n) as (d' & E & ? & _); [done..|]. congruence.
Qed.

(** Outside one of them it does not. *)
Lemma memcpy_past dst src n : zlen dst < n -> memcpy dst src n = Undefined.
Proof.
  intros H. destruct (memcpy dst src n) as [d|] eqn:E; [|done]. apply memcpy_inv in E. lia.
Qed.

Definition mock_input_need (net : pnet) (api slot subslot : Z) : Z :=
  match List.find (fun sm => at_address api slot subslot sm && sm_plugged sm) (plugged_list net) with
  | Some sm => sm_input_len sm
  | None => 0
  end.

(** The mock keeps the promises of the interface. *)
#[export] Program Instance mock_stack_ok (calloc_ok : bool) :
    @PnetStackOk pnet (mock_stack calloc_ok) := {|
  stack_ok := mock_ok;
  input_need := mock_input_need;
|}.
Next Obligation.
  intros c cfg n. simpl. unfold mock_init. destruct c; [|done]. intros [= <-].
  unfold mock_ok. cbn [submodules submodule_count]. split; [done|]. split; [done|].
  apply (Forall_replicate sm_ok 32 zero_sm). by apply (bool_decide_eq_true_1 (sm_ok zero_sm)); vm_compute.
Qed.
Next Obligation.
  intros c n n' inds Hok. simpl. unfold mock_handle_periodic.
  destruct (negb _); by intros [= <- <-].
Qed.
Next Obligation.
  intros c n api slot ident ret n' Hok. simpl. unfold mock_plug_module.
  destruct (negb _); by intros [= <- <-].
Qed.
Next Obligation.
  intros c n api slot subslot mi si dir il ol Hok Hil Hol. simpl. unfold mock_plug_submodule.
  destruct (negb _); [by exists (-1), n|].
  destruct (Z.leb_spec MOCK_MAX_SUBMODULES (submodule_count n)) as [|Hlt]; [by exists (-1), n|].
  pose proof Hok as (Hlen & Hc & Hall).
  destruct (lookup_lt_is_Some_2 (submodules n) (Z.to_nat (submodule_count n))) as [sm Hsm];
    [unfold zlen in *; lia|].
  unfold arr_get at 1. rewrite bool_decide_eq_true_2, Hsm by lia. cbn [mbind exec_bind].
  rewrite (arr_set_sm n _ sm) by (done || lia). cbn [mbind exec_bind]. eexists _, _. split; [done|].
  apply set_submodules_ok; [done| |lia]. rewrite Forall_lookup in Hall.
  destruct (Hall _ _ Hsm) as (? & ? & ? & ?). done.
Qed.
Next Obligation.
  intros c n api slot subslot data iops Hok. simpl. unfold mock_input_need, mock_input_set_data_and_iops.
  rewrite find_sm_mock by done. cbn [mbind exec_bind].
  rewrite <-(find_at_find _ _ 0). destruct (find_at _ 0 _) as [[i sm]|] eqn:E; [|intros; by exists (-1), n].
  destruct (find_at_ok n Hok _ _ _ E) as (_ & Hi & Hl & Hsm). pose proof Hsm as (Hid & Hod & Hil & Hol).
  cbn [fmap option_fmap option_map snd]. intros Hneed.
  set (len := if _ <? _ then _ else _).
  assert (len = sm_input_len sm) as -> by (unfold len; destruct (Z.ltb_spec (sm_input_len sm) 256); lia).
  destruct (memcpy_ok (sm_input_data sm) data (sm_input_len sm)) as (d & -> & Hd & _); [lia..|].
  cbn [mbind exec_bind]. rewrite (arr_set_sm n _ sm) by (done || lia). eexists _, _. split; [done|].
  apply set_submodules_ok; [done| |by destruct Hok as (_ & ? & _)].
  unfold sm_ok. cbn. rewrite Hd. done.
Qed.
Next Obligation.
  intros c n api slot subslot data iops ret n' Hok. simpl. unfold mock_input_set_data_and_iops.
  rewrite find_sm_mock by done. cbn [mbind exec_bind].
  destruct (find_at _ 0 _) as [[i sm]|] eqn:E; [|by intros [= _ <-]].
  destruct (find_at_ok n Hok _ _ _ E) as (_ & Hi & Hl & Hsm). pose proof Hsm as (Hid & Hod & Hil & Hol).
  intros (d & Hd & H)%exec_bind_inv. apply memcpy_length in Hd.
  rewrite (arr_set_sm n _ sm) in H by (done || lia). injection H as _ <-.
  apply set_submodules_ok; [done| |by destruct Hok as (_ & ? & _)].
  unfold sm_ok. cbn. by rewrite Hd.
Qed.
Next Obligation.
  intros c n api slot subslot data len iops Hok Hlen. simpl. unfold mock_output_get_data_and_iops.
  rewrite find_sm_mock by done. cbn [mbind exec_bind].
  destruct (find_at _ 0 _) as [[i sm]|] eqn:E; [|by eexists _, _, _, _, _].
  destruct (find_at_ok n Hok _ _ _ E) as (_ & Hi & Hl & Hsm). destruct Hsm as (Hid & Hod & Hil & Hol).
  set (k := if _ <? _ then _ else _).
  assert (0 <= k <= len /\ k <= 256) as [Hk Hk'].
  { unfold k. destruct (Z.ltb_spec (sm_output_len sm) len); lia. }
  destruct (memcpy_ok data (sm_output_data sm) k) as (d & -> & Hd & _); [lia..|].
  cbn [mbind exec_bind]. eexists _, _, _, _, _. split; [done|]. split; [done|]. split; [done|].
  intros _. unfold u16. rewrite wrapu_small by (unfold in_u; lia). done.
Qed.
