(* ===== verification/IoDevice.v ===== *)
(** * The IO device (src/app/io_device.c, include/io_device.h)

    The life cycle of a PROFINET IO device on top of any p-net stack: the
    device object, its operations, the callbacks the stack raises, and the
    module configuration.  Everything is written against the interface of
    PnetApi, as the default build compiles it; the build against the real
    stack is in RealStack, the texts printed are in Messages. *)
From S2P Require Import Prelude CString PnetApi PnetMock.

(** ** Data *)

Record io_device_cfg_t := mk_device_cfg {
  product_name : list ascii;    (* char[26] *)
  station_name : list ascii;    (* char[241] *)
  interface_name : list ascii;  (* char[16] *)
  mac_addr : list byte;         (* uint8_t[6] *)
  ip_addr : Z;
  netmask : Z;
  gateway : Z;
  vendor_id : Z;                (* uint16_t *)
  device_id : Z;                (* uint16_t *)
  tick_us : Z;
  send_hello : bool;
  file_directory : list ascii;  (* char[240] *)
}.

Inductive io_device_state_t :=
  | IO_DEVICE_STATE_IDLE | IO_DEVICE_STATE_INITIALIZED | IO_DEVICE_STATE_CONNECTED
  | IO_DEVICE_STATE_RUNNING | IO_DEVICE_STATE_ERROR | IO_DEVICE_STATE_OTHER (v : Z).

#[export] Instance io_device_state_eq_dec : EqDecision io_device_state_t.
Proof. solve_decision. Defined.

(** The device object; [net] is the type of the stack object its handle points
    to, [None] the null handle. *)
Record io_device_t {net : Type} := mk_device {
  config : io_device_cfg_t;
  state : io_device_state_t;
  pnet_handle : option net;
  active_arep : Z;
  cycle_count : Z;             (* uint64_t *)
  error_count : Z;             (* uint64_t *)
  input_data : list byte;      (* uint8_t[256] *)
  output_data : list byte;     (* uint8_t[256] *)
  input_size : Z;              (* uint16_t *)
  output_size : Z;             (* uint16_t *)
}.
Arguments io_device_t : clear implicits.
Arguments mk_device {net}.

Definition EXAMPLE_API : Z := 0.
Definition EXAMPLE_SLOT : Z := 1.
Definition EXAMPLE_MODULE_IDENT : Z := 0x00000030.
Definition EXAMPLE_SUBSLOT_INPUT : Z := 0x00000001.
Definition EXAMPLE_SUBMOD_INPUT : Z := 0x00000031.
Definition EXAMPLE_INPUT_SIZE : Z := 1.
Definition EXAMPLE_SUBSLOT_OUTPUT : Z := 0x00000002.
Definition EXAMPLE_SUBMOD_OUTPUT : Z := 0x00000032.
Definition EXAMPLE_OUTPUT_SIZE : Z := 1.

(** Objects whose bytes are all zero. *)
Definition zero_device_cfg : io_device_cfg_t :=
  mk_device_cfg (replicate 26 nul) (replicate 241 nul) (replicate 16 nul)
    (replicate 6 Byte.x00) 0 0 0 0 0 0 false (replicate 240 nul).

Definition zero_device {net} : io_device_t net :=
  mk_device zero_device_cfg IO_DEVICE_STATE_IDLE None 0 0 0
    (replicate 256 Byte.x00) (replicate 256 Byte.x00) 0 0.

Section device.
Context {net : Type}.
Implicit Types dev : io_device_t net.

(** Assignments to one field. *)
Definition set_state (s : io_device_state_t) dev : io_device_t net :=
  mk_device (config dev) s (pnet_handle dev) (active_arep dev) (cycle_count dev)
    (error_count dev) (input_data dev) (output_data dev) (input_size dev) (output_size dev).
Definition set_handle (h : option net) dev : io_device_t net :=
  mk_device (config dev) (state dev) h (active_arep dev) (cycle_count dev)
    (error_count dev) (input_data dev) (output_data dev) (input_size dev) (output_size dev).
Definition set_active_arep (a : Z) dev : io_device_t net :=
  mk_device (config dev) (state dev) (pnet_handle dev) a (cycle_count dev)
    (error_count dev) (input_data dev) (output_data dev) (input_size dev) (output_size dev).
Definition set_cycle_count (c : Z) dev : io_device_t net :=
  mk_device (config dev) (state dev) (pnet_handle dev) (active_arep dev) c
    (error_count dev) (input_data dev) (output_data dev) (input_size dev) (output_size dev).
Definition set_error_count (c : Z) dev : io_device_t net :=
  mk_device (config dev) (state dev) (pnet_handle dev) (active_arep dev) (cycle_count dev)
    c (input_data dev) (output_data dev) (input_size dev) (output_size dev).
Definition set_input_cache (d : list byte) (n : Z) dev : io_device_t net :=
  mk_device (config dev) (state dev) (pnet_handle dev) (active_arep dev) (cycle_count dev)
    (error_count dev) d (output_data dev) n (output_size dev).
Definition set_output_cache (d : list byte) (n : Z) dev : io_device_t net :=
  mk_device (config dev) (state dev) (pnet_handle dev) (active_arep dev) (cycle_count dev)
    (error_count dev) (input_data dev) d (input_size dev) n.

(** ** Callbacks

    Each returns its C return value and the device behind [arg]; all but
    the first only print. *)
Definition app_state_ind_cb (arep : Z) (event : pnet_event_values_t) dev : Z * io_device_t net :=
  let dev := if bool_decide (event = PNET_EVENT_STARTUP) then set_active_arep arep dev else dev in
  let dev :=
    if bool_decide (event = PNET_EVENT_DATA) then set_state IO_DEVICE_STATE_RUNNING dev
    else if bool_decide (event = PNET_EVENT_ABORT) then
      set_active_arep 0 (set_state IO_DEVICE_STATE_CONNECTED dev)
    else dev in
  (0, dev).

Definition app_connect_ind_cb (arep : Z) dev : Z * io_device_t net := (0, dev).
Definition app_release_ind_cb (arep : Z) dev : Z * io_device_t net := (0, dev).
Definition app_dcontrol_ind_cb (arep control_command : Z) dev : Z * io_device_t net := (0, dev).
Definition app_ccontrol_cnf_cb (arep control_command : Z) dev : Z * io_device_t net := (0, dev).
Definition app_write_ind_cb (arep api slot subslot index record_length : Z) (data : list byte) dev
  : Z * io_device_t net := (0, dev).
Definition app_read_ind_cb (arep api slot subslot index : Z) dev : Z * io_device_t net := (0, dev).
Definition app_exp_module_ind_cb (api slot module_ident : Z) dev : Z * io_device_t net := (0, dev).
Definition app_exp_submodule_ind_cb (api slot subslot module_ident submodule_ident : Z)
  (direction : pnet_submodule_dir_t) dev : Z * io_device_t net := (0, dev).
Definition app_new_data_status_ind_cb (arep changes : Z) dev : Z * io_device_t net := (0, dev).
Definition app_alarm_ind_cb (arep api slot subslot : Z) (data : list byte) dev
  : Z * io_device_t net := (0, dev).
Definition app_alarm_cnf_cb (arep : Z) dev : Z * io_device_t net := (0, dev).
Definition app_alarm_ack_cnf_cb (arep : Z) dev : Z * io_device_t net := (0, dev).
Definition app_reset_ind_cb (should_reset : bool) dev : Z * io_device_t net := (0, dev).
Definition app_signal_led_ind_cb dev : Z * io_device_t net := (0, dev).
Definition app_sm_released_ind_cb (arep api slot subslot : Z) dev : Z * io_device_t net := (0, dev).

(** The callbacks as [io_device_start] registers them, by indication. *)
Definition callback (ind : indication) : io_device_t net -> Z * io_device_t net :=
  match ind with
  | state_ind arep event => app_state_ind_cb arep event
  | connect_ind arep => app_connect_ind_cb arep
  | release_ind arep => app_release_ind_cb arep
  | dcontrol_ind arep cmd => app_dcontrol_ind_cb arep cmd
  | ccontrol_cnf arep cmd => app_ccontrol_cnf_cb arep cmd
  | write_ind arep api slot subslot idx len data =>
      app_write_ind_cb arep api slot subslot idx len data
  | read_ind arep api slot subslot idx => app_read_ind_cb arep api slot subslot idx
  | exp_module_ind api slot mi => app_exp_module_ind_cb api slot mi
  | exp_submodule_ind api slot subslot mi si dir =>
      app_exp_submodule_ind_cb api slot subslot mi si dir
  | new_data_status_ind arep changes => app_new_data_status_ind_cb arep changes
  | alarm_ind arep api slot subslot data => app_alarm_ind_cb arep api slot subslot data
  | alarm_cnf arep => app_alarm_cnf_cb arep
  | alarm_ack_cnf arep => app_alarm_ack_cnf_cb arep
  | reset_ind b => app_reset_ind_cb b
  | signal_led_ind => app_signal_led_ind_cb
  | sm_released_ind arep api slot subslot => app_sm_released_ind_cb arep api slot subslot
  end.

(** The indications of one call into the stack, in order. *)
Definition run_callbacks (inds : list indication) dev : io_device_t net :=
  foldl (fun dev ind => (callback ind dev).2) dev inds.

(** ** Life cycle without the stack *)

Definition io_device_init (dev : option (io_device_t net)) (cfg : option io_device_cfg_t)
    : Z * option (io_device_t net) :=
  match dev, cfg with
  | Some _, Some cfg =>
      (0, Some (mk_device cfg IO_DEVICE_STATE_INITIALIZED None 0 0 0
                  (replicate 256 Byte.x00) (replicate 256 Byte.x00)
                  EXAMPLE_INPUT_SIZE EXAMPLE_OUTPUT_SIZE))
  | _, _ => (-1, dev)
  end.

Definition io_device_cleanup (dev : option (io_device_t net)) : option (io_device_t net) :=
  match dev with
  | None => None
  | Some _ => Some (set_state IO_DEVICE_STATE_IDLE zero_device)
  end.

Definition io_device_get_state (dev : option (io_device_t net)) : io_device_state_t :=
  match dev with None => IO_DEVICE_STATE_ERROR | Some dev => state dev end.
End device.

Definition io_device_state_str (s : io_device_state_t) : list ascii :=
  match s with
  | IO_DEVICE_STATE_IDLE => lit "IDLE"
  | IO_DEVICE_STATE_INITIALIZED => lit "INITIALIZED"
  | IO_DEVICE_STATE_CONNECTED => lit "CONNECTED"
  | IO_DEVICE_STATE_RUNNING => lit "RUNNING"
  | IO_DEVICE_STATE_ERROR => lit "ERROR"
  | IO_DEVICE_STATE_OTHER _ => lit "UNKNOWN"
  end.

Definition event_name (e : pnet_event_values_t) : list ascii :=
  match e with
  | PNET_EVENT_ABORT => lit "ABORT"
  | PNET_EVENT_STARTUP => lit "STARTUP"
  | PNET_EVENT_PRMEND => lit "PRMEND"
  | PNET_EVENT_APPLRDY => lit "APPLRDY"
  | PNET_EVENT_DATA => lit "DATA"
  | PNET_EVENT_OTHER _ => lit "UNKNOWN"
  end.

(** ** The stack configuration [io_device_start] builds *)

(** [vendor_id] and [device_id] split into bytes. *)
Definition device_identity (c : io_device_cfg_t) : pnet_cfg_device_id_t :=
  mk_device_id (u8 (Z.shiftr (vendor_id c) 8)) (u8 (Z.land (vendor_id c) 0xFF))
    (u8 (Z.shiftr (device_id c) 8)) (u8 (Z.land (device_id c) 0xFF)).

Definition im_0_of (id : pnet_cfg_device_id_t) : pnet_im_0_t :=
  mk_im_0 (vendor_id_high id) (vendor_id_low id)
    (safe_strncpy (replicate 21 nul) (lit "PNET-IO-DEVICE") 21)
    (safe_strncpy (replicate 17 nul) (lit "00001") 17)
    1 "V" 0 1 0 0 0 0 1 0 PNET_SUPPORTED_IM1.

(** [memset (&pnet_cfg, 0, sizeof pnet_cfg)] and the assignments after it (the
    mock-API variant of the conditional parts); the copied strings are read
    from the configuration's arrays. *)
Definition build_pnet_cfg (c : io_device_cfg_t) : exec pnet_cfg_t :=
  product ← read_str (product_name c);
  station ← read_str (station_name c);
  ifname ← read_str (interface_name c);
  directory ← read_str (file_directory c);
  let id := device_identity c in
  Done (mk_pnet_cfg (tick_us c) (im_0_of id) id id
    (safe_strncpy (replicate 241 nul) station 241)
    (safe_strncpy (replicate 26 nul) product 26)
    32
    (mk_pnal_cfg (safe_strncpy (replicate 16 nul) ifname 16) false (ip_addr c) (netmask c)
       (gateway c))
    (send_hello c) 1 false
    (mk_if_cfg (safe_strncpy (replicate 16 nul) ifname 16) (mac_addr c))
    (safe_strncpy (replicate 240 nul) directory 240)).

(** ** Operations on the stack *)
Section operations.
Context {net : Type} `{!PnetStack net}.
Implicit Types dev : io_device_t net.

(** [plug_all_modules]: the seven plug calls, in order, stopping at the
    first one that fails. *)
Definition plug_all_modules (n : net) : exec (Z * net) :=
  let '(ret, n) := pnet_plug_module n PNET_API_NO_APPLICATION_PROFILE PNET_SLOT_DAP_IDENT
                     PNET_MOD_DAP_IDENT in
  if negb (ret =? 0) then Done (ret, n) else
  '(ret, n) ← pnet_plug_submodule n PNET_API_NO_APPLICATION_PROFILE PNET_SLOT_DAP_IDENT
                PNET_SUBSLOT_DAP_WHOLE_MODULE PNET_MOD_DAP_IDENT PNET_SUBMOD_DAP_IDENT
                PNET_DIR_NO_IO 0 0;
  if negb (ret =? 0) then Done (ret, n) else
  '(ret, n) ← pnet_plug_submodule n PNET_API_NO_APPLICATION_PROFILE PNET_SLOT_DAP_IDENT
                PNET_SUBSLOT_DAP_INTERFACE_1_IDENT PNET_MOD_DAP_IDENT
                PNET_SUBMOD_DAP_INTERFACE_1_IDENT PNET_DIR_NO_IO 0 0;
  if negb (ret =? 0) then Done (ret, n) else
  '(ret, n) ← pnet_plug_submodule n PNET_API_NO_APPLICATION_PROFILE PNET_SLOT_DAP_IDENT
                PNET_SUBSLOT_DAP_INTERFACE_1_PORT_1_IDENT PNET_MOD_DAP_IDENT
                PNET_SUBMOD_DAP_INTERFACE_1_PORT_1_IDENT PNET_DIR_NO_IO 0 0;
  if negb (ret =? 0) then Done (ret, n) else
  let '(ret, n) := pnet_plug_module n EXAMPLE_API EXAMPLE_SLOT EXAMPLE_MODULE_IDENT in
  if negb (ret =? 0) then Done (ret, n) else
  '(ret, n) ← pnet_plug_submodule n EXAMPLE_API EXAMPLE_SLOT EXAMPLE_SUBSLOT_INPUT
                EXAMPLE_MODULE_IDENT EXAMPLE_SUBMOD_INPUT PNET_DIR_INPUT EXAMPLE_INPUT_SIZE 0;
  if negb (ret =? 0) then Done (ret, n) else
  '(ret, n) ← pnet_plug_submodule n EXAMPLE_API EXAMPLE_SLOT EXAMPLE_SUBSLOT_OUTPUT
                EXAMPLE_MODULE_IDENT EXAMPLE_SUBMOD_OUTPUT PNET_DIR_OUTPUT 0 EXAMPLE_OUTPUT_SIZE;
  if negb (ret =? 0) then Done (ret, n) else Done (0, n).

Definition io_device_start (dev : option (io_device_t net))
    : exec (Z * option (io_device_t net)) :=
  match dev with
  | None => Done (-1, None)
  | Some dev =>
      if negb (bool_decide (state dev = IO_DEVICE_STATE_INITIALIZED)) then Done (-1, Some dev)
      else
        pnet_cfg ← build_pnet_cfg (config dev);
        match pnet_init pnet_cfg with
        | None => Done (-1, Some (set_state IO_DEVICE_STATE_ERROR (set_handle None dev)))
        | Some n =>
            '(ret, n) ← plug_all_modules n;
            let dev := set_handle (Some n) dev in
            if negb (ret =? 0) then Done (-1, Some (set_state IO_DEVICE_STATE_ERROR dev))
            else Done (0, Some (set_state IO_DEVICE_STATE_CONNECTED dev))
        end
  end.

(** The handle is passed by reference: the stack object changes in place,
    then the indications it raised reach the device, then the counter moves. *)
Definition io_device_tick (dev : option (io_device_t net)) : Z * option (io_device_t net) :=
  match dev with
  | None => (-1, None)
  | Some dev =>
      match pnet_handle dev with
      | None => (-1, Some dev)
      | Some n =>
          if bool_decide (state dev = IO_DEVICE_STATE_ERROR) then (-1, Some dev)
          else
            let '(n, inds) := pnet_handle_periodic n in
            let dev := run_callbacks inds (set_handle (Some n) dev) in
            (0, Some (set_cycle_count (u64 (cycle_count dev + 1)) dev))
      end
  end.

(** The result of the factory reset is only logged. *)
Definition io_device_stop (dev : option (io_device_t net)) : Z * option (io_device_t net) :=
  match dev with
  | None => (-1, None)
  | Some dev =>
      match pnet_handle dev with
      | None => (-1, Some dev)
      | Some n =>
          let '(_, n) := pnet_factory_reset n in
          (0, io_device_cleanup (Some (set_handle (Some n) dev)))
      end
  end.

(** [data] is the caller's buffer, [None] for a null pointer, and [len] the
    length the caller passes. *)
Definition io_device_update_input (dev : option (io_device_t net)) (data : option (list byte))
    (len : Z) : exec (Z * option (io_device_t net)) :=
  match dev with
  | None => Done (-1, None)
  | Some dev =>
      match pnet_handle dev, data with
      | Some n, Some data =>
          if 256 <? len then Done (-1, Some dev)
          else
            d ← memcpy (input_data dev) data len;
            let dev := set_input_cache d len dev in
            '(ret, n) ← pnet_input_set_data_and_iops n EXAMPLE_API EXAMPLE_SLOT
                          EXAMPLE_SUBSLOT_INPUT data PNET_IOXS_GOOD;
            Done (ret, Some (set_handle (Some n) dev))
      | _, _ => Done (-1, Some dev)
      end
  end.

(** The result is the return value, the device, the caller's buffer and
    [*len]. *)
Definition io_device_read_output (dev : option (io_device_t net)) (data : option (list byte))
    (len : option Z) : exec (Z * option (io_device_t net) * option (list byte) * option Z) :=
  match dev with
  | None => Done (-1, None, data, len)
  | Some dev =>
      match pnet_handle dev, data, len with
      | Some n, Some buf, Some data_len =>
          '(ret, n, (buf, data_len', _)) ←
            pnet_output_get_data_and_iops n EXAMPLE_API EXAMPLE_SLOT EXAMPLE_SUBSLOT_OUTPUT
              buf data_len PNET_IOXS_BAD;
          let dev := set_handle (Some n) dev in
          if ret =? 0 then
            d ← memcpy (output_data dev) buf data_len';
            Done (ret, Some (set_output_cache d data_len' dev), Some buf, Some data_len')
          else Done (ret, Some dev, Some buf, Some data_len)
      | _, _, _ => Done (-1, Some dev, data, len)
      end
  end.
End operations.

(** ** Configurations the operations can read *)

(** The character arrays of a configuration hold C strings. *)
Definition device_cfg_ok (c : io_device_cfg_t) : Prop :=
  terminated (product_name c) /\ terminated (station_name c) /\
  terminated (interface_name c) /\ terminated (file_directory c).

#[export] Instance device_cfg_ok_dec c : Decision (device_cfg_ok c).
Proof. unfold device_cfg_ok. apply _. Defined.

Lemma build_pnet_cfg_ok c : device_cfg_ok c ->
  build_pnet_cfg c = Done
    (let id := device_identity c in
     mk_pnet_cfg (tick_us c) (im_0_of id) id id
       (safe_strncpy (replicate 241 nul) (c_str (station_name c)) 241)
       (safe_strncpy (replicate 26 nul) (c_str (product_name c)) 26)
       32
       (mk_pnal_cfg (safe_strncpy (replicate 16 nul) (c_str (interface_name c)) 16) false
          (ip_addr c) (netmask c) (gateway c))
       (send_hello c) 1 false
       (mk_if_cfg (safe_strncpy (replicate 16 nul) (c_str (interface_name c)) 16) (mac_addr c))
       (safe_strncpy (replicate 240 nul) (c_str (file_directory c)) 240)).
Proof.
  intros (Hp & Hs & Hi & Hf). unfold build_pnet_cfg.
  by rewrite !read_str_ok by done.
Qed.

(** The arrays of a configuration have their declared sizes. *)
Definition device_cfg_sized (c : io_device_cfg_t) : Prop :=
  length (product_name c) = 26%nat /\ length (station_name c) = 241%nat /\
  length (interface_name c) = 16%nat /\ length (file_directory c) = 240%nat.

(** A string fits any array of NULs as large as the one it came from. *)
Lemma safe_strncpy_keeps n buf :
  terminated buf -> length buf = S n ->
  c_str (safe_strncpy (replicate (S n) nul) (c_str buf) (S n)) = c_str buf.
Proof.
  intros Ht Hlen. pose proof (length_c_str buf Ht).
  rewrite safe_strncpy_zero, (take_ge (c_str buf)) by lia.
  apply c_str_to_array; [auto with pnet|lia].
Qed.

(** The two bytes of a 16-bit identifier. *)
Lemma u16_split x : in_u 16 x -> u8 (Z.shiftr x 8) * 256 + u8 (Z.land x 0xFF) = x.
Proof.
  unfold in_u, u8, wrapu. intros. change 0xFF with (Z.ones 8).
  rewrite Z.land_ones, Z.shiftr_div_pow2 by lia. change (2 ^ 8) with 256.
  Z.to_euclidean_division_equations. lia.
Qed.

(** ** The connection as the indications describe it *)
Definition connection_event (ind : indication) : option io_device_state_t :=
  match ind with
  | state_ind _ PNET_EVENT_DATA => Some IO_DEVICE_STATE_RUNNING
  | state_ind _ PNET_EVENT_ABORT => Some IO_DEVICE_STATE_CONNECTED
  | _ => None
  end.

Definition arep_event (ind : indication) : option Z :=
  match ind with
  | state_ind arep PNET_EVENT_STARTUP => Some arep
  | state_ind _ PNET_EVENT_ABORT => Some 0
  | _ => None
  end.

(** The value of the last event of a trace, if there was one. *)
Definition last_event {A} (f : indication -> option A) (init : A) (inds : list indication) : A :=
  default init (last (omap f inds)).

Lemma last_event_cons {A} (f : indication -> option A) a ind inds :
  last_event f a (ind :: inds) = last_event f (default a (f ind)) inds.
Proof.
  unfold last_event. cbn [omap list_omap]. destruct (f ind) as [b|]; [|done].
  cbn [default]. rewrite last_cons. by destruct (last _).
Qed.

Lemma last_event_app {A} (f : indication -> option A) a l k :
  last_event f a (l ++ k) = last_event f (last_event f a l) k.
Proof.
  revert a. induction l as [|ind l IH]; intros a; [done|].
  change ((ind :: l) ++ k) with (ind :: l ++ k). by rewrite !last_event_cons, IH.
Qed.

Lemma last_event_in {A} (f : indication -> option A) (P : A -> Prop) a inds :
  P a -> (forall ind b, f ind = Some b -> P b) -> P (last_event f a inds).
Proof.
  intros Ha Hf. revert a Ha. induction inds as [|ind inds IH]; intros a Ha; [done|].
  rewrite last_event_cons. apply IH. destruct (f ind) eqn:E; [by eapply Hf|done].
Qed.

Definition live (s : io_device_state_t) : Prop :=
  s = IO_DEVICE_STATE_CONNECTED \/ s = IO_DEVICE_STATE_RUNNING.

Lemma last_event_live s inds : live s -> live (last_event connection_event s inds).
Proof.
  intros Hs. apply last_event_in; [done|]. unfold live.
  intros [arep []| | | | | | | | | | | | | | |]; naive_solver.
Qed.

Section callbacks.
Context {net : Type}.
Implicit Types dev : io_device_t net.

(** A callback changes the state and the active AREP, nothing else. *)
Lemma callback_spec ind dev :
  callback ind dev =
    (0, set_active_arep (default (active_arep dev) (arep_event ind))
          (set_state (default (state dev) (connection_event ind)) dev)).
Proof using. destruct dev, ind as [arep []| | | | | | | | | | | | | | |]; reflexivity. Qed.

Lemma run_callbacks_spec inds dev :
  run_callbacks inds dev =
    set_active_arep (last_event arep_event (active_arep dev) inds)
      (set_state (last_event connection_event (state dev) inds) dev).
Proof using.
  revert dev. induction inds as [|ind inds IH]; intros dev; [by destruct dev|].
  change (run_callbacks (ind :: inds) dev) with (run_callbacks inds (callback ind dev).2).
  rewrite IH, callback_spec, !last_event_cons. by destruct dev.
Qed.
End callbacks.

(** ** The life cycle over any stack *)
Section lifecycle.
Context {net : Type} {S : PnetStack net} {SOk : PnetStackOk net}.
Implicit Types (dev : io_device_t net) (n : net).

Lemma plug_all_modules_ok n : stack_ok n ->
  exists ret n', plug_all_modules n = Done (ret, n') /\ stack_ok n'.
Proof using.
  intros Hn. unfold plug_all_modules.
  repeat match goal with
  | |- context [pnet_plug_module ?n ?a ?b ?c] =>
      let ret := fresh "ret" in let n' := fresh "n" in let E := fresh "E" in
      destruct (pnet_plug_module n a b c) as [ret n'] eqn:E;
      apply plug_module_ok in E; [|assumption];
      destruct (negb (ret =? 0)); [by eexists _, _|]
  | |- context [pnet_plug_submodule ?n ?a ?b ?c ?d ?e ?f ?g ?h] =>
      let ret := fresh "ret" in let n' := fresh "n" in let E := fresh "E" in
      destruct (plug_submodule_ok n a b c d e f g h) as (ret & n' & E & ?); [assumption|
        unfold EXAMPLE_INPUT_SIZE, EXAMPLE_OUTPUT_SIZE; lia..|];
      rewrite E; clear E; cbn [mbind exec_bind]; destruct (negb (ret =? 0)); [by eexists _, _|]
  end.
  by eexists _, _.
Qed.

(** What holds of a device between two calls. *)
Record device_inv (dev : io_device_t net) : Prop := {
  inv_cfg : device_cfg_ok (config dev);
  inv_handle :
    match pnet_handle dev with
    | Some n => stack_ok n /\ (live (state dev) \/ state dev = IO_DEVICE_STATE_ERROR)
    | None => state dev = IO_DEVICE_STATE_IDLE \/ state dev = IO_DEVICE_STATE_INITIALIZED \/
              state dev = IO_DEVICE_STATE_ERROR
    end;
  inv_input : zlen (input_data dev) = 256;
  inv_output : zlen (output_data dev) = 256;
  inv_sizes : 0 <= input_size dev <= 256 /\ 0 <= output_size dev <= 256;
  inv_cycles : in_u 64 (cycle_count dev);
}.

(** The bytes the input submodule's data function reads. *)
Definition input_needed (dev : io_device_t net) : Z :=
  match pnet_handle dev with
  | Some n => input_need n EXAMPLE_API EXAMPLE_SLOT EXAMPLE_SUBSLOT_INPUT
  | None => 0
  end.

(** One call of the API on a device that returns, with a configuration of
    strings and buffers as long as announced. *)
Inductive device_step : io_device_t net -> io_device_t net -> Prop :=
  | step_init dev cfg ret dev' :
      device_cfg_ok cfg -> io_device_init (Some dev) (Some cfg) = (ret, Some dev') ->
      device_step dev dev'
  | step_start dev ret dev' :
      io_device_start (Some dev) = Done (ret, Some dev') -> device_step dev dev'
  | step_tick dev ret dev' :
      io_device_tick (Some dev) = (ret, Some dev') -> device_step dev dev'
  | step_stop dev ret dev' :
      io_device_stop (Some dev) = (ret, Some dev') -> device_step dev dev'
  | step_cleanup dev dev' :
      io_device_cleanup (Some dev) = Some dev' -> device_step dev dev'
  | step_update dev data len ret dev' :
      0 <= len <= zlen data ->
      io_device_update_input (Some dev) (Some data) len = Done (ret, Some dev') ->
      device_step dev dev'
  | step_read dev data len ret dev' data' len' :
      0 <= len <= zlen data ->
      io_device_read_output (Some dev) (Some data) (Some len) =
        Done (ret, Some dev', data', len') ->
      device_step dev dev'.

Inductive device_reachable : io_device_t net -> Prop :=
  | reachable_zero : device_reachable zero_device
  | reachable_step dev dev' :
      device_reachable dev -> device_step dev dev' -> device_reachable dev'.

Lemma zero_device_inv : device_inv (zero_device (net := net)).
Proof using.
  constructor; try done; [|by left].
  by apply (bool_decide_eq_true_1 (device_cfg_ok zero_device_cfg)); vm_compute.
Qed.

Lemma init_inv dev cfg ret dev' :
  device_cfg_ok cfg -> io_device_init (Some dev) (Some cfg) = (ret, Some dev') -> device_inv dev'.
Proof using. intros Hc [= <- <-]. constructor; try done. by right; left. Qed.

(** [start] always returns; the three ways it ends. *)
Lemma start_cases dev : device_inv dev ->
  state dev <> IO_DEVICE_STATE_INITIALIZED /\ io_device_start (Some dev) = Done (-1, Some dev) \/
  state dev = IO_DEVICE_STATE_INITIALIZED /\ pnet_handle dev = None /\
    (io_device_start (Some dev) = Done (-1, Some (set_state IO_DEVICE_STATE_ERROR dev)) \/
     exists n, stack_ok n /\
       (io_device_start (Some dev) =
          Done (-1, Some (set_state IO_DEVICE_STATE_ERROR (set_handle (Some n) dev))) \/
        io_device_start (Some dev) =
          Done (0, Some (set_state IO_DEVICE_STATE_CONNECTED (set_handle (Some n) dev))))).
Proof using SOk.
  intros [Hcfg Hh]. cbn [io_device_start].
  case_bool_decide as Hs; cbn [negb]; [right|by left].
  assert (pnet_handle dev = None) as Hnone.
  { destruct (pnet_handle dev); [|done]. rewrite Hs in Hh. unfold live in Hh.
    destruct Hh as [_ [[|]|]]; discriminate. }
  split; [done|]. split; [done|].
  rewrite build_pnet_cfg_ok by done. cbn [mbind exec_bind].
  destruct (pnet_init _) as [n|] eqn:Hinit.
  - right. apply init_ok in Hinit. destruct (plug_all_modules_ok n Hinit) as (ret & n' & -> & ?).
    exists n'. split; [done|]. cbn [mbind exec_bind]. destruct (ret =? 0); [by right|by left].
  - left. destruct dev. cbn in Hnone. by subst.
Qed.

Lemma start_inv dev ret dev' :
  device_inv dev -> io_device_start (Some dev) = Done (ret, Some dev') -> device_inv dev'.
Proof using SOk.
  intros Hinv. pose proof Hinv as [].
  destruct (start_cases dev Hinv) as [[_ ->]|(_ & Hnone & [->|(n & Hn & [->| ->])])];
    intros [= <- <-]; [done|constructor; cbn; try done..].
  - rewrite Hnone. auto.
  - auto.
  - unfold live. auto.
Qed.

(** [tick] with a started stack and outside the error state. *)
Lemma tick_eq dev n n' inds :
  pnet_handle dev = Some n -> state dev <> IO_DEVICE_STATE_ERROR ->
  pnet_handle_periodic n = (n', inds) ->
  io_device_tick (Some dev) =
    (0, Some (set_cycle_count (u64 (cycle_count dev + 1))
         (set_active_arep (last_event arep_event (active_arep dev) inds)
           (set_state (last_event connection_event (state dev) inds)
             (set_handle (Some n') dev))))).
Proof using.
  intros Hh Hs Hp. cbn [io_device_tick]. rewrite Hh, bool_decide_eq_false_2, Hp by done.
  by rewrite run_callbacks_spec.
Qed.

Lemma tick_inv dev ret dev' :
  device_inv dev -> io_device_tick (Some dev) = (ret, Some dev') -> device_inv dev'.
Proof using.
  intros Hinv. pose proof Hinv as [Hcfg Hh Hi Ho Hz Hc].
  destruct (pnet_handle dev) as [n|] eqn:E; [|cbn; rewrite E; by intros [= <- <-]].
  destruct Hh as [Hn Hs].
  destruct (decide (state dev = IO_DEVICE_STATE_ERROR)) as [He|He].
  - cbn. rewrite E, bool_decide_eq_true_2 by done. by intros [= <- <-].
  - destruct (pnet_handle_periodic n) as [n' inds] eqn:Hp.
    rewrite (tick_eq _ _ _ _ E He Hp). intros [= <- <-]. constructor; cbn; try done.
    + split; [by eapply periodic_ok|]. left. apply last_event_live. tauto.
    + by apply (wrapu_range 64).
Qed.

Lemma stop_eq dev :
  io_device_stop (Some dev) =
    match pnet_handle dev with Some _ => (0, Some zero_device) | None => (-1, Some dev) end.
Proof using. cbn [io_device_stop]. destruct (pnet_handle dev); [|done]. by destruct (pnet_factory_reset _). Qed.

(** The ways [update_input] ends; the last is the stack's own. *)
Lemma update_cases dev data len : device_inv dev -> 0 <= len <= zlen data ->
  io_device_update_input (Some dev) (Some data) len = Done (-1, Some dev) /\
    (pnet_handle dev = None \/ 256 < len) \/
  exists n d, pnet_handle dev = Some n /\ len <= 256 /\ stack_ok n /\
    memcpy (input_data dev) data len = Done d /\ zlen d = 256 /\
    io_device_update_input (Some dev) (Some data) len =
      ('(ret, n') ← pnet_input_set_data_and_iops n EXAMPLE_API EXAMPLE_SLOT EXAMPLE_SUBSLOT_INPUT
                      data PNET_IOXS_GOOD;
       Done (ret, Some (set_handle (Some n') (set_input_cache d len dev)))).
Proof using.
  intros [_ Hh Hi] Hlen. cbn [io_device_update_input].
  destruct (pnet_handle dev) as [n|]; [|by left; auto]. destruct Hh as [Hn _].
  destruct (Z.ltb_spec 256 len); [by left; auto|]. right.
  destruct (memcpy_ok (input_data dev) data len) as (d & Hd & Hl & _); [lia..|].
  exists n, d. rewrite Hd. cbn [mbind exec_bind]. repeat split; (done || lia).
Qed.

Lemma read_cases dev data len : device_inv dev -> 0 <= len <= zlen data ->
  io_device_read_output (Some dev) (Some data) (Some len) =
    Done (-1, Some dev, Some data, Some len) /\ pnet_handle dev = None \/
  exists n ret n' data' len' iops, pnet_handle dev = Some n /\
    pnet_output_get_data_and_iops n EXAMPLE_API EXAMPLE_SLOT EXAMPLE_SUBSLOT_OUTPUT data len
      PNET_IOXS_BAD = Done (ret, n', (data', len', iops)) /\
    stack_ok n' /\ zlen data' = zlen data /\ (ret = 0 -> 0 <= len' <= len) /\
    io_device_read_output (Some dev) (Some data) (Some len) =
      (if ret =? 0 then
         d ← memcpy (output_data dev) data' len';
         Done (ret, Some (set_output_cache d len' (set_handle (Some n') dev)), Some data', Some len')
       else Done (ret, Some (set_handle (Some n') dev), Some data', Some len)).
Proof using.
  intros [_ Hh _ Ho] Hlen. cbn [io_device_read_output].
  destruct (pnet_handle dev) as [n|]; [|by left]. destruct Hh as [Hn _]. right.
  destruct (output_get_ok n EXAMPLE_API EXAMPLE_SLOT EXAMPLE_SUBSLOT_OUTPUT data len
    PNET_IOXS_BAD) as (ret & n' & data' & len' & iops & Hget & Hn' & Hl & Hr); [done..|].
  exists n, ret, n', data', len', iops. rewrite Hget. cbn [mbind exec_bind]. done.
Qed.

Lemma update_inv dev data len ret dev' : device_inv dev -> 0 <= len <= zlen data ->
  io_device_update_input (Some dev) (Some data) len = Done (ret, Some dev') -> device_inv dev'.
Proof using.
  intros Hinv Hlen. pose proof Hinv as [].
  destruct (update_cases dev data len Hinv Hlen)
    as [[-> _]|(n & d & Hh & ? & Hn & _ & Hd & ->)]; [by intros [= <- <-]|].
  intros ([r n'] & E & [= <- <-])%exec_bind_inv. apply input_set_keeps in E; [|done].
  rewrite Hh in *. constructor; cbn; (done || lia || tauto).
Qed.

Lemma read_inv dev data len ret dev' data' len' : device_inv dev -> 0 <= len <= zlen data ->
  io_device_read_output (Some dev) (Some data) (Some len) = Done (ret, Some dev', data', len') ->
  device_inv dev'.
Proof using.
  intros Hinv Hlen. pose proof Hinv as [].
  destruct (read_cases dev data len Hinv Hlen)
    as [[-> _]|(n & r & n' & b & l & i & Hh & _ & Hn' & _ & Hl & ->)]; [by intros [= <- <- <- <-]|].
  destruct (Z.eqb_spec r 0) as [->|]; rewrite Hh in *.
  - intros (d & Hd & [= <- <- <- <-])%exec_bind_inv. specialize (Hl eq_refl).
    pose proof (memcpy_inv _ _ _ _ Hd) as [_ ?]. apply memcpy_length in Hd.
    constructor; cbn; (done || lia || tauto).
  - intros [= <- <- <- <-]. constructor; cbn; (done || lia || tauto).
Qed.

(** [update_input] leaves the buffers only inside the stack. *)
Lemma update_undefined dev data len : device_inv dev -> 0 <= len <= zlen data ->
  io_device_update_input (Some dev) (Some data) len = Undefined <->
  exists n, pnet_handle dev = Some n /\ len <= 256 /\
    pnet_input_set_data_and_iops n EXAMPLE_API EXAMPLE_SLOT EXAMPLE_SUBSLOT_INPUT data
      PNET_IOXS_GOOD = Undefined.
Proof using.
  intros Hinv Hlen.
  destruct (update_cases dev data len Hinv Hlen) as [[-> Hc]|(n & d & Hh & ? & _ & _ & _ & ->)].
  - split; [done|]. intros (n & Hn & ? & _). destruct Hc; [congruence|lia].
  - split.
    + intros E. exists n. split; [done|]. split; [done|]. by destruct (pnet_input_set_data_and_iops _ _ _ _ _ _) as [[]|].
    + intros (n1 & [= <-]%(eq_trans (eq_sym Hh)) & _ & ->). done.
Qed.

(** [read_output] leaves them exactly when the stack delivers more than the
    cache holds. *)
Lemma read_undefined dev data len : device_inv dev -> 0 <= len <= zlen data ->
  io_device_read_output (Some dev) (Some data) (Some len) = Undefined <->
  exists n n' data' len' iops, pnet_handle dev = Some n /\
    pnet_output_get_data_and_iops n EXAMPLE_API EXAMPLE_SLOT EXAMPLE_SUBSLOT_OUTPUT data len
      PNET_IOXS_BAD = Done (0, n', (data', len', iops)) /\ 256 < len'.
Proof using.
  intros Hinv Hlen. pose proof Hinv as [_ _ _ Ho _ _].
  destruct (read_cases dev data len Hinv Hlen)
    as [[-> Hn]|(n & r & n' & b & l & i & Hh & Hg & _ & Hz & Hl & ->)].
  - split; [done|]. intros (? & ? & ? & ? & ? & ? & _). congruence.
  - rewrite Hh. split.
    + destruct (Z.eqb_spec r 0) as [->|]; [|done]. specialize (Hl eq_refl).
      destruct (Z.lt_ge_cases 256 l); [by intros _; exists n, n', b, l, i|].
      destruct (memcpy_ok (output_data dev) b l) as (d & -> & _); [lia..|]. done.
    + intros (n1 & n2 & b2 & l2 & i2 & [= <-] & Hg2 & ?). rewrite Hg in Hg2.
      injection Hg2 as -> -> -> -> ->. cbn [Z.eqb]. rewrite memcpy_past by lia. done.
Qed.

Lemma read_within dev data len : device_inv dev -> 0 <= len <= zlen data -> len <= 256 ->
  defined (io_device_read_output (Some dev) (Some data) (Some len)).
Proof using.
  intros Hinv Hl H256. pose proof (read_undefined dev data len Hinv Hl) as Hu.
  destruct (read_cases dev data len Hinv Hl) as [[-> _]|(n & r & n' & b & l & i & Hh & Hg & _ & _ & Hr & E)];
    [done|].
  destruct (io_device_read_output _ _ _); [done|].
  destruct (proj1 Hu eq_refl) as (n1 & n2 & b2 & l2 & i2 & Hh1 & Hg2 & ?).
  rewrite Hh in Hh1. injection Hh1 as <-. rewrite Hg in Hg2. injection Hg2 as -> -> -> -> ->. lia.
Qed.

Lemma step_inv dev dev' : device_inv dev -> device_step dev dev' -> device_inv dev'.
Proof using SOk.
  intros Hinv Hstep. destruct Hstep as [??????| | |dev ret dev' E|dev dev' E| |].
  - by eapply init_inv.
  - by eapply start_inv.
  - by eapply tick_inv.
  - rewrite stop_eq in E. destruct (pnet_handle dev); injection E as <- <-; [|done].
    apply zero_device_inv.
  - injection E as <-. apply zero_device_inv.
  - by eapply update_inv.
  - by eapply read_inv.
Qed.

Lemma reachable_inv dev : device_reachable dev -> device_inv dev.
Proof using SOk. induction 1; [apply zero_device_inv|by eapply step_inv]. Qed.

(** C2: Over any stack that keeps the promises of the interface, whatever
    calls returned before (initialise, start, tick, stop, clean up, data in
    either direction with any length the buffer holds, in any order), the
    device is consistent (a live state goes with a stack handle, no handle with
    IDLE, INITIALIZED or ERROR, the caches have their sizes), and the calls
    that can leave a buffer are known exactly.  Start always returns (tick, stop
    and clean-up touch no buffer).  update_input stays inside the buffers itself
    for every length; the call is undefined just when the stack, which is given
    the buffer without its length, is undefined on it, and so never with a
    buffer as long as the stack takes it to be.  read_output is undefined just
    when the stack succeeds with more than 256 bytes, since the copy into the
    output cache is not checked; so it is safe for every caller that
    offers at most 256 bytes. *)
Theorem device_reachable_safe dev : device_reachable dev ->
  device_inv dev /\
  defined (io_device_start (Some dev)) /\
  (forall data len, 0 <= len <= zlen data ->
     (io_device_update_input (Some dev) (Some data) len = Undefined <->
        exists n, pnet_handle dev = Some n /\ len <= 256 /\
          pnet_input_set_data_and_iops n EXAMPLE_API EXAMPLE_SLOT EXAMPLE_SUBSLOT_INPUT data
            PNET_IOXS_GOOD = Undefined) /\
     (input_needed dev <= zlen data ->
        defined (io_device_update_input (Some dev) (Some data) len))) /\
  (forall data len, 0 <= len <= zlen data ->
     (io_device_read_output (Some dev) (Some data) (Some len) = Undefined <->
        exists n n' data' len' iops, pnet_handle dev = Some n /\
          pnet_output_get_data_and_iops n EXAMPLE_API EXAMPLE_SLOT EXAMPLE_SUBSLOT_OUTPUT data len
            PNET_IOXS_BAD = Done (0, n', (data', len', iops)) /\ 256 < len') /\
     (len <= 256 -> defined (io_device_read_output (Some dev) (Some data) (Some len)))).
Proof using SOk.
  intros Hinv%reachable_inv. split; [done|]. split; [|split].
  - by destruct (start_cases dev Hinv) as [[_ ->]|(_ & _ & [->|(n & _ & [->| ->])])].
  - intros data len Hl. pose proof (update_undefined dev data len Hinv Hl) as Hu. split; [done|].
    intros Hn. destruct (io_device_update_input _ _ _); [done|].
    destruct (proj1 Hu eq_refl) as (n & Hh & _ & E). unfold input_needed in Hn. rewrite Hh in Hn.
    destruct Hinv as [_ Hs _ _ _ _]. rewrite Hh in Hs. destruct Hs as [Hs _].
    destruct (input_set_ok n _ _ _ data PNET_IOXS_GOOD Hs Hn) as (r & n' & E' & _). congruence.
  - intros data len Hl. split; [by apply read_undefined|]. intros. by apply read_within.
Qed.

(** [k] calls of [io_device_tick], with their results. *)
Fixpoint ticks (k : nat) (dev : option (io_device_t net)) : list Z * option (io_device_t net) :=
  match k with
  | O => ([], dev)
  | Datatypes.S k =>
      let '(ret, dev) := io_device_tick dev in
      let '(rets, dev) := ticks k dev in (ret :: rets, dev)
  end.

(** The stack alone over [k] periods, with all the indications it raises. *)
Fixpoint stack_run (k : nat) (n : net) : net * list indication :=
  match k with
  | O => (n, [])
  | Datatypes.S k =>
      let '(n, inds) := pnet_handle_periodic n in
      let '(n, inds') := stack_run k n in (n, inds ++ inds')
  end.

Lemma ticks_run k dev n n' inds :
  pnet_handle dev = Some n -> live (state dev) -> in_u 64 (cycle_count dev) ->
  stack_run k n = (n', inds) ->
  ticks k (Some dev) =
    (replicate k 0,
     Some (set_cycle_count (u64 (cycle_count dev + Z.of_nat k))
       (set_active_arep (last_event arep_event (active_arep dev) inds)
         (set_state (last_event connection_event (state dev) inds)
           (set_handle (Some n') dev))))).
Proof using.
  revert dev n n' inds. induction k as [|k IH]; intros dev n n' inds Hh Hl Hc; cbn [ticks stack_run].
  - intros [= <- <-]. rewrite Z.add_0_r. unfold u64. rewrite wrapu_small by done.
    rewrite <-Hh. by destruct dev.
  - destruct (pnet_handle_periodic n) as [n1 inds1] eqn:Hp.
    destruct (stack_run k n1) as [n2 inds2] eqn:Hr. intros [= <- <-].
    assert (state dev <> IO_DEVICE_STATE_ERROR) as He by (by destruct Hl as [->| ->]).
    rewrite (tick_eq _ _ _ _ Hh He Hp), !last_event_app.
    erewrite IH; [|done|by apply last_event_live|by apply (wrapu_range 64)|done].
    cbn. unfold u64, wrapu. rewrite Zplus_mod_idemp_l.
    by replace (cycle_count dev + Z.of_nat (Datatypes.S k)) with
      (cycle_count dev + 1 + Z.of_nat k) by lia.
Qed.

(** C17: Once started, the device never leaves service by itself: over any
    stack and for any number of periods, every tick succeeds, the stack
    advances exactly as it does alone, the cycle counter counts the ticks
    modulo 2^64, the state is the one of the last DATA or ABORT event (still
    CONNECTED if there was none), the active AREP the one of the last STARTUP
    or ABORT, and nothing else of the device changes; in particular the
    ERROR state is never entered. *)
Theorem started_device_runs dev dev0 k n n' inds :
  device_reachable dev -> io_device_start (Some dev) = Done (0, Some dev0) ->
  pnet_handle dev0 = Some n -> stack_run k n = (n', inds) ->
  exists dev', ticks k (Some dev0) = (replicate k 0, Some dev') /\
    pnet_handle dev' = Some n' /\
    cycle_count dev' = u64 (cycle_count dev0 + Z.of_nat k) /\
    state dev' = last_event connection_event IO_DEVICE_STATE_CONNECTED inds /\
    state dev' <> IO_DEVICE_STATE_ERROR /\
    active_arep dev' = last_event arep_event (active_arep dev0) inds /\
    config dev' = config dev0 /\ error_count dev' = error_count dev0 /\
    input_data dev' = input_data dev0 /\ output_data dev' = output_data dev0.
Proof using SOk.
  intros Hinv%reachable_inv Hstart Hn Hrun.
  pose proof (start_inv _ _ _ Hinv Hstart) as Hinv0.
  assert (state dev0 = IO_DEVICE_STATE_CONNECTED) as Hs.
  { destruct (start_cases dev Hinv) as [[_ E]|(_ & _ & [E|(m & _ & [E|E])])];
      rewrite E in Hstart; try discriminate; injection Hstart as <-; done. }
  assert (live (state dev0)) as Hl by by left.
  eexists. split; [by apply (ticks_run k dev0 n n' inds); [..|apply Hinv0|]|].
  cbn. rewrite Hs. repeat split.
  by destruct (last_event_live IO_DEVICE_STATE_CONNECTED inds (or_introl eq_refl)) as [->| ->].
Qed.

(** A failed start is terminal until the next initialisation. A failing
    [pnet_init] leaves the device in ERROR without a handle, so [stop]
    reports an error and cleans nothing; failing to plug a module leaves it
    in ERROR with the handle, and then [stop] zeroes it.  Either way the
    object stays an ERROR device for [tick] and [start], which refuse it
    unchanged. *)
Theorem failed_start_terminal dev dev' ret :
  device_reachable dev -> state dev = IO_DEVICE_STATE_INITIALIZED ->
  io_device_start (Some dev) = Done (ret, Some dev') -> ret <> 0 ->
  ret = -1 /\ state dev' = IO_DEVICE_STATE_ERROR /\
  io_device_tick (Some dev') = (-1, Some dev') /\
  io_device_start (Some dev') = Done (-1, Some dev') /\
  io_device_stop (Some dev') =
    (match pnet_handle dev' with Some _ => (0, Some zero_device) | None => (-1, Some dev') end).
Proof using SOk.
  intros Hinv%reachable_inv Hs Hstart Hret. rewrite stop_eq.
  destruct (start_cases dev Hinv) as [[? _]|(_ & Hn & [E|(n & _ & [E|E])])]; [done|..];
    rewrite E in Hstart; injection Hstart as <- <-; [| |done].
  - cbn. rewrite Hn. done.
  - done.
Qed.
End lifecycle.

(** ** The device and its identity on the mock stack *)

(** C26: The stack configuration carries the device's configuration
    unchanged: for a configuration whose arrays have their declared sizes and
    hold strings, building it never reads or writes outside them, each name
    arrives complete in the stack's array, the addresses and the tick period
    are copied, and the two bytes of the vendor and of the device identifier
    reassemble to the 16-bit values (also as OEM identity and in I&M0). *)
Theorem pnet_cfg_faithful (c : io_device_cfg_t) :
  device_cfg_ok c -> device_cfg_sized c -> in_u 16 (vendor_id c) -> in_u 16 (device_id c) ->
  exists p, build_pnet_cfg c = Done p /\
    c_str (pn_station_name p) = c_str (station_name c) /\
    c_str (pn_product_name p) = c_str (product_name c) /\
    c_str (pnal_if_name (pn_pnal_cfg p)) = c_str (interface_name c) /\
    c_str (netif_name (pn_if_cfg p)) = c_str (interface_name c) /\
    c_str (pn_file_directory p) = c_str (file_directory c) /\
    eth_addr (pn_if_cfg p) = mac_addr c /\
    (pnal_ip_addr (pn_pnal_cfg p), pnal_netmask (pn_pnal_cfg p), pnal_gateway (pn_pnal_cfg p)) =
      (ip_addr c, netmask c, gateway c) /\
    (pn_tick_us p, pn_send_hello p) = (tick_us c, send_hello c) /\
    (let id := pn_device_id p in
     vendor_id_high id * 256 + vendor_id_low id = vendor_id c /\
     device_id_high id * 256 + device_id_low id = device_id c /\
     pn_oem_device_id p = id /\
     im_vendor_id_hi (pn_im_0_data p) * 256 + im_vendor_id_lo (pn_im_0_data p) = vendor_id c).
Proof.
  intros Hok (Hp & Hs & Hi & Hf) Hv Hd. rewrite build_pnet_cfg_ok by done.
  destruct Hok as (? & ? & ? & ?). eexists. split; [done|].
  cbn [pn_station_name pn_product_name pn_pnal_cfg pnal_if_name pn_if_cfg netif_name
       pn_file_directory eth_addr pnal_ip_addr pnal_netmask pnal_gateway pn_tick_us pn_send_hello
       pn_device_id pn_oem_device_id pn_im_0_data im_0_of im_vendor_id_hi im_vendor_id_lo
       device_identity vendor_id_high vendor_id_low device_id_high device_id_low].
  rewrite !safe_strncpy_keeps by done. rewrite !u16_split by done. done.
Qed.

(** A submodule without its data. *)
Definition sm_shape (sm : mock_submodule_t) :=
  (sm_api sm, sm_slot sm, sm_subslot sm, sm_module_ident sm, sm_submodule_ident sm,
   sm_direction sm, (sm_input_len sm, sm_output_len sm), sm_plugged sm).

(** The modules the GSDML file of the device declares. *)
Definition example_topology (n : pnet) : Prop :=
  mock_ok n /\ map sm_shape (plugged_list n) =
    [(0, 0, 0x0000, 0x01, 0x0001, PNET_DIR_NO_IO, (0, 0), true);
     (0, 0, 0x8000, 0x01, 0x8000, PNET_DIR_NO_IO, (0, 0), true);
     (0, 0, 0x8001, 0x01, 0x8001, PNET_DIR_NO_IO, (0, 0), true);
     (0, 1, 0x0001, 0x30, 0x0031, PNET_DIR_INPUT, (1, 0), true);
     (0, 1, 0x0002, 0x30, 0x0032, PNET_DIR_OUTPUT, (0, 1), true)].

(** The two user submodules of a stack with that topology. *)
Lemma topology_find n : example_topology n ->
  exists sin sout,
    find_at (fun sm => at_address EXAMPLE_API EXAMPLE_SLOT EXAMPLE_SUBSLOT_INPUT sm && sm_plugged sm)
      0 (plugged_list n) = Some (3, sin) /\
    find_at (fun sm => at_address EXAMPLE_API EXAMPLE_SLOT EXAMPLE_SUBSLOT_OUTPUT sm && sm_plugged sm)
      0 (plugged_list n) = Some (4, sout) /\
    submodules n !! 3%nat = Some sin /\ submodules n !! 4%nat = Some sout /\
    sm_input_len sin = 1 /\ sm_output_len sout = 1.
Proof.
  intros [Hok Ht].
  destruct (plugged_list n) as [|s0 [|s1 [|s2 [|s3 [|s4 []]]]]] eqn:E; try done.
  exists s3, s4.
  assert (submodules n !! 3%nat = Some s3) by (apply plugged_lookup; by rewrite E).
  assert (submodules n !! 4%nat = Some s4) by (apply plugged_lookup; by rewrite E).
  destruct s0, s1, s2, s3, s4. unfold sm_shape in Ht. cbn in Ht. injection Ht; intros; subst.
  repeat split; done.
Qed.

(** Replacing the input data keeps the topology. *)
Lemma topology_set_input n sin d iops :
  example_topology n -> submodules n !! 3%nat = Some sin -> zlen d = 256 ->
  example_topology (set_submodules (<[3%nat := set_input d iops sin]> (submodules n))
                      (submodule_count n) n).
Proof.
  intros [Hok Ht] Hl Hd. pose proof Hok as (_ & Hc & Hall). split.
  - apply set_submodules_ok; [done| |done]. rewrite Forall_lookup in Hall.
    destruct (Hall _ _ Hl) as (_ & ? & ? & ?). done.
  - rewrite <-Ht. unfold plugged_list. cbn [submodules submodule_count set_submodules].
    change (sm_shape <$> take (Z.to_nat (submodule_count n)) (<[3%nat:=set_input d iops sin]>
      (submodules n)) = sm_shape <$> plugged_list n).
    unfold plugged_list. rewrite take_insert. destruct (decide _) as [H3|]; [|done].
    rewrite list_fmap_insert. apply list_insert_id.
    change (sm_shape (set_input d iops sin)) with (sm_shape sin).
    rewrite list_lookup_fmap, lookup_take_lt, Hl by done. done.
Qed.

(** The stack object after plugging. *)
Lemma mock_plug_all p n : @pnet_init pnet (mock_stack true) p = Some n ->
  exists n', @plug_all_modules pnet (mock_stack true) n = Done (0, n') /\
    example_topology n' /\ mock_cfg n' = p.
Proof.
  intros Hinit. pose proof Hinit as Hn%(@init_ok _ _ (mock_stack_ok true)).
  destruct (@plug_all_modules_ok _ _ (mock_stack_ok true) n Hn) as (ret & n' & Hp & Hn').
  injection Hinit as <-. exists n'. rewrite Hp. vm_compute in Hp. injection Hp as <- <-.
  split; [done|]. split; [|done]. split; [exact Hn'|done].
Qed.

(** On the mock stack a device with a valid configuration starts, and the
    started stack holds exactly the topology of the device description (the
    device access point with its interface and port in slot 0, one input byte
    and one output byte in slot 1) and the configuration that was built. *)
Theorem mock_start_topology (cfg : io_device_cfg_t) :
  device_cfg_ok cfg ->
  let '(ret, dev) := io_device_init (Some (zero_device (net := pnet))) (Some cfg) in
  ret = 0 /\
  exists dev0 n, @io_device_start pnet (mock_stack true) dev = Done (0, Some dev0) /\
    pnet_handle dev0 = Some n /\ state dev0 = IO_DEVICE_STATE_CONNECTED /\
    example_topology n /\ build_pnet_cfg cfg = Done (mock_cfg n).
Proof.
  intros Hok. cbn [io_device_init]. split; [done|].
  cbn [io_device_start state config]. rewrite bool_decide_eq_true_2 by done. cbn [negb].
  destruct (build_pnet_cfg cfg) as [p|] eqn:E; [|by rewrite build_pnet_cfg_ok in E].
  cbn [mbind exec_bind].
  destruct (@pnet_init pnet (mock_stack true) p) as [n|] eqn:Hinit; [|done].
  destruct (mock_plug_all p n Hinit) as (n' & -> & Ht & <-).
  eexists _, n'. done.
Qed.

(** C25: Process data on the mock stack.  On a device whose stack holds the
    example topology, update_input with 1 to 256 bytes stores them in the
    input cache, hands the first one to the input submodule with provider
    status GOOD and keeps the topology; read_output with a buffer of 1 to 256
    bytes returns the output submodule's byte in its first place, leaves the
    rest of the buffer alone, reports length 1 and caches the byte. *)
Theorem mock_exchange (c : bool) (dev : io_device_t pnet) n (data buf : list byte) len blen :
  @device_inv pnet _ (mock_stack_ok c) dev -> pnet_handle dev = Some n -> example_topology n ->
  1 <= len <= 256 -> len <= zlen data -> 1 <= blen <= 256 -> blen <= zlen buf ->
  (exists dev' n' sin,
     @io_device_update_input pnet (mock_stack c) (Some dev) (Some data) len = Done (0, Some dev') /\
     take (Z.to_nat len) (input_data dev') = take (Z.to_nat len) data /\ input_size dev' = len /\
     pnet_handle dev' = Some n' /\ example_topology n' /\
     submodules n' !! 3%nat = Some sin /\ take 1 (sm_input_data sin) = take 1 data /\
     sm_input_iops sin = PNET_IOXS_GOOD) /\
  (exists dev' sout buf',
     submodules n !! 4%nat = Some sout /\
     @io_device_read_output pnet (mock_stack c) (Some dev) (Some buf) (Some blen) =
       Done (0, Some dev', Some buf', Some 1) /\
     take 1 buf' = take 1 (sm_output_data sout) /\ drop 1 buf' = drop 1 buf /\
     take 1 (output_data dev') = take 1 (sm_output_data sout) /\ output_size dev' = 1).
Proof.
  intros [_ Hh Hi Ho _ _] Hn Ht Hlen Hdata Hblen Hbuf. pose proof Ht as [Hok Hshape].
  destruct (topology_find n Ht) as (sin & sout & Ein & Eout & Hin & Hout & Lin & Lout).
  destruct (find_at_ok n Hok _ _ _ Ein) as (_ & _ & _ & Hsin & _).
  destruct (find_at_ok n Hok _ _ _ Eout) as (_ & _ & _ & _ & Hsout & _).
  split.
  - cbn [io_device_update_input]. rewrite Hn. destruct (Z.ltb_spec 256 len); [lia|].
    destruct (memcpy_ok (input_data dev) data len) as (d & -> & _ & Hd & _); [lia..|].
    cbn [mbind exec_bind pnet_input_set_data_and_iops mock_stack].
    unfold mock_input_set_data_and_iops. rewrite find_sm_mock, Ein by done.
    cbn [mbind exec_bind]. rewrite Lin. change (if 1 <? 256 then 1 else 256) with 1.
    destruct (memcpy_ok (sm_input_data sin) data 1) as (d1 & -> & Hd1 & Ht1 & _); [lia..|].
    cbn [mbind exec_bind]. rewrite (arr_set_sm n 3 sin) by (done || lia). cbn [mbind exec_bind].
    eexists _, _, (set_input d1 PNET_IOXS_GOOD sin).
    split; [done|]. split; [done|]. split; [done|]. split; [done|].
    split; [by apply (topology_set_input n sin); [..|lia]|]. split; [|split; [exact Ht1|done]].
    cbn [submodules set_submodules]. apply list_lookup_insert_eq. by eapply lookup_lt_Some.
  - cbn [io_device_read_output]. rewrite Hn.
    cbn [mbind exec_bind pnet_output_get_data_and_iops mock_stack].
    unfold mock_output_get_data_and_iops. rewrite find_sm_mock, Eout by done.
    cbn [mbind exec_bind]. rewrite Lout.
    assert ((if 1 <? blen then 1 else blen) = 1) as -> by (destruct (Z.ltb_spec 1 blen); lia).
    destruct (memcpy_ok buf (sm_output_data sout) 1) as (d & -> & Hl & Ht1 & Hd1); [lia..|].
    cbn [mbind exec_bind]. change (u16 1) with 1. cbn [Z.eqb].
    destruct (memcpy_ok (output_data (set_handle (Some n) dev)) d 1) as (d2 & -> & _ & Ht2 & _);
      [lia| |cbn; lia|].
    { rewrite Hl. lia. }
    eexists _, sout, d. split; [done|]. split; [done|]. split; [done|]. split; [done|].
    split; [|done]. change (take 1 d2 = take 1 (sm_output_data sout)). exact (eq_trans Ht2 Ht1).
Qed.

(** ** Concrete instances *)

(** The configuration of a device as main.c fills it: the strings in zeroed
    arrays. *)
Definition sample_device_cfg : io_device_cfg_t :=
  mk_device_cfg (to_array 26 (lit "PNET-IO")) (to_array 241 (lit "pnet-io-device"))
    (to_array 16 (lit "eth0")) (replicate 6 Byte.x00) 0xC0A80064 0xFFFFFF00 0xC0A80001
    0x1234 0x5678 1000 true (to_array 240 (lit "/tmp")).

Lemma sample_device_cfg_ok : device_cfg_ok sample_device_cfg.
Proof. by apply (bool_decide_eq_true_1 (device_cfg_ok sample_device_cfg)); vm_compute. Qed.

(** The device objects on the mock stack after initialisation and after start. *)
Definition sample_initialized : io_device_t pnet :=
  default zero_device (io_device_init (Some zero_device) (Some sample_device_cfg)).2.

Definition sample_started : io_device_t pnet :=
  match @io_device_start pnet (mock_stack true) (Some sample_initialized) with
  | Done (_, Some dev) => dev
  | _ => zero_device
  end.

Lemma sample_initialized_reachable (c : bool) :
  @device_reachable pnet (mock_stack c) sample_initialized.
Proof.
  eapply reachable_step; [apply reachable_zero|].
  by apply (step_init _ sample_device_cfg 0); [apply sample_device_cfg_ok|].
Qed.

Lemma sample_start :
  @io_device_start pnet (mock_stack true) (Some sample_initialized) = Done (0, Some sample_started).
Proof. vm_compute. done. Qed.

Lemma sample_started_reachable :
  @device_reachable pnet (mock_stack true) sample_started.
Proof.
  eapply reachable_step; [apply (sample_initialized_reachable true)|].
  apply (step_start _ 0). apply sample_start.
Qed.

Lemma device_reachable_safe_witness :
  defined (@io_device_update_input pnet (mock_stack true) (Some sample_started)
             (Some [Byte.x2a; Byte.x07]) 2).
Proof.
  destruct (@device_reachable_safe pnet (mock_stack true) (mock_stack_ok true) sample_started
    sample_started_reachable) as (_ & _ & Hup & _).
  apply Hup; clear Hup; by vm_compute.
Defined.

(** A stack that keeps the promises and hands back every byte it is offered:
    reading 256 bytes is fine, reading 300 overruns the output cache. *)
Definition echo_stack : PnetStack unit := {|
  pnet_init _ := Some tt;
  pnet_handle_periodic n := (n, []);
  pnet_plug_module n _ _ _ := (0, n);
  pnet_plug_submodule n _ _ _ _ _ _ _ _ := Done (0, n);
  pnet_input_set_data_and_iops n _ _ _ _ _ := Done (0, n);
  pnet_output_get_data_and_iops n _ _ _ data len _ := Done (0, n, (data, len, PNET_IOXS_GOOD));
  pnet_factory_reset n := (0, n);
|}.

#[export] Program Instance echo_stack_ok : @PnetStackOk unit echo_stack := {|
  stack_ok _ := True;
  input_need _ _ _ _ := 0;
|}.
Next Obligation. done. Qed.
Next Obligation. done. Qed.
Next Obligation. done. Qed.
Next Obligation. intros. by eexists _, _. Qed.
Next Obligation. intros. by eexists _, _. Qed.
Next Obligation. done. Qed.
Next Obligation. intros. eexists _, _, _, _, _. do 3 (split; [done|]). lia. Qed.

Example wide_read :
  match @io_device_start unit echo_stack
          (io_device_init (Some zero_device) (Some sample_device_cfg)).2 with
  | Done (0, dev) =>
      let read k := @io_device_read_output unit echo_stack dev (Some (replicate k Byte.x00))
                      (Some (Z.of_nat k)) in
      defined (read 256%nat) /\ read 300%nat = Undefined
  | _ => False
  end.
Proof. by vm_compute. Qed.

Lemma started_device_runs_witness : exists dev',
  @ticks pnet (mock_stack true) 3 (Some sample_started) = ([0; 0; 0], Some dev') /\
  cycle_count dev' = 3 /\ state dev' = IO_DEVICE_STATE_CONNECTED.
Proof.
  destruct (pnet_handle sample_started) as [n|] eqn:Hn; [|by vm_compute in Hn].
  destruct (started_device_runs sample_initialized sample_started 3 n
    (stack_run (S := mock_stack true) 3 n).1 [] (sample_initialized_reachable true) sample_start Hn)
    as (dev' & Ht & _ & Hc & Hs & _).
  - injection Hn as <-. by vm_compute.
  - exists dev'. split; [exact Ht|]. split; [rewrite Hc; by vm_compute|exact Hs].
Defined.

Lemma failed_start_terminal_witness :
  let dev' := set_state IO_DEVICE_STATE_ERROR sample_initialized in
  @io_device_start pnet (mock_stack false) (Some sample_initialized) = Done (-1, Some dev') /\
  @io_device_tick pnet (mock_stack false) (Some dev') = (-1, Some dev').
Proof.
  assert (@io_device_start pnet (mock_stack false) (Some sample_initialized) =
    Done (-1, Some (set_state IO_DEVICE_STATE_ERROR sample_initialized))) as E by by vm_compute.
  split; [exact E|].
  apply (failed_start_terminal sample_initialized _ (-1) (sample_initialized_reachable false)
    eq_refl E). discriminate.
Defined.

Lemma pnet_cfg_faithful_witness : exists p,
  build_pnet_cfg sample_device_cfg = Done p /\ c_str (pn_station_name p) = lit "pnet-io-device".
Proof.
  destruct (pnet_cfg_faithful sample_device_cfg sample_device_cfg_ok) as (p & Hp & Hs & _);
    [by vm_compute| split; by vm_compute| split; by vm_compute|].
  exists p. split; [exact Hp|]. rewrite Hs. by vm_compute.
Defined.

Lemma mock_start_topology_witness : exists dev0 n,
  @io_device_start pnet (mock_stack true) (Some sample_initialized) = Done (0, Some dev0) /\
  pnet_handle dev0 = Some n /\ example_topology n.
Proof.
  destruct (mock_start_topology sample_device_cfg sample_device_cfg_ok)
    as (_ & dev0 & n & Hs & Hn & _ & Ht & _).
  exists dev0, n. split; [exact Hs|]. split; [exact Hn|exact Ht].
Defined.

Lemma mock_exchange_witness : exists dev' n' sin,
  @io_device_update_input pnet (mock_stack true) (Some sample_started)
    (Some [Byte.x2a; Byte.x07]) 2 = Done (0, Some dev') /\
  pnet_handle dev' = Some n' /\ submodules n' !! 3%nat = Some sin /\
  take 1 (sm_input_data sin) = [Byte.x2a].
Proof.
  destruct (pnet_handle sample_started) as [n|] eqn:Hn; [|by vm_compute in Hn].
  destruct (mock_exchange true sample_started n [Byte.x2a; Byte.x07] (replicate 4 Byte.x00) 2 4)
    as [(dev' & n' & sin & E & _ & _ & Hn' & _ & Hl & Ht & _) _];
    [apply reachable_inv, sample_started_reachable|done| |by vm_compute..|].
  - injection Hn as <-. split; [|by vm_compute].
    by apply (bool_decide_eq_true_1 (mock_ok _)); vm_compute.
  - exists dev', n', sin. split; [exact E|]. split; [exact Hn'|]. split; [exact Hl|exact Ht].
Defined.
