(* ===== verification/RealStack.v ===== *)
(** * The build against the real p-net stack (src/app/io_device.c, USE_REAL_PNET)

    The parts of the IO device that the macro USE_REAL_PNET selects: the
    callbacks with the stack's full signatures, the interface configuration
    that points into the device object, and the data calls with their extra
    arguments.  The stack itself is a git submodule and stays a parameter, the
    class [RealPnet].  The adapter [as_stack] turns it into a stack of the
    default build, through which both builds are shown to agree. *)
From S2P Require Import Prelude CString CFormat NetAddr PnetApi PnetMock IoDevice.

(** ** Configuration of the real stack *)

Record pnet_cfg_ip_addr_t := mk_ip_addr { ip_a : Z; ip_b : Z; ip_c : Z; ip_d : Z }.

Record pnet_ip_cfg_t := mk_ip_cfg {
  dhcp_enable : bool;
  ipc_ip_addr : pnet_cfg_ip_addr_t;
  ipc_ip_mask : pnet_cfg_ip_addr_t;
  ipc_ip_gateway : pnet_cfg_ip_addr_t;
}.

(** [main_netif_name] is a pointer, to an array inside the device object. *)
Inductive netif_name_ptr := Null_name | Config_interface_name.

Record real_if_cfg_t := mk_real_if_cfg {
  main_netif_name : netif_name_ptr;
  ip_cfg : pnet_ip_cfg_t;
}.

(** [pnet_cfg_t] of the real API, as far as the application fills it; its
    [device_id] has the members [vendor_id_hi] to [device_id_lo]. *)
Record real_pnet_cfg_t := mk_real_cfg {
  rc_tick_us : Z;
  rc_im_0_data : pnet_im_0_t;
  rc_device_id : pnet_cfg_device_id_t;
  rc_oem_device_id : pnet_cfg_device_id_t;
  rc_station_name : list ascii;
  rc_product_name : list ascii;
  rc_min_device_interval : Z;
  rc_pnal_cfg : pnal_cfg_t;
  rc_if_cfg : real_if_cfg_t;
  rc_num_physical_ports : Z;
  rc_send_hello : bool;
  rc_use_qualified_diagnosis : bool;
  rc_file_directory : list ascii;
}.

(** [(uint8_t)((ip >> 24) & 0xFF)] to [(uint8_t)(ip & 0xFF)] *)
Definition ip_parts (ip : Z) : pnet_cfg_ip_addr_t :=
  mk_ip_addr (u8 (Z.land (Z.shiftr ip 24) 0xFF)) (u8 (Z.land (Z.shiftr ip 16) 0xFF))
    (u8 (Z.land (Z.shiftr ip 8) 0xFF)) (u8 (Z.land ip 0xFF)).

(** The configuration [io_device_start] builds for the real stack. *)
Definition build_real_cfg (c : io_device_cfg_t) : exec real_pnet_cfg_t :=
  product ← read_str (product_name c);
  station ← read_str (station_name c);
  ifname ← read_str (interface_name c);
  directory ← read_str (file_directory c);
  let id := device_identity c in
  Done (mk_real_cfg (tick_us c) (im_0_of id) id id
    (safe_strncpy (replicate 241 nul) station 241)
    (safe_strncpy (replicate 26 nul) product 26)
    32
    (mk_pnal_cfg (safe_strncpy (replicate 16 nul) ifname 16) false (ip_addr c) (netmask c)
       (gateway c))
    (mk_real_if_cfg Config_interface_name
       (mk_ip_cfg false (ip_parts (ip_addr c)) (ip_parts (netmask c)) (ip_parts (gateway c))))
    1 (send_hello c) false
    (safe_strncpy (replicate 240 nul) directory 240)).

(** What the stack reads through the pointer while the device is [dev]. *)
Definition netif_name_at {net} (p : netif_name_ptr) (dev : io_device_t net) : exec (list ascii) :=
  match p with
  | Null_name => Undefined
  | Config_interface_name => read_str (interface_name (config dev))
  end.

(** ** Callbacks with the real signatures *)

Record pnet_data_cfg_t := mk_data_cfg { data_dir : Z; insize : Z; outsize : Z }.
Record pnet_alarm_argument_t := mk_alarm_argument { slot_nbr : Z; subslot_nbr : Z; alarm_type : Z }.

Inductive real_indication :=
  | r_state_ind (arep : Z) (event : pnet_event_values_t)
  | r_connect_ind (arep : Z)
  | r_release_ind (arep : Z)
  | r_dcontrol_ind (arep control_command : Z)
  | r_ccontrol_cnf (arep : Z)
  | r_write_ind (arep api slot subslot idx sequence_number write_length : Z) (data : list byte)
  | r_read_ind (arep api slot subslot idx sequence_number : Z)
  | r_exp_module_ind (api slot module_ident : Z)
  | r_exp_submodule_ind (api slot subslot module_ident submodule_ident : Z)
      (p_exp_data : option pnet_data_cfg_t)
  | r_new_data_status_ind (arep crep changes data_status : Z)
  | r_alarm_ind (arep : Z) (p_alarm_argument : option pnet_alarm_argument_t)
      (data_len data_usi : Z) (data : list byte)
  | r_alarm_cnf (arep : Z)
  | r_alarm_ack_cnf (arep res : Z)
  | r_reset_ind (should_reset_application : bool) (reset_mode : Z)
  | r_signal_led_ind (led_state : bool)
  | r_sm_released_ind (arep api slot subslot : Z).

(** A line on the standard output. *)
Definition out_line (parts : list (list ascii)) : list ascii := mjoin parts ++ [nl].

Module Real.
Section callbacks.
Context {net : Type}.
Implicit Types dev : io_device_t net.

(** Each returns its C return value, the device behind [arg] and what it
    prints. *)
Definition app_state_ind_cb (arep : Z) (event : pnet_event_values_t) dev
    : Z * io_device_t net * list ascii :=
  let out := out_line [lit "[IO-DEVICE] State event: "; event_name event; lit " (AREP="; fmt_u arep;
                       lit ")"] in
  let dev := if bool_decide (event = PNET_EVENT_STARTUP) then set_active_arep arep dev else dev in
  let dev :=
    if bool_decide (event = PNET_EVENT_DATA) then set_state IO_DEVICE_STATE_RUNNING dev
    else if bool_decide (event = PNET_EVENT_ABORT) then
      set_active_arep 0 (set_state IO_DEVICE_STATE_CONNECTED dev)
    else dev in
  (0, dev, out).

Definition app_connect_ind_cb (arep : Z) dev : Z * io_device_t net * list ascii :=
  (0, dev, out_line [lit "[IO-DEVICE] Connect indication (AREP="; fmt_u arep; lit ")"]).

Definition app_release_ind_cb (arep : Z) dev : Z * io_device_t net * list ascii :=
  (0, dev, out_line [lit "[IO-DEVICE] Release indication (AREP="; fmt_u arep; lit ")"]).

Definition app_dcontrol_ind_cb (arep control_command : Z) dev : Z * io_device_t net * list ascii :=
  (0, dev, out_line [lit "[IO-DEVICE] DControl indication (AREP="; fmt_u arep; lit ", cmd=";
                     fmt_d control_command; lit ")"]).

Definition app_ccontrol_cnf_cb (arep : Z) dev : Z * io_device_t net * list ascii :=
  (0, dev, out_line [lit "[IO-DEVICE] CControl confirmation (AREP="; fmt_u arep; lit ")"]).

Definition app_write_ind_cb (arep api slot subslot idx sequence_number write_length : Z)
    (data : list byte) dev : Z * io_device_t net * list ascii :=
  (0, dev, out_line [lit "[IO-DEVICE] Write indication (AREP="; fmt_u arep; lit ", api="; fmt_u api;
                     lit ", slot="; fmt_u slot; lit ", subslot="; fmt_u subslot; lit ", idx=0x";
                     fmt_x 4 idx; lit ", seq="; fmt_u sequence_number; lit ", len=";
                     fmt_u write_length; lit ")"]).

(** [*pp_read_data] and [*p_read_length] are left alone. *)
Definition app_read_ind_cb (arep api slot subslot idx sequence_number : Z) dev
    : Z * io_device_t net * list ascii :=
  (0, dev, out_line [lit "[IO-DEVICE] Read indication (AREP="; fmt_u arep; lit ", api="; fmt_u api;
                     lit ", slot="; fmt_u slot; lit ", subslot="; fmt_u subslot; lit ", idx=0x";
                     fmt_x 4 idx; lit ", seq="; fmt_u sequence_number; lit ")"]).

Definition app_exp_module_ind_cb (api slot module_ident : Z) dev : Z * io_device_t net * list ascii :=
  (0, dev, out_line [lit "[IO-DEVICE] Expected module indication (api="; fmt_u api; lit ", slot=";
                     fmt_u slot; lit ", module_ident=0x"; fmt_x 8 module_ident; lit ")"]).

Definition app_exp_submodule_ind_cb (api slot subslot module_ident submodule_ident : Z)
    (p_exp_data : option pnet_data_cfg_t) dev : Z * io_device_t net * list ascii :=
  let out1 := out_line [lit "[IO-DEVICE] Expected submodule indication (api="; fmt_u api;
                        lit ", slot="; fmt_u slot; lit ", subslot="; fmt_u subslot; lit ", mod=0x";
                        fmt_x 8 module_ident; lit ", submod=0x"; fmt_x 8 submodule_ident; lit ")"] in
  let out2 :=
    match p_exp_data with
    | None => []
    | Some d => out_line [lit "[IO-DEVICE]   direction="; fmt_d (data_dir d); lit ", in_size=";
                          fmt_u (insize d); lit ", out_size="; fmt_u (outsize d)]
    end in
  (0, dev, out1 ++ out2).

Definition app_new_data_status_ind_cb (arep crep changes data_status : Z) dev
    : Z * io_device_t net * list ascii :=
  (0, dev, out_line [lit "[IO-DEVICE] New data status (AREP="; fmt_u arep; lit ", CREP="; fmt_u crep;
                     lit ", changes=0x"; fmt_x 2 changes; lit ", status=0x"; fmt_x 2 data_status;
                     lit ")"]).

Definition app_alarm_ind_cb (arep : Z) (p_alarm_argument : option pnet_alarm_argument_t)
    (data_len data_usi : Z) (data : list byte) dev : Z * io_device_t net * list ascii :=
  let slot := match p_alarm_argument with Some a => slot_nbr a | None => 0 end in
  let subslot := match p_alarm_argument with Some a => subslot_nbr a | None => 0 end in
  let type := match p_alarm_argument with Some a => alarm_type a | None => 0 end in
  (0, dev, out_line [lit "[IO-DEVICE] Alarm indication (AREP="; fmt_u arep; lit ", slot="; fmt_u slot;
                     lit ", subslot="; fmt_u subslot; lit ", type="; fmt_u type; lit ", data_usi=0x";
                     fmt_x 4 data_usi; lit ", data_len="; fmt_u data_len; lit ")"]).

Definition app_alarm_cnf_cb (arep : Z) dev : Z * io_device_t net * list ascii :=
  (0, dev, out_line [lit "[IO-DEVICE] Alarm confirmation (AREP="; fmt_u arep; lit ")"]).

Definition app_alarm_ack_cnf_cb (arep res : Z) dev : Z * io_device_t net * list ascii :=
  (0, dev, out_line [lit "[IO-DEVICE] Alarm ACK confirmation (AREP="; fmt_u arep; lit ", result=";
                     fmt_d res; lit ")"]).

Definition app_reset_ind_cb (should_reset_application : bool) (reset_mode : Z) dev
    : Z * io_device_t net * list ascii :=
  (0, dev, out_line [lit "[IO-DEVICE] Reset indication (reset_app=";
                     fmt_d (if should_reset_application then 1 else 0); lit ", mode=";
                     fmt_u reset_mode; lit ")"]).

Definition app_signal_led_ind_cb (led_state : bool) dev : Z * io_device_t net * list ascii :=
  (0, dev, out_line [lit "[IO-DEVICE] Signal LED: "; lit (if led_state then "ON" else "OFF")]).

Definition app_sm_released_ind_cb (arep api slot subslot : Z) dev
    : Z * io_device_t net * list ascii :=
  (0, dev, out_line [lit "[IO-DEVICE] Submodule released (AREP="; fmt_u arep; lit ", api="; fmt_u api;
                     lit ", slot="; fmt_u slot; lit ", subslot="; fmt_u subslot; lit ")"]).

(** The callbacks as [io_device_start] registers them. *)
Definition callback (ind : real_indication) : io_device_t net -> Z * io_device_t net * list ascii :=
  match ind with
  | r_state_ind arep event => app_state_ind_cb arep event
  | r_connect_ind arep => app_connect_ind_cb arep
  | r_release_ind arep => app_release_ind_cb arep
  | r_dcontrol_ind arep cmd => app_dcontrol_ind_cb arep cmd
  | r_ccontrol_cnf arep => app_ccontrol_cnf_cb arep
  | r_write_ind arep api slot subslot idx seq len data =>
      app_write_ind_cb arep api slot subslot idx seq len data
  | r_read_ind arep api slot subslot idx seq => app_read_ind_cb arep api slot subslot idx seq
  | r_exp_module_ind api slot mi => app_exp_module_ind_cb api slot mi
  | r_exp_submodule_ind api slot subslot mi si d => app_exp_submodule_ind_cb api slot subslot mi si d
  | r_new_data_status_ind arep crep changes st => app_new_data_status_ind_cb arep crep changes st
  | r_alarm_ind arep arg len usi data => app_alarm_ind_cb arep arg len usi data
  | r_alarm_cnf arep => app_alarm_cnf_cb arep
  | r_alarm_ack_cnf arep res => app_alarm_ack_cnf_cb arep res
  | r_reset_ind b mode => app_reset_ind_cb b mode
  | r_signal_led_ind b => app_signal_led_ind_cb b
  | r_sm_released_ind arep api slot subslot => app_sm_released_ind_cb arep api slot subslot
  end.

(** The indications of one call into the stack, in order: the device and all
    that was printed. *)
Definition run_callbacks (inds : list real_indication) dev : io_device_t net * list ascii :=
  foldl (fun '(dev, out) ind => let '(_, dev, o) := callback ind dev in (dev, out ++ o)) (dev, []) inds.
End callbacks.
End Real.

(** ** The stack

    The calls of the application with the arguments of the real API; the class
    [RealPnetOk] is what the application may rely on: an invariant that every
    call keeps, data calls that touch at most the [len] bytes they are given
    (so what lies behind them does not matter). *)
Class RealPnet (net : Type) := {
  rp_init : real_pnet_cfg_t -> option net;
  rp_handle_periodic : net -> net * list real_indication;
  rp_plug_module : net -> Z -> Z -> Z -> Z * net;
  rp_plug_submodule :
    net -> Z -> Z -> Z -> Z -> Z -> pnet_submodule_dir_t -> Z -> Z -> exec (Z * net);
  (* net, api, slot, subslot, data, data_len, iops *)
  rp_input_set_data_and_iops : net -> Z -> Z -> Z -> list byte -> Z -> Z -> exec (Z * net);
  (* net, api, slot, subslot, *new_flag, data, *data_len, *iops; returns the last four as well *)
  rp_output_get_data_and_iops :
    net -> Z -> Z -> Z -> bool -> list byte -> Z -> Z ->
    exec (Z * net * (bool * list byte * Z * Z));
  rp_factory_reset : net -> Z * net;
}.

Class RealPnetOk (net : Type) {R : RealPnet net} := {
  rstack_ok : net -> Prop;
  rinit_ok cfg n : rp_init cfg = Some n -> rstack_ok n;
  rperiodic_ok n n' inds : rstack_ok n -> rp_handle_periodic n = (n', inds) -> rstack_ok n';
  rplug_module_ok n api slot ident ret n' :
    rstack_ok n -> rp_plug_module n api slot ident = (ret, n') -> rstack_ok n';
  rplug_submodule_ok n api slot subslot mi si dir il ol :
    rstack_ok n -> 0 <= il <= 256 -> 0 <= ol <= 256 ->
    exists ret n', rp_plug_submodule n api slot subslot mi si dir il ol = Done (ret, n') /\
      rstack_ok n';
  rinput_set_ok n api slot subslot data len iops :
    rstack_ok n -> 0 <= len <= zlen data ->
    exists ret n', rp_input_set_data_and_iops n api slot subslot data len iops = Done (ret, n') /\
      rstack_ok n';
  rinput_set_reads n api slot subslot data len iops :
    0 <= len <= zlen data ->
    rp_input_set_data_and_iops n api slot subslot (take (Z.to_nat len) data) len iops =
    rp_input_set_data_and_iops n api slot subslot data len iops;
  routput_get_ok n api slot subslot flag data len iops :
    rstack_ok n -> 0 <= len <= zlen data ->
    exists ret n' flag' data' len' iops',
      rp_output_get_data_and_iops n api slot subslot flag data len iops =
        Done (ret, n', (flag', data', len', iops')) /\
      rstack_ok n' /\ zlen data' = zlen data /\ (ret = 0 -> 0 <= len' <= len);
}.

(** ** The adapter to the API of the default build *)

(** The indication of the default build that does the same. *)
Definition erase (ind : real_indication) : indication :=
  match ind with
  | r_state_ind arep event => state_ind arep event
  | r_connect_ind arep => connect_ind arep
  | r_release_ind arep => release_ind arep
  | r_dcontrol_ind arep cmd => dcontrol_ind arep cmd
  | r_ccontrol_cnf arep => ccontrol_cnf arep 0
  | r_write_ind arep api slot subslot idx _ len data => write_ind arep api slot subslot idx len data
  | r_read_ind arep api slot subslot idx _ => read_ind arep api slot subslot idx
  | r_exp_module_ind api slot mi => exp_module_ind api slot mi
  | r_exp_submodule_ind api slot subslot mi si _ =>
      exp_submodule_ind api slot subslot mi si PNET_DIR_NO_IO
  | r_new_data_status_ind arep _ changes _ => new_data_status_ind arep changes
  | r_alarm_ind arep arg _ _ data =>
      alarm_ind arep 0 (from_option slot_nbr 0 arg) (from_option subslot_nbr 0 arg) data
  | r_alarm_cnf arep => alarm_cnf arep
  | r_alarm_ack_cnf arep _ => alarm_ack_cnf arep
  | r_reset_ind b _ => reset_ind b
  | r_signal_led_ind _ => signal_led_ind
  | r_sm_released_ind arep api slot subslot => sm_released_ind arep api slot subslot
  end.

(** The configuration of the real stack from that of the default build. *)
Definition real_of (p : pnet_cfg_t) : real_pnet_cfg_t :=
  mk_real_cfg (pn_tick_us p) (pn_im_0_data p) (pn_device_id p) (pn_oem_device_id p)
    (pn_station_name p) (pn_product_name p) (pn_min_device_interval p) (pn_pnal_cfg p)
    (mk_real_if_cfg Config_interface_name
       (mk_ip_cfg (pnal_use_dhcp (pn_pnal_cfg p)) (ip_parts (pnal_ip_addr (pn_pnal_cfg p)))
          (ip_parts (pnal_netmask (pn_pnal_cfg p))) (ip_parts (pnal_gateway (pn_pnal_cfg p)))))
    (pn_num_physical_ports p) (pn_send_hello p) (pn_use_qualified_diagnosis p)
    (pn_file_directory p).

Definition as_stack {net} (R : RealPnet net) : PnetStack net := {|
  pnet_init p := rp_init (real_of p);
  pnet_handle_periodic n := let '(n, inds) := rp_handle_periodic n in (n, erase <$> inds);
  pnet_plug_module := rp_plug_module;
  pnet_plug_submodule := rp_plug_submodule;
  pnet_input_set_data_and_iops n api slot subslot data iops :=
    rp_input_set_data_and_iops n api slot subslot data (zlen data) iops;
  pnet_output_get_data_and_iops n api slot subslot data len iops :=
    '(ret, n, (_, data, len, iops)) ←
      rp_output_get_data_and_iops n api slot subslot false data len iops;
    Done (ret, n, (data, len, iops));
  pnet_factory_reset := rp_factory_reset;
|}.

#[export] Program Instance as_stack_ok {net} (R : RealPnet net) (ROk : RealPnetOk net) :
    PnetStackOk net (S := as_stack R) := {|
  stack_ok := rstack_ok;
  input_need _ _ _ _ := 0;
|}.
Next Obligation. intros net R ROk cfg n. apply rinit_ok. Qed.
Next Obligation.
  intros net R ROk n n' inds Hn. cbn. destruct (rp_handle_periodic n) as [n1 l] eqn:E.
  intros [= <- _]. by eapply rperiodic_ok.
Qed.
Next Obligation. intros net R ROk. apply rplug_module_ok. Qed.
Next Obligation. intros net R ROk. apply rplug_submodule_ok. Qed.
Next Obligation.
  intros net R ROk n api slot subslot data iops Hn _. apply rinput_set_ok; [done|].
  split; [apply zlen_nonneg|done].
Qed.
Next Obligation.
  intros net R ROk n api slot subslot data iops ret n' Hn E.
  destruct (rinput_set_ok n api slot subslot data (zlen data) iops Hn) as (r & m & E' & ?);
    [split; [apply zlen_nonneg|done]|].
  cbn in E. congruence.
Qed.
Next Obligation.
  intros net R ROk n api slot subslot data len iops Hn Hl. cbn.
  destruct (routput_get_ok n api slot subslot false data len iops Hn Hl)
    as (ret & n' & f & d & l & i & -> & ?). cbn [mbind exec_bind]. by eexists _, _, _, _, _.
Qed.

(** ** Operations of the real build *)
Module RealDevice.
Section operations.
Context {net : Type} {R : RealPnet net}.
Implicit Types dev : io_device_t net.

Definition plug_all_modules (n : net) : exec (Z * net) :=
  let '(ret, n) := rp_plug_module n PNET_API_NO_APPLICATION_PROFILE PNET_SLOT_DAP_IDENT
                     PNET_MOD_DAP_IDENT in
  if negb (ret =? 0) then Done (ret, n) else
  '(ret, n) ← rp_plug_submodule n PNET_API_NO_APPLICATION_PROFILE PNET_SLOT_DAP_IDENT
                PNET_SUBSLOT_DAP_WHOLE_MODULE PNET_MOD_DAP_IDENT PNET_SUBMOD_DAP_IDENT
                PNET_DIR_NO_IO 0 0;
  if negb (ret =? 0) then Done (ret, n) else
  '(ret, n) ← rp_plug_submodule n PNET_API_NO_APPLICATION_PROFILE PNET_SLOT_DAP_IDENT
                PNET_SUBSLOT_DAP_INTERFACE_1_IDENT PNET_MOD_DAP_IDENT
                PNET_SUBMOD_DAP_INTERFACE_1_IDENT PNET_DIR_NO_IO 0 0;
  if negb (ret =? 0) then Done (ret, n) else
  '(ret, n) ← rp_plug_submodule n PNET_API_NO_APPLICATION_PROFILE PNET_SLOT_DAP_IDENT
                PNET_SUBSLOT_DAP_INTERFACE_1_PORT_1_IDENT PNET_MOD_DAP_IDENT
                PNET_SUBMOD_DAP_INTERFACE_1_PORT_1_IDENT PNET_DIR_NO_IO 0 0;
  if negb (ret =? 0) then Done (ret, n) else
  let '(ret, n) := rp_plug_module n EXAMPLE_API EXAMPLE_SLOT EXAMPLE_MODULE_IDENT in
  if negb (ret =? 0) then Done (ret, n) else
  '(ret, n) ← rp_plug_submodule n EXAMPLE_API EXAMPLE_SLOT EXAMPLE_SUBSLOT_INPUT
                EXAMPLE_MODULE_IDENT EXAMPLE_SUBMOD_INPUT PNET_DIR_INPUT EXAMPLE_INPUT_SIZE 0;
  if negb (ret =? 0) then Done (ret, n) else
  '(ret, n) ← rp_plug_submodule n EXAMPLE_API EXAMPLE_SLOT EXAMPLE_SUBSLOT_OUTPUT
                EXAMPLE_MODULE_IDENT EXAMPLE_SUBMOD_OUTPUT PNET_DIR_OUTPUT 0 EXAMPLE_OUTPUT_SIZE;
  if negb (ret =? 0) then Done (ret, n) else Done (0, n).

(** The result of the factory reset is only logged. *)
Definition io_device_stop (dev : option (io_device_t net)) : Z * option (io_device_t net) :=
  match dev with
  | None => (-1, None)
  | Some dev =>
      match pnet_handle dev with
      | None => (-1, Some dev)
      | Some n =>
          let '(_, n) := rp_factory_reset n in
          (0, io_device_cleanup (Some (set_handle (Some n) dev)))
      end
  end.

Definition io_device_start (dev : option (io_device_t net))
    : exec (Z * option (io_device_t net)) :=
  match dev with
  | None => Done (-1, None)
  | Some dev =>
      if negb (bool_decide (state dev = IO_DEVICE_STATE_INITIALIZED)) then Done (-1, Some dev)
      else
        pnet_cfg ← build_real_cfg (config dev);
        match rp_init pnet_cfg with
        | None => Done (-1, Some (set_state IO_DEVICE_STATE_ERROR (set_handle None dev)))
        | Some n =>
            '(ret, n) ← plug_all_modules n;
            let dev := set_handle (Some n) dev in
            if negb (ret =? 0) then Done (-1, Some (set_state IO_DEVICE_STATE_ERROR dev))
            else Done (0, Some (set_state IO_DEVICE_STATE_CONNECTED dev))
        end
  end.

(** The third result is what the callbacks print. *)
Definition io_device_tick (dev : option (io_device_t net))
    : Z * option (io_device_t net) * list ascii :=
  match dev with
  | None => (-1, None, [])
  | Some dev =>
      match pnet_handle dev with
      | None => (-1, Some dev, [])
      | Some n =>
          if bool_decide (state dev = IO_DEVICE_STATE_ERROR) then (-1, Some dev, [])
          else
            let '(n, inds) := rp_handle_periodic n in
            let '(dev, out) := Real.run_callbacks inds (set_handle (Some n) dev) in
            (0, Some (set_cycle_count (u64 (cycle_count dev + 1)) dev), out)
      end
  end.

Definition io_device_update_input (dev : option (io_device_t net)) (data : option (list byte))
    (len : Z) : exec (Z * option (io_device_t net)) :=
  match dev with
  | None => Done (-1, None)
  | Some dev =>
      match pnet_handle dev, data with
      | Some n, Some data =>
          if 256 <? len then Done (-1, Some dev)
          else
            d ← memcpy (input_data dev) data len;
            let dev := set_input_cache d len dev in
            '(ret, n) ← rp_input_set_data_and_iops n EXAMPLE_API EXAMPLE_SLOT
                          EXAMPLE_SUBSLOT_INPUT data len PNET_IOXS_GOOD;
            Done (ret, Some (set_handle (Some n) dev))
      | _, _ => Done (-1, Some dev)
      end
  end.

Definition io_device_read_output (dev : option (io_device_t net)) (data : option (list byte))
    (len : option Z) : exec (Z * option (io_device_t net) * option (list byte) * option Z) :=
  match dev with
  | None => Done (-1, None, data, len)
  | Some dev =>
      match pnet_handle dev, data, len with
      | Some n, Some buf, Some data_len =>
          '(ret, n, (_, buf, data_len', _)) ←
            rp_output_get_data_and_iops n EXAMPLE_API EXAMPLE_SLOT EXAMPLE_SUBSLOT_OUTPUT
              false buf data_len PNET_IOXS_BAD;
          let dev := set_handle (Some n) dev in
          if ret =? 0 then
            d ← memcpy (output_data dev) buf data_len';
            Done (ret, Some (set_output_cache d data_len' dev), Some buf, Some data_len')
          else Done (ret, Some dev, Some buf, Some data_len)
      | _, _, _ => Done (-1, Some dev, data, len)
      end
  end.
End operations.
End RealDevice.

(** ** The two builds agree *)

Lemma real_callback_erase {net} ind (dev : io_device_t net) :
  (Real.callback ind dev).1 = callback (erase ind) dev.
Proof. by destruct ind. Qed.

(** What an indication prints; the device does not matter. *)
Definition callback_output (ind : real_indication) : list ascii :=
  (Real.callback ind (zero_device (net := unit))).2.

Lemma real_run_callbacks {net} inds (dev : io_device_t net) :
  Real.run_callbacks inds dev = (run_callbacks (erase <$> inds) dev, mjoin (callback_output <$> inds)).
Proof.
  unfold Real.run_callbacks.
  assert (forall out, foldl (fun '(dev, out) ind =>
      let '(_, dev, o) := Real.callback ind dev in (dev, out ++ o)) (dev, out) inds =
    (run_callbacks (erase <$> inds) dev, out ++ mjoin (callback_output <$> inds))) as H; [|apply H].
  revert dev. induction inds as [|ind inds IH]; intros dev out; [by rewrite app_nil_r|].
  cbn [foldl fmap list_fmap mjoin list_join]. pose proof (real_callback_erase ind dev) as He.
  assert ((Real.callback ind dev).2 = callback_output ind) as Ho by (by destruct ind).
  destruct (Real.callback ind dev) as [[r dev1] o]. cbn [fst snd] in He, Ho. subst o.
  rewrite IH, <-app_assoc. f_equal.
  change (run_callbacks (erase ind :: (erase <$> inds)) dev) with
    (run_callbacks (erase <$> inds) (callback (erase ind) dev).2).
  by rewrite <-He.
Qed.

(** The real configuration is a function of the default one. *)
Lemma build_real_cfg_eq c : build_real_cfg c = (p ← build_pnet_cfg c; Done (real_of p)).
Proof.
  unfold build_real_cfg, build_pnet_cfg.
  repeat (match goal with |- context [read_str ?x ≫= _] => destruct (read_str x); [|done] end;
    cbn [mbind exec_bind]).
  done.
Qed.

Section agreement.
Context {net : Type} {R : RealPnet net}.
Implicit Types dev : option (io_device_t net).

Lemma start_agrees dev :
  RealDevice.io_device_start dev = @io_device_start net (as_stack R) dev.
Proof using.
  destruct dev as [dev|]; [|done]. cbn [RealDevice.io_device_start io_device_start].
  destruct (negb _); [done|]. rewrite build_real_cfg_eq. by destruct (build_pnet_cfg (config dev)).
Qed.

Lemma tick_agrees dev :
  (RealDevice.io_device_tick dev).1 = @io_device_tick net (as_stack R) dev.
Proof using.
  destruct dev as [dev|]; [|done]. cbn [RealDevice.io_device_tick io_device_tick].
  destruct (pnet_handle dev) as [n|]; [|done]. case_bool_decide; [done|].
  cbn [pnet_handle_periodic as_stack].
  destruct (rp_handle_periodic n) as [n' inds]. by rewrite real_run_callbacks.
Qed.

Lemma read_agrees dev buf len :
  RealDevice.io_device_read_output dev buf len = @io_device_read_output net (as_stack R) dev buf len.
Proof using.
  destruct dev as [dev|]; [|done]. cbn [RealDevice.io_device_read_output io_device_read_output].
  destruct (pnet_handle dev) as [n|], buf as [buf|], len as [len|]; try done.
  cbn [pnet_output_get_data_and_iops as_stack].
  by destruct (rp_output_get_data_and_iops _ _ _ _ _ _ _ _) as [[[ret n'] [[[f b] l] i]]|].
Qed.

(** [plug_all_modules] and [io_device_stop] make the same calls. *)
Lemma plug_agrees n :
  RealDevice.plug_all_modules n = @plug_all_modules net (as_stack R) n.
Proof using. done. Qed.

Lemma stop_agrees dev : RealDevice.io_device_stop dev = @io_device_stop net (as_stack R) dev.
Proof using. by destruct dev. Qed.

(** The copy into the cache reads the first [len] bytes only. *)
Lemma memcpy_take dst src n : 0 <= n <= zlen src ->
  memcpy dst (take (Z.to_nat n) src) n = memcpy dst src n.
Proof using.
  intros Hn. unfold memcpy. rewrite take_take, Nat.min_id. f_equal.
  assert (zlen (take (Z.to_nat n) src) = n) as -> by (unfold zlen in *; rewrite length_take; lia).
  f_equal. apply bool_decide_ext. lia.
Qed.

Lemma update_agrees (ROk : RealPnetOk net) dev data len : 0 <= len <= zlen data ->
  RealDevice.io_device_update_input dev (Some data) len =
    @io_device_update_input net (as_stack R) dev (Some (take (Z.to_nat len) data)) len.
Proof using.
  intros Hlen. destruct dev as [dev|]; [|done].
  cbn [RealDevice.io_device_update_input io_device_update_input].
  destruct (pnet_handle dev) as [n|]; [|done]. destruct (256 <? len); [done|].
  rewrite memcpy_take by done. cbn [pnet_input_set_data_and_iops as_stack].
  assert (zlen (take (Z.to_nat len) data) = len) as ->
    by (unfold zlen in *; rewrite length_take; lia).
  by rewrite rinput_set_reads.
Qed.

(** The return value and the stack after a call, without the caches. *)
Definition answer (m : exec (Z * option (io_device_t net))) : exec (Z * option net) :=
  '(r, d) ← m; Done (r, d ≫= pnet_handle).

(** The default build sends the whole buffer whatever the length. *)
Lemma update_whole dev data len : 0 <= len <= zlen data -> zlen data <= 256 ->
  (forall d, dev = Some d -> zlen (input_data d) = 256) ->
  answer (@io_device_update_input net (as_stack R) dev (Some data) len) =
  answer (RealDevice.io_device_update_input dev (Some data) (zlen data)).
Proof using.
  intros Hlen H256 Hd. destruct dev as [dev|]; [|done]. specialize (Hd dev eq_refl). unfold answer.
  cbn [RealDevice.io_device_update_input io_device_update_input].
  destruct (pnet_handle dev) as [n|] eqn:Hn; [|by cbn; rewrite Hn].
  rewrite !(proj2 (Z.ltb_ge 256 _)) by lia.
  destruct (memcpy_ok (input_data dev) data len) as (d1 & -> & _); [lia..|].
  destruct (memcpy_ok (input_data dev) data (zlen data)) as (d2 & -> & _); [lia..|].
  cbn [mbind exec_bind pnet_input_set_data_and_iops as_stack].
  by destruct (rp_input_set_data_and_iops _ _ _ _ _ _ _) as [[]|].
Qed.

(** C9: The two builds drive the device alike, up to the length of the input
    data.  Over the same stack, seen by the default build through the adapter:
    start, tick, stop and read_output return the same value, leave the same
    device and the same caller's buffer and length, whatever the arguments, null
    pointers included; the real build prints the lines of the indications in
    order besides.  update_input of the real build does what the default build
    does with the buffer cut to the announced length; with a longer buffer the
    builds differ: the default build, which cannot tell the stack the length,
    gives it the bytes the real build would announce as the whole buffer. *)
Theorem builds_agree (ROk : RealPnetOk net) dev data buf len ulen :
  RealDevice.io_device_start dev = @io_device_start net (as_stack R) dev /\
  (RealDevice.io_device_tick dev).1 = @io_device_tick net (as_stack R) dev /\
  RealDevice.io_device_stop dev = @io_device_stop net (as_stack R) dev /\
  RealDevice.io_device_read_output dev buf len = @io_device_read_output net (as_stack R) dev buf len /\
  (forall d n, dev = Some d -> pnet_handle d = Some n -> state d <> IO_DEVICE_STATE_ERROR ->
     (RealDevice.io_device_tick dev).2 = mjoin (callback_output <$> (rp_handle_periodic n).2)) /\
  RealDevice.io_device_update_input dev None ulen =
    @io_device_update_input net (as_stack R) dev None ulen /\
  (0 <= ulen <= zlen data ->
     RealDevice.io_device_update_input dev (Some data) ulen =
       @io_device_update_input net (as_stack R) dev (Some (take (Z.to_nat ulen) data)) ulen /\
     (zlen data <= 256 -> (forall d, dev = Some d -> zlen (input_data d) = 256) ->
        answer (@io_device_update_input net (as_stack R) dev (Some data) ulen) =
        answer (RealDevice.io_device_update_input dev (Some data) (zlen data)))).
Proof using.
  split; [apply start_agrees|]. split; [apply tick_agrees|]. split; [apply stop_agrees|].
  split; [apply read_agrees|]. split; [|split].
  - intros d n -> Hn Hs. cbn [RealDevice.io_device_tick]. rewrite Hn, bool_decide_eq_false_2 by done.
    destruct (rp_handle_periodic n) as [n' inds]. by rewrite real_run_callbacks.
  - destruct dev as [dev|]; [|done]. cbn. by destruct (pnet_handle dev).
  - intros Hlen. split; [by apply update_agrees|]. by apply update_whole.
Qed.
End agreement.

(** ** The configuration the real stack gets *)

Lemma u8_land_255 i x : 0 <= i -> u8 (byte_of i x) = byte_of i x.
Proof. intros. apply wrapu_small. by apply byte_of_range. Qed.

Lemma ip_parts_eq ip : ip_parts ip =
  mk_ip_addr (byte_of 3 ip) (byte_of 2 ip) (byte_of 1 ip) (byte_of 0 ip).
Proof.
  change (ip_parts ip) with (mk_ip_addr (u8 (byte_of 3 ip)) (u8 (byte_of 2 ip)) (u8 (byte_of 1 ip))
    (u8 (byte_of 0 ip))).
  by rewrite !u8_land_255 by lia.
Qed.

(** An address of the stack as the administrator writes it, and as a number. *)
Definition dotted (p : pnet_cfg_ip_addr_t) : list ascii := fmt_quad (ip_a p) (ip_b p) (ip_c p) (ip_d p).
Definition ip_number (p : pnet_cfg_ip_addr_t) : Z :=
  ip_a p * 2 ^ 24 + ip_b p * 2 ^ 16 + ip_c p * 2 ^ 8 + ip_d p.

Lemma ip_parts_number ip : in_u 32 ip -> ip_number (ip_parts ip) = ip.
Proof. intros. rewrite ip_parts_eq. symmetry. by apply octets_eq. Qed.

Lemma ip_parts_dotted ip : dotted (ip_parts ip) = fmt_ip ip.
Proof. by rewrite ip_parts_eq. Qed.

(** C36: The real stack announces the configured identity.  For a configuration
    whose arrays have their sizes and hold strings, building the stack's
    configuration stays inside them; address, mask and gateway reach the
    stack as the octets of the dotted quads in the configuration file, in
    that order on every machine, so the number they stand for is the configured
    one (the network interface gets them reversed on a little-endian machine);
    the names arrive complete, and the interface name the stack reads through
    its pointer is the configured one.  The identity is the configured one too:
    the high and low bytes of the vendor and of the device identifier, the OEM
    identity, the vendor in I&M0, and the fixed order and serial numbers. *)
Theorem real_cfg_faithful {net} (c : io_device_cfg_t) (dev : io_device_t net) :
  device_cfg_ok c -> device_cfg_sized c -> in_u 32 (ip_addr c) -> in_u 32 (netmask c) ->
  in_u 32 (gateway c) -> in_u 16 (vendor_id c) -> in_u 16 (device_id c) -> config dev = c ->
  exists p, build_real_cfg c = Done p /\
    (let ips := ip_cfg (rc_if_cfg p) in
     (dotted (ipc_ip_addr ips), dotted (ipc_ip_mask ips), dotted (ipc_ip_gateway ips)) =
       (fmt_ip (ip_addr c), fmt_ip (netmask c), fmt_ip (gateway c)) /\
     (ip_number (ipc_ip_addr ips), ip_number (ipc_ip_mask ips), ip_number (ipc_ip_gateway ips)) =
       (ip_addr c, netmask c, gateway c) /\ dhcp_enable ips = false) /\
    netif_name_at (main_netif_name (rc_if_cfg p)) dev = Done (c_str (interface_name c)) /\
    c_str (pnal_if_name (rc_pnal_cfg p)) = c_str (interface_name c) /\
    c_str (rc_station_name p) = c_str (station_name c) /\
    c_str (rc_product_name p) = c_str (product_name c) /\
    c_str (rc_file_directory p) = c_str (file_directory c) /\
    (rc_tick_us p, rc_send_hello p) = (tick_us c, send_hello c) /\
    (pnal_ip_addr (rc_pnal_cfg p), pnal_netmask (rc_pnal_cfg p), pnal_gateway (rc_pnal_cfg p)) =
      (ip_addr c, netmask c, gateway c) /\
    (let id := rc_device_id p in
     (in_u 8 (vendor_id_high id) /\ in_u 8 (vendor_id_low id) /\
      vendor_id_high id * 256 + vendor_id_low id = vendor_id c) /\
     (in_u 8 (device_id_high id) /\ in_u 8 (device_id_low id) /\
      device_id_high id * 256 + device_id_low id = device_id c) /\
     rc_oem_device_id p = id /\
     (im_vendor_id_hi (rc_im_0_data p), im_vendor_id_lo (rc_im_0_data p)) =
       (vendor_id_high id, vendor_id_low id)) /\
    c_str (im_order_id (rc_im_0_data p)) = lit "PNET-IO-DEVICE" /\
    c_str (im_serial_number (rc_im_0_data p)) = lit "00001".
Proof.
  intros Hok (Hp & Hs & Hi & Hf) Ha Hm Hg Hv Hd Hc.
  rewrite build_real_cfg_eq, build_pnet_cfg_ok by done.
  destruct Hok as (? & ? & Hif & ?). eexists. split; [done|].
  cbn [real_of rc_if_cfg ip_cfg ipc_ip_addr ipc_ip_mask ipc_ip_gateway pn_pnal_cfg pnal_ip_addr
    pnal_netmask pnal_gateway main_netif_name rc_pnal_cfg pnal_if_name rc_station_name
    pn_station_name rc_product_name pn_product_name rc_file_directory pn_file_directory].
  rewrite !ip_parts_dotted, !ip_parts_number, !safe_strncpy_keeps by done.
  cbn [netif_name_at]. rewrite Hc, read_str_ok by done.
  do 8 (split; [done|]).
  split; [|by vm_compute]. cbn [real_of rc_device_id rc_oem_device_id rc_im_0_data pn_device_id
    pn_oem_device_id pn_im_0_data im_0_of im_vendor_id_hi im_vendor_id_lo device_identity
    vendor_id_high vendor_id_low device_id_high device_id_low].
  rewrite !u16_split by done. by repeat split; apply (wrapu_range 8).
Qed.

(** ** Any sequence of calls on the device of the real build *)
Section real_lifecycle.
Context {net : Type} {R : RealPnet net} {ROk : RealPnetOk net}.
Implicit Types dev : io_device_t net.

Inductive real_step : io_device_t net -> io_device_t net -> Prop :=
  | rstep_init dev cfg ret dev' :
      device_cfg_ok cfg -> io_device_init (Some dev) (Some cfg) = (ret, Some dev') ->
      real_step dev dev'
  | rstep_start dev ret dev' :
      RealDevice.io_device_start (Some dev) = Done (ret, Some dev') -> real_step dev dev'
  | rstep_tick dev ret dev' out :
      RealDevice.io_device_tick (Some dev) = (ret, Some dev', out) -> real_step dev dev'
  | rstep_stop dev ret dev' :
      RealDevice.io_device_stop (Some dev) = (ret, Some dev') -> real_step dev dev'
  | rstep_cleanup dev dev' :
      io_device_cleanup (Some dev) = Some dev' -> real_step dev dev'
  | rstep_update dev data len ret dev' :
      0 <= len <= zlen data ->
      RealDevice.io_device_update_input (Some dev) (Some data) len = Done (ret, Some dev') ->
      real_step dev dev'
  | rstep_read dev data len ret dev' data' len' :
      0 <= len <= zlen data ->
      RealDevice.io_device_read_output (Some dev) (Some data) (Some len) =
        Done (ret, Some dev', data', len') ->
      real_step dev dev'.

Definition real_reachable : io_device_t net -> Prop := rtc real_step zero_device.

(** A tick leaves the configuration alone. *)
Lemma tick_config (S : PnetStack net) dev ret dev' :
  io_device_tick (Some dev) = (ret, Some dev') -> config dev' = config dev.
Proof using.
  destruct (pnet_handle dev) as [n|] eqn:E; cbn [io_device_tick]; rewrite E; [|by intros [= _ <-]].
  case_bool_decide; [by intros [= _ <-]|]. destruct (pnet_handle_periodic n) as [n' inds].
  rewrite run_callbacks_spec. by intros [= _ <-].
Qed.

(** [update_input] with any length the buffer holds. *)
Lemma real_update_cases dev data len : device_inv (SOk := as_stack_ok R ROk) dev ->
  0 <= len <= zlen data -> exists ret dev',
    RealDevice.io_device_update_input (Some dev) (Some data) len = Done (ret, Some dev') /\
    device_inv (SOk := as_stack_ok R ROk) dev'.
Proof using.
  intros Hinv Hlen. pose proof Hinv as [Hcfg Hh Hi Ho Hz Hc].
  cbn [RealDevice.io_device_update_input].
  destruct (pnet_handle dev) as [n|] eqn:E; [|by eexists _, _]. destruct Hh as [Hn Hs].
  destruct (Z.ltb_spec 256 len); [by eexists _, _|].
  destruct (memcpy_ok (input_data dev) data len) as (d & -> & Hd & _); [lia..|].
  cbn [mbind exec_bind].
  destruct (rinput_set_ok n EXAMPLE_API EXAMPLE_SLOT EXAMPLE_SUBSLOT_INPUT data len PNET_IOXS_GOOD)
    as (ret & n' & -> & Hn'); [exact Hn|lia|].
  cbn [mbind exec_bind]. eexists _, _. split; [done|]. constructor; cbn; (done || lia || tauto).
Qed.

Lemma real_step_inv dev dev' : device_inv (SOk := as_stack_ok R ROk) dev -> real_step dev dev' ->
  device_inv (SOk := as_stack_ok R ROk) dev'.
Proof using.
  intros Hinv Hstep. destruct Hstep as [????? E|?? ? E|?? ? ? E|?? ? E|?? E|?????? E|??????? ? E].
  - by eapply init_inv.
  - rewrite start_agrees in E. by eapply start_inv.
  - pose proof (tick_agrees (Some dev)) as Ha. rewrite E in Ha.
    eapply tick_inv; [exact Hinv|symmetry; exact Ha].
  - rewrite stop_agrees in E. eapply step_inv; [exact Hinv|]. by eapply step_stop.
  - by eapply step_inv, step_cleanup.
  - destruct (real_update_cases dev data len Hinv) as (r & d & E' & ?); [done|]. congruence.
  - rewrite read_agrees in E. by eapply read_inv.
Qed.

(** The overrun of [read_undefined], on the calls of the real API. *)
Lemma real_read_undefined dev data len :
  device_inv (SOk := as_stack_ok R ROk) dev -> 0 <= len <= zlen data ->
  @io_device_read_output net (as_stack R) (Some dev) (Some data) (Some len) = Undefined <->
  exists n n' flag data' len' iops, pnet_handle dev = Some n /\
    rp_output_get_data_and_iops n EXAMPLE_API EXAMPLE_SLOT EXAMPLE_SUBSLOT_OUTPUT false data
      len PNET_IOXS_BAD = Done (0, n', (flag, data', len', iops)) /\ 256 < len'.
Proof using.
  intros Hinv Hl. rewrite (read_undefined dev data len Hinv Hl).
  cbn [pnet_output_get_data_and_iops as_stack]. split.
  - intros (n & n' & d & l & i & Hn & ([[r m] [[[f d'] l'] i']] & E & [= -> <- <- <- <-])%exec_bind_inv & ?).
    by exists n, m, f, d', l', i'.
  - intros (n & n' & f & d & l & i & Hn & E & ?). exists n, n', d, l, i. by rewrite E.
Qed.

Lemma real_reachable_inv dev : real_reachable dev -> device_inv (SOk := as_stack_ok R ROk) dev.
Proof using.
  apply (rtc_ind_r (device_inv (SOk := as_stack_ok R ROk))); [apply zero_device_inv|].
  intros x y _ Hs Hx. by eapply real_step_inv.
Qed.

(** C35: Where the calls on the device of the real build can leave its
    buffers.  Over any stack that keeps its promises, after any calls that
    returned, in any order (initialise, start, tick, stop, clean up, data in
    either direction with any length the caller's buffer holds), the device is
    consistent; start returns; update_input returns for every length (the real
    API takes the length, so a buffer shorter than the submodule is safe too);
    read_output is undefined exactly when the stack succeeds with more than the
    256 bytes of the output cache, which the code does not check, and so never
    for a caller that offers at most 256; a tick keeps the configuration, and so
    the interface name behind the stack's pointer stays the string it was. *)
Theorem real_device_safe dev : real_reachable dev ->
  device_inv (SOk := as_stack_ok R ROk) dev /\
  defined (RealDevice.io_device_start (Some dev)) /\
  (forall data len, 0 <= len <= zlen data ->
     defined (RealDevice.io_device_update_input (Some dev) (Some data) len)) /\
  (forall data len, 0 <= len <= zlen data ->
     (RealDevice.io_device_read_output (Some dev) (Some data) (Some len) = Undefined <->
        exists n n' flag data' len' iops, pnet_handle dev = Some n /\
          rp_output_get_data_and_iops n EXAMPLE_API EXAMPLE_SLOT EXAMPLE_SUBSLOT_OUTPUT false data
            len PNET_IOXS_BAD = Done (0, n', (flag, data', len', iops)) /\ 256 < len') /\
     (len <= 256 ->
        defined (RealDevice.io_device_read_output (Some dev) (Some data) (Some len)))) /\
  netif_name_at Config_interface_name dev = Done (c_str (interface_name (config dev))) /\
  (forall ret dev' out, RealDevice.io_device_tick (Some dev) = (ret, Some dev', out) ->
     config dev' = config dev /\
     netif_name_at Config_interface_name dev' = netif_name_at Config_interface_name dev).
Proof using.
  intros Hinv%real_reachable_inv. split; [done|]. split; [|split; [|split; [|split]]].
  - rewrite start_agrees.
    by destruct (start_cases dev Hinv) as [[_ ->]|(_ & _ & [->|(n & _ & [->| ->])])].
  - intros data len Hl. by destruct (real_update_cases dev data len Hinv Hl) as (r & d & -> & _).
  - intros data len Hl. rewrite read_agrees. split; [by apply real_read_undefined|].
    intros H256. by apply read_within.
  - apply read_str_ok, Hinv.
  - intros ret dev' out E. assert (config dev' = config dev) as Hc; [|unfold netif_name_at; by rewrite Hc].
    pose proof (tick_agrees (Some dev)) as Ha. rewrite E in Ha. symmetry in Ha. cbn [fst] in Ha.
    by apply tick_config in Ha.
Qed.
End real_lifecycle.

(** ** A concrete stack

    It raises a script of indications, period by period, and sends the data it
    is given back to the caller. *)
Record loop_net := mk_loop_net {
  ln_data : list byte;
  ln_script : list (list real_indication);
}.

#[export] Instance loop_real (script : list (list real_indication)) : RealPnet loop_net := {|
  rp_init _ := Some (mk_loop_net [] script);
  rp_handle_periodic n :=
    match ln_script n with
    | [] => (n, [])
    | inds :: script => (mk_loop_net (ln_data n) script, inds)
    end;
  rp_plug_module n _ _ _ := (0, n);
  rp_plug_submodule n _ _ _ _ _ _ _ _ := Done (0, n);
  rp_input_set_data_and_iops n _ _ _ data len _ :=
    access (bool_decide (0 <= len <= zlen data));;
    Done (0, mk_loop_net (take (Z.to_nat len) data) (ln_script n));
  rp_output_get_data_and_iops n _ _ _ _ data len _ :=
    let k := Z.min len (zlen (ln_data n)) in
    d ← memcpy data (ln_data n) k;
    Done (0, n, (true, d, k, PNET_IOXS_GOOD));
  rp_factory_reset n := (0, n);
|}.

#[export] Program Instance loop_real_ok script : RealPnetOk loop_net (R := loop_real script) :=
  {| rstack_ok _ := True |}.
Next Obligation. done. Qed.
Next Obligation. done. Qed.
Next Obligation. done. Qed.
Next Obligation. intros. by eexists _, _. Qed.
Next Obligation.
  intros script n api slot subslot data len iops _ Hl. cbn. rewrite access_ok by done. by eexists _, _.
Qed.
Next Obligation.
  intros script n api slot subslot data len iops Hl. cbn.
  rewrite take_take, Nat.min_id, !access_ok; [done|done|].
  unfold zlen in *. rewrite length_take. lia.
Qed.
Next Obligation.
  intros script n api slot subslot flag data len iops _ Hl. cbn. pose proof (zlen_nonneg (ln_data n)).
  destruct (memcpy_ok data (ln_data n) (Z.min len (zlen (ln_data n)))) as (d & -> & Hd & _); [lia..|].
  cbn [mbind exec_bind]. eexists _, _, _, _, _, _. split; [done|]. split; [done|]. split; [done|lia].
Qed.

Definition sample_script : list (list real_indication) :=
  [[r_connect_ind 7; r_state_ind 7 PNET_EVENT_STARTUP]; [r_state_ind 7 PNET_EVENT_DATA]].

Definition sample_real : io_device_t loop_net :=
  match RealDevice.io_device_start (R := loop_real sample_script)
          (io_device_init (Some zero_device) (Some sample_device_cfg)).2 with
  | Done (_, Some dev) => dev
  | _ => zero_device
  end.

Lemma sample_real_reachable : real_reachable (R := loop_real sample_script) sample_real.
Proof.
  eapply rtc_l; [apply (rstep_init _ sample_device_cfg 0); [apply sample_device_cfg_ok|exact eq_refl]|].
  eapply rtc_once, (rstep_start _ 0). by vm_compute.
Qed.

(** Two ticks: the events reach the device and the console. *)
Example sample_real_ticks :
  let '(_, dev, out1) := RealDevice.io_device_tick (R := loop_real sample_script) (Some sample_real) in
  let '(_, dev, out2) := RealDevice.io_device_tick (R := loop_real sample_script) dev in
  (state <$> dev, active_arep <$> dev) = (Some IO_DEVICE_STATE_RUNNING, Some 7) /\
  out1 ++ out2 = lit "[IO-DEVICE] Connect indication (AREP=7)" ++ [nl] ++
    lit "[IO-DEVICE] State event: STARTUP (AREP=7)" ++ [nl] ++
    lit "[IO-DEVICE] State event: DATA (AREP=7)" ++ [nl].
Proof. by vm_compute. Qed.

(** The same empty update: safe where the API takes the length, a read past
    the buffer where it does not. *)
Example empty_update :
  defined (RealDevice.io_device_update_input (R := loop_real sample_script) (Some sample_real)
             (Some []) 0) /\
  @io_device_update_input pnet (mock_stack true) (Some sample_started) (Some []) 0 = Undefined.
Proof. by vm_compute. Qed.

Lemma real_device_safe_witness :
  defined (RealDevice.io_device_update_input (R := loop_real sample_script) (Some sample_real)
             (Some [Byte.x2a]) 0).
Proof.
  destruct (real_device_safe (R := loop_real sample_script) sample_real sample_real_reachable)
    as (_ & _ & Hup & _).
  apply Hup. by vm_compute.
Defined.

Lemma builds_agree_witness :
  (RealDevice.io_device_tick (R := loop_real sample_script) (Some sample_real)).1 =
  @io_device_tick loop_net (as_stack (loop_real sample_script)) (Some sample_real).
Proof.
  destruct (builds_agree (R := loop_real sample_script) _ (Some sample_real) [] None None 0) as (_ & H & _).
  exact H.
Defined.

Lemma real_cfg_faithful_witness : exists p,
  build_real_cfg sample_device_cfg = Done p /\
  dotted (ipc_ip_addr (ip_cfg (rc_if_cfg p))) = lit "192.168.0.100" /\
  netif_name_at (main_netif_name (rc_if_cfg p)) sample_real = Done (lit "eth0").
Proof.
  destruct (real_cfg_faithful sample_device_cfg sample_real sample_device_cfg_ok)
    as (p & Hp & (Hd & _) & Hn & _); [by vm_compute..|].
  exists p. split; [exact Hp|]. split; [|rewrite Hn; by vm_compute].
  injection Hd as -> _ _. by vm_compute.
Defined.
