(* ===== verification/NetworkConfig.v ===== *)
(** * Network configuration (src/net/network_config.c, include/network_config.h)

    The interface queries and settings (Linux branch), which talk to the kernel
    through [ioctl], and the TCP tuning files under /proc/sys.  The kernel is a
    parameter: a class of the system calls used and a class of what netdevice(7)
    and proc(5) document about them.  The address helpers of the same source
    file are in NetAddr, its macOS branches in Platforms. *)
From S2P Require Import Prelude CString CFormat NetAddr.

(** ** The kernel's interface table *)

Inductive request :=
  | SIOCGIFADDR | SIOCGIFHWADDR | SIOCSIFADDR | SIOCSIFNETMASK | SIOCGIFFLAGS | SIOCSIFFLAGS.

#[export] Instance request_eq_dec : EqDecision request.
Proof. solve_decision. Defined.

Definition AF_INET : Z := 2.
Definition IFF_UP : Z := 1.
Definition IFNAMSIZ : nat := 16.

(** [struct ifreq]: the name and the octets of the union behind it. *)
Record ifreq := mk_ifreq {
  ifr_name : list ascii;  (* char[16] *)
  ifr_ifru : list Z;      (* 24 octets *)
}.

(** [memset (&ifr, 0, sizeof ifr)] *)
Definition zero_ifreq : ifreq := mk_ifreq (replicate IFNAMSIZ nul) (replicate 24 0).

(** A 16-bit member in the memory order of the machine. *)
Definition short_octets (le : bool) (x : Z) : list Z :=
  if le then [byte_of 0 x; byte_of 1 x] else [byte_of 1 x; byte_of 0 x].
Definition octet (i : nat) (l : list Z) : Z := u8 (nth i l 0).
Definition octets_short (le : bool) (l : list Z) : Z :=
  if le then octet 1 l * 256 + octet 0 l else octet 0 l * 256 + octet 1 l.

(** Members of the union: [sin_family], [sin_addr.s_addr] (as octets and as a
    number), [ifr_hwaddr.sa_data] and [ifr_flags]. *)
Definition sin_family (le : bool) (r : ifreq) : Z := octets_short le (ifr_ifru r).
Definition sin_octets (r : ifreq) : Z * Z * Z * Z :=
  (octet 4 (ifr_ifru r), octet 5 (ifr_ifru r), octet 6 (ifr_ifru r), octet 7 (ifr_ifru r)).
Definition s_addr (le : bool) (r : ifreq) : Z := octets_addr le (sin_octets r).
Definition sa_data (r : ifreq) : list Z := drop 2 (ifr_ifru r).
Definition ifr_flags (le : bool) (r : ifreq) : Z := octets_short le (ifr_ifru r).

(** [sin->sin_family = family; sin->sin_addr.s_addr = a] *)
Definition put_sin (le : bool) (family a : Z) (r : ifreq) : ifreq :=
  let '(o1, o2, o3, o4) := addr_octets le a in
  mk_ifreq (ifr_name r)
    (short_octets le family ++ take 2 (drop 2 (ifr_ifru r)) ++ [o1; o2; o3; o4] ++
     drop 8 (ifr_ifru r)).
(** [ifr.ifr_flags = f] *)
Definition put_flags (le : bool) (f : Z) (r : ifreq) : ifreq :=
  mk_ifreq (ifr_name r) (short_octets le f ++ drop 2 (ifr_ifru r)).

(** The system calls. *)
Class NetKernel (K : Type) := {
  k_socket : K -> Z * K;
  k_ioctl : Z -> request -> ifreq -> K -> Z * ifreq * K;
  k_close : Z -> K -> K;
}.

Record if_view := mk_if_view {
  v_addr : Z * Z * Z * Z;
  v_mask : Z * Z * Z * Z;
  v_hw : list Z;
  v_flags : Z;
}.

Definition is_get (rq : request) : bool :=
  match rq with SIOCGIFADDR | SIOCGIFHWADDR | SIOCGIFFLAGS => true | _ => false end.

(** What the kernel documents: a failing request changes nothing; a request
    addresses the interface whose name is the string in [ifr_name]; setting
    the address may change that interface's mask and flags but no other
    interface; setting the flags sets those among [settable_flags] as asked
    (IFF_UP is one) and leaves the addresses alone. *)
Class NetKernelOk (le : bool) (K : Type) `{NetKernel K} := {
  ifs : K -> gmap (list ascii) if_view;
  open_fds : K -> gset Z;
  settable_flags : Z;
  settable_up : Z.testbit settable_flags 0 = true;
  socket_ok k fd k' : k_socket k = (fd, k') -> ifs k' = ifs k /\
    (if fd <? 0 then open_fds k' = open_fds k
     else ((fd ∉ open_fds k) /\ open_fds k' = ({[fd]} ∪ open_fds k)));
  close_ok fd k : ifs (k_close fd k) = ifs k /\ open_fds (k_close fd k) = (open_fds k ∖ {[fd]});
  ioctl_fds fd rq r k ret r' k' : k_ioctl fd rq r k = (ret, r', k') -> open_fds k' = open_fds k;
  ioctl_name fd rq r k ret r' k' : k_ioctl fd rq r k = (ret, r', k') ->
    ifr_name r' = ifr_name r /\ length (ifr_ifru r') = length (ifr_ifru r);
  ioctl_keeps fd rq r k ret r' k' : k_ioctl fd rq r k = (ret, r', k') ->
    ret < 0 \/ is_get rq = true -> ifs k' = ifs k;
  ioctl_get fd rq r k ret r' k' : k_ioctl fd rq r k = (ret, r', k') -> 0 <= ret ->
    is_get rq = true -> exists v, ifs k !! c_str (ifr_name r) = Some v /\
      match rq with
      | SIOCGIFADDR => sin_octets r' = v_addr v
      | SIOCGIFHWADDR => take 6 (sa_data r') = v_hw v
      | _ => ifr_flags le r' = v_flags v
      end;
  ioctl_set fd rq r k ret r' k' : k_ioctl fd rq r k = (ret, r', k') -> 0 <= ret ->
    is_get rq = false -> (rq <> SIOCSIFFLAGS -> sin_family le r = AF_INET) ->
    exists v v', ifs k !! c_str (ifr_name r) = Some v /\
      ifs k' = <[c_str (ifr_name r) := v']> (ifs k) /\ v_hw v' = v_hw v /\
      match rq with
      | SIOCSIFADDR => v_addr v' = sin_octets r
      | SIOCSIFNETMASK => v_addr v' = v_addr v /\ v_mask v' = sin_octets r /\ v_flags v' = v_flags v
      | _ => v_addr v' = v_addr v /\ v_mask v' = v_mask v /\
             forall i, Z.testbit settable_flags i = true ->
               Z.testbit (v_flags v') i = Z.testbit (ifr_flags le r) i
      end;
}.

(** ** Interface functions (Linux branch)

    [if_name] is the caller's string, [None] for a null pointer. *)
Section interface_functions.
Context {K : Type} `{NetKernel K} (le : bool).

Definition create_ioctl_socket (k : K) : Z * K := k_socket k.

(** [memset] and [strncpy (ifr.ifr_name, if_name, IFNAMSIZ - 1)] *)
Definition named_ifreq (if_name : list ascii) : ifreq :=
  mk_ifreq (strncpy (ifr_name zero_ifreq) if_name (IFNAMSIZ - 1)) (ifr_ifru zero_ifreq).

(** The result: return value, [*ip] and the kernel. *)
Definition net_if_get_ip (if_name : option (list ascii)) (ip : option Z) (k : K)
    : Z * option Z * K :=
  match if_name, ip with
  | Some if_name, Some _ =>
      let '(fd, k) := create_ioctl_socket k in
      if fd <? 0 then (-1, ip, k) else
      let '(ret, ifr, k) := k_ioctl fd SIOCGIFADDR (named_ifreq if_name) k in
      if ret <? 0 then (-1, ip, k_close fd k)
      else (0, Some (s_addr le ifr), k_close fd k)
  | _, _ => (-1, ip, k)
  end.

Definition net_if_get_mac (if_name : option (list ascii)) (mac : option (list Z)) (k : K)
    : Z * option (list Z) * K :=
  match if_name, mac with
  | Some if_name, Some _ =>
      let '(fd, k) := create_ioctl_socket k in
      if fd <? 0 then (-1, mac, k) else
      let '(ret, ifr, k) := k_ioctl fd SIOCGIFHWADDR (named_ifreq if_name) k in
      if ret <? 0 then (-1, mac, k_close fd k)
      else (0, Some (take 6 (sa_data ifr)), k_close fd k)
  | _, _ => (-1, mac, k)
  end.

Definition net_if_set_ip (if_name : option (list ascii)) (ip : Z) (k : K) : Z * K :=
  match if_name with
  | None => (-1, k)
  | Some if_name =>
      let '(fd, k) := create_ioctl_socket k in
      if fd <? 0 then (-1, k) else
      let ifr := put_sin le AF_INET ip (named_ifreq if_name) in
      let '(ret, _, k) := k_ioctl fd SIOCSIFADDR ifr k in
      if ret <? 0 then (-1, k_close fd k) else (0, k_close fd k)
  end.

Definition net_if_set_netmask (if_name : option (list ascii)) (mask : Z) (k : K) : Z * K :=
  match if_name with
  | None => (-1, k)
  | Some if_name =>
      let '(fd, k) := create_ioctl_socket k in
      if fd <? 0 then (-1, k) else
      let ifr := put_sin le AF_INET mask (named_ifreq if_name) in
      let '(ret, _, k) := k_ioctl fd SIOCSIFNETMASK ifr k in
      if ret <? 0 then (-1, k_close fd k) else (0, k_close fd k)
  end.

Definition net_if_set_up (if_name : option (list ascii)) (k : K) : Z * K :=
  match if_name with
  | None => (-1, k)
  | Some if_name =>
      let '(fd, k) := create_ioctl_socket k in
      if fd <? 0 then (-1, k) else
      let '(ret, ifr, k) := k_ioctl fd SIOCGIFFLAGS (named_ifreq if_name) k in
      if ret <? 0 then (-1, k_close fd k) else
      let ifr := put_flags le (Z.lor (ifr_flags le ifr) IFF_UP) ifr in
      let '(ret, _, k) := k_ioctl fd SIOCSIFFLAGS ifr k in
      if ret <? 0 then (-1, k_close fd k) else (0, k_close fd k)
  end.

Definition net_if_set_down (if_name : option (list ascii)) (k : K) : Z * K :=
  match if_name with
  | None => (-1, k)
  | Some if_name =>
      let '(fd, k) := create_ioctl_socket k in
      if fd <? 0 then (-1, k) else
      let '(ret, ifr, k) := k_ioctl fd SIOCGIFFLAGS (named_ifreq if_name) k in
      if ret <? 0 then (-1, k_close fd k) else
      let ifr := put_flags le (Z.land (ifr_flags le ifr) (Z.lnot IFF_UP)) ifr in
      let '(ret, _, k) := k_ioctl fd SIOCSIFFLAGS ifr k in
      if ret <? 0 then (-1, k_close fd k) else (0, k_close fd k)
  end.
End interface_functions.

Record net_if_config_t := mk_if_config {
  nc_if_name : list ascii;  (* char[16] *)
  nc_ip_addr : Z;
  nc_netmask : Z;
  nc_gateway : Z;
  nc_mac_addr : list Z;     (* uint8_t[6] *)
  nc_configured : bool;
}.

Definition net_if_get_config {K} `{NetKernel K} (le : bool) (if_name : option (list ascii))
    (config : option net_if_config_t) (k : K) : Z * option net_if_config_t * K :=
  match if_name, config with
  | Some name, Some _ =>
      let if_name' := strncpy (replicate 16 nul) name 15 in
      let '(ip_ret, ip, k) := net_if_get_ip le if_name (Some 0) k in
      let '(mac_ret, mac, k) := net_if_get_mac if_name (Some (replicate 6 0)) k in
      let c ok := mk_if_config if_name' (default 0 ip) 0 0 (default [] mac) ok in
      if (ip_ret =? 0) && (mac_ret =? 0) then (0, Some (c true), k)
      else (-1, Some (c false), k)
  | _, _ => (-1, config, k)
  end.

(** ** Lemmas on [struct ifreq] *)

Lemma octets_short_octets le x : in_u 16 x -> octets_short le (short_octets le x) = x.
Proof.
  unfold in_u. intros. unfold octets_short, short_octets, octet, u8, wrapu.
  change (2 ^ 8) with 256. destruct le; cbn [nth]; rewrite !byte_of_div by lia;
    change (2 ^ (8 * 0)) with 1; change (2 ^ (8 * 1)) with 256;
    Z.to_euclidean_division_equations; lia.
Qed.

Lemma octets_short_range le l : in_u 16 (octets_short le l).
Proof.
  assert (forall i, in_u 8 (octet i l)) as H by (intros; apply (wrapu_range 8); lia).
  pose proof (H 0%nat) as H0. pose proof (H 1%nat) as H1. unfold in_u in *.
  unfold octets_short. destruct le; lia.
Qed.

Lemma named_ifreq_name name : text name -> c_str (ifr_name (named_ifreq name)) = take 15 name.
Proof.
  intros Ht. unfold named_ifreq. cbn [ifr_name].
  rewrite (strncpy_idiom _ _ 15) by done.
  apply c_str_to_array; [by apply Forall_take|]. rewrite length_take. lia.
Qed.

Lemma put_sin_spec le f a r : length (ifr_ifru r) = 24%nat -> in_u 16 f ->
  ifr_name (put_sin le f a r) = ifr_name r /\ sin_family le (put_sin le f a r) = f /\
  sin_octets (put_sin le f a r) = addr_octets le a.
Proof.
  intros Hlen Hf. destruct r as [name u]. cbn in Hlen.
  do 24 (destruct u as [|? u]; [done|]). destruct u; [|done].
  unfold put_sin. pose proof (addr_octets_ok le a) as Hq.
  destruct (addr_octets le a) as [[[o1 o2] o3] o4]. destruct Hq as (? & ? & ? & ?).
  split; [done|]. split.
  - unfold sin_family. cbn [ifr_ifru]. rewrite <-(octets_short_octets le f Hf) at 2.
    by destruct le.
  - unfold sin_octets. destruct le; cbn [ifr_ifru short_octets take drop app octet nth];
      unfold octet; cbn [nth]; unfold u8; by rewrite !wrapu_small.
Qed.

Lemma put_flags_spec le f r : in_u 16 f ->
  ifr_name (put_flags le f r) = ifr_name r /\ ifr_flags le (put_flags le f r) = f.
Proof.
  intros Hf. split; [done|]. unfold ifr_flags, put_flags. cbn [ifr_ifru].
  rewrite <-(octets_short_octets le f Hf) at 2. by destruct le.
Qed.

(** Setting and clearing IFF_UP in a 16-bit flag word. *)
Lemma testbit_up i : 0 <= i -> Z.testbit IFF_UP i = bool_decide (i = 0).
Proof.
  intros Hi. change IFF_UP with (2 ^ 0). rewrite Z.pow2_bits_eqb by lia.
  destruct (Z.eqb_spec 0 i) as [<-|]; [done|]. by rewrite bool_decide_eq_false_2.
Qed.

Lemma flags_up x i : 0 <= i ->
  Z.testbit (Z.lor x IFF_UP) i = Z.testbit x i || bool_decide (i = 0).
Proof. intros. by rewrite Z.lor_spec, testbit_up. Qed.

Lemma flags_down x i : 0 <= i ->
  Z.testbit (Z.land x (Z.lnot IFF_UP)) i = Z.testbit x i && negb (bool_decide (i = 0)).
Proof. intros. by rewrite Z.land_spec, Z.lnot_spec, testbit_up by lia. Qed.

Lemma flags_up_range x : in_u 16 x -> in_u 16 (Z.lor x IFF_UP).
Proof.
  unfold in_u. intros [? ?]. split; [apply Z.lor_nonneg; unfold IFF_UP; lia|].
  destruct (decide (x = 0)) as [->|]; [done|]. apply Z.log2_lt_pow2.
  - assert (0 <= Z.lor x IFF_UP) by (apply Z.lor_nonneg; unfold IFF_UP; lia).
    destruct (decide (Z.lor x IFF_UP = 0)) as [E|]; [|lia]. apply Z.lor_eq_0_iff in E. lia.
  - rewrite Z.log2_lor by (unfold IFF_UP; lia). change (Z.log2 IFF_UP) with 0.
    apply Z.max_lub_lt; [|lia]. apply Z.log2_lt_pow2; lia.
Qed.

Lemma flags_down_range x : in_u 16 x -> in_u 16 (Z.land x (Z.lnot IFF_UP)).
Proof.
  unfold in_u. intros [? ?]. split; [apply Z.land_nonneg; lia|].
  rewrite <-Z.ldiff_land. change IFF_UP with (Z.ones 1).
  rewrite Z.ldiff_ones_r, Z.shiftl_mul_pow2, Z.shiftr_div_pow2 by lia.
  Z.to_euclidean_division_equations. lia.
Qed.

(** ** The interface functions over any kernel *)
Section interface_proofs.
Context {le : bool} {K : Type} {NK : NetKernel K} {Ok : NetKernelOk le K}.
Implicit Types (k : K) (name : list ascii).

(** What a call may do to the kernel when it ends with [ret]: all
    descriptors it opened are closed, failure changes no interface, and
    success on the interface [name] changes it as [R] says. *)
Definition sets (name : list ascii) (R : if_view -> if_view -> Prop) (k : K)
    (res : Z * K) : Prop :=
  let '(ret, k') := res in
  open_fds k' = open_fds k /\
  (ret = -1 /\ ifs k' = ifs k \/
   ret = 0 /\ exists v v', ifs k !! take 15 name = Some v /\
     ifs k' = <[take 15 name := v']> (ifs k) /\ v_hw v' = v_hw v /\ R v v').

Lemma closed_fds k fd k1 : k_socket k = (fd, k1) -> 0 <= fd -> forall k2,
  open_fds k2 = open_fds k1 -> open_fds (k_close fd k2) = open_fds k.
Proof using.
  intros Hs Hfd k2 E. apply socket_ok in Hs as [_ Hs].
  destruct (Z.ltb_spec fd 0); [lia|]. destruct Hs as [Hn Ho].
  destruct (close_ok fd k2) as [_ ->]. rewrite E, Ho. apply set_eq. intros x.
  rewrite elem_of_difference, elem_of_union, elem_of_singleton. naive_solver.
Qed.

Lemma socket_view k fd k1 : k_socket k = (fd, k1) ->
  ifs k1 = ifs k /\ (fd < 0 -> open_fds k1 = open_fds k).
Proof using.
  intros Hs. apply socket_ok in Hs as [Hv Hs]. split; [done|]. intros.
  by destruct (Z.ltb_spec fd 0); [|lia].
Qed.

Lemma close_view fd k : ifs (k_close fd k) = ifs k.
Proof using. apply (close_ok fd k). Qed.

Definition addr_set (a : Z) (_ v' : if_view) : Prop := v_addr v' = addr_octets le a.
Definition mask_set (a : Z) (v v' : if_view) : Prop :=
  v_addr v' = v_addr v /\ v_mask v' = addr_octets le a /\ v_flags v' = v_flags v.
Definition flag_set (up : bool) (v v' : if_view) : Prop :=
  v_addr v' = v_addr v /\ v_mask v' = v_mask v /\ Z.testbit (v_flags v') 0 = up /\
  forall i, 0 < i -> Z.testbit settable_flags i = true ->
    Z.testbit (v_flags v') i = Z.testbit (v_flags v) i.

Lemma set_sin_spec rq name a k :
  text name -> is_get rq = false -> rq <> SIOCSIFFLAGS ->
  sets name (if decide (rq = SIOCSIFADDR) then addr_set a else mask_set a) k
    (let '(fd, k) := k_socket k in
     if fd <? 0 then (-1, k) else
     let '(ret, _, k) := k_ioctl fd rq (put_sin le AF_INET a (named_ifreq name)) k in
     if ret <? 0 then (-1, k_close fd k) else (0, k_close fd k)).
Proof using Ok.
  intros Ht Hrq Hne. unfold sets. destruct (k_socket k) as [fd k1] eqn:Hs.
  destruct (socket_view _ _ _ Hs) as [Hv1 Hbad].
  destruct (Z.ltb_spec fd 0) as [Hfd|Hfd]; [split; [by apply Hbad|by left]|].
  destruct (k_ioctl _ _ _ _) as [[ret r'] k2] eqn:Hi.
  pose proof (closed_fds _ _ _ Hs Hfd k2 (ioctl_fds _ _ _ _ _ _ _ Hi)) as Hfds.
  destruct (put_sin_spec le AF_INET a (named_ifreq name)) as (Hn & Hf & Ho); [done..|].
  destruct (Z.ltb_spec ret 0) as [Hr|Hr]; (split; [exact Hfds|]); rewrite close_view.
  - left. split; [done|]. rewrite (ioctl_keeps _ _ _ _ _ _ _ Hi) by auto. done.
  - right. split; [done|].
    destruct (ioctl_set _ _ _ _ _ _ _ Hi Hr Hrq (fun _ => Hf)) as (v & v' & Hl & Hk & Hw & HR).
    rewrite Hn, named_ifreq_name in Hl, Hk by done. rewrite Hv1 in Hl, Hk.
    exists v, v'. split; [done|]. split; [done|]. split; [done|].
    rewrite Ho in HR. by destruct rq.
Qed.

Lemma set_ip_spec name ip k : text name ->
  sets name (addr_set ip) k (net_if_set_ip le (Some name) ip k).
Proof using Ok. intros. by apply (set_sin_spec SIOCSIFADDR). Qed.

Lemma set_netmask_spec name mask k : text name ->
  sets name (mask_set mask) k (net_if_set_netmask le (Some name) mask k).
Proof using Ok. intros. by apply (set_sin_spec SIOCSIFNETMASK). Qed.

(** [net_if_set_up] and [net_if_set_down] differ in the flag word only. *)
Lemma set_flags_spec (f : Z -> Z) (up : bool) name k : text name ->
  (forall x, in_u 16 x -> in_u 16 (f x) /\ forall i, 0 <= i ->
     Z.testbit (f x) i = if bool_decide (i = 0) then up else Z.testbit x i) ->
  sets name (flag_set up) k
    (let '(fd, k) := k_socket k in
     if fd <? 0 then (-1, k) else
     let '(ret, ifr, k) := k_ioctl fd SIOCGIFFLAGS (named_ifreq name) k in
     if ret <? 0 then (-1, k_close fd k) else
     let '(ret, _, k) := k_ioctl fd SIOCSIFFLAGS (put_flags le (f (ifr_flags le ifr)) ifr) k in
     if ret <? 0 then (-1, k_close fd k) else (0, k_close fd k)).
Proof using Ok.
  intros Ht Hf. unfold sets. destruct (k_socket k) as [fd k1] eqn:Hs.
  destruct (socket_view _ _ _ Hs) as [Hv1 Hbad].
  destruct (Z.ltb_spec fd 0) as [Hfd|Hfd]; [split; [by apply Hbad|by left]|].
  destruct (k_ioctl fd SIOCGIFFLAGS _ k1) as [[ret1 r1] k2] eqn:Hi1.
  pose proof (ioctl_fds _ _ _ _ _ _ _ Hi1) as Hfds1.
  pose proof (ioctl_keeps _ _ _ _ _ _ _ Hi1 ltac:(by right)) as Hv2.
  destruct (Z.ltb_spec ret1 0) as [Hr1|Hr1].
  { split; [by apply (closed_fds _ _ _ Hs Hfd)|]. left. rewrite close_view. by rewrite Hv2. }
  destruct (ioctl_get _ _ _ _ _ _ _ Hi1 Hr1 eq_refl) as (v & Hl & Hfl).
  destruct (ioctl_name _ _ _ _ _ _ _ Hi1) as [Hn1 _].
  rewrite named_ifreq_name, Hv1 in Hl by done.
  cbn beta iota in Hfl. pose proof (octets_short_range le (ifr_ifru r1) : in_u 16 (ifr_flags le r1)) as H16.
  destruct (Hf _ H16) as [Hrange Hbits].
  destruct (k_ioctl fd SIOCSIFFLAGS _ k2) as [[ret2 r2] k3] eqn:Hi2.
  pose proof (ioctl_fds _ _ _ _ _ _ _ Hi2) as Hfds2. rewrite Hfds1 in Hfds2.
  destruct (Z.ltb_spec ret2 0) as [Hr2|Hr2];
    (split; [by apply (closed_fds _ _ _ Hs Hfd)|]); rewrite close_view.
  { left. split; [done|]. rewrite (ioctl_keeps _ _ _ _ _ _ _ Hi2) by auto. by rewrite Hv2. }
  right. split; [done|].
  destruct (ioctl_set _ _ _ _ _ _ _ Hi2 Hr2 eq_refl ltac:(done))
    as (w & v' & Hl' & Hk & Hw & Ha & Hm & Hset).
  destruct (put_flags_spec le _ r1 Hrange) as [Hn2 Hfl2].
  rewrite Hn2, Hn1, named_ifreq_name in Hl', Hk by done. rewrite Hv2, Hv1 in Hl', Hk.
  rewrite Hl' in Hl. injection Hl as ->.
  exists v, v'. do 3 (split; [done|]). split; [done|]. split; [done|]. split.
  - rewrite Hset, Hfl2, Hbits by (apply settable_up || lia). done.
  - intros i Hi Hsi. rewrite Hset, Hfl2, Hbits, Hfl by (done || lia).
    by rewrite bool_decide_eq_false_2 by lia.
Qed.

Lemma set_up_spec name k : text name -> sets name (flag_set true) k (net_if_set_up le (Some name) k).
Proof using Ok.
  intros. apply (set_flags_spec (fun x => Z.lor x IFF_UP)); [done|]. intros x Hx.
  split; [by apply flags_up_range|]. intros i Hi. rewrite flags_up by done.
  case_bool_decide; [by rewrite orb_true_r|by rewrite orb_false_r].
Qed.

Lemma set_down_spec name k : text name ->
  sets name (flag_set false) k (net_if_set_down le (Some name) k).
Proof using Ok.
  intros. apply (set_flags_spec (fun x => Z.land x (Z.lnot IFF_UP))); [done|]. intros x Hx.
  split; [by apply flags_down_range|]. intros i Hi. rewrite flags_down by done.
  case_bool_decide; [by rewrite andb_false_r|by rewrite andb_true_r].
Qed.

(** A query changes no interface, leaks nothing, and on success returns what
    the kernel's table says. *)
Lemma get_ip_spec name a k : text name ->
  let '(ret, ip, k') := net_if_get_ip le (Some name) (Some a) k in
  open_fds k' = open_fds k /\ ifs k' = ifs k /\
  (ret = -1 /\ ip = Some a \/
   ret = 0 /\ exists v, ifs k !! take 15 name = Some v /\ ip = Some (octets_addr le (v_addr v))).
Proof using Ok.
  intros Ht. cbn [net_if_get_ip]. unfold create_ioctl_socket.
  destruct (k_socket k) as [fd k1] eqn:Hs. destruct (socket_view _ _ _ Hs) as [Hv1 Hbad].
  destruct (Z.ltb_spec fd 0) as [Hfd|Hfd]; [split; [by apply Hbad|auto]|].
  destruct (k_ioctl _ _ _ _) as [[ret r'] k2] eqn:Hi.
  pose proof (closed_fds _ _ _ Hs Hfd k2 (ioctl_fds _ _ _ _ _ _ _ Hi)) as Hfds.
  pose proof (ioctl_keeps _ _ _ _ _ _ _ Hi ltac:(by right)) as Hv2. rewrite Hv1 in Hv2.
  destruct (Z.ltb_spec ret 0) as [Hr|Hr]; (split; [exact Hfds|]); rewrite close_view;
    (split; [done|]); [by left|right].
  destruct (ioctl_get _ _ _ _ _ _ _ Hi Hr eq_refl) as (v & Hl & Hfl).
  rewrite named_ifreq_name, Hv1 in Hl by done. split; [done|]. exists v. split; [done|].
  unfold s_addr. by rewrite Hfl.
Qed.

Lemma get_mac_spec name m k : text name ->
  let '(ret, mac, k') := net_if_get_mac (Some name) (Some m) k in
  open_fds k' = open_fds k /\ ifs k' = ifs k /\
  (ret = -1 /\ mac = Some m \/
   ret = 0 /\ exists v, ifs k !! take 15 name = Some v /\ mac = Some (v_hw v)).
Proof using Ok.
  intros Ht. cbn [net_if_get_mac]. unfold create_ioctl_socket.
  destruct (k_socket k) as [fd k1] eqn:Hs. destruct (socket_view _ _ _ Hs) as [Hv1 Hbad].
  destruct (Z.ltb_spec fd 0) as [Hfd|Hfd]; [split; [by apply Hbad|auto]|].
  destruct (k_ioctl _ _ _ _) as [[ret r'] k2] eqn:Hi.
  pose proof (closed_fds _ _ _ Hs Hfd k2 (ioctl_fds _ _ _ _ _ _ _ Hi)) as Hfds.
  pose proof (ioctl_keeps _ _ _ _ _ _ _ Hi ltac:(by right)) as Hv2. rewrite Hv1 in Hv2.
  destruct (Z.ltb_spec ret 0) as [Hr|Hr]; (split; [exact Hfds|]); rewrite close_view;
    (split; [done|]); [by left|right].
  destruct (ioctl_get _ _ _ _ _ _ _ Hi Hr eq_refl) as (v & Hl & Hfl).
  rewrite named_ifreq_name, Hv1 in Hl by done. split; [done|]. exists v. split; [done|].
  by rewrite Hfl.
Qed.
(** C18: The interface functions never leak a descriptor and never touch an
    interface other than the named one: whatever the kernel answers, after
    any of the setters every socket opened is closed again; a failing call
    returns -1 and leaves the whole table as it was; a successful one returns
    0 and did exactly its job on the interface named by the first 15
    characters: the address in wire order, the mask alone, IFF_UP set or
    cleared with every other settable flag as it was. *)
Theorem net_setters_spec name a k : text name ->
  sets name (addr_set a) k (net_if_set_ip le (Some name) a k) /\
  sets name (mask_set a) k (net_if_set_netmask le (Some name) a k) /\
  sets name (flag_set true) k (net_if_set_up le (Some name) k) /\
  sets name (flag_set false) k (net_if_set_down le (Some name) k).
Proof using Ok.
  intros. split; [by apply set_ip_spec|]. split; [by apply set_netmask_spec|].
  split; [by apply set_up_spec|by apply set_down_spec].
Qed.

(** What was set is what is read: when setting an address and querying
    it both succeed, the query returns the address that was set, the query
    changes nothing, and the descriptors are those of the start. *)
Theorem net_set_get_ip name ip old k k1 k2 r : text name -> in_u 32 ip ->
  net_if_set_ip le (Some name) ip k = (0, k1) ->
  net_if_get_ip le (Some name) (Some old) k1 = (0, r, k2) ->
  r = Some ip /\ ifs k2 = ifs k1 /\ open_fds k2 = open_fds k /\
  (forall other, other <> take 15 name -> ifs k2 !! other = ifs k !! other).
Proof using Ok.
  intros Ht Hip Hset Hget.
  pose proof (set_ip_spec name ip k Ht) as Hs. rewrite Hset in Hs.
  pose proof (get_ip_spec name old k1 Ht) as Hg. rewrite Hget in Hg.
  destruct Hs as [Hf1 [[? _]|(_ & v & v' & Hl & Hk & _ & Ha)]]; [done|].
  destruct Hg as (Hf2 & Hv & [[? _]|(_ & w & Hw & ->)]); [done|].
  rewrite Hv, Hf2, Hf1. split; [|split; [done|split; [done|]]].
  - rewrite Hk, lookup_insert_eq in Hw. injection Hw as <-. rewrite Ha.
    f_equal. by apply octets_addr_octets.
  - intros other Ho. rewrite Hk, lookup_insert_ne; [done|]. by apply not_eq_sym.
Qed.

(** The aggregate query. *)
Lemma get_config_spec name c k : text name ->
  let '(ret, c', k') := net_if_get_config le (Some name) (Some c) k in
  ifs k' = ifs k /\ open_fds k' = open_fds k /\
  exists cfg, c' = Some cfg /\ c_str (nc_if_name cfg) = take 15 name /\
    (ret = -1 /\ nc_configured cfg = false \/
     ret = 0 /\ nc_configured cfg = true /\ exists v, ifs k !! take 15 name = Some v /\
       nc_ip_addr cfg = octets_addr le (v_addr v) /\ nc_mac_addr cfg = v_hw v).
Proof using Ok.
  intros Ht. cbn [net_if_get_config].
  pose proof (get_ip_spec name 0 k Ht) as Hi.
  destruct (net_if_get_ip _ _ _ _) as [[r1 ip] k1]. destruct Hi as (Hf1 & Hv1 & Hi).
  pose proof (get_mac_spec name (replicate 6 0) k1 Ht) as Hm.
  destruct (net_if_get_mac _ _ _) as [[r2 mac] k2]. destruct Hm as (Hf2 & Hv2 & Hm).
  assert (c_str (strncpy (replicate 16 nul) name 15) = take 15 name) as Hn
    by (by rewrite <-(named_ifreq_name name)).
  rewrite <-Hf1, <-Hv1.
  destruct Hi as [[-> ->]|(-> & v & Hl & ->)]; cbn [Z.eqb andb].
  { split; [done|]. split; [done|]. eexists. split; [done|]. split; [exact Hn|by left]. }
  destruct Hm as [[-> ->]|(-> & w & Hw & ->)]; cbn [Z.eqb andb].
  { split; [done|]. split; [done|]. eexists. split; [done|]. split; [exact Hn|by left]. }
  split; [done|]. split; [done|]. eexists. split; [done|]. split; [exact Hn|]. right.
  rewrite Hv1 in Hw. rewrite Hl in Hw. injection Hw as <-.
  split; [done|]. split; [done|]. exists v. rewrite Hv1. done.
Qed.

(** The aggregate query: it succeeds exactly when the kernel answered
    both queries, and then holds the name cut to 15 characters, the address
    and the hardware address of that interface with [configured] set; a
    failing one returns -1 with [configured] clear.  The table and the
    descriptors stay as they were. *)
Theorem net_get_config_spec name c k : text name ->
  let '(ret, c', k') := net_if_get_config le (Some name) (Some c) k in
  ifs k' = ifs k /\ open_fds k' = open_fds k /\
  exists cfg, c' = Some cfg /\ c_str (nc_if_name cfg) = take 15 name /\
    (ret = -1 /\ nc_configured cfg = false \/
     ret = 0 /\ nc_configured cfg = true /\ exists v, ifs k !! take 15 name = Some v /\
       nc_ip_addr cfg = octets_addr le (v_addr v) /\ nc_mac_addr cfg = v_hw v).
Proof using Ok. intros. by apply get_config_spec. Qed.
End interface_proofs.

(** ** A kernel with an interface table

    The table is changed only with CAP_NET_ADMIN; at most one descriptor, number
    3, can be open at a time. *)
Record table_kernel := mk_table_kernel {
  tk_ifs : gmap (list ascii) if_view;
  tk_open : bool;
  tk_admin : bool;
}.

Definition norm_quad (q : Z * Z * Z * Z) : Z * Z * Z * Z :=
  let '(a, b, c, d) := q in (u8 a, u8 b, u8 c, u8 d).
Definition norm_view (v : if_view) : if_view :=
  mk_if_view (norm_quad (v_addr v)) (norm_quad (v_mask v)) (take 6 (v_hw v ++ replicate 6 0))
    (u16 (v_flags v)).

Definition table_get (le : bool) (rq : request) (r : ifreq) (v : if_view) : ifreq :=
  let '(a, b, c, d) := v_addr v in
  match rq with
  | SIOCGIFADDR => mk_ifreq (ifr_name r) (take (length (ifr_ifru r))
      ((short_octets le AF_INET ++ [0; 0; a; b; c; d]) ++ replicate (length (ifr_ifru r)) 0))
  | SIOCGIFHWADDR => mk_ifreq (ifr_name r) (take (length (ifr_ifru r))
      ((short_octets le 1 ++ v_hw v) ++ replicate (length (ifr_ifru r)) 0))
  | _ => mk_ifreq (ifr_name r) (take (length (ifr_ifru r))
      (short_octets le (v_flags v) ++ replicate (length (ifr_ifru r)) 0))
  end.

Definition table_set (le : bool) (rq : request) (r : ifreq) (v : if_view) : if_view :=
  match rq with
  | SIOCSIFADDR => mk_if_view (sin_octets r) (255, 255, 255, 0) (v_hw v) (v_flags v)
  | SIOCSIFNETMASK => mk_if_view (v_addr v) (sin_octets r) (v_hw v) (v_flags v)
  | _ => mk_if_view (v_addr v) (v_mask v) (v_hw v) (ifr_flags le r)
  end.

Definition table_ioctl (le : bool) (fd : Z) (rq : request) (r : ifreq) (k : table_kernel)
    : Z * ifreq * table_kernel :=
  match (norm_view <$> tk_ifs k) !! c_str (ifr_name r) with
  | None => (-1, r, k)
  | Some v =>
      if is_get rq then
        if (length (ifr_ifru r) =? 24)%nat then (0, table_get le rq r v, k) else (-1, r, k)
      else if tk_admin k then
        (0, r, mk_table_kernel (<[c_str (ifr_name r) := table_set le rq r v]> (tk_ifs k))
                 (tk_open k) (tk_admin k))
      else (-1, r, k)
  end.

#[export] Instance table_net_kernel (le : bool) : NetKernel table_kernel := {|
  k_socket k := if tk_open k then (-1, k) else (3, mk_table_kernel (tk_ifs k) true (tk_admin k));
  k_ioctl := table_ioctl le;
  k_close fd k :=
    if fd =? 3 then mk_table_kernel (tk_ifs k) false (tk_admin k) else k;
|}.

Lemma length_padded (l : list Z) n : length (take n (l ++ replicate n 0)) = n.
Proof. rewrite length_take, length_app, length_replicate. lia. Qed.

Lemma norm_view_idemp v : norm_view (norm_view v) = norm_view v.
Proof.
  destruct v as [[[[a b] c] d] [[[a' b'] c'] d'] hw fl]. unfold norm_view, norm_quad.
  cbn [v_addr v_mask v_hw v_flags]. unfold u8, u16. rewrite !wrapu_idemp by lia. f_equal.
  rewrite take_app_le by (rewrite length_padded; lia). rewrite take_take. by rewrite Nat.min_id.
Qed.

Lemma table_set_norm le rq r v : norm_view v = v -> is_get rq = false ->
  norm_view (table_set le rq r v) = table_set le rq r v.
Proof.
  destruct v as [[[[a b] c] d] [[[a' b'] c'] d'] hw fl]. intros [= Ha Hb Hc Hd Ha' Hb' Hc' Hd' Hw Hf] Hrq.
  pose proof (octets_short_range le (ifr_ifru r) : in_u 16 (ifr_flags le r)) as Hr.
  destruct rq; try done; unfold norm_view, table_set, sin_octets, octet; cbn;
    rewrite ?Ha, ?Hb, ?Hc, ?Hd, ?Ha', ?Hb', ?Hc', ?Hd', ?Hw, ?Hf; unfold u8, u16;
    rewrite ?wrapu_idemp by lia; rewrite ?(wrapu_small 16 (ifr_flags le r)) by done; done.
Qed.

Lemma table_get_spec le rq r v : norm_view v = v -> length (ifr_ifru r) = 24%nat -> is_get rq = true ->
  match rq with
  | SIOCGIFADDR => sin_octets (table_get le rq r v) = v_addr v
  | SIOCGIFHWADDR => take 6 (sa_data (table_get le rq r v)) = v_hw v
  | _ => ifr_flags le (table_get le rq r v) = v_flags v
  end /\ length (ifr_ifru (table_get le rq r v)) = 24%nat /\
  ifr_name (table_get le rq r v) = ifr_name r.
Proof.
  destruct v as [[[[a b] c] d] m hw fl]. intros [= Ha Hb Hc Hd _ Hw Hf] Hlen Hrq.
  assert (length hw = 6%nat) as Hl by
    (rewrite <-Hw; apply length_padded).
  unfold table_get. cbn [v_addr v_hw v_flags]. rewrite Hlen.
  destruct rq; try done; (split; [|split; [apply length_padded|done]]).
  - unfold sin_octets, octet. destruct le; cbn; by rewrite Ha, Hb, Hc, Hd.
  - destruct hw as [|h0 [|h1 [|h2 [|h3 [|h4 [|h5 []]]]]]]; try done. by destruct le.
  - assert (in_u 16 fl) as Hr by (rewrite <-Hf; apply (wrapu_range 16); lia).
    unfold ifr_flags. cbn [ifr_ifru]. rewrite <-(octets_short_octets le fl Hr) at 2.
    by destruct le.
Qed.

#[export] Program Instance table_net_kernel_ok (le : bool) :
    @NetKernelOk le table_kernel (table_net_kernel le) := {|
  ifs k := norm_view <$> tk_ifs k;
  open_fds k := if tk_open k then {[3]} else ∅;
  settable_flags := 0xFFFF;
|}.
Next Obligation. done. Qed.
Next Obligation.
  intros le k fd k'. simpl. destruct (tk_open k) eqn:E; intros [= <- <-]; simpl; [by rewrite E|].
  split; [done|]. set_solver.
Qed.
Next Obligation.
  intros le fd k. simpl. destruct (Z.eqb_spec fd 3) as [->|]; simpl; (split; [done|]);
    destruct (tk_open k); set_solver.
Qed.
Next Obligation.
  intros le fd rq r k ret r' k'. simpl. unfold table_ioctl.
  destruct (_ !! _); [|by intros [= _ _ <-]].
  destruct (is_get rq); [destruct (_ =? _)%nat|destruct (tk_admin k)]; by intros [= _ _ <-].
Qed.
Next Obligation.
  intros le fd rq r k ret r' k'. simpl. unfold table_ioctl.
  destruct (_ !! _) as [v|] eqn:Hv; [|by intros [= _ <- _]].
  destruct (is_get rq) eqn:Hg; [|by destruct (tk_admin k); intros [= _ <- _]].
  destruct (Nat.eqb_spec (length (ifr_ifru r)) 24) as [Hl|]; [|by intros [= _ <- _]].
  intros [= _ <- _]. rewrite lookup_fmap in Hv. apply fmap_Some in Hv as (w & _ & ->).
  by destruct (table_get_spec le rq r (norm_view w) (norm_view_idemp w) Hl Hg) as (_ & -> & ->).
Qed.
Next Obligation.
  intros le fd rq r k ret r' k'. simpl. unfold table_ioctl.
  destruct (_ !! _); [|by intros [= _ _ <-]].
  destruct (is_get rq); [destruct (_ =? _)%nat; by intros [= _ _ <-]|].
  destruct (tk_admin k); intros [= <- <- <-] [|]; done.
Qed.
Next Obligation.
  intros le fd rq r k ret r' k'. simpl. unfold table_ioctl.
  destruct (_ !! _) as [v|] eqn:Hv; [|by intros [= <- _ _]].
  destruct (is_get rq) eqn:Hg; [|done].
  destruct (Nat.eqb_spec (length (ifr_ifru r)) 24) as [Hl|]; [|by intros [= <- _ _]].
  intros [= <- <- <-] _ _. exists v. split; [done|].
  rewrite lookup_fmap in Hv. apply fmap_Some in Hv as (w & _ & ->).
  apply (table_get_spec le rq r (norm_view w) (norm_view_idemp w) Hl Hg).
Qed.
Next Obligation.
  intros le fd rq r k ret r' k'. simpl. unfold table_ioctl.
  destruct (_ !! _) as [v|] eqn:Hv; [|by intros [= <- _ _]].
  destruct (is_get rq) eqn:Hg; [done|].
  destruct (tk_admin k); [|by intros [= <- _ _]].
  intros [= <- <- <-] _ _ Hfam. exists v, (table_set le rq r v). split; [done|].
  rewrite lookup_fmap in Hv. apply fmap_Some in Hv as (w & _ & ->).
  cbn [tk_ifs]. rewrite fmap_insert, table_set_norm by (apply norm_view_idemp || done).
  split; [done|]. by destruct rq.
Qed.

(** ** TCP tuning *)

Record tcp_tuning_config_t := mk_tuning {
  tcp_timestamps : bool;
  tcp_window_scaling : bool;
  tcp_sack : bool;
  tcp_rmem : Z * Z * Z;  (* uint32_t[3] *)
  tcp_wmem : Z * Z * Z;
}.

Definition PROC_TCP_TIMESTAMPS : list ascii := lit "/proc/sys/net/ipv4/tcp_timestamps".
Definition PROC_TCP_WIN_SCALE : list ascii := lit "/proc/sys/net/ipv4/tcp_window_scaling".
Definition PROC_TCP_SACK : list ascii := lit "/proc/sys/net/ipv4/tcp_sack".
Definition PROC_TCP_RMEM : list ascii := lit "/proc/sys/net/ipv4/tcp_rmem".
Definition PROC_TCP_WMEM : list ascii := lit "/proc/sys/net/ipv4/tcp_wmem".

(** The same text up to the kind of blank between the numbers: the kernel
    separates the values of a vector by tabs. *)
Definition same_blanks : list ascii -> list ascii -> Prop :=
  Forall2 (fun a b => a = b \/ isspace a = true /\ isspace b = true).

(** Files under /proc/sys: which can be opened for writing, what a write does
    when its buffer is flushed (at [fclose], whose result the code ignores),
    and the text a reader sees. *)
Class ProcSys (P : Type) := {
  p_writable : P -> list ascii -> bool;
  p_write : P -> list ascii -> list ascii -> P;
  p_read : P -> list ascii -> option (list ascii);
}.

(** Writing never changes which files can be opened, nor other files; an
    accepted write to an open file is read back, a rejected one is lost. *)
Class ProcSysOk (P : Type) `{ProcSys P} := {
  p_accepts : P -> list ascii -> list ascii -> bool;
  p_writable_write p f s g : p_writable (p_write p f s) g = p_writable p g;
  p_accepts_write p f s g t : p_accepts (p_write p f s) g t = p_accepts p g t;
  p_read_other p f s g : f <> g -> p_read (p_write p f s) g = p_read p g;
  p_read_written p f s : p_accepts p f s = true ->
    exists s', p_read (p_write p f s) f = Some s' /\ same_blanks s s';
  p_read_rejected p f s : p_accepts p f s = false -> p_read (p_write p f s) f = p_read p f;
}.

Section tuning.
Context {P : Type} `{ProcSys P}.

(** [fprintf] into the stream's buffer returns the number of characters. *)
Definition proc_write_int (path : list ascii) (value : Z) (p : P) : Z * P :=
  if negb (p_writable p path) then (-1, p)
  else let s := fmt_d value ++ [nl] in ((if 0 <? zlen s then 0 else -1), p_write p path s).

(** The value is [*out], which a failed conversion leaves alone. *)
Definition proc_read_int (path : list ascii) (out : Z) (p : P) : Z * Z :=
  match p_read p path with
  | None => (-1, out)
  | Some s => match scan_d s with Some (v, _) => (0, v) | None => (-1, out) end
  end.

Definition scan_triple (s : list ascii) : option (Z * Z * Z) :=
  '(a, s) ← scan_u s; '(b, s) ← scan_u s; '(c, _) ← scan_u s; Some (a, b, c).

Definition proc_read_u32_triple (path : list ascii) (out : Z * Z * Z) (p : P) : Z * (Z * Z * Z) :=
  match p_read p path with
  | None => (-1, out)
  | Some s => match scan_triple s with Some v => (0, v) | None => (-1, out) end
  end.

Definition fmt_triple (v : Z * Z * Z) : list ascii :=
  let '(a, b, c) := v in fmt_u a ++ [" "%char] ++ fmt_u b ++ [" "%char] ++ fmt_u c ++ [nl].

Definition proc_write_u32_triple (path : list ascii) (val : Z * Z * Z) (p : P) : Z * P :=
  if negb (p_writable p path) then (-1, p)
  else let s := fmt_triple val in ((if 0 <? zlen s then 0 else -1), p_write p path s).

Definition flag_value (b : bool) : Z := if b then 1 else 0.

Definition net_tcp_tuning_apply (tuning : option tcp_tuning_config_t) (p : P) : Z * P :=
  match tuning with
  | None => (-1, p)
  | Some t =>
      let ret := 0 in
      let '(r, p) := proc_write_int PROC_TCP_TIMESTAMPS (flag_value (tcp_timestamps t)) p in
      let ret := Z.lor ret r in
      let '(r, p) := proc_write_int PROC_TCP_WIN_SCALE (flag_value (tcp_window_scaling t)) p in
      let ret := Z.lor ret r in
      let '(r, p) := proc_write_int PROC_TCP_SACK (flag_value (tcp_sack t)) p in
      let ret := Z.lor ret r in
      let '(r, p) := proc_write_u32_triple PROC_TCP_RMEM (tcp_rmem t) p in
      let ret := Z.lor ret r in
      let '(r, p) := proc_write_u32_triple PROC_TCP_WMEM (tcp_wmem t) p in
      let ret := Z.lor ret r in
      ((if ret =? 0 then 0 else -1), p)
  end.

Definition net_tcp_tuning_read_current (tuning : option tcp_tuning_config_t) (p : P)
    : Z * option tcp_tuning_config_t :=
  match tuning with
  | None => (-1, None)
  | Some _ =>
      let '(r1, ts) := proc_read_int PROC_TCP_TIMESTAMPS 0 p in
      let '(r2, ws) := proc_read_int PROC_TCP_WIN_SCALE 0 p in
      let '(r3, sack) := proc_read_int PROC_TCP_SACK 0 p in
      let '(r4, rmem) := proc_read_u32_triple PROC_TCP_RMEM (0, 0, 0) p in
      let '(r5, wmem) := proc_read_u32_triple PROC_TCP_WMEM (0, 0, 0) p in
      let ret := Z.lor (Z.lor (Z.lor (Z.lor (Z.lor 0 r1) r2) r3) r4) r5 in
      ((if ret =? 0 then 0 else -1),
       Some (mk_tuning (negb (ts =? 0)) (negb (ws =? 0)) (negb (sack =? 0)) rmem wmem))
  end.
End tuning.

(** ** Reading numbers through changed blanks *)

Lemma plain_no_space c : plain c = true -> isspace c = false.
Proof. unfold plain. by destruct (isspace c). Qed.

Lemma same_blanks_plain s r t : Forall (fun c => plain c = true) s -> same_blanks (s ++ r) t ->
  exists r', t = s ++ r' /\ same_blanks r r'.
Proof.
  intros Hs (t1 & r' & H1 & H2 & ->)%Forall2_app_inv_l. exists r'. split; [|done]. f_equal.
  revert t1 H1. induction Hs as [|c s Hc _ IH]; intros t1 H1; [by inversion H1|].
  inversion H1 as [|? d ? t1' Hd Ht]; subst. f_equal; [|by apply IH].
  destruct Hd as [->|[Hd _]]; [done|]. by rewrite plain_no_space in Hd.
Qed.

Lemma same_blanks_space c r t : isspace c = true -> same_blanks (c :: r) t ->
  exists d r', t = d :: r' /\ isspace d = true /\ same_blanks r r'.
Proof.
  intros Hc H. inversion H as [|? d ? r' Hd Hr]; subst. exists d, r'. split; [done|].
  split; [|done]. by destruct Hd as [<-|[_ ?]].
Qed.

Lemma scan_num_space conv c s : isspace c = true -> scan_num conv (c :: s) = scan_num conv s.
Proof. intros Hc. unfold scan_num. cbn [drop_while]. by rewrite Hc. Qed.

Lemma scan_u_space c s : isspace c = true -> scan_u (c :: s) = scan_u s.
Proof. apply scan_num_space. Qed.

Lemma space_no_digit c s : isspace c = true -> no_digit 10 (c :: s).
Proof.
  intros Hc. cbn. destruct (char_digit 10 c) as [d|] eqn:E; [exfalso|done].
  destruct c as [[] [] [] [] [] [] [] []]; vm_compute in Hc; try discriminate; vm_compute in E; discriminate.
Qed.

Lemma scan_triple_fmt a b c t : in_u 32 a -> in_u 32 b -> in_u 32 c ->
  same_blanks (fmt_triple (a, b, c)) t -> scan_triple t = Some (a, b, c).
Proof.
  intros Ha Hb Hc H. unfold fmt_triple in H.
  assert (forall x, in_u 32 x -> Forall (fun c => plain c = true) (fmt_u x)) as Hp
    by (intros x [? _]; by apply fmt_u_plain).
  apply same_blanks_plain in H as (t1 & -> & H); [|by apply Hp].
  apply same_blanks_space in H as (d1 & r1 & -> & Hd1 & H); [|done].
  apply same_blanks_plain in H as (t2 & -> & H); [|by apply Hp].
  apply same_blanks_space in H as (d2 & r2 & -> & Hd2 & H); [|done].
  apply same_blanks_plain in H as (t3 & -> & H); [|by apply Hp].
  apply same_blanks_space in H as (d3 & r3 & -> & Hd3 & H); [|done].
  unfold scan_triple. rewrite scan_u_fmt_u by (done || by apply space_no_digit).
  cbn [mbind option_bind]. rewrite scan_u_space by done.
  rewrite scan_u_fmt_u by (done || by apply space_no_digit).
  cbn [mbind option_bind]. rewrite scan_u_space by done.
  by rewrite scan_u_fmt_u by (done || by apply space_no_digit).
Qed.

Lemma scan_d_flag b t : same_blanks (fmt_d (flag_value b) ++ [nl]) t ->
  exists r, scan_d t = Some (flag_value b, r).
Proof.
  intros H. assert (fmt_d (flag_value b) = fmt_u (flag_value b)) as E by by destruct b.
  rewrite E in H. apply same_blanks_plain in H as (t1 & -> & H); [|by apply fmt_u_plain; destruct b].
  apply same_blanks_space in H as (d & r & -> & Hd & _); [|done].
  exists (d :: r). rewrite <-E. apply scan_d_fmt_d; [by destruct b|by apply space_no_digit].
Qed.

(** ** The tuning functions as a write of five files *)
Section tuning_proofs.
Context {P : Type} {PS : ProcSys P} {Ok : ProcSysOk P}.
Implicit Types (p : P) (t : tcp_tuning_config_t).

(** The files and the text each gets. *)
Definition settings t : list (list ascii * list ascii) :=
  [(PROC_TCP_TIMESTAMPS, fmt_d (flag_value (tcp_timestamps t)) ++ [nl]);
   (PROC_TCP_WIN_SCALE, fmt_d (flag_value (tcp_window_scaling t)) ++ [nl]);
   (PROC_TCP_SACK, fmt_d (flag_value (tcp_sack t)) ++ [nl]);
   (PROC_TCP_RMEM, fmt_triple (tcp_rmem t));
   (PROC_TCP_WMEM, fmt_triple (tcp_wmem t))].

Definition write_one p (fs : list ascii * list ascii) : P :=
  if p_writable p fs.1 then p_write p fs.1 fs.2 else p.

Lemma settings_nodup t : NoDup (settings t).*1.
Proof using. by apply (bool_decide_eq_true_1 (NoDup _)); vm_compute. Qed.

Lemma write_int_eq f v p :
  proc_write_int f v p = (if p_writable p f then 0 else -1, write_one p (f, fmt_d v ++ [nl])).
Proof using.
  unfold proc_write_int, write_one. cbn [fst snd]. destruct (p_writable p f); [|done].
  cbn [negb]. rewrite (proj2 (Z.ltb_lt 0 _)); [done|].
  rewrite zlen_app. change (zlen [nl]) with 1. pose proof (zlen_nonneg (fmt_d v)). lia.
Qed.

Lemma write_triple_eq f v p :
  proc_write_u32_triple f v p =
    (if p_writable p f then 0 else -1, write_one p (f, fmt_triple v)).
Proof using.
  unfold proc_write_u32_triple, write_one. cbn [fst snd]. destruct (p_writable p f); [|done].
  cbn [negb]. rewrite (proj2 (Z.ltb_lt 0 _)); [done|]. destruct v as [[a b] c].
  unfold fmt_triple. rewrite !zlen_app. change (zlen [nl]) with 1.
  pose proof (zlen_nonneg (fmt_u a)). pose proof (zlen_nonneg (fmt_u b)).
  pose proof (zlen_nonneg (fmt_u c)). change (zlen [" "%char]) with 1. lia.
Qed.

Lemma write_one_writable p fs g : p_writable (write_one p fs) g = p_writable p g.
Proof using Ok. unfold write_one. destruct (p_writable p fs.1); [apply p_writable_write|done]. Qed.

Lemma writes_writable p l g : p_writable (foldl write_one p l) g = p_writable p g.
Proof using Ok.
  revert p. induction l as [|fs l IH]; intros p; [done|]. cbn [foldl].
  by rewrite IH, write_one_writable.
Qed.

Lemma writes_accepts p l g s : p_accepts (foldl write_one p l) g s = p_accepts p g s.
Proof using Ok.
  revert p. induction l as [|fs l IH]; intros p; [done|]. cbn [foldl]. rewrite IH.
  unfold write_one. destruct (p_writable p fs.1); [apply p_accepts_write|done].
Qed.

Lemma writes_other p l g : g ∉ l.*1 -> p_read (foldl write_one p l) g = p_read p g.
Proof using Ok.
  revert p. induction l as [|fs l IH]; intros p; [done|]. cbn [foldl fmap list_fmap].
  intros [Hne Hl]%not_elem_of_cons. rewrite IH by done. unfold write_one.
  destruct (p_writable p fs.1); [|done]. apply p_read_other. by apply not_eq_sym.
Qed.

(** Each of the files, after all have been written. *)
Lemma writes_each p l f s : NoDup l.*1 -> (f, s) ∈ l ->
  let p' := foldl write_one p l in
  if p_writable p f && p_accepts p f s
  then exists s', p_read p' f = Some s' /\ same_blanks s s'
  else p_read p' f = p_read p f.
Proof using Ok.
  revert p. induction l as [|fs l IH]; intros p; [by intros _ ?%not_elem_of_nil|].
  cbn [foldl fmap list_fmap]. intros [Hn Hnd]%NoDup_cons [E|Hin]%elem_of_cons.
  - subst fs. cbn [fst] in Hn. cbv zeta. rewrite writes_other by done.
    unfold write_one. cbn [fst snd]. destruct (p_writable p f); [|done]. cbn [andb].
    destruct (p_accepts p f s) eqn:E; [by apply p_read_written|by apply p_read_rejected].
  - specialize (IH (write_one p fs) Hnd Hin). cbv zeta in *.
    assert (f <> fs.1) as Hne.
    { intros ->. apply Hn. apply list_elem_of_fmap. by exists (fs.1, s). }
    pose proof (writes_other p [fs] f) as Hr. pose proof (writes_accepts p [fs] f s) as Ha.
    cbn [foldl] in Hr, Ha. rewrite write_one_writable, Ha in IH.
    destruct (_ && _); [done|]. rewrite IH. apply Hr. cbn. by intros ?%list_elem_of_singleton.
Qed.

Lemma apply_eq t p :
  net_tcp_tuning_apply (Some t) p =
    (if forallb (fun fs => p_writable p fs.1) (settings t) then 0 else -1,
     foldl write_one p (settings t)).
Proof using Ok.
  cbn [net_tcp_tuning_apply]. rewrite !write_int_eq, !write_triple_eq.
  rewrite !write_one_writable. cbn [settings forallb foldl fst].
  destruct (p_writable p _), (p_writable p _), (p_writable p _), (p_writable p _),
    (p_writable p _); done.
Qed.

(** Applying the tuning attempts all five files whatever happens to any
    of them (it does not stop at the first failure).  The result is 0 exactly
    when all five could be opened for writing, and -1 otherwise; each file
    that could be opened and whose value the kernel accepts then holds that
    value, and every other file reads as before.  A value the kernel rejects
    when the stream is flushed does not show in the result. *)
Theorem tuning_apply_spec t p :
  let '(ret, p') := net_tcp_tuning_apply (Some t) p in
  ret = (if forallb (fun fs => p_writable p fs.1) (settings t) then 0 else -1) /\
  (forall f s, (f, s) ∈ settings t ->
     if p_writable p f && p_accepts p f s
     then exists s', p_read p' f = Some s' /\ same_blanks s s'
     else p_read p' f = p_read p f) /\
  (forall f, f ∉ (settings t).*1 -> p_read p' f = p_read p f).
Proof using Ok.
  rewrite apply_eq. split; [done|]. split.
  - intros f s Hin. apply (writes_each p (settings t)); [apply settings_nodup|done].
  - intros f Hf. by apply writes_other.
Qed.

Definition tuning_ok t : Prop :=
  (let '(a, b, c) := tcp_rmem t in in_u 32 a /\ in_u 32 b /\ in_u 32 c) /\
  (let '(a, b, c) := tcp_wmem t in in_u 32 a /\ in_u 32 b /\ in_u 32 c).

Lemma read_flag p f b s : p_read p f = Some s -> same_blanks (fmt_d (flag_value b) ++ [nl]) s ->
  proc_read_int f 0 p = (0, flag_value b).
Proof using.
  intros Hr Hs. unfold proc_read_int. rewrite Hr. by destruct (scan_d_flag _ _ Hs) as (r & ->).
Qed.

Lemma read_triple p f v s :
  (let '(a, b, c) := v in in_u 32 a /\ in_u 32 b /\ in_u 32 c) ->
  p_read p f = Some s -> same_blanks (fmt_triple v) s ->
  proc_read_u32_triple f (0, 0, 0) p = (0, v).
Proof using.
  destruct v as [[a b] c]. intros (? & ? & ?) Hr Hs. unfold proc_read_u32_triple. rewrite Hr.
  by rewrite (scan_triple_fmt a b c).
Qed.

(** C28: What was applied is what is read: when every file can be written
    and the kernel accepts the values, applying a tuning and reading the
    current one back gives the same tuning, both calls returning 0, however
    the kernel separates the numbers of a vector. *)
Theorem tuning_roundtrip t t0 p :
  tuning_ok t ->
  (forall f s, (f, s) ∈ settings t -> p_writable p f = true /\ p_accepts p f s = true) ->
  exists p', net_tcp_tuning_apply (Some t) p = (0, p') /\
    net_tcp_tuning_read_current (Some t0) p' = (0, Some t).
Proof using Ok.
  intros [Hr Hw] Hall. rewrite apply_eq.
  assert (forallb (fun fs => p_writable p fs.1) (settings t) = true) as ->.
  { apply forallb_forall. intros [f s] Hin%list_elem_of_In. by destruct (Hall f s Hin). }
  eexists. split; [done|]. set (p' := foldl write_one p (settings t)).
  assert (forall f s, (f, s) ∈ settings t ->
    exists s', p_read p' f = Some s' /\ same_blanks s s') as Heach.
  { intros f s Hin. pose proof (writes_each p _ f s (settings_nodup t) Hin) as H.
    by destruct (Hall f s Hin) as [Hx Hy]; rewrite Hx, Hy in H. }
  assert (forall f b, (f, fmt_d (flag_value b) ++ [nl]) ∈ settings t ->
    proc_read_int f 0 p' = (0, flag_value b)) as Hflag.
  { intros f b Hin. destruct (Heach _ _ Hin) as (s & ? & ?). by eapply read_flag. }
  cbn [net_tcp_tuning_read_current]. unfold settings in *.
  rewrite (Hflag _ (tcp_timestamps t)) by set_solver.
  rewrite (Hflag _ (tcp_window_scaling t)) by set_solver.
  rewrite (Hflag _ (tcp_sack t)) by set_solver.
  destruct (Heach PROC_TCP_RMEM (fmt_triple (tcp_rmem t))) as (s1 & H1 & B1); [set_solver|].
  destruct (Heach PROC_TCP_WMEM (fmt_triple (tcp_wmem t))) as (s2 & H2 & B2); [set_solver|].
  rewrite (read_triple _ _ _ _ Hr H1 B1), (read_triple _ _ _ _ Hw H2 B2).
  destruct t as [[] [] [] ? ?]; done.
Qed.
End tuning_proofs.

(** ** A concrete /proc/sys

    A fixed set of files, some of which reject what is written; blanks are
    shown as tabs. *)
Record sysctl_files := mk_sysctl_files {
  sf_files : gmap (list ascii) (list ascii);
  sf_rejected : list (list ascii);
}.

Definition tab : ascii := "009".
Definition tabs (s : list ascii) : list ascii := map (fun c => if Ascii.eqb c " " then tab else c) s.

Lemma tabs_same_blanks s : same_blanks s (tabs s).
Proof.
  induction s as [|c s IH]; [constructor|]. constructor; [|exact IH].
  destruct (Ascii.eqb_spec c " ") as [->|]; [by right|by left].
Qed.

Definition sysctl_accepts (p : sysctl_files) (f s : list ascii) : bool :=
  bool_decide (is_Some (sf_files p !! f)) && negb (bool_decide (f ∈ sf_rejected p)).

#[export] Instance sysctl_proc : ProcSys sysctl_files := {|
  p_writable p f := bool_decide (is_Some (sf_files p !! f));
  p_write p f s :=
    if sysctl_accepts p f s then mk_sysctl_files (<[f := tabs s]> (sf_files p)) (sf_rejected p)
    else p;
  p_read p f := sf_files p !! f;
|}.

Lemma sysctl_present p f s g :
  is_Some (sf_files (p_write p f s) !! g) <-> is_Some (sf_files p !! g).
Proof.
  simpl. unfold sysctl_accepts. case_bool_decide as Hf; [|done]. cbn [andb].
  case_bool_decide; [done|]. cbn [negb sf_files].
  destruct (decide (f = g)) as [->|]; [by rewrite lookup_insert_eq|by rewrite lookup_insert_ne].
Qed.

#[export] Program Instance sysctl_proc_ok : ProcSysOk sysctl_files := {|
  p_accepts := sysctl_accepts;
|}.
Next Obligation. intros p f s g. simpl. apply bool_decide_ext, sysctl_present. Qed.
Next Obligation.
  intros p f s g t. unfold sysctl_accepts. f_equal; [apply bool_decide_ext, sysctl_present|].
  simpl. by destruct (sysctl_accepts p f s).
Qed.
Next Obligation.
  intros p f s g Hne. simpl. destruct (sysctl_accepts p f s); [|done].
  cbn [sf_files]. by rewrite lookup_insert_ne.
Qed.
Next Obligation.
  intros p f s Ha. simpl. rewrite Ha. cbn [sf_files]. exists (tabs s).
  rewrite lookup_insert_eq. split; [done|apply tabs_same_blanks].
Qed.
Next Obligation. intros p f s Ha. simpl. by rewrite Ha. Qed.

(** ** Concrete instances *)

Definition sample_kernel : table_kernel :=
  mk_table_kernel
    (<[lit "eth0" := mk_if_view (10, 0, 0, 1) (255, 0, 0, 0) [2; 0; 0; 0; 0; 7] 0x1002]> ∅) false true.

Definition sample_tuning : tcp_tuning_config_t :=
  mk_tuning false true true (4096, 131072, 6291456) (4096, 65536, 4194304).

Definition sample_files : sysctl_files :=
  mk_sysctl_files (list_to_map ((fun f => (f, lit "1")) <$> (settings sample_tuning).*1)) [].

Lemma eth0_text : text (lit "eth0").
Proof. by repeat constructor. Qed.

Lemma net_setters_spec_witness :
  @sets true _ (table_net_kernel true) _ (lit "eth0")
    (@flag_set true _ (table_net_kernel true) _ true) sample_kernel
    (@net_if_set_up _ (table_net_kernel true) true (Some (lit "eth0")) sample_kernel) /\
  (@net_if_set_up _ (table_net_kernel true) true (Some (lit "eth0")) sample_kernel).1 = 0.
Proof.
  destruct (@net_setters_spec true _ (table_net_kernel true) _ (lit "eth0") 0 sample_kernel eth0_text)
    as (_ & _ & Hup & _).
  split; [exact Hup|by vm_compute].
Defined.

Lemma net_set_get_ip_witness : exists k1 k2,
  @net_if_set_ip _ (table_net_kernel true) true (Some (lit "eth0")) 0x6400A8C0 sample_kernel = (0, k1) /\
  @net_if_get_ip _ (table_net_kernel true) true (Some (lit "eth0")) (Some 0) k1 =
    (0, Some 0x6400A8C0, k2).
Proof.
  destruct (@net_if_set_ip _ (table_net_kernel true) true (Some (lit "eth0")) 0x6400A8C0 sample_kernel)
    as [r1 k1] eqn:E1.
  destruct (@net_if_get_ip _ (table_net_kernel true) true (Some (lit "eth0")) (Some 0) k1)
    as [[r2 a] k2] eqn:E2.
  assert (r1 = 0) as -> by (vm_compute in E1; congruence).
  assert (r2 = 0) as ->.
  { vm_compute in E1. injection E1 as <-. vm_compute in E2. congruence. }
  destruct (@net_set_get_ip true _ (table_net_kernel true) _ (lit "eth0") 0x6400A8C0 0 sample_kernel
    k1 k2 a eth0_text) as (-> & _); [by vm_compute|exact E1|exact E2|].
  exists k1, k2. split; [done|exact E2].
Defined.

Lemma net_get_config_spec_witness : exists cfg k',
  @net_if_get_config _ (table_net_kernel true) true (Some (lit "eth0"))
    (Some (mk_if_config [] 0 0 0 [] false)) sample_kernel = (0, Some cfg, k') /\
  nc_ip_addr cfg = 0x0100000A /\ c_str (nc_if_name cfg) = lit "eth0".
Proof.
  pose proof (@net_get_config_spec true _ (table_net_kernel true) _ (lit "eth0")
    (mk_if_config [] 0 0 0 [] false) sample_kernel eth0_text) as H.
  destruct (net_if_get_config _ _ _ _) as [[ret c'] k'] eqn:E.
  destruct H as (_ & _ & cfg & -> & Hn & _).
  exists cfg, k'. vm_compute in E. injection E as <- <- <-.
  split; [done|]. split; [done|exact Hn].
Defined.

Lemma tuning_roundtrip_witness : exists p',
  net_tcp_tuning_apply (Some sample_tuning) sample_files = (0, p') /\
  net_tcp_tuning_read_current (Some (mk_tuning false false false (0, 0, 0) (0, 0, 0))) p' =
    (0, Some sample_tuning).
Proof.
  apply (tuning_roundtrip sample_tuning); [by vm_compute|].
  intros f s Hin. cbn [settings] in Hin.
  repeat (apply elem_of_cons in Hin as [[= -> ->]|Hin]; [by split; vm_compute|]).
  by apply not_elem_of_nil in Hin.
Defined.
