(* ===== verification/RtSetup.v ===== *)
(** * Real-time setup (src/realtime/rt_setup.c, include/rt_setup.h)

    Scheduling, memory locking, CPU governors, affinity and the irqbalance
    service (Linux branch); the static state of the file is the record
    [rt_state].  The operating system is a parameter: a class of the calls the
    code makes and a class of what they promise. *)
From S2P Require Import Prelude CString CFormat.
From Stdlib Require Import Floats.SpecFloat.

(** ** Data *)

Record rt_config_t := mk_rt_config {
  use_rt_scheduling : bool;
  rt_priority : Z;
  lock_memory : bool;
  disable_cpu_freq : bool;
  isolate_cpu : Z;
  disable_irq_balance : bool;
}.

(** [double] values. *)
Abbreviation double := spec_float.
Definition prec : Z := 53.
Definition emax : Z := 1024.

Record rt_check_result_t := mk_check_result {
  rt_scheduling_ok : bool;
  memory_locked : bool;
  cpu_isolated : bool;
  irq_balance_disabled : bool;
  max_latency_us : double;
  report : list ascii;  (* char[512] *)
}.

(** The static variables; the governor is the string in its [char[64]]. *)
Record rt_state := mk_rt_state {
  g_rt_config : rt_config_t;
  g_rt_initialized : bool;
  g_saved_sched : Z;      (* sched_priority *)
  g_saved_policy : Z;
  g_saved_governor : list ascii;
}.

Definition zero_rt_config : rt_config_t := mk_rt_config false 0 false false 0 false.
Definition initial_rt_state : rt_state := mk_rt_state zero_rt_config false 0 0 [].

Definition SCHED_OTHER : Z := 0.
Definition SCHED_FIFO : Z := 1.
Definition SCHED_RR : Z := 2.

(** ** The operating system *)
Class RtOs (O : Type) := {
  sched_getscheduler : O -> Z;
  sched_getparam : O -> option Z;
  sched_setscheduler : Z -> Z -> O -> Z * O;
  mlockall : O -> Z * O;
  munlockall : O -> Z * O;
  nprocessors_online : O -> Z;
  file_text : list ascii -> O -> option (list ascii);
  file_put : list ascii -> list ascii -> O -> bool * O;
  sched_setaffinity : gset Z -> O -> Z * O;
  sched_getaffinity : O -> option (gset Z);
  system : list ascii -> O -> Z * O;
  clock_gettime : O -> option (Z * Z) * O;
}.

Definition rt_config_default : rt_config_t := mk_rt_config true 80 true true (-1) true.

(** [CPU_SET (cpu, &set)]: [cpu_set_t] has 1024 bits, others are ignored. *)
Definition CPU_SET (cpu : Z) (set : gset Z) : gset Z :=
  if (0 <=? cpu) && (cpu <? 1024) then {[cpu]} ∪ set else set.

Definition governor_path (cpu : Z) : list ascii :=
  take 127 (lit "/sys/devices/system/cpu/cpu" ++ fmt_d cpu ++ lit "/cpufreq/scaling_governor").

(** [slen > 0 && s[slen - 1] == '\n'] *)
Definition strip_newline (s : list ascii) : list ascii :=
  match last s with
  | Some c => if Ascii.eqb c nl then take (length s - 1) s else s
  | None => s
  end.

Definition cmd_stop : list ascii := lit "systemctl stop irqbalance 2>/dev/null".
Definition cmd_start : list ascii := lit "systemctl start irqbalance 2>/dev/null".
Definition cmd_is_active : list ascii := lit "systemctl is-active --quiet irqbalance 2>/dev/null".

Section operations.
Context {O : Type} `{RtOs O}.

Definition rt_setup_init (cfg : option rt_config_t) (st : rt_state) : Z * rt_state :=
  match cfg with
  | None => (- EINVAL, st)
  | Some cfg =>
      if (rt_priority cfg <? 1) || (99 <? rt_priority cfg) then (- EINVAL, st)
      else (0, mk_rt_state cfg true (g_saved_sched st) (g_saved_policy st) (g_saved_governor st))
  end.

(** The governor string after the attempt to read it from [path]. *)
Definition read_governor (path gov : list ascii) (o : O) : list ascii :=
  match file_text path o with
  | None => gov
  | Some text =>
      match fgets 64 text with
      | None => gov
      | Some (line, _) => strip_newline (c_str line)
      end
  end.

(** The loop over the CPUs [cpu], ..., [cpu + n - 1]. *)
Fixpoint performance_loop (n : nat) (cpu : Z) (gov : list ascii) (o : O) : list ascii * O :=
  match n with
  | Datatypes.O => (gov, o)
  | S n =>
      let path := governor_path cpu in
      let gov := if cpu =? 0 then read_governor path gov o else gov in
      let '(_, o) := file_put path (lit "performance") o in
      performance_loop n (cpu + 1) gov o
  end.

(** 1. Real-time scheduling; the first component tells a fatal failure. *)
Definition apply_scheduling (st : rt_state) (o : O) : bool * rt_state * O :=
  let cfg := g_rt_config st in
  if use_rt_scheduling cfg then
    let policy := sched_getscheduler o in
    let policy := if policy <? 0 then SCHED_OTHER else policy in
    let sched := match sched_getparam o with Some p => p | None => 0 end in
    let st := mk_rt_state cfg (g_rt_initialized st) sched policy (g_saved_governor st) in
    let '(r, o) := sched_setscheduler SCHED_FIFO (rt_priority cfg) o in
    (negb (r =? 0), st, o)
  else (false, st, o).

(** 2. Memory; a failure is only logged. *)
Definition apply_memory (cfg : rt_config_t) (o : O) : O :=
  if lock_memory cfg then snd (mlockall o) else o.

(** 3. CPU frequency governors. *)
Definition apply_governors (st : rt_state) (o : O) : rt_state * O :=
  let cfg := g_rt_config st in
  if disable_cpu_freq cfg then
    let '(gov, o) := performance_loop (Z.to_nat (nprocessors_online o)) 0 (g_saved_governor st) o in
    (mk_rt_state cfg (g_rt_initialized st) (g_saved_sched st) (g_saved_policy st) gov, o)
  else (st, o).

(** 4. CPU isolation. *)
Definition apply_affinity (cfg : rt_config_t) (o : O) : O :=
  if 0 <=? isolate_cpu cfg then snd (sched_setaffinity (CPU_SET (isolate_cpu cfg) ∅) o) else o.

(** 5. irqbalance. *)
Definition apply_irqbalance (cfg : rt_config_t) (o : O) : O :=
  if disable_irq_balance cfg then snd (system cmd_stop o) else o.

Definition rt_setup_apply (st : rt_state) (o : O) : Z * rt_state * O :=
  if negb (g_rt_initialized st) then (- EPERM, st, o) else
  let '(failed, st, o) := apply_scheduling st o in
  if failed then (- EPERM, st, o) else
  let cfg := g_rt_config st in
  let o := apply_memory cfg o in
  let '(st, o) := apply_governors st o in
  let o := apply_affinity cfg o in
  let o := apply_irqbalance cfg o in
  (0, st, o).

Fixpoint restore_loop (n : nat) (cpu : Z) (gov : list ascii) (o : O) : O :=
  match n with
  | Datatypes.O => o
  | S n => let '(_, o) := file_put (governor_path cpu) gov o in restore_loop n (cpu + 1) gov o
  end.

Fixpoint cpu_set_all (n : nat) (cpu : Z) (set : gset Z) : gset Z :=
  match n with Datatypes.O => set | S n => cpu_set_all n (cpu + 1) (CPU_SET cpu set) end.

Definition restore_scheduling (st : rt_state) (o : O) : O :=
  if use_rt_scheduling (g_rt_config st)
  then snd (sched_setscheduler (g_saved_policy st) (g_saved_sched st) o) else o.

Definition restore_memory (cfg : rt_config_t) (o : O) : O :=
  if lock_memory cfg then snd (munlockall o) else o.

Definition restore_governors (st : rt_state) (o : O) : O :=
  if disable_cpu_freq (g_rt_config st) && negb (bool_decide (g_saved_governor st = []))
  then restore_loop (Z.to_nat (nprocessors_online o)) 0 (g_saved_governor st) o else o.

Definition restore_affinity (cfg : rt_config_t) (o : O) : O :=
  if 0 <=? isolate_cpu cfg
  then snd (sched_setaffinity (cpu_set_all (Z.to_nat (nprocessors_online o)) 0 ∅) o) else o.

Definition restore_irqbalance (cfg : rt_config_t) (o : O) : O :=
  if disable_irq_balance cfg then snd (system cmd_start o) else o.

Definition rt_setup_restore (st : rt_state) (o : O) : rt_state * O :=
  if negb (g_rt_initialized st) then (st, o) else
  let cfg := g_rt_config st in
  let o := restore_scheduling st o in
  let o := restore_memory cfg o in
  let o := restore_governors st o in
  let o := restore_affinity cfg o in
  let o := restore_irqbalance cfg o in
  (mk_rt_state cfg false (g_saved_sched st) (g_saved_policy st) (g_saved_governor st), o).
End operations.

(** ** Floating point *)

(** Conversion of an integer, and the operations on [double]. *)
Definition double_of_Z (z : Z) : double := binary_normalize prec emax z 0 false.
Definition dadd : double -> double -> double := SFadd prec emax.
Definition dsub : double -> double -> double := SFsub prec emax.
Definition dmul : double -> double -> double := SFmul prec emax.
Definition ddiv : double -> double -> double := SFdiv prec emax.
Definition dzero : double := S754_zero false.

(** [printf ("%.2f", x)]: two decimals, rounded to nearest, ties to even. *)
Definition fmt_f2 (x : double) : list ascii :=
  let sign (s : bool) := if s then lit "-" else [] in
  match x with
  | S754_zero s => sign s ++ lit "0.00"
  | S754_infinity s => sign s ++ lit "inf"
  | S754_nan => lit "nan"
  | S754_finite s m e =>
      let n := Z.pos m * 100 in
      let n :=
        if 0 <=? e then n * 2 ^ e
        else
          let d := 2 ^ (- e) in
          let q := n / d in
          let r := n mod d in
          if (d <? 2 * r) || ((2 * r =? d) && Z.odd q) then q + 1 else q in
      sign s ++ fmt_u (n / 100) ++ lit "." ++ fmt_u (n mod 100 / 10) ++ fmt_u (n mod 10)
  end.

Section measurement.
Context {O : Type} `{RtOs O}.

(** The time between two [struct timespec], in nanoseconds. *)
Definition elapsed_ns (t_start t_end : Z * Z) : double :=
  dadd (dmul (double_of_Z (fst t_end - fst t_start)) (double_of_Z 1000000000))
       (double_of_Z (snd t_end - snd t_start)).

(** [n] batches; [None] when a clock read failed. *)
Fixpoint measure_loop (n : nat) (baseline_per_iter_ns max_dev_us : double) (o : O)
    : option double * O :=
  match n with
  | Datatypes.O => (Some max_dev_us, o)
  | S n =>
      let '(t_start, o) := clock_gettime o in
      match t_start with
      | None => (None, o)
      | Some t_start =>
          let '(t_end, o) := clock_gettime o in
          match t_end with
          | None => (None, o)
          | Some t_end =>
              let deviation_us :=
                ddiv (dsub (elapsed_ns t_start t_end)
                           (dmul baseline_per_iter_ns (double_of_Z 1000))) (double_of_Z 1000) in
              let deviation_us := if SFltb deviation_us dzero then SFopp deviation_us
                                  else deviation_us in
              let max_dev_us := if SFltb max_dev_us deviation_us then deviation_us
                                else max_dev_us in
              measure_loop n baseline_per_iter_ns max_dev_us o
          end
      end
  end.

(** The result is the return value, [*max_latency_us] and the system. *)
Definition rt_setup_measure_latency (max_latency : option double) (samples : Z) (o : O)
    : Z * option double * O :=
  match max_latency with
  | None => (- EINVAL, None, o)
  | Some _ =>
      if samples <=? 0 then (- EINVAL, max_latency, o) else
      let '(t_start, o) := clock_gettime o in
      match t_start with
      | None => (- EIO, max_latency, o)
      | Some t_start =>
          let '(t_end, o) := clock_gettime o in
          match t_end with
          | None => (- EIO, max_latency, o)
          | Some t_end =>
              let baseline_per_iter_ns := ddiv (elapsed_ns t_start t_end) (double_of_Z 1000) in
              match measure_loop (Z.to_nat samples) baseline_per_iter_ns dzero o with
              | (Some m, o) => (0, Some m, o)
              | (None, o) => (- EIO, max_latency, o)
              end
          end
      end
  end.

(** [sscanf (line, "VmLck: %lu kB", &locked_kb) == 1] *)
Definition scan_vmlck (line : list ascii) : option Z :=
  let p := lit "VmLck:" in
  if str_eqb (take (length p) line) p
  then fst <$> scan_num ulong_value (drop (length p) line)
  else None.

(** The loop over /proc/self/status, line by line. *)
Fixpoint vmlck_loop (fuel : nat) (text : list ascii) : bool :=
  match fuel with
  | Datatypes.O => false
  | S fuel =>
      match fgets 256 text with
      | None => false
      | Some (line, text) =>
          match scan_vmlck (c_str line) with
          | Some locked_kb => 0 <? locked_kb
          | None => vmlck_loop fuel text
          end
      end
  end.

(** [count] of the CPUs [cpu], ..., [cpu + n - 1] in the set. *)
Fixpoint count_cpus (n : nat) (cpu : Z) (set : gset Z) : Z :=
  match n with
  | Datatypes.O => 0
  | S n => (if bool_decide (0 <= cpu < 1024 /\ cpu ∈ set) then 1 else 0) + count_cpus n (cpu + 1) set
  end.

Definition append_report (st : Z * list ascii) (line : list ascii) : exec (Z * list ascii) :=
  let '(offset, report) := st in
  '(written, report) ← snprintf_at report offset line;
  Done ((if 0 <? written then offset + written else offset), report).

(** The lines of the report. *)
Definition line_sched_ok (policy priority : Z) : list ascii :=
  lit "[OK] RT scheduling active: policy=" ++ fmt_d policy ++ lit ", priority=" ++
  fmt_d priority ++ [nl].
Definition line_sched_fail (policy : Z) : list ascii :=
  lit "[FAIL] RT scheduling not active (current policy=" ++ fmt_d policy ++ lit ")" ++ [nl].
Definition line_memory (locked : bool) : list ascii :=
  lit "[" ++ lit (if locked then "OK" else "FAIL") ++ lit "] Memory lock: " ++
  lit (if locked then "locked" else "not locked") ++ [nl].
Definition line_cpu (isolated : bool) : list ascii :=
  lit "[" ++ lit (if isolated then "OK" else "INFO") ++ lit "] CPU isolation: " ++
  lit (if isolated then "isolated" else "not configured") ++ [nl].
Definition line_irq (disabled : bool) : list ascii :=
  lit "[" ++ lit (if disabled then "OK" else "WARN") ++ lit "] irqbalance: " ++
  lit (if disabled then "disabled" else "still running") ++ [nl].
Definition line_latency (lat : double) : list ascii :=
  lit "[INFO] Max loop latency (1000 samples): " ++ fmt_f2 lat ++ lit " us" ++ [nl].
Definition line_latency_failed : list ascii := lit "[WARN] Latency measurement failed" ++ [nl].

Definition is_rt_policy (policy : Z) : bool := (policy =? SCHED_FIFO) || (policy =? SCHED_RR).

(** [uninit] is the value of the uninitialised [param] when
    [sched_getparam] fails. *)
Definition rt_setup_check (uninit : Z) (result : option rt_check_result_t) (st : rt_state) (o : O)
    : exec (Z * option rt_check_result_t * O) :=
  match result with
  | None => Done (- EINVAL, None, o)
  | Some _ =>
      let current_policy := sched_getscheduler o in
      let sched_ok := is_rt_policy current_policy in
      rep ← append_report (0, replicate 512 nul)
        (if sched_ok then line_sched_ok current_policy (default uninit (sched_getparam o))
         else line_sched_fail current_policy);
      let locked :=
        match file_text (lit "/proc/self/status") o with
        | Some text => vmlck_loop (length text) text
        | None => false
        end in
      rep ← append_report rep (line_memory locked);
      let isolated :=
        if g_rt_initialized st && (0 <=? isolate_cpu (g_rt_config st)) then
          match sched_getaffinity o with
          | Some set => count_cpus (Z.to_nat (nprocessors_online o)) 0 set =? 1
          | None => false
          end
        else false in
      rep ← append_report rep (line_cpu isolated);
      let '(rc, o) := system cmd_is_active o in
      let irq_disabled := negb (rc =? 0) in
      rep ← append_report rep (line_irq irq_disabled);
      let '(ret, max_lat, o) := rt_setup_measure_latency (Some dzero) 1000 o in
      let max_lat := default dzero max_lat in
      rep ← append_report rep
        (if ret =? 0 then line_latency max_lat else line_latency_failed);
      Done (0, Some (mk_check_result sched_ok locked isolated irq_disabled
                       (if ret =? 0 then max_lat else dzero) (snd rep)), o)
  end.
End measurement.

(** ** What the calls promise

    The part of the host the calls act on.  [h_allowed]: the process has the
    privileges the calls need. *)
Record host := mk_host {
  h_sched : Z * Z;                          (* policy and priority *)
  h_locked : bool;
  h_governor : gmap (list ascii) (list ascii);  (* governor of each sysfs file *)
  h_available : list (list ascii);          (* governors the driver offers *)
  h_affinity : gset Z;
  h_online : gset Z;
  h_irqbalance : bool;                      (* service active *)
  h_irq_installed : bool;
  h_allowed : bool;
}.

Definition with_sched (s : Z * Z) (h : host) : host :=
  mk_host s (h_locked h) (h_governor h) (h_available h) (h_affinity h) (h_online h)
    (h_irqbalance h) (h_irq_installed h) (h_allowed h).
Definition with_locked (b : bool) (h : host) : host :=
  mk_host (h_sched h) b (h_governor h) (h_available h) (h_affinity h) (h_online h)
    (h_irqbalance h) (h_irq_installed h) (h_allowed h).
Definition with_governor (p g : list ascii) (h : host) : host :=
  if bool_decide (is_Some (h_governor h !! p) /\ g ∈ h_available h)
  then mk_host (h_sched h) (h_locked h) (<[p := g]> (h_governor h)) (h_available h) (h_affinity h)
         (h_online h) (h_irqbalance h) (h_irq_installed h) (h_allowed h)
  else h.
Definition with_affinity (s : gset Z) (h : host) : host :=
  mk_host (h_sched h) (h_locked h) (h_governor h) (h_available h) (s ∩ h_online h) (h_online h)
    (h_irqbalance h) (h_irq_installed h) (h_allowed h).
Definition with_irqbalance (b : bool) (h : host) : host :=
  mk_host (h_sched h) (h_locked h) (h_governor h) (h_available h) (h_affinity h) (h_online h)
    b (h_irq_installed h) (h_allowed h).

Definition valid_sched (policy priority : Z) : Prop :=
  is_rt_policy policy = true /\ 1 <= priority <= 99 \/ policy = SCHED_OTHER /\ priority = 0.

(** A call that fails leaves the host as it was; one with the privileges and
    valid arguments succeeds. *)
Class RtOsOk (O : Type) `{RtOs O} := {
  host_of : O -> host;
  getscheduler_ok o : h_allowed (host_of o) = true ->
    sched_getscheduler o = (h_sched (host_of o)).1 /\
    sched_getparam o = Some (h_sched (host_of o)).2;
  setscheduler_ok p q o r o' : sched_setscheduler p q o = (r, o') ->
    host_of o' = (if r =? 0 then with_sched (p, q) (host_of o) else host_of o) /\
    (h_allowed (host_of o) = true -> valid_sched p q -> r = 0);
  mlockall_ok o r o' : mlockall o = (r, o') ->
    host_of o' = (if r =? 0 then with_locked true (host_of o) else host_of o) /\
    (h_allowed (host_of o) = true -> r = 0);
  munlockall_ok o r o' : munlockall o = (r, o') ->
    host_of o' = (if r =? 0 then with_locked false (host_of o) else host_of o) /\
    (h_allowed (host_of o) = true -> r = 0);
  nprocessors_ok o : nprocessors_online o = Z.of_nat (size (h_online (host_of o)));
  file_text_ok p g o : h_governor (host_of o) !! p = Some g -> file_text p o = Some (g ++ [nl]);
  file_put_ok p s o b o' : file_put p s o = (b, o') ->
    host_of o' = (if b then with_governor p s (host_of o) else host_of o) /\
    (h_allowed (host_of o) = true -> is_Some (h_governor (host_of o) !! p) -> b = true);
  setaffinity_ok s o r o' : sched_setaffinity s o = (r, o') ->
    host_of o' = (if r =? 0 then with_affinity s (host_of o) else host_of o) /\
    (h_allowed (host_of o) = true -> (r = 0 <-> s ∩ h_online (host_of o) <> ∅));
  system_stop_ok o r o' : system cmd_stop o = (r, o') ->
    host_of o' = (if r =? 0 then with_irqbalance false (host_of o) else host_of o) /\
    (h_allowed (host_of o) = true -> (r = 0 <-> h_irq_installed (host_of o) = true));
  system_start_ok o r o' : system cmd_start o = (r, o') ->
    host_of o' = (if r =? 0 then with_irqbalance true (host_of o) else host_of o) /\
    (h_allowed (host_of o) = true -> (r = 0 <-> h_irq_installed (host_of o) = true));
  system_is_active_ok o r o' : system cmd_is_active o = (r, o') ->
    host_of o' = host_of o /\ (r = 0 <-> h_irqbalance (host_of o) = true);
  clock_ok o t o' : clock_gettime o = (t, o') -> host_of o' = host_of o;
}.

(** ** What apply and restore do to a host that allows it *)

Definition cpus (h : host) : list Z := Z.of_nat <$> seq 0 (size (h_online h)).

Definition with_governors (g : list ascii) (l : list Z) (h : host) : host :=
  foldl (fun h cpu => with_governor (governor_path cpu) g h) h l.

Definition with_irq_target (b : bool) (h : host) : host :=
  if h_irq_installed h then with_irqbalance b h else h.

Definition cpu_set_of (l : list Z) : gset Z := list_to_set (filter (fun c => 0 <= c < 1024) l).

Definition applied (cfg : rt_config_t) (h : host) : host :=
  let h := if use_rt_scheduling cfg then with_sched (SCHED_FIFO, rt_priority cfg) h else h in
  let h := if lock_memory cfg then with_locked true h else h in
  let h := if disable_cpu_freq cfg then with_governors (lit "performance") (cpus h) h else h in
  let h := if 0 <=? isolate_cpu cfg then
             if bool_decide (isolate_cpu cfg ∈ h_online h /\ isolate_cpu cfg < 1024)
             then with_affinity {[isolate_cpu cfg]} h else h
           else h in
  if disable_irq_balance cfg then with_irq_target false h else h.

Definition restored (cfg : rt_config_t) (sched : Z * Z) (gov : list ascii) (h : host) : host :=
  let h := if use_rt_scheduling cfg then with_sched sched h else h in
  let h := if lock_memory cfg then with_locked false h else h in
  let h := if disable_cpu_freq cfg && negb (bool_decide (gov = []))
           then with_governors gov (cpus h) h else h in
  let h := if (0 <=? isolate_cpu cfg) && bool_decide (cpu_set_of (cpus h) ∩ h_online h <> ∅)
           then with_affinity (cpu_set_of (cpus h)) h else h in
  if disable_irq_balance cfg then with_irq_target true h else h.

(** ** Lemmas on hosts *)

Lemma with_governor_allowed p g h : h_allowed (with_governor p g h) = h_allowed h.
Proof. unfold with_governor. by case_bool_decide. Qed.

Lemma with_governor_others p g h :
  h_sched (with_governor p g h) = h_sched h /\ h_locked (with_governor p g h) = h_locked h /\
  h_available (with_governor p g h) = h_available h /\
  h_affinity (with_governor p g h) = h_affinity h /\ h_online (with_governor p g h) = h_online h /\
  h_irqbalance (with_governor p g h) = h_irqbalance h /\
  h_irq_installed (with_governor p g h) = h_irq_installed h /\
  h_allowed (with_governor p g h) = h_allowed h.
Proof. unfold with_governor. by case_bool_decide. Qed.

Lemma with_governors_others g l h :
  h_sched (with_governors g l h) = h_sched h /\ h_locked (with_governors g l h) = h_locked h /\
  h_available (with_governors g l h) = h_available h /\
  h_affinity (with_governors g l h) = h_affinity h /\ h_online (with_governors g l h) = h_online h /\
  h_irqbalance (with_governors g l h) = h_irqbalance h /\
  h_irq_installed (with_governors g l h) = h_irq_installed h /\
  h_allowed (with_governors g l h) = h_allowed h.
Proof.
  revert h. induction l as [|c l IH]; intros h; [done|]. unfold with_governors. cbn [foldl].
  fold (with_governors g l (with_governor (governor_path c) g h)).
  destruct (IH (with_governor (governor_path c) g h)) as (-> & -> & -> & -> & -> & -> & -> & ->).
  apply with_governor_others.
Qed.

Lemma with_governor_lookup p g h q :
  h_governor (with_governor p g h) !! q =
    (if bool_decide (q = p /\ is_Some (h_governor h !! p) /\ g ∈ h_available h)
     then Some g else h_governor h !! q).
Proof.
  unfold with_governor. repeat case_bool_decide; cbn [h_governor]; try naive_solver.
  - destruct H0 as [-> _]. by rewrite lookup_insert_eq.
  - rewrite lookup_insert_ne; [done|]. intros ->. naive_solver.
Qed.

Lemma with_governors_lookup g l h q :
  h_governor (with_governors g l h) !! q =
    (if bool_decide (q ∈ governor_path <$> l /\ is_Some (h_governor h !! q) /\ g ∈ h_available h)
     then Some g else h_governor h !! q).
Proof.
  revert h. induction l as [|c l IH]; intros h.
  - rewrite bool_decide_eq_false_2; [done|]. intros [H%not_elem_of_nil _]. done.
  - unfold with_governors. cbn [foldl].
    fold (with_governors g l (with_governor (governor_path c) g h)).
    rewrite IH, with_governor_lookup. destruct (with_governor_others (governor_path c) g h)
      as (_ & _ & -> & _).
    cbn [fmap list_fmap].
    destruct (decide (g ∈ h_available h)) as [Hg|Hg];
      [|repeat rewrite bool_decide_eq_false_2 by naive_solver; done].
    destruct (decide (q = governor_path c)) as [->|Hq].
    + destruct (decide (is_Some (h_governor h !! governor_path c))) as [Hs|Hs].
      * rewrite (bool_decide_eq_true_2 (governor_path c = governor_path c /\ _)) by done.
        rewrite (bool_decide_eq_true_2 (governor_path c ∈ governor_path c :: _ /\ _))
          by (split; [apply elem_of_cons; by left|done]).
        by case_bool_decide.
      * rewrite (bool_decide_eq_false_2 (governor_path c = governor_path c /\ _)) by naive_solver.
        by rewrite !bool_decide_eq_false_2 by naive_solver.
    + rewrite (bool_decide_eq_false_2 (q = governor_path c /\ _)) by naive_solver.
      repeat case_bool_decide; rewrite ?elem_of_cons in *; naive_solver.
Qed.

Lemma with_irq_target_others b h :
  h_sched (with_irq_target b h) = h_sched h /\ h_locked (with_irq_target b h) = h_locked h /\
  h_governor (with_irq_target b h) = h_governor h /\
  h_available (with_irq_target b h) = h_available h /\
  h_affinity (with_irq_target b h) = h_affinity h /\ h_online (with_irq_target b h) = h_online h /\
  h_irq_installed (with_irq_target b h) = h_irq_installed h /\
  h_allowed (with_irq_target b h) = h_allowed h /\
  h_irqbalance (with_irq_target b h) = (if h_irq_installed h then b else h_irqbalance h).
Proof. unfold with_irq_target. by destruct (h_irq_installed h) eqn:E. Qed.

Lemma with_governors_sched g l h : h_sched (with_governors g l h) = h_sched h.
Proof. apply (with_governors_others g l h). Qed.
Lemma with_governors_locked g l h : h_locked (with_governors g l h) = h_locked h.
Proof. apply (with_governors_others g l h). Qed.
Lemma with_governors_available g l h : h_available (with_governors g l h) = h_available h.
Proof. apply (with_governors_others g l h). Qed.
Lemma with_governors_affinity g l h : h_affinity (with_governors g l h) = h_affinity h.
Proof. apply (with_governors_others g l h). Qed.
Lemma with_governors_online g l h : h_online (with_governors g l h) = h_online h.
Proof. apply (with_governors_others g l h). Qed.
Lemma with_governors_irqbalance g l h : h_irqbalance (with_governors g l h) = h_irqbalance h.
Proof. apply (with_governors_others g l h). Qed.
Lemma with_governors_irq_installed g l h : h_irq_installed (with_governors g l h) = h_irq_installed h.
Proof. apply (with_governors_others g l h). Qed.
Lemma with_governors_allowed g l h : h_allowed (with_governors g l h) = h_allowed h.
Proof. apply (with_governors_others g l h). Qed.
Lemma with_irq_target_sched b h : h_sched (with_irq_target b h) = h_sched h.
Proof. apply (with_irq_target_others b h). Qed.
Lemma with_irq_target_locked b h : h_locked (with_irq_target b h) = h_locked h.
Proof. apply (with_irq_target_others b h). Qed.
Lemma with_irq_target_governor b h : h_governor (with_irq_target b h) = h_governor h.
Proof. apply (with_irq_target_others b h). Qed.
Lemma with_irq_target_available b h : h_available (with_irq_target b h) = h_available h.
Proof. apply (with_irq_target_others b h). Qed.
Lemma with_irq_target_affinity b h : h_affinity (with_irq_target b h) = h_affinity h.
Proof. apply (with_irq_target_others b h). Qed.
Lemma with_irq_target_online b h : h_online (with_irq_target b h) = h_online h.
Proof. apply (with_irq_target_others b h). Qed.
Lemma with_irq_target_irq_installed b h : h_irq_installed (with_irq_target b h) = h_irq_installed h.
Proof. apply (with_irq_target_others b h). Qed.
Lemma with_irq_target_allowed b h : h_allowed (with_irq_target b h) = h_allowed h.
Proof. apply (with_irq_target_others b h). Qed.
Lemma with_irq_target_irqbalance b h : h_irqbalance (with_irq_target b h) = (if h_irq_installed h then b else h_irqbalance h).
Proof. apply (with_irq_target_others b h). Qed.
Create Rewrite HintDb host.
#[export] Hint Rewrite with_governors_sched
  with_governors_locked
  with_governors_available
  with_governors_affinity
  with_governors_online
  with_governors_irqbalance
  with_governors_irq_installed
  with_governors_allowed
  with_irq_target_sched
  with_irq_target_locked
  with_irq_target_governor
  with_irq_target_available
  with_irq_target_affinity
  with_irq_target_online
  with_irq_target_irq_installed
  with_irq_target_allowed
  with_irq_target_irqbalance : host.

(** Evaluate a field of an updated host. *)
Ltac host_fields :=
  repeat (autorewrite with host; cbn [with_sched with_locked with_affinity with_irqbalance
    h_sched h_locked h_governor h_available h_affinity h_online h_irqbalance h_irq_installed
    h_allowed andb]).

(** The fields of [applied cfg h]. *)
Lemma applied_fields cfg h :
  h_sched (applied cfg h) =
    (if use_rt_scheduling cfg then (SCHED_FIFO, rt_priority cfg) else h_sched h) /\
  h_locked (applied cfg h) = (if lock_memory cfg then true else h_locked h) /\
  (forall q, h_governor (applied cfg h) !! q =
     if disable_cpu_freq cfg &&
        bool_decide (q ∈ governor_path <$> cpus h /\ is_Some (h_governor h !! q) /\
                     lit "performance" ∈ h_available h)
     then Some (lit "performance") else h_governor h !! q) /\
  h_irqbalance (applied cfg h) =
    (if disable_irq_balance cfg && h_irq_installed h then false else h_irqbalance h) /\
  (isolate_cpu cfg < 0 -> h_affinity (applied cfg h) = h_affinity h) /\
  h_allowed (applied cfg h) = h_allowed h /\ h_online (applied cfg h) = h_online h /\
  h_available (applied cfg h) = h_available h /\
  h_irq_installed (applied cfg h) = h_irq_installed h.
Proof.
  unfold applied, cpus. destruct (Z.leb_spec 0 (isolate_cpu cfg)); [case_bool_decide|];
    destruct (use_rt_scheduling cfg), (lock_memory cfg), (disable_cpu_freq cfg),
      (disable_irq_balance cfg); host_fields;
    (repeat split; try lia; try done; try by destruct (h_irq_installed h));
    try (intros q; rewrite with_governors_lookup; host_fields; done).
Qed.

(** The fields of [restored cfg sched gov h]. *)
Lemma restored_fields cfg sched gov h :
  h_sched (restored cfg sched gov h) = (if use_rt_scheduling cfg then sched else h_sched h) /\
  h_locked (restored cfg sched gov h) = (if lock_memory cfg then false else h_locked h) /\
  (forall q, h_governor (restored cfg sched gov h) !! q =
     if disable_cpu_freq cfg && negb (bool_decide (gov = [])) &&
        bool_decide (q ∈ governor_path <$> cpus h /\ is_Some (h_governor h !! q) /\
                     gov ∈ h_available h)
     then Some gov else h_governor h !! q) /\
  h_irqbalance (restored cfg sched gov h) =
    (if disable_irq_balance cfg && h_irq_installed h then true else h_irqbalance h) /\
  (isolate_cpu cfg < 0 -> h_affinity (restored cfg sched gov h) = h_affinity h).
Proof.
  unfold restored, cpus. destruct (Z.leb_spec 0 (isolate_cpu cfg)); cbn [andb]; [case_bool_decide|];
    destruct (use_rt_scheduling cfg), (lock_memory cfg), (disable_cpu_freq cfg),
      (disable_irq_balance cfg), (negb (bool_decide (gov = []))); host_fields; cbn [andb];
    (repeat split; try lia; try done; try by destruct (h_irq_installed h));
    try (intros q; rewrite with_governors_lookup; host_fields; done).
Qed.

(** With CPUs numbered from 0, the affinity [restored] sets is all of them. *)
Lemma restored_affinity cfg sched gov h :
  0 <= isolate_cpu cfg -> h_online h <> ∅ -> h_online h = cpu_set_of (cpus h) ->
  h_affinity (restored cfg sched gov h) = h_online h.
Proof.
  intros Hi Hon Hc. unfold restored, cpus in *. rewrite (proj2 (Z.leb_le 0 (isolate_cpu cfg)) Hi).
  destruct (use_rt_scheduling cfg), (lock_memory cfg), (disable_cpu_freq cfg),
    (disable_irq_balance cfg), (negb (bool_decide (gov = []))); cbn [andb];
    rewrite bool_decide_eq_true_2 by (host_fields; rewrite <-Hc; set_solver);
    host_fields; rewrite <-Hc; set_solver.
Qed.

(** ** Apply and restore on any operating system *)
Section rt_proofs.
Context {O : Type} {OS : RtOs O} {Ok : RtOsOk O}.
Implicit Types (o : O) (st : rt_state) (cfg : rt_config_t).

(** The CPUs [c], ..., [c + n - 1]. *)
Definition cpu_range (c n : nat) : list Z := Z.of_nat <$> seq c n.

Lemma file_put_host p s o b o' : h_allowed (host_of o) = true -> file_put p s o = (b, o') ->
  host_of o' = with_governor p s (host_of o).
Proof using.
  intros Ha H. destruct (file_put_ok _ _ _ _ _ H) as [-> Hb]. destruct b; [done|].
  unfold with_governor. case_bool_decide as Hc; [|done]. destruct Hc as [Hs _]. by discriminate (Hb Ha Hs).
Qed.

Lemma performance_loop_spec n c gov o gov' o' : h_allowed (host_of o) = true ->
  performance_loop n (Z.of_nat c) gov o = (gov', o') ->
  host_of o' = with_governors (lit "performance") (cpu_range c n) (host_of o) /\
  gov' = (if bool_decide (c = 0 /\ n <> 0)%nat then read_governor (governor_path 0) gov o else gov).
Proof using.
  revert c gov o. induction n as [|n IH]; intros c gov o Ha; cbn [performance_loop].
  - intros [= <- <-]. split; [done|]. by rewrite bool_decide_eq_false_2 by lia.
  - destruct (file_put _ _ o) as [b o1] eqn:Hp.
    pose proof (file_put_host _ _ _ _ _ Ha Hp) as Hh.
    replace (Z.of_nat c + 1) with (Z.of_nat (S c)) by lia. intros Hl.
    apply IH in Hl as [-> ->]; [|by rewrite Hh, with_governor_allowed].
    rewrite Hh. split; [done|]. rewrite (bool_decide_eq_false_2 (S c = 0 /\ _)%nat) by lia.
    destruct (Z.eqb_spec (Z.of_nat c) 0) as [E|E].
    + replace c with 0%nat by lia. by rewrite bool_decide_eq_true_2.
    + by rewrite bool_decide_eq_false_2 by lia.
Qed.

Lemma restore_loop_spec n c gov o : h_allowed (host_of o) = true ->
  host_of (restore_loop n (Z.of_nat c) gov o) = with_governors gov (cpu_range c n) (host_of o).
Proof using.
  revert c o. induction n as [|n IH]; intros c o Ha; [done|]. cbn [restore_loop].
  destruct (file_put _ _ o) as [b o1] eqn:Hp.
  pose proof (file_put_host _ _ _ _ _ Ha Hp) as Hh.
  replace (Z.of_nat c + 1) with (Z.of_nat (S c)) by lia.
  rewrite IH by (by rewrite Hh, with_governor_allowed). by rewrite Hh.
Qed.

Lemma cpu_set_all_spec n c set :
  cpu_set_all n (Z.of_nat c) set = set ∪ cpu_set_of (cpu_range c n).
Proof using.
  revert c set. induction n as [|n IH]; intros c set; [set_solver|]. cbn [cpu_set_all].
  replace (Z.of_nat c + 1) with (Z.of_nat (S c)) by lia. rewrite IH.
  unfold cpu_set_of, cpu_range. cbn [seq fmap list_fmap]. rewrite filter_cons.
  unfold CPU_SET. destruct (Z.leb_spec 0 (Z.of_nat c)); [|lia].
  destruct (Z.ltb_spec (Z.of_nat c) 1024); cbn [andb].
  - rewrite decide_True by lia. cbn [list_to_set]. set_solver.
  - rewrite decide_False by lia. done.
Qed.

Lemma cpus_range o : cpus (host_of o) = cpu_range 0 (Z.to_nat (nprocessors_online o)).
Proof using. unfold cpus, cpu_range. by rewrite nprocessors_ok, Nat2Z.id. Qed.

Lemma setaffinity_host s o r o' : h_allowed (host_of o) = true ->
  sched_setaffinity s o = (r, o') ->
  host_of o' = (if bool_decide (s ∩ h_online (host_of o) <> ∅) then with_affinity s (host_of o)
                else host_of o).
Proof using.
  intros Ha H. destruct (setaffinity_ok _ _ _ _ H) as [-> Hr]. specialize (Hr Ha).
  destruct (Z.eqb_spec r 0) as [E|E]; [by rewrite bool_decide_eq_true_2 by tauto|].
  by rewrite bool_decide_eq_false_2 by tauto.
Qed.

Lemma system_host (b : bool) o r o' : h_allowed (host_of o) = true ->
  system (if b then cmd_start else cmd_stop) o = (r, o') ->
  host_of o' = with_irq_target b (host_of o).
Proof using.
  intros Ha H. unfold with_irq_target.
  assert (host_of o' = (if r =? 0 then with_irqbalance b (host_of o) else host_of o) /\
    (r = 0 <-> h_irq_installed (host_of o) = true)) as [-> Hr].
  { destruct b; [destruct (system_start_ok _ _ _ H)|destruct (system_stop_ok _ _ _ H)]; auto. }
  destruct (h_irq_installed (host_of o)), (Z.eqb_spec r 0); try done; exfalso; naive_solver.
Qed.

Lemma isolate_set cpu (online : gset Z) : 0 <= cpu ->
  (if bool_decide (CPU_SET cpu ∅ ∩ online <> ∅) then true else false) =
  bool_decide (cpu ∈ online /\ cpu < 1024) /\
  (cpu < 1024 -> CPU_SET cpu ∅ = {[cpu]}).
Proof using.
  intros Hc. unfold CPU_SET. destruct (Z.leb_spec 0 cpu); [|lia]. cbn [andb].
  destruct (Z.ltb_spec cpu 1024) as [Hl|Hl]; (split; [|intros; (lia || set_solver)]).
  - destruct (decide (cpu ∈ online)); [rewrite !bool_decide_eq_true_2|rewrite !bool_decide_eq_false_2];
      try done; try (intros [? _]; done); set_solver.
  - rewrite !bool_decide_eq_false_2; [done|lia|set_solver].
Qed.

Lemma affinity_apply cpu o r o' : h_allowed (host_of o) = true -> 0 <= cpu ->
  sched_setaffinity (CPU_SET cpu ∅) o = (r, o') ->
  host_of o' = (if bool_decide (cpu ∈ h_online (host_of o) /\ cpu < 1024)
                then with_affinity {[cpu]} (host_of o) else host_of o).
Proof using.
  intros Ha Hc H. rewrite (setaffinity_host _ _ _ _ Ha H).
  destruct (isolate_set cpu (h_online (host_of o)) Hc) as [<- He].
  case_bool_decide as Hd; [|done].
  assert (cpu < 1024) as Hl.
  { destruct (decide (cpu < 1024)); [done|]. destruct Hd. unfold CPU_SET.
    destruct (Z.ltb_spec cpu 1024); [lia|]. rewrite andb_false_r. set_solver. }
  by rewrite He.
Qed.

(** The stages of apply. *)
Lemma scheduling_stage st o : h_allowed (host_of o) = true ->
  1 <= rt_priority (g_rt_config st) <= 99 -> 0 <= (h_sched (host_of o)).1 ->
  exists st' o', apply_scheduling st o = (false, st', o') /\
    g_rt_config st' = g_rt_config st /\ g_rt_initialized st' = g_rt_initialized st /\
    g_saved_governor st' = g_saved_governor st /\
    (use_rt_scheduling (g_rt_config st) = true ->
      (g_saved_policy st', g_saved_sched st') = h_sched (host_of o)) /\
    host_of o' = (if use_rt_scheduling (g_rt_config st)
                  then with_sched (SCHED_FIFO, rt_priority (g_rt_config st)) (host_of o)
                  else host_of o).
Proof using.
  intros Ha Hp Hpol. unfold apply_scheduling.
  destruct (use_rt_scheduling (g_rt_config st)).
  - destruct (getscheduler_ok o Ha) as [-> ->]. destruct (Z.ltb_spec (h_sched (host_of o)).1 0); [lia|].
    destruct (sched_setscheduler _ _ o) as [r o1] eqn:E.
    destruct (setscheduler_ok _ _ _ _ _ E) as [Hh Hr].
    rewrite (Hr Ha) in Hh |- * by by left. cbn [Z.eqb negb] in *.
    eexists _, o1. split; [done|]. repeat (split; [done|]).
    split; [intros _; by destruct (h_sched (host_of o))|done].
  - exists st, o. by repeat (split; [done|]).
Qed.

Lemma memory_stage cfg o : h_allowed (host_of o) = true ->
  host_of (apply_memory cfg o) = (if lock_memory cfg then with_locked true (host_of o) else host_of o).
Proof using.
  intros Ha. unfold apply_memory. destruct (lock_memory cfg); [|done].
  destruct (mlockall o) as [r o'] eqn:E. destruct (mlockall_ok _ _ _ E) as [Hh Hr].
  by rewrite (Hr Ha) in Hh.
Qed.

Lemma governors_stage st o : h_allowed (host_of o) = true ->
  exists st' o', apply_governors st o = (st', o') /\
    g_rt_config st' = g_rt_config st /\ g_rt_initialized st' = g_rt_initialized st /\
    g_saved_policy st' = g_saved_policy st /\ g_saved_sched st' = g_saved_sched st /\
    g_saved_governor st' =
      (if disable_cpu_freq (g_rt_config st) && negb (bool_decide (cpus (host_of o) = []))
       then read_governor (governor_path 0) (g_saved_governor st) o else g_saved_governor st) /\
    host_of o' = (if disable_cpu_freq (g_rt_config st)
                  then with_governors (lit "performance") (cpus (host_of o)) (host_of o)
                  else host_of o).
Proof using.
  intros Ha. unfold apply_governors. destruct (disable_cpu_freq (g_rt_config st)); [|by exists st, o].
  set (n := Z.to_nat (nprocessors_online o)).
  destruct (performance_loop n 0 (g_saved_governor st) o) as [gov o'] eqn:E.
  destruct (performance_loop_spec n 0 _ _ _ _ Ha E) as [Hh ->].
  eexists _, o'. split; [done|]. repeat (split; [done|]). rewrite cpus_range. fold n.
  split; [|done]. cbn [g_saved_governor andb]. by destruct n.
Qed.

Lemma affinity_stage cfg o : h_allowed (host_of o) = true ->
  host_of (apply_affinity cfg o) =
    (if 0 <=? isolate_cpu cfg then
       if bool_decide (isolate_cpu cfg ∈ h_online (host_of o) /\ isolate_cpu cfg < 1024)
       then with_affinity {[isolate_cpu cfg]} (host_of o) else host_of o
     else host_of o).
Proof using.
  intros Ha. unfold apply_affinity. destruct (Z.leb_spec 0 (isolate_cpu cfg)) as [Hc|]; [|done].
  destruct (sched_setaffinity _ o) as [r o'] eqn:E. by apply (affinity_apply _ _ _ _ Ha Hc E).
Qed.

Lemma irqbalance_stage cfg o : h_allowed (host_of o) = true ->
  host_of (apply_irqbalance cfg o) =
    (if disable_irq_balance cfg then with_irq_target false (host_of o) else host_of o).
Proof using.
  intros Ha. unfold apply_irqbalance. destruct (disable_irq_balance cfg); [|done].
  destruct (system cmd_stop o) as [r o'] eqn:E. by apply (system_host false _ _ _ Ha E).
Qed.

(** The text of a governor file gives back the governor's name. *)
Definition governor_name (g : list ascii) : Prop :=
  text g /\ nl ∉ g /\ (length g < 62)%nat /\ g <> [].

Lemma read_governor_spec p g gov o : h_governor (host_of o) !! p = Some g -> governor_name g ->
  read_governor p gov o = g.
Proof using Ok.
  intros Hg (Ht & Hn & Hl & _). unfold read_governor. rewrite (file_text_ok _ _ _ Hg).
  rewrite fgets_fits by (done || lia). rewrite c_str_all.
  - unfold strip_newline. rewrite last_snoc. cbn [Ascii.eqb]. rewrite Ascii.eqb_refl.
    rewrite length_app. simpl. rewrite Nat.add_sub. by rewrite take_app_length.
  - apply text_app. split; [done|by repeat constructor].
Qed.

Lemma apply_host st o : g_rt_initialized st = true -> h_allowed (host_of o) = true ->
  1 <= rt_priority (g_rt_config st) <= 99 -> 0 <= (h_sched (host_of o)).1 ->
  exists st' o', rt_setup_apply st o = (0, st', o') /\
    host_of o' = applied (g_rt_config st) (host_of o) /\
    g_rt_config st' = g_rt_config st /\ g_rt_initialized st' = true /\
    (use_rt_scheduling (g_rt_config st) = true ->
      (g_saved_policy st', g_saved_sched st') = h_sched (host_of o)) /\
    (forall g0, disable_cpu_freq (g_rt_config st) = true -> h_online (host_of o) <> ∅ ->
      h_governor (host_of o) !! governor_path 0 = Some g0 -> governor_name g0 ->
      g_saved_governor st' = g0).
Proof using Ok.
  intros Hi Ha Hp Hpol. unfold rt_setup_apply. rewrite Hi. cbn [negb].
  destruct (scheduling_stage st o Ha Hp Hpol) as (st1 & o1 & -> & Hc1 & Hi1 & Hg1 & Hs1 & Hh1).
  rewrite Hc1. set (cfg := g_rt_config st) in *.
  assert (h_allowed (host_of o1) = true) as Ha1 by (rewrite Hh1; by destruct (use_rt_scheduling cfg)).
  pose proof (memory_stage cfg o1 Ha1) as Hh2. set (o2 := apply_memory cfg o1) in *.
  assert (h_allowed (host_of o2) = true) as Ha2 by (rewrite Hh2; by destruct (lock_memory cfg)).
  destruct (governors_stage st1 o2 Ha2) as (st3 & o3 & -> & Hc3 & Hi3 & Hp3 & Hs3 & Hg3 & Hh3).
  rewrite Hc1 in Hh3, Hg3, Hc3. fold cfg in Hh3, Hg3, Hc3.
  destruct (with_governors_others (lit "performance") (cpus (host_of o2)) (host_of o2))
    as (_ & _ & _ & _ & _ & _ & _ & Ha3').
  assert (h_allowed (host_of o3) = true) as Ha3.
  { rewrite Hh3. destruct (disable_cpu_freq cfg); congruence. }
  pose proof (affinity_stage cfg o3 Ha3) as Hh4. set (o4 := apply_affinity cfg o3) in *.
  assert (h_allowed (host_of o4) = true) as Ha4.
  { rewrite Hh4. destruct (0 <=? isolate_cpu cfg); [|done]. by case_bool_decide. }
  pose proof (irqbalance_stage cfg o4 Ha4) as Hh5.
  assert (h_governor (host_of o2) = h_governor (host_of o) /\
          h_online (host_of o2) = h_online (host_of o)) as [Eg Eo].
  { rewrite Hh2, Hh1. by destruct (lock_memory cfg), (use_rt_scheduling cfg). }
  eexists st3, _. split; [done|]. split; [|split; [done|split; [congruence|split]]].
  - rewrite Hh5, Hh4, Hh3, Hh2, Hh1. done.
  - intros Hu. rewrite Hp3, Hs3. by apply Hs1.
  - intros g0 Hd Ho Hg0 Hname. rewrite Hg3, Hd. cbn [andb]. unfold cpus. rewrite Eo.
    rewrite bool_decide_eq_false_2; [|]. 
    + cbn [negb]. apply read_governor_spec; [by rewrite Eg|done].
    + intros E%(f_equal length). rewrite length_fmap, length_seq in E.
      apply Ho. by apply leibniz_equiv, size_empty_inv.
Qed.

Lemma restore_memory_stage cfg o : h_allowed (host_of o) = true ->
  host_of (restore_memory cfg o) = if lock_memory cfg then with_locked false (host_of o) else host_of o.
Proof using Ok.
  intros Ha. unfold restore_memory. destruct (lock_memory cfg); [|done].
  destruct (munlockall o) as [r o'] eqn:E. destruct (munlockall_ok _ _ _ E) as [Hh Hr].
  by rewrite (Hr Ha) in Hh.
Qed.

Lemma restore_affinity_stage cfg o : h_allowed (host_of o) = true ->
  host_of (restore_affinity cfg o) =
    if (0 <=? isolate_cpu cfg) &&
       bool_decide (cpu_set_of (cpus (host_of o)) ∩ h_online (host_of o) <> ∅)
    then with_affinity (cpu_set_of (cpus (host_of o))) (host_of o) else host_of o.
Proof using Ok.
  intros Ha. unfold restore_affinity. destruct (0 <=? isolate_cpu cfg); [|done]. cbn [andb].
  rewrite (cpu_set_all_spec _ 0), <-cpus_range, union_empty_l_L.
  destruct (sched_setaffinity _ o) as [r o'] eqn:E. apply (setaffinity_host _ _ _ _ Ha E).
Qed.

Lemma restore_host st o : g_rt_initialized st = true -> h_allowed (host_of o) = true ->
  (use_rt_scheduling (g_rt_config st) = true -> valid_sched (g_saved_policy st) (g_saved_sched st)) ->
  exists st' o', rt_setup_restore st o = (st', o') /\
    host_of o' = restored (g_rt_config st) (g_saved_policy st, g_saved_sched st)
                   (g_saved_governor st) (host_of o) /\
    g_rt_initialized st' = false.
Proof using Ok.
  intros Hi Ha Hv. unfold rt_setup_restore. rewrite Hi. cbn [negb].
  set (cfg := g_rt_config st) in *.
  assert (host_of (restore_scheduling st o) =
    (if use_rt_scheduling cfg then with_sched (g_saved_policy st, g_saved_sched st) (host_of o)
     else host_of o)) as Hh1.
  { unfold restore_scheduling. fold cfg. destruct (use_rt_scheduling cfg); [|done].
    destruct (sched_setscheduler _ _ o) as [r o'] eqn:E.
    destruct (setscheduler_ok _ _ _ _ _ E) as [Hh Hr]. by rewrite (Hr Ha (Hv eq_refl)) in Hh. }
  set (o1 := restore_scheduling st o) in *.
  assert (h_allowed (host_of o1) = true) as Ha1 by (rewrite Hh1; by destruct (use_rt_scheduling cfg)).
  pose proof (restore_memory_stage cfg o1 Ha1) as Hh2.
  set (o2 := restore_memory cfg o1) in *.
  assert (h_allowed (host_of o2) = true) as Ha2 by (rewrite Hh2; by destruct (lock_memory cfg)).
  assert (host_of (restore_governors st o2) =
    (if disable_cpu_freq cfg && negb (bool_decide (g_saved_governor st = []))
     then with_governors (g_saved_governor st) (cpus (host_of o2)) (host_of o2)
     else host_of o2)) as Hh3.
  { unfold restore_governors. fold cfg. destruct (_ && _); [|done].
    rewrite cpus_range. by apply (restore_loop_spec _ 0). }
  set (o3 := restore_governors st o2) in *.
  assert (h_allowed (host_of o3) = true /\ h_online (host_of o3) = h_online (host_of o2)) as [Ha3 Eo].
  { rewrite Hh3. destruct (_ && _); [|done].
    by destruct (with_governors_others (g_saved_governor st) (cpus (host_of o2)) (host_of o2))
      as (_ & _ & _ & _ & -> & _ & _ & ->). }
  pose proof (restore_affinity_stage cfg o3 Ha3) as Hh4.
  set (o4 := restore_affinity cfg o3) in *.
  assert (h_allowed (host_of o4) = true) as Ha4.
  { rewrite Hh4. destruct (0 <=? isolate_cpu cfg); cbn [andb]; [case_bool_decide|]; exact Ha3. }
  eexists _, _. split; [done|]. split; [|done].
  assert (host_of (restore_irqbalance cfg o4) =
    (if disable_irq_balance cfg then with_irq_target true (host_of o4) else host_of o4)) as ->.
  { unfold restore_irqbalance. destruct (disable_irq_balance cfg); [|done].
    destruct (system cmd_start o4) as [r o'] eqn:E. by apply (system_host true _ _ _ Ha4 E). }
  rewrite Hh4, Hh3, Hh2, Hh1. done.
Qed.

(** C12: On a host that grants the privileges, applying an accepted
    configuration does what it says and only what it says: it returns 0 and
    the host becomes [applied cfg] of itself: SCHED_FIFO at the configured
    priority, memory locked, the governor of every CPU set to performance
    where that governor is offered, the affinity reduced to the isolated CPU
    if that CPU is online, irqbalance stopped if it is installed, each part
    only if its switch is set; the previous scheduler is saved. *)
Theorem rt_apply_effect cfg st o st0 ret :
  rt_setup_init (Some cfg) st = (ret, st0) -> ret = 0 ->
  h_allowed (host_of o) = true -> 0 <= (h_sched (host_of o)).1 ->
  exists st' o', rt_setup_apply st0 o = (0, st', o') /\ host_of o' = applied cfg (host_of o) /\
    g_rt_config st' = cfg /\ g_rt_initialized st' = true /\
    (use_rt_scheduling cfg = true ->
       (g_saved_policy st', g_saved_sched st') = h_sched (host_of o)).
Proof using Ok.
  intros Hinit Hr Ha Hs. subst ret. cbn [rt_setup_init] in Hinit.
  destruct (_ || _) eqn:Hp; [done|]. injection Hinit as <-. zbool.
  destruct (apply_host (mk_rt_state cfg true (g_saved_sched st) (g_saved_policy st)
    (g_saved_governor st)) o) as (st' & o' & Happ & Hh & Hc & Hi & Hsv & _); try done.
  exists st', o'. done.
Qed.

(** A session on a host that grants the privileges. *)
Lemma session_host cfg st o st0 g0 :
  rt_setup_init (Some cfg) st = (0, st0) ->
  h_allowed (host_of o) = true ->
  valid_sched (h_sched (host_of o)).1 (h_sched (host_of o)).2 ->
  h_online (host_of o) <> ∅ ->
  h_governor (host_of o) !! governor_path 0 = Some g0 -> governor_name g0 ->
  g0 ∈ h_available (host_of o) ->
  exists st1 o1 st2 o2,
    rt_setup_apply st0 o = (0, st1, o1) /\ rt_setup_restore st1 o1 = (st2, o2) /\
    g_rt_initialized st2 = false /\
    let h := host_of o in let h2 := host_of o2 in
    h_sched h2 = h_sched h /\
    h_locked h2 = (if lock_memory cfg then false else h_locked h) /\
    (forall q, h_governor h2 !! q =
       if disable_cpu_freq cfg && bool_decide (q ∈ governor_path <$> cpus h)
       then (fun _ => g0) <$> h_governor h !! q else h_governor h !! q) /\
    h_irqbalance h2 =
      (if disable_irq_balance cfg && h_irq_installed h then true else h_irqbalance h) /\
    (isolate_cpu cfg < 0 -> h_affinity h2 = h_affinity h) /\
    (0 <= isolate_cpu cfg -> h_online h = cpu_set_of (cpus h) -> h_affinity h2 = h_online h).
Proof using Ok.
  intros Hinit Ha Hv Hon Hg Hname Hav. cbn [rt_setup_init] in Hinit.
  destruct (_ || _) eqn:Hp; [done|]. injection Hinit as <-. zbool.
  assert (0 <= (h_sched (host_of o)).1) as Hpol.
  { destruct Hv as [[Hv _]|[-> _]]; [|done]. unfold is_rt_policy, SCHED_FIFO, SCHED_RR in Hv.
    apply orb_true_iff in Hv as [->%Z.eqb_eq| ->%Z.eqb_eq]; done. }
  destruct (apply_host (mk_rt_state cfg true (g_saved_sched st) (g_saved_policy st)
    (g_saved_governor st)) o) as (st1 & o1 & Happ & Hh1 & Hc & Hi & Hsv & Hgov); try done.
  cbn [g_rt_config] in *. destruct (applied_fields cfg (host_of o)) as (As & Al & Ag & Aq & Aa & Ha1 & Eon & Eav & Eins).
  rewrite <-Hh1 in As, Al, Ag, Aq, Aa, Ha1, Eon, Eav, Eins.
  destruct (restore_host st1 o1 Hi) as (st2 & o2 & Hres & Hh2 & Hi2).
  { congruence. }
  { rewrite Hc. intros Hu. specialize (Hsv Hu).
    destruct (h_sched (host_of o)) as [p q]. by injection Hsv as -> ->. }
  exists st1, o1, st2, o2. split; [done|]. split; [done|]. split; [done|].
  cbv zeta. rewrite Hh2, Hc.
  destruct (restored_fields cfg (g_saved_policy st1, g_saved_sched st1) (g_saved_governor st1)
    (host_of o1)) as (-> & -> & Rg & -> & Ra).
  split; [|split; [|split; [|split; [|split]]]].
  - destruct (use_rt_scheduling cfg); [by apply Hsv|done].
  - rewrite Al. by destruct (lock_memory cfg).
  - intros q. rewrite Rg, Ag. unfold cpus. rewrite Eon, Eav.
    destruct (disable_cpu_freq cfg) eqn:Hd; [|done]. cbn [andb].
    rewrite (Hgov g0 eq_refl Hon Hg Hname). destruct Hname as (_ & _ & _ & Hne).
    rewrite (bool_decide_eq_false_2 (g0 = [])) by done. cbn [negb andb].
    destruct (h_governor (host_of o) !! q) as [gq|]; repeat case_bool_decide; cbn; naive_solver.
  - rewrite Aq, Eins. by destruct (disable_irq_balance cfg), (h_irq_installed (host_of o)).
  - intros Hl. rewrite Ra, Aa by done. done.
  - intros Hl Hcpus. rewrite <-Eon. apply restored_affinity; unfold cpus in *; by rewrite ?Eon.
Qed.

(** C13: What init, apply and restore leave of a host.  With the privileges
    and an ordinary or real-time scheduler to come back to, the scheduler is
    restored; a second restore does nothing.  The rest is restored only in
    part, and this says exactly how: locked memory ends unlocked; every
    governor file of the online CPUs ends at the governor CPU 0 had, the others
    are untouched; irqbalance, where it is installed, ends running; and the
    affinity ends at all CPUs online (numbered from 0), each only if its switch
    was set. *)
Theorem rt_restore_undoes_apply cfg st o st0 g0 :
  rt_setup_init (Some cfg) st = (0, st0) ->
  h_allowed (host_of o) = true ->
  valid_sched (h_sched (host_of o)).1 (h_sched (host_of o)).2 ->
  h_online (host_of o) <> ∅ ->
  h_governor (host_of o) !! governor_path 0 = Some g0 -> governor_name g0 ->
  g0 ∈ h_available (host_of o) ->
  exists st1 o1 st2 o2,
    rt_setup_apply st0 o = (0, st1, o1) /\ rt_setup_restore st1 o1 = (st2, o2) /\
    rt_setup_restore st2 o2 = (st2, o2) /\
    let h := host_of o in let h2 := host_of o2 in
    h_sched h2 = h_sched h /\
    h_locked h2 = (if lock_memory cfg then false else h_locked h) /\
    (forall q, h_governor h2 !! q =
       if disable_cpu_freq cfg && bool_decide (q ∈ governor_path <$> cpus h)
       then (fun _ => g0) <$> h_governor h !! q else h_governor h !! q) /\
    h_irqbalance h2 =
      (if disable_irq_balance cfg && h_irq_installed h then true else h_irqbalance h) /\
    (isolate_cpu cfg < 0 -> h_affinity h2 = h_affinity h) /\
    (0 <= isolate_cpu cfg -> h_online h = cpu_set_of (cpus h) -> h_affinity h2 = h_online h).
Proof using Ok.
  intros Hinit Ha Hv Hon Hg Hname Hav.
  destruct (session_host cfg st o st0 g0) as (st1 & o1 & st2 & o2 & Happ & Hres & Hi & H); try done.
  exists st1, o1, st2, o2. split; [done|]. split; [done|]. split; [|exact H].
  unfold rt_setup_restore. by rewrite Hi.
Qed.
End rt_proofs.

(** ** Latency measurement *)

(** Ordering of the floating-point numbers that compare. *)
Lemma SFltb_trans a b c : SFltb a b = true -> SFltb b c = true -> SFltb a c = true.
Proof.
  unfold SFltb, SFcompare.
  destruct a as [?|[]| |[] ? ?], b as [?|[]| |[] ? ?], c as [?|[]| |[] ? ?]; try done;
    change (Pos.compare_cont Eq) with Pos.compare;
    repeat match goal with
    | |- context [Z.compare ?x ?y] => destruct (Z.compare_spec x y); subst
    | |- context [Pos.compare ?x ?y] => destruct (Pos.compare_spec x y); subst
    end; cbn; try done; intros; exfalso; lia.
Qed.

Lemma SFltb_irrefl a : SFltb a a = false.
Proof.
  unfold SFltb, SFcompare. destruct a as [?|[]| |[] ? ?]; try done;
    change (Pos.compare_cont Eq) with Pos.compare; by rewrite Z.compare_refl, Pos.compare_refl.
Qed.

Definition later (m d : double) : double := if SFltb m d then d else m.

Lemma later_max m ds : let r := foldl later m ds in
  SFltb r m = false /\ (forall d, d ∈ ds -> SFltb r d = false) /\
  (r = m \/ r ∈ ds /\ SFltb m r = true).
Proof.
  revert m. induction ds as [|d ds IH]; intros m; cbn [foldl].
  - split; [apply SFltb_irrefl|]. split; [|by left]. intros d Hd. by apply not_elem_of_nil in Hd.
  - destruct (IH (later m d)) as (Hm & Hds & Hin). set (r := foldl later (later m d) ds) in *.
    unfold later in Hm, Hin. destruct (SFltb m d) eqn:E.
    + assert (SFltb m r = true) as Hmr.
      { destruct Hin as [->|[_ Hdr]]; [done|]. by eapply SFltb_trans. }
      split; [|split].
      * destruct (SFltb r m) eqn:Er; [|done]. by rewrite (SFltb_trans _ _ _ Er E) in Hm.
      * intros x [->|Hx]%elem_of_cons; [done|by apply Hds].
      * right. split; [|done]. apply elem_of_cons. destruct Hin as [->|[? _]]; auto.
    + split; [done|]. split.
      * intros x [->|Hx]%elem_of_cons; [|by apply Hds].
        destruct Hin as [->|[_ Hmr]]; [done|]. destruct (SFltb r d) eqn:Er; [|done].
        by rewrite (SFltb_trans _ _ _ Hmr Er) in E.
      * destruct Hin as [->|[? ?]]; [by left|right; split; [by apply elem_of_cons; right|done]].
Qed.

Section measurement_proofs.
Context {O : Type} {OS : RtOs O} {Ok : RtOsOk O}.
Implicit Types o : O.

(** The deviation, in microseconds, of one batch from the baseline. *)
Definition deviation (baseline_per_iter : double) (t_start t_end : Z * Z) : double :=
  let d := ddiv (dsub (elapsed_ns t_start t_end) (dmul baseline_per_iter (double_of_Z 1000)))
             (double_of_Z 1000) in
  if SFltb d dzero then SFopp d else d.

(** The deviations of [n] batches, in order; [None] when a clock read fails. *)
Fixpoint deviations (n : nat) (baseline : double) (o : O) : option (list double) * O :=
  match n with
  | Datatypes.O => (Some [], o)
  | S n =>
      match clock_gettime o with
      | (None, o) => (None, o)
      | (Some t_start, o) =>
          match clock_gettime o with
          | (None, o) => (None, o)
          | (Some t_end, o) =>
              let '(ds, o) := deviations n baseline o in
              ((fun ds => deviation baseline t_start t_end :: ds) <$> ds, o)
          end
      end
  end.

Lemma measure_loop_eq n b m o :
  measure_loop n b m o =
    let '(ds, o') := deviations n b o in (foldl later m <$> ds, o').
Proof using.
  revert m o. induction n as [|n IH]; intros m o; [done|]. cbn [measure_loop deviations].
  destruct (clock_gettime o) as [[t0|] o1]; [|done].
  destruct (clock_gettime o1) as [[t1|] o2]; [|done].
  rewrite IH. destruct (deviations n b o2) as [[ds|] o3]; done.
Qed.

Lemma deviations_length n b o ds o' : deviations n b o = (Some ds, o') -> length ds = n.
Proof using.
  revert o ds. induction n as [|n IH]; intros o ds; cbn [deviations]; [by intros [= <- _]|].
  destruct (clock_gettime o) as [[t0|] o1]; [|done].
  destruct (clock_gettime o1) as [[t1|] o2]; [|done].
  destruct (deviations n b o2) as [[ds1|] o3] eqn:E; [|done].
  intros [= <- <-]. cbn. f_equal. by eapply IH.
Qed.

Lemma deviations_host n b o : host_of (snd (deviations n b o)) = host_of o.
Proof using.
  revert o. induction n as [|n IH]; intros o; [done|]. cbn [deviations].
  destruct (clock_gettime o) as [[t0|] o1] eqn:E0; apply clock_ok in E0; [|done].
  destruct (clock_gettime o1) as [[t1|] o2] eqn:E1; apply clock_ok in E1; [|cbn; congruence].
  specialize (IH o2). destruct (deviations n b o2) as [ds o3]. cbn in *. congruence.
Qed.

Lemma measure_host x samples o :
  host_of (rt_setup_measure_latency (Some x) samples o).2 = host_of o.
Proof using.
  cbn [rt_setup_measure_latency]. destruct (samples <=? 0); [done|].
  destruct (clock_gettime o) as [[t0|] o1] eqn:E0; apply clock_ok in E0; [|done].
  destruct (clock_gettime o1) as [[t1|] o2] eqn:E1; apply clock_ok in E1; [|cbn; congruence].
  set (base := ddiv (elapsed_ns t0 t1) (double_of_Z 1000)). rewrite measure_loop_eq.
  pose proof (deviations_host (Z.to_nat samples) base o2) as Hh.
  destruct (deviations _ base o2) as [[ds|] o3]; cbn in *; congruence.
Qed.

(** The latency probe returns the largest deviation it measured: when it
    returns 0 it has read the clock for [samples] batches, the result is one
    of their deviations from the baseline or zero, no deviation exceeds it,
    and it is not negative, all in the double arithmetic of the code; any
    other outcome is -EINVAL or -EIO and leaves the caller's variable alone.
    The host is not changed. *)
Theorem measure_latency_spec x samples o :
  let '(ret, lat, o') := rt_setup_measure_latency (Some x) samples o in
  host_of o' = host_of o /\
  (ret = 0 /\ 0 < samples /\ (exists base o1 ds m,
      deviations (Z.to_nat samples) base o1 = (Some ds, o') /\ length ds = Z.to_nat samples /\
      lat = Some m /\ (m = dzero \/ m ∈ ds) /\
      (forall d, d ∈ ds -> SFltb m d = false) /\ SFltb m dzero = false) \/
   (ret = - EINVAL /\ samples <= 0 \/ ret = - EIO /\ 0 < samples) /\ lat = Some x).
Proof using Ok.
  cbn [rt_setup_measure_latency]. destruct (Z.leb_spec samples 0) as [|Hs]; [naive_solver|].
  destruct (clock_gettime o) as [[t0|] o1] eqn:E0; apply clock_ok in E0; [|naive_solver].
  destruct (clock_gettime o1) as [[t1|] o2] eqn:E1; apply clock_ok in E1;
    [|split; [congruence|naive_solver]].
  set (base := ddiv (elapsed_ns t0 t1) (double_of_Z 1000)). rewrite measure_loop_eq.
  pose proof (deviations_host (Z.to_nat samples) base o2) as Hh.
  destruct (deviations _ base o2) as [[ds|] o3] eqn:Ed; cbn [fmap option_fmap option_map snd] in *;
    (split; [congruence|]); [left|by right; split; [right|]].
  destruct (later_max dzero ds) as (Hz & Hds & Hin).
  split; [done|]. split; [done|]. exists base, o2, ds, (foldl later dzero ds).
  split; [done|]. split; [by eapply deviations_length|]. split; [done|].
  split; [tauto|]. done.
Qed.
End measurement_proofs.

(** ** The self check *)

Lemma length_fmt_d n : in_s32 n -> (length (fmt_d n) <= 11)%nat.
Proof.
  unfold in_s32. intros. unfold fmt_d, fmt_u.
  destruct (Z.ltb_spec n 0); cbn [length]; rewrite List.length_map.
  - pose proof (length_digits 10 ltac:(lia) (- n) 10%nat ltac:(lia) ltac:(lia)). lia.
  - pose proof (length_digits 10 ltac:(lia) n 10%nat ltac:(lia) ltac:(lia)). lia.
Qed.

Lemma text_dec_true s : bool_decide (text s) = true -> text s.
Proof. apply bool_decide_eq_true_1. Qed.

Lemma fmt_f2_text x : text (fmt_f2 x).
Proof.
  assert (forall s : bool, text (if s then lit "-" else [])) as Hs
    by (intros []; by apply text_dec_true; vm_compute).
  destruct x as [s|s| |s m e]; unfold fmt_f2; cbv zeta; rewrite ?text_app;
    try (split; [apply Hs|by apply text_dec_true; vm_compute]);
    [by apply text_dec_true; vm_compute|].
  set (n := if 0 <=? e then _ else _).
  assert (0 <= n) as Hn.
  { unfold n. destruct (Z.leb_spec 0 e); [pose proof (Z.pow_nonneg 2 e); lia|].
    assert (0 <= Z.pos m * 100 / 2 ^ (- e)) by (apply Z.div_pos; [|apply Z.pow_pos_nonneg]; lia).
    case_if; lia. }
  split; [apply Hs|]. split; [apply fmt_u_text, Z.div_pos; lia|].
  split; [by apply text_dec_true; vm_compute|].
  split; apply fmt_u_text; Z.to_euclidean_division_equations; lia.
Qed.

(** The report in progress: [pre] has been written so far. *)
Definition written (pre : list ascii) (st : Z * list ascii) : Prop :=
  st.1 = zlen pre /\ length st.2 = 512%nat /\ take (length pre) st.2 = pre /\ text pre.

Lemma append_report_ok pre st s :
  written pre st -> text s -> 0 < zlen s -> zlen pre + zlen s < 512 ->
  exists st', append_report st s = Done st' /\ written (pre ++ s) st'.
Proof.
  destruct st as [off buf]. intros (Ho & Hl & Hp & Ht) Hs Hpos Hfit. cbn in Ho, Hl, Hp. subst off.
  unfold append_report. pose proof (zlen_nonneg pre).
  destruct (snprintf_at_cut buf pre s) as (buf' & -> & Hl' & _ & Htk);
    [done|unfold zlen at 2; lia|done|done|].
  cbn [mbind exec_bind]. rewrite (proj2 (Z.ltb_lt 0 _)) by lia. eexists. split; [done|].
  split; [by rewrite zlen_app|]. split; [cbn; lia|]. split; [|by apply text_app].
  apply Htk. unfold zlen in *. lia.
Qed.

Lemma append_report_last pre st s :
  written pre st -> text s -> zlen pre < 512 ->
  exists st', append_report st s = Done st' /\ length st'.2 = 512%nat /\
    c_str st'.2 = take 511 (pre ++ s).
Proof.
  destruct st as [off buf]. intros (Ho & Hl & Hp & Ht) Hs Hfit. cbn in Ho, Hl, Hp. subst off.
  unfold append_report.
  destruct (snprintf_at_cut buf pre s) as (buf' & -> & Hl' & Hc & _);
    [done|unfold zlen at 2; lia|done|done|].
  cbn [mbind exec_bind]. eexists. split; [done|]. cbn [snd]. split; [lia|].
  by rewrite Hc, Hl.
Qed.

(** The first line is a text of 14 to 80 characters, the next three have 20 to
    50. *)
Lemma sched_line_ok policy priority : in_s32 policy -> in_s32 priority ->
  let l := if is_rt_policy policy then line_sched_ok policy priority else line_sched_fail policy in
  text l /\ 0 < zlen l <= 80.
Proof.
  intros Hp Hq. pose proof (length_fmt_d _ Hp). pose proof (length_fmt_d _ Hq).
  destruct (is_rt_policy policy); cbv zeta; unfold line_sched_ok, line_sched_fail;
    (split; [rewrite !text_app; repeat split; first [apply fmt_d_text|by apply text_dec_true; vm_compute]|]);
    unfold zlen; rewrite !length_app.
  - change (length (lit "[OK] RT scheduling active: policy=")) with 34%nat.
    change (length (lit ", priority=")) with 11%nat. change (length [nl]) with 1%nat. lia.
  - change (length (lit "[FAIL] RT scheduling not active (current policy=")) with 48%nat.
    change (length (lit ")")) with 1%nat. change (length [nl]) with 1%nat. lia.
Qed.

Lemma fixed_lines_ok b :
  (text (line_memory b) /\ 0 < zlen (line_memory b) <= 50) /\
  (text (line_cpu b) /\ 0 < zlen (line_cpu b) <= 50) /\
  (text (line_irq b) /\ 0 < zlen (line_irq b) <= 50).
Proof. destruct b; repeat split; first [by apply text_dec_true; vm_compute|by vm_compute]. Qed.

(** Counting the CPUs of a set. *)
Lemma count_cpus_spec n c set :
  count_cpus n c set =
    Z.of_nat (length (filter (fun cpu => 0 <= cpu < 1024 /\ cpu ∈ set)
                        ((fun i => c + Z.of_nat i) <$> seq 0 n))).
Proof.
  revert c. induction n as [|n IH]; intros c; [done|]. cbn [count_cpus]. rewrite IH.
  rewrite <-cons_seq, fmap_cons, <-fmap_S_seq, <-list_fmap_compose, filter_cons, Z.add_0_r.
  assert (((fun i => c + Z.of_nat i) ∘ S) <$> seq 0 n = (fun i => c + 1 + Z.of_nat i) <$> seq 0 n)
    as -> by (apply list_fmap_ext; intros; cbn; lia).
  destruct (decide (0 <= c < 1024 /\ c ∈ set)); cbn [length];
    [rewrite bool_decide_eq_true_2 by done|rewrite bool_decide_eq_false_2 by done]; lia.
Qed.

Section check_proofs.
Context {O : Type} {OS : RtOs O} {Ok : RtOsOk O}.
Implicit Types (o : O) (st : rt_state).

(** ** What the check reads, independently of how it reads it *)

(** Lines of a file, each shorter than the buffer of the scan. *)
Definition lines_text (ls : list (list ascii)) : list ascii := concat (map (fun l => l ++ [nl]) ls).
Definition short_line (l : list ascii) : Prop := text l /\ nl ∉ l /\ (length l < 255)%nat.

(** A line of /proc/self/status that reports [kb] kilobytes of locked memory. *)
Definition vmlck_line (blanks : list ascii) (kb : Z) (rest : list ascii) : list ascii :=
  lit "VmLck:" ++ blanks ++ fmt_u kb ++ rest.
Definition other_line (l : list ascii) : Prop := ~ lit "VmLck:" `prefix_of` l.

Lemma scan_other l : other_line l -> scan_vmlck (l ++ [nl]) = None.
Proof.
  intros Hl. unfold scan_vmlck. destruct (str_eqb_spec (take (length (lit "VmLck:")) (l ++ [nl]))
    (lit "VmLck:")) as [E|]; [|done].
  exfalso. apply Hl. exists (drop 6 l). change (length (lit "VmLck:")) with 6%nat in E.
  destruct (le_lt_dec 6 (length l)) as [Hle|Hlt].
  - rewrite take_app_le in E by done. by rewrite <-E, take_drop.
  - rewrite take_ge in E by (rewrite length_app; simpl; lia).
    apply (f_equal last) in E. by rewrite last_snoc in E.
Qed.

Lemma scan_vmlck_line blanks kb rest :
  Forall (fun c => isspace c = true) blanks -> in_u 64 kb -> no_digit 10 (rest ++ [nl]) ->
  scan_vmlck (vmlck_line blanks kb rest ++ [nl]) = Some kb.
Proof.
  intros Hb Hkb Hr. unfold scan_vmlck, vmlck_line. rewrite <-app_assoc, take_app_length, str_eqb_refl.
  rewrite drop_app_length, <-!app_assoc, scan_num_blanks by done.
  rewrite scan_num_fmt_u by (done || apply Hkb). cbn [fmap option_fmap option_map fst].
  by rewrite ulong_value_small.
Qed.

(** The scan passes over complete lines of another kind. *)
Lemma vmlck_loop_skip ls post : Forall short_line ls -> Forall other_line ls -> forall fuel,
  (length (lines_text ls ++ post) <= fuel)%nat ->
  exists fuel', (length post <= fuel')%nat /\
    vmlck_loop fuel (lines_text ls ++ post) = vmlck_loop fuel' post.
Proof.
  induction 1 as [|l ls (Ht & Hn & Hs) _ IH]; intros Ho fuel Hf; [by exists fuel|].
  apply Forall_cons in Ho as [Hl Ho]. unfold lines_text in *. cbn [map concat] in *.
  rewrite <-!app_assoc in *. cbn [app] in *. rewrite length_app in Hf. simpl in Hf.
  destruct fuel as [|fuel]; [lia|]. destruct (IH Ho fuel ltac:(lia)) as (f & Hpost & E).
  exists f. split; [done|]. cbn [vmlck_loop]. rewrite fgets_fits by (done || lia).
  rewrite c_str_all by (apply text_app; split; [done|by repeat constructor]).
  by rewrite scan_other.
Qed.

(** CPU [c] is the only one of the online CPUs in the affinity set. *)
Definition only_cpu o (set : gset Z) (c : Z) : Prop :=
  forall c', 0 <= c' < nprocessors_online o /\ c' < 1024 /\ c' ∈ set <-> c' = c.

Lemma count_cpus_one n set : count_cpus n 0 set = 1 <->
  exists c, forall c', 0 <= c' < Z.of_nat n /\ c' < 1024 /\ c' ∈ set <-> c' = c.
Proof.
  rewrite count_cpus_spec. set (l := filter _ _).
  assert (forall c, c ∈ l <-> 0 <= c < Z.of_nat n /\ c < 1024 /\ c ∈ set) as Hin.
  { intros c. unfold l. rewrite list_elem_of_filter, list_elem_of_fmap. setoid_rewrite elem_of_seq. split.
    - intros [[? ?] (i & -> & ?)]. lia || (split; [lia|]; split; [lia|done]).
    - intros (? & ? & ?). split; [split; [lia|done]|]. exists (Z.to_nat c). lia. }
  assert (NoDup l) as Hnd.
  { unfold l. apply NoDup_filter, NoDup_fmap_2; [intros ???; lia|apply NoDup_seq]. }
  setoid_rewrite <-Hin. split.
  - intros H. destruct l as [|c [|]] eqn:E; simpl in H; try lia. exists c. intros c'.
    by rewrite list_elem_of_singleton.
  - intros [c Hc]. assert (l ≡ₚ [c]) as ->; [|done].
    apply NoDup_Permutation; [done|apply NoDup_singleton|]. intros c'.
    by rewrite Hc, list_elem_of_singleton.
Qed.

(** The values the check computes. *)
Definition pinned st o : bool :=
  g_rt_initialized st && (0 <=? isolate_cpu (g_rt_config st)) &&
  match sched_getaffinity o with
  | Some set => count_cpus (Z.to_nat (nprocessors_online o)) 0 set =? 1
  | None => false
  end.

Definition vmlck o : bool :=
  match file_text (lit "/proc/self/status") o with
  | Some text => vmlck_loop (length text) text
  | None => false
  end.

Lemma vmlck_reported o pre blanks kb rest post :
  file_text (lit "/proc/self/status") o =
    Some (lines_text pre ++ vmlck_line blanks kb rest ++ nl :: post) ->
  Forall short_line pre -> Forall other_line pre -> short_line (vmlck_line blanks kb rest) ->
  Forall (fun c => isspace c = true) blanks -> in_u 64 kb -> no_digit 10 (rest ++ [nl]) ->
  vmlck o = (0 <? kb).
Proof using.
  intros Hf Hp Ho (Ht & Hn & Hl) Hb Hkb Hr. unfold vmlck. rewrite Hf.
  destruct (vmlck_loop_skip pre (vmlck_line blanks kb rest ++ nl :: post) Hp Ho _ (le_n _))
    as (f & Hfuel & ->).
  rewrite length_app in Hfuel. simpl in Hfuel. destruct f as [|f]; [lia|]. cbn [vmlck_loop].
  rewrite fgets_fits by (done || lia).
  rewrite c_str_all by (apply text_app; split; [done|by repeat constructor]).
  by rewrite scan_vmlck_line.
Qed.

Lemma vmlck_absent o ls : file_text (lit "/proc/self/status") o = Some (lines_text ls) ->
  Forall short_line ls -> Forall other_line ls -> vmlck o = false.
Proof using.
  intros Hf Hs Ho. unfold vmlck. rewrite Hf.
  destruct (vmlck_loop_skip ls [] Hs Ho (length (lines_text ls))) as (f & _ & E);
    [by rewrite app_nil_r|].
  rewrite app_nil_r in E. rewrite E. by destruct f.
Qed.

Lemma pinned_spec st o : pinned st o = true <->
  g_rt_initialized st = true /\ 0 <= isolate_cpu (g_rt_config st) /\
  exists set c, sched_getaffinity o = Some set /\ only_cpu o set c.
Proof using Ok.
  unfold pinned, only_cpu. rewrite !andb_true_iff, Z.leb_le, nprocessors_ok.
  rewrite Nat2Z.id.
  destruct (sched_getaffinity o) as [set|]; [|split; [by intros [_ ?]|by intros (_ & _ & ? & ? & ? & _)]].
  rewrite Z.eqb_eq, count_cpus_one. split.
  - intros [[? ?] [c Hc]]. split; [done|]. split; [done|]. by exists set, c.
  - intros (? & ? & set' & c & [= <-] & Hc). split; [done|]. by exists c.
Qed.

(** C27: The self check is safe and faithful.  Whatever the host answers (the
    policy and the priority are [int]s), it returns 0, never writes outside
    its 512-byte report, changes nothing, and its flags say what the host
    says.  Scheduling: the policy is SCHED_FIFO or SCHED_RR.  Memory: of a
    readable /proc/self/status, the first line that starts with "VmLck:" and
    its number decide, locked exactly if it is positive; a file without such a
    line, or none, means not locked.  Isolation: the set-up is initialised with
    a CPU to isolate, and exactly one of the online CPUs below 1024 is in the
    affinity set.  irqbalance: not active.  The report is the five lines in
    order, cut to 511 characters: the first four always fit, only the latency
    can be cut off. *)
Theorem rt_check_spec uninit r0 st o :
  in_s32 (sched_getscheduler o) -> in_s32 (default uninit (sched_getparam o)) ->
  exists res o' latency_line,
    rt_setup_check uninit (Some r0) st o = Done (0, Some res, o') /\
    host_of o' = host_of o /\
    (rt_scheduling_ok res = true <->
       sched_getscheduler o = SCHED_FIFO \/ sched_getscheduler o = SCHED_RR) /\
    (forall pre blanks kb rest post,
       file_text (lit "/proc/self/status") o =
         Some (lines_text pre ++ vmlck_line blanks kb rest ++ nl :: post) ->
       Forall short_line pre -> Forall other_line pre -> short_line (vmlck_line blanks kb rest) ->
       Forall (fun c => isspace c = true) blanks -> in_u 64 kb -> no_digit 10 (rest ++ [nl]) ->
       memory_locked res = (0 <? kb)) /\
    (forall ls, file_text (lit "/proc/self/status") o = Some (lines_text ls) ->
       Forall short_line ls -> Forall other_line ls -> memory_locked res = false) /\
    (file_text (lit "/proc/self/status") o = None -> memory_locked res = false) /\
    (cpu_isolated res = true <->
       g_rt_initialized st = true /\ 0 <= isolate_cpu (g_rt_config st) /\
       exists set c, sched_getaffinity o = Some set /\ only_cpu o set c) /\
    irq_balance_disabled res = negb (h_irqbalance (host_of o)) /\
    (latency_line = line_latency (max_latency_us res) \/
     latency_line = line_latency_failed /\ max_latency_us res = dzero) /\
    length (report res) = 512%nat /\
    c_str (report res) = take 511
      ((if rt_scheduling_ok res
        then line_sched_ok (sched_getscheduler o) (default uninit (sched_getparam o))
        else line_sched_fail (sched_getscheduler o)) ++
       line_memory (memory_locked res) ++ line_cpu (cpu_isolated res) ++
       line_irq (irq_balance_disabled res) ++ latency_line).
Proof using Ok.
  intros Hpol Hprio. cbn [rt_setup_check].
  set (policy := sched_getscheduler o) in *. set (prio := default uninit (sched_getparam o)) in *.
  destruct (sched_line_ok policy prio Hpol Hprio) as [Ht1 Hl1]. cbv zeta in Ht1, Hl1.
  set (l1 := if is_rt_policy policy then _ else _) in *.
  destruct (append_report_ok [] (0, replicate 512 nul) l1) as (s1 & -> & Hs1);
    [do 3 (split; [done|]); constructor|done|lia|change (zlen (@nil ascii)) with 0; lia|]. cbn [mbind exec_bind app] in Hs1 |- *.
  fold (vmlck o). destruct (fixed_lines_ok (vmlck o)) as ([Ht2 Hl2] & _).
  destruct (append_report_ok l1 s1 (line_memory (vmlck o)) Hs1) as (s2 & -> & Hs2); [done|lia..|].
  cbn [mbind exec_bind].
  assert ((if g_rt_initialized st && (0 <=? isolate_cpu (g_rt_config st))
           then match sched_getaffinity o with
                | Some set => count_cpus (Z.to_nat (nprocessors_online o)) 0 set =? 1
                | None => false
                end else false) = pinned st o) as -> by done.
  destruct (fixed_lines_ok (pinned st o)) as (_ & [Ht3 Hl3] & _).
  edestruct (append_report_ok _ s2 (line_cpu (pinned st o)) Hs2) as (s3 & -> & Hs3);
    [done|lia|rewrite zlen_app; lia|]. cbn [mbind exec_bind].
  destruct (system cmd_is_active o) as [rc o1] eqn:Esys.
  destruct (system_is_active_ok _ _ _ Esys) as [Hh1 Hrc].
  assert (negb (rc =? 0) = negb (h_irqbalance (host_of o))) as ->.
  { f_equal. destruct (h_irqbalance (host_of o)); destruct (Z.eqb_spec rc 0); naive_solver. }
  set (irq := negb (h_irqbalance (host_of o))).
  destruct (fixed_lines_ok irq) as (_ & _ & [Ht4 Hl4]).
  edestruct (append_report_ok _ s3 (line_irq irq) Hs3) as (s4 & -> & Hs4);
    [done|lia|rewrite !zlen_app; lia|]. cbn [mbind exec_bind].
  pose proof (measure_host dzero 1000 o1) as Hm.
  destruct (rt_setup_measure_latency (Some dzero) 1000 o1) as [[ret lat] o2] eqn:Elat.
  set (l5 := if ret =? 0 then line_latency (default dzero lat) else line_latency_failed).
  edestruct (append_report_last _ s4 l5 Hs4) as (s5 & -> & Hs5 & Hc5).
  { unfold l5. destruct (ret =? 0); [|by apply text_dec_true; vm_compute].
    unfold line_latency. rewrite !text_app.
    repeat split; first [apply fmt_f2_text|by apply text_dec_true; vm_compute]. }
  { rewrite !zlen_app. lia. }
  cbn [mbind exec_bind]. eexists _, o2, l5. split; [done|].
  split; [cbn in Hm; congruence|].
  split; [unfold is_rt_policy; cbn; by rewrite orb_true_iff, !Z.eqb_eq|].
  split; [by apply vmlck_reported|]. split; [by apply vmlck_absent|].
  split; [intros Hf; cbn; unfold vmlck; by rewrite Hf|]. split; [apply pinned_spec|]. split; [done|]. split.
  { unfold l5. cbn [max_latency_us]. destruct (ret =? 0); [by left|by right]. }
  split; [exact Hs5|]. cbn [report]. by rewrite Hc5, <-!app_assoc.
Qed.
End check_proofs.

(** ** A concrete operating system *)
Record model_os := mk_model_os {
  mo_host : host;
  mo_status : list ascii;  (* /proc/self/status *)
  mo_time : Z;             (* nanoseconds *)
}.

#[export] Instance valid_sched_dec p q : Decision (valid_sched p q).
Proof. unfold valid_sched. apply _. Defined.

Definition set_host (h : host) (o : model_os) : model_os := mk_model_os h (mo_status o) (mo_time o).

(** A call that succeeds, with the update [h], when [ok] holds. *)
Definition try_host (ok : bool) (h : host) (o : model_os) : Z * model_os :=
  if ok then (0, set_host h o) else (-1, o).

#[export] Instance model_rt_os : RtOs model_os := {|
  sched_getscheduler o := (h_sched (mo_host o)).1;
  sched_getparam o := Some (h_sched (mo_host o)).2;
  sched_setscheduler p q o :=
    try_host (h_allowed (mo_host o) && bool_decide (valid_sched p q)) (with_sched (p, q) (mo_host o)) o;
  mlockall o := try_host (h_allowed (mo_host o)) (with_locked true (mo_host o)) o;
  munlockall o := try_host (h_allowed (mo_host o)) (with_locked false (mo_host o)) o;
  nprocessors_online o := Z.of_nat (size (h_online (mo_host o)));
  file_text p o :=
    match h_governor (mo_host o) !! p with
    | Some g => Some (g ++ [nl])
    | None => if str_eqb p (lit "/proc/self/status") then Some (mo_status o) else None
    end;
  file_put p s o :=
    if h_allowed (mo_host o) && bool_decide (is_Some (h_governor (mo_host o) !! p))
    then (true, set_host (with_governor p s (mo_host o)) o) else (false, o);
  sched_setaffinity s o :=
    try_host (h_allowed (mo_host o) && bool_decide (s ∩ h_online (mo_host o) <> ∅))
      (with_affinity s (mo_host o)) o;
  sched_getaffinity o := Some (h_affinity (mo_host o));
  system cmd o :=
    let ok := h_allowed (mo_host o) && h_irq_installed (mo_host o) in
    if str_eqb cmd cmd_stop then try_host ok (with_irqbalance false (mo_host o)) o
    else if str_eqb cmd cmd_start then try_host ok (with_irqbalance true (mo_host o)) o
    else ((if h_irqbalance (mo_host o) then 0 else 3), o);
  clock_gettime o :=
    (Some (mo_time o / 1000000000, mo_time o mod 1000000000),
     mk_model_os (mo_host o) (mo_status o) (mo_time o + 1500));
|}.

Lemma try_host_spec ok h o r o' : try_host ok h o = (r, o') ->
  mo_host o' = (if r =? 0 then h else mo_host o) /\ (r = 0 <-> ok = true).
Proof. unfold try_host. destruct ok; by intros [= <- <-]. Qed.

#[export] Program Instance model_rt_os_ok : RtOsOk model_os := {| host_of := mo_host |}.
Next Obligation. done. Qed.
Next Obligation.
  intros p q o r o' [Hh Hr]%try_host_spec. split; [done|]. intros Ha Hv. apply Hr.
  by rewrite Ha, bool_decide_eq_true_2.
Qed.
Next Obligation. intros o r o' [Hh Hr]%try_host_spec. split; [done|]. intros Ha. by apply Hr. Qed.
Next Obligation. intros o r o' [Hh Hr]%try_host_spec. split; [done|]. intros Ha. by apply Hr. Qed.
Next Obligation. done. Qed.
Next Obligation. intros p g o Hg. simpl. by rewrite Hg. Qed.
Next Obligation.
  intros p s o b o'. simpl. destruct (_ && _) eqn:E; intros [= <- <-]; (split; [done|]); [done|].
  intros Ha Hs. by rewrite Ha, bool_decide_eq_true_2 in E.
Qed.
Next Obligation.
  intros s o r o' [Hh Hr]%try_host_spec. split; [done|]. intros Ha. rewrite Hr, Ha. cbn [andb].
  by rewrite bool_decide_eq_true.
Qed.
Next Obligation.
  intros o r o' H. change (system cmd_stop o) with
    (try_host (h_allowed (mo_host o) && h_irq_installed (mo_host o))
       (with_irqbalance false (mo_host o)) o) in H.
  apply try_host_spec in H as [Hh Hr]. split; [done|]. intros Ha. by rewrite Hr, Ha.
Qed.
Next Obligation.
  intros o r o' H. change (system cmd_start o) with
    (try_host (h_allowed (mo_host o) && h_irq_installed (mo_host o))
       (with_irqbalance true (mo_host o)) o) in H.
  apply try_host_spec in H as [Hh Hr]. split; [done|]. intros Ha. by rewrite Hr, Ha.
Qed.
Next Obligation.
  intros o r o' H. change (system cmd_is_active o) with
    ((if h_irqbalance (mo_host o) then 0 else 3), o) in H.
  injection H as <- <-. split; [done|]. by destruct (h_irqbalance (mo_host o)).
Qed.
Next Obligation. intros o t o' [= _ <-]. done. Qed.

(** Two CPUs on ondemand, irqbalance running. *)
Definition sample_host : host :=
  mk_host (SCHED_OTHER, 0) false
    (list_to_map [(governor_path 0, lit "ondemand"); (governor_path 1, lit "ondemand")])
    [lit "ondemand"; lit "performance"] {[0; 1]} {[0; 1]} true true true.
Definition sample_os : model_os :=
  mk_model_os sample_host (lit "Name:" ++ [nl] ++ lit "VmLck:        0 kB" ++ [nl]) 7000000000.
Definition sample_rt_state : rt_state := (rt_setup_init (Some rt_config_default) initial_rt_state).2.

Lemma rt_apply_effect_witness : exists st' o',
  rt_setup_apply sample_rt_state sample_os = (0, st', o') /\
  h_sched (mo_host o') = (SCHED_FIFO, 80).
Proof.
  destruct (rt_apply_effect rt_config_default initial_rt_state sample_os sample_rt_state 0)
    as (st' & o' & Happ & Hh & _); [done..|].
  exists st', o'. split; [exact Happ|]. change (mo_host o') with (host_of o'). rewrite Hh. done.
Defined.

Lemma rt_restore_undoes_apply_witness : exists st1 o1 st2 o2,
  rt_setup_apply sample_rt_state sample_os = (0, st1, o1) /\
  rt_setup_restore st1 o1 = (st2, o2) /\ h_sched (mo_host o2) = (SCHED_OTHER, 0).
Proof.
  destruct (rt_restore_undoes_apply rt_config_default initial_rt_state sample_os sample_rt_state
    (lit "ondemand")) as (st1 & o1 & st2 & o2 & Ha & Hr & _ & Hs & _).
  - done.
  - done.
  - by right.
  - by apply (bool_decide_eq_true_1 (_ <> _)); vm_compute.
  - by vm_compute.
  - split; [by apply text_dec_true; vm_compute|]. split; [|by split; [vm_compute; lia|]].
    by apply (bool_decide_eq_true_1 (nl ∉ _)); vm_compute.
  - by apply (bool_decide_eq_true_1 (_ ∈ _)); vm_compute.
  - exists st1, o1, st2, o2. split; [exact Ha|]. split; [exact Hr|exact Hs].
Defined.

Lemma rt_check_spec_witness : exists res o',
  rt_setup_check 0 (Some (mk_check_result false false false false dzero [])) sample_rt_state
    sample_os = Done (0, Some res, o') /\
  rt_scheduling_ok res <> true /\ memory_locked res = false /\ irq_balance_disabled res = false.
Proof.
  destruct (rt_check_spec 0 (mk_check_result false false false false dzero []) sample_rt_state
    sample_os) as (res & o' & l & Hc & _ & Hs & Hm & _ & _ & _ & Hi & _); [by vm_compute..|].
  exists res, o'. split; [exact Hc|]. split; [|split; [|rewrite Hi; done]].
  - rewrite Hs. intros [H|H]; by vm_compute in H.
  - rewrite (Hm [lit "Name:"] (lit "        ") 0 (lit " kB") []); [done|by vm_compute|..].
    + constructor; [|constructor]. split; [by apply text_dec_true; vm_compute|].
      split; [by apply (bool_decide_eq_true_1 (nl ∉ _)); vm_compute|by vm_compute; lia].
    + constructor; [|constructor].
      by apply (bool_decide_eq_true_1 (~ _ `prefix_of` _)); vm_compute.
    + split; [by apply text_dec_true; vm_compute|].
      split; [by apply (bool_decide_eq_true_1 (nl ∉ _)); vm_compute|by vm_compute; lia].
    + by repeat constructor.
    + by split; vm_compute.
    + by vm_compute.
Defined.
