(* ===== verification/AppConfig.v ===== *)
(** * Application configuration (src/config/app_config.c, include/app_config.h)

    The configuration record, its defaults, the parser and the writer of the
    key=value file, and the validation. *)
From S2P Require Import Prelude CString CFormat NetAddr SecurityPolicy PnetApi IoDevice NetworkConfig RtSetup.

(** ** Data *)

Definition CONFIG_MAX_PATH : nat := 256.

Record app_config_t := mk_app_config {
  device : io_device_cfg_t;
  network : net_if_config_t;
  tcp_tuning : tcp_tuning_config_t;
  security : sec_policy_t;
  security_enabled : bool;
  realtime : rt_config_t;
  realtime_enabled : bool;
  log_level : Z;
  log_file : list ascii;     (* char[256] *)
  config_file : list ascii;  (* char[256] *)
}.

(** Assignments to a field. *)
Definition set_device (d : io_device_cfg_t) (c : app_config_t) : app_config_t :=
  mk_app_config d (network c) (tcp_tuning c) (security c) (security_enabled c) (realtime c)
    (realtime_enabled c) (log_level c) (log_file c) (config_file c).
Definition set_network (n : net_if_config_t) (c : app_config_t) : app_config_t :=
  mk_app_config (device c) n (tcp_tuning c) (security c) (security_enabled c) (realtime c)
    (realtime_enabled c) (log_level c) (log_file c) (config_file c).
Definition set_realtime (r : rt_config_t) (c : app_config_t) : app_config_t :=
  mk_app_config (device c) (network c) (tcp_tuning c) (security c) (security_enabled c) r
    (realtime_enabled c) (log_level c) (log_file c) (config_file c).
Definition set_security_enabled (b : bool) (c : app_config_t) : app_config_t :=
  mk_app_config (device c) (network c) (tcp_tuning c) (security c) b (realtime c)
    (realtime_enabled c) (log_level c) (log_file c) (config_file c).
Definition set_realtime_enabled (b : bool) (c : app_config_t) : app_config_t :=
  mk_app_config (device c) (network c) (tcp_tuning c) (security c) (security_enabled c) (realtime c)
    b (log_level c) (log_file c) (config_file c).
Definition set_log_level (l : Z) (c : app_config_t) : app_config_t :=
  mk_app_config (device c) (network c) (tcp_tuning c) (security c) (security_enabled c) (realtime c)
    (realtime_enabled c) l (log_file c) (config_file c).
Definition set_log_file (f : list ascii) (c : app_config_t) : app_config_t :=
  mk_app_config (device c) (network c) (tcp_tuning c) (security c) (security_enabled c) (realtime c)
    (realtime_enabled c) (log_level c) f (config_file c).
Definition set_config_file (f : list ascii) (c : app_config_t) : app_config_t :=
  mk_app_config (device c) (network c) (tcp_tuning c) (security c) (security_enabled c) (realtime c)
    (realtime_enabled c) (log_level c) (log_file c) f.

(** ** Helpers *)

(** [strip] is in CString.  [parse_ip]: the octets of a dotted quad, the first
    one in the highest byte; 0 for anything else. *)
Definition parse_ip (str : list ascii) : Z :=
  match scan_quad str with
  | None => 0
  | Some (a, b, c, d) =>
      if (255 <? a) || (255 <? b) || (255 <? c) || (255 <? d) then 0
      else u32 (Z.lor (Z.lor (Z.lor (Z.shiftl a 24) (Z.shiftl b 16)) (Z.shiftl c 8)) d)
  end.

(** [snprintf] into a buffer of [len] characters, as the string it leaves. *)
Definition format_ip (ip : Z) (len : nat) : list ascii := take (len - 1) (fmt_ip ip).

(** [strcmp (val, "true") == 0 || strcmp (val, "1") == 0] *)
Definition parse_bool (val : list ascii) : bool :=
  str_eqb val (lit "true") || str_eqb val (lit "1").

(** [strncpy (a, val, sizeof a - 1)] *)
Definition copy_field (arr val : list ascii) : list ascii := strncpy arr val (length arr - 1).

Definition apply_kv (cfg : app_config_t) (key val : list ascii) : app_config_t :=
  let d := device cfg in
  let n := network cfg in
  let r := realtime cfg in
  if str_eqb key (lit "product_name") then
    set_device (mk_device_cfg (copy_field (product_name d) val) (station_name d) (interface_name d)
      (mac_addr d) (ip_addr d) (netmask d) (gateway d) (vendor_id d) (device_id d) (tick_us d)
      (send_hello d) (file_directory d)) cfg
  else if str_eqb key (lit "station_name") then
    set_device (mk_device_cfg (product_name d) (copy_field (station_name d) val) (interface_name d)
      (mac_addr d) (ip_addr d) (netmask d) (gateway d) (vendor_id d) (device_id d) (tick_us d)
      (send_hello d) (file_directory d)) cfg
  else if str_eqb key (lit "interface") then
    set_network (mk_if_config (copy_field (nc_if_name n) val) (nc_ip_addr n) (nc_netmask n)
        (nc_gateway n) (nc_mac_addr n) (nc_configured n))
      (set_device (mk_device_cfg (product_name d) (station_name d) (copy_field (interface_name d) val)
        (mac_addr d) (ip_addr d) (netmask d) (gateway d) (vendor_id d) (device_id d) (tick_us d)
        (send_hello d) (file_directory d)) cfg)
  else if str_eqb key (lit "ip_addr") then
    let ip := parse_ip val in
    set_network (mk_if_config (nc_if_name n) ip (nc_netmask n) (nc_gateway n) (nc_mac_addr n)
        (nc_configured n))
      (set_device (mk_device_cfg (product_name d) (station_name d) (interface_name d) (mac_addr d)
        ip (netmask d) (gateway d) (vendor_id d) (device_id d) (tick_us d) (send_hello d)
        (file_directory d)) cfg)
  else if str_eqb key (lit "netmask") then
    let mask := parse_ip val in
    set_network (mk_if_config (nc_if_name n) (nc_ip_addr n) mask (nc_gateway n) (nc_mac_addr n)
        (nc_configured n))
      (set_device (mk_device_cfg (product_name d) (station_name d) (interface_name d) (mac_addr d)
        (ip_addr d) mask (gateway d) (vendor_id d) (device_id d) (tick_us d) (send_hello d)
        (file_directory d)) cfg)
  else if str_eqb key (lit "gateway") then
    let gw := parse_ip val in
    set_network (mk_if_config (nc_if_name n) (nc_ip_addr n) (nc_netmask n) gw (nc_mac_addr n)
        (nc_configured n))
      (set_device (mk_device_cfg (product_name d) (station_name d) (interface_name d) (mac_addr d)
        (ip_addr d) (netmask d) gw (vendor_id d) (device_id d) (tick_us d) (send_hello d)
        (file_directory d)) cfg)
  else if str_eqb key (lit "vendor_id") then
    set_device (mk_device_cfg (product_name d) (station_name d) (interface_name d) (mac_addr d)
      (ip_addr d) (netmask d) (gateway d) (u16 (strtoul0 val)) (device_id d) (tick_us d)
      (send_hello d) (file_directory d)) cfg
  else if str_eqb key (lit "device_id") then
    set_device (mk_device_cfg (product_name d) (station_name d) (interface_name d) (mac_addr d)
      (ip_addr d) (netmask d) (gateway d) (vendor_id d) (u16 (strtoul0 val)) (tick_us d)
      (send_hello d) (file_directory d)) cfg
  else if str_eqb key (lit "tick_us") then
    set_device (mk_device_cfg (product_name d) (station_name d) (interface_name d) (mac_addr d)
      (ip_addr d) (netmask d) (gateway d) (vendor_id d) (device_id d) (u32 (strtoul0 val))
      (send_hello d) (file_directory d)) cfg
  else if str_eqb key (lit "send_hello") then
    set_device (mk_device_cfg (product_name d) (station_name d) (interface_name d) (mac_addr d)
      (ip_addr d) (netmask d) (gateway d) (vendor_id d) (device_id d) (tick_us d)
      (parse_bool val) (file_directory d)) cfg
  else if str_eqb key (lit "file_directory") then
    set_device (mk_device_cfg (product_name d) (station_name d) (interface_name d) (mac_addr d)
      (ip_addr d) (netmask d) (gateway d) (vendor_id d) (device_id d) (tick_us d) (send_hello d)
      (copy_field (file_directory d) val)) cfg
  else if str_eqb key (lit "log_level") then set_log_level (atoi val) cfg
  else if str_eqb key (lit "log_file") then set_log_file (copy_field (log_file cfg) val) cfg
  else if str_eqb key (lit "security_enabled") then set_security_enabled (parse_bool val) cfg
  else if str_eqb key (lit "realtime_enabled") then set_realtime_enabled (parse_bool val) cfg
  else if str_eqb key (lit "rt_priority") then
    set_realtime (mk_rt_config (use_rt_scheduling r) (atoi val) (lock_memory r) (disable_cpu_freq r)
      (isolate_cpu r) (disable_irq_balance r)) cfg
  else if str_eqb key (lit "rt_scheduling") then
    set_realtime (mk_rt_config (parse_bool val) (rt_priority r) (lock_memory r) (disable_cpu_freq r)
      (isolate_cpu r) (disable_irq_balance r)) cfg
  else if str_eqb key (lit "lock_memory") then
    set_realtime (mk_rt_config (use_rt_scheduling r) (rt_priority r) (parse_bool val)
      (disable_cpu_freq r) (isolate_cpu r) (disable_irq_balance r)) cfg
  else if str_eqb key (lit "isolate_cpu") then
    set_realtime (mk_rt_config (use_rt_scheduling r) (rt_priority r) (lock_memory r)
      (disable_cpu_freq r) (atoi val) (disable_irq_balance r)) cfg
  else cfg.

(** ** Defaults *)

(** An array of [n] NULs after [strncpy (a, s, sizeof a - 1)]. *)
Definition filled (n : nat) (s : list ascii) : list ascii := copy_field (replicate n nul) s.

Definition zero_policy : sec_policy_t :=
  mk_policy (replicate (Z.to_nat MAX_FW_RULES) zero_rule) 0 false.

(** The object starts zeroed ([memset]); the two initialisers it calls are
    those of their components. *)
Definition app_config_default : exec app_config_t :=
  let ip := parse_ip (lit "192.168.0.100") in
  let mask := parse_ip (lit "255.255.255.0") in
  let gw := parse_ip (lit "192.168.0.1") in
  '(_, policy) ← sec_policy_init (Some zero_policy);
  Done (mk_app_config
    (mk_device_cfg (filled 26 (lit "p-net IO Device")) (filled 241 (lit "iodevice1"))
       (filled 16 (lit "eth0")) (replicate 6 Byte.x00) ip mask gw 0x0001 0x0001 1000 true
       (filled 240 (lit "/tmp/pnet")))
    (mk_if_config (filled 16 (lit "eth0")) ip mask gw (replicate 6 0) true)
    (mk_tuning false false false (0, 0, 0) (0, 0, 0))
    (default zero_policy policy)
    true
    rt_config_default
    true
    2
    (filled CONFIG_MAX_PATH (lit "/var/log/pnet-manager.log"))
    (filled CONFIG_MAX_PATH (lit "/etc/pnet-manager/config.conf"))).

(** ** Loading *)

Definition is_crlf (c : ascii) : bool := Ascii.eqb c cr || Ascii.eqb c nl.

(** The body of the loop: [line] is what [fgets] stored. *)
Definition process_line (cfg : app_config_t) (line : list ascii) : app_config_t :=
  let line := cut_at is_crlf (c_str line) in
  let trimmed := strip line in
  match trimmed with
  | [] => cfg
  | c :: _ =>
      if Ascii.eqb c "#" || Ascii.eqb c ";" then cfg
      else
        match split_at "=" trimmed with
        | None => cfg
        | Some (before, after) =>
            let key := strip before in
            let val := strip after in
            match key, val with
            | _ :: _, _ :: _ => apply_kv cfg key val
            | _, _ => cfg
            end
        end
  end.

Fixpoint load_loop (fuel : nat) (file : list ascii) (cfg : app_config_t) : app_config_t :=
  match fuel with
  | O => cfg
  | S fuel =>
      match fgets 512 file with
      | None => cfg
      | Some (line, file) => load_loop fuel file (process_line cfg line)
      end
  end.

(** [file] is the content behind [path], [None] when it cannot be opened; the
    result is the return value and [*cfg]. *)
Definition app_config_load (cfg : option app_config_t) (path : option (list ascii))
    (file : option (list ascii)) : exec (Z * option app_config_t) :=
  match cfg, path, file with
  | Some _, Some path, Some text =>
      cfg ← app_config_default;
      let cfg := set_config_file (copy_field (config_file cfg) path) cfg in
      Done (0, Some (load_loop (S (length text)) text cfg))
  | _, _, _ => Done (-1, cfg)
  end.

(** ** Saving *)

Definition bool_text (b : bool) : list ascii := if b then lit "true" else lit "false".

Definition key_line (key val : list ascii) : list ascii := key ++ lit "=" ++ val ++ [nl].

(** The text written, in order. *)
Definition save_text (cfg : app_config_t) : exec (list ascii) :=
  let d := device cfg in
  let r := realtime cfg in
  product ← read_str (product_name d);
  station ← read_str (station_name d);
  interface ← read_str (interface_name d);
  directory ← read_str (file_directory d);
  log ← read_str (log_file cfg);
  Done (
    lit "# p-net IO Device Manager Configuration" ++ [nl] ++
    lit "# Auto-generated - edit with care" ++ [nl; nl] ++
    lit "# IO Device" ++ [nl] ++
    key_line (lit "product_name") product ++
    key_line (lit "station_name") station ++
    key_line (lit "interface") interface ++
    key_line (lit "ip_addr") (format_ip (ip_addr d) 16) ++
    key_line (lit "netmask") (format_ip (netmask d) 16) ++
    key_line (lit "gateway") (format_ip (gateway d) 16) ++
    key_line (lit "vendor_id") (lit "0x" ++ fmt_04X (vendor_id d)) ++
    key_line (lit "device_id") (lit "0x" ++ fmt_04X (device_id d)) ++
    key_line (lit "tick_us") (fmt_u (tick_us d)) ++
    key_line (lit "send_hello") (bool_text (send_hello d)) ++
    key_line (lit "file_directory") directory ++
    [nl] ++ lit "# Logging" ++ [nl] ++
    key_line (lit "log_level") (fmt_d (log_level cfg)) ++
    key_line (lit "log_file") log ++
    [nl] ++ lit "# Security" ++ [nl] ++
    key_line (lit "security_enabled") (bool_text (security_enabled cfg)) ++
    [nl] ++ lit "# Real-time" ++ [nl] ++
    key_line (lit "realtime_enabled") (bool_text (realtime_enabled cfg)) ++
    key_line (lit "rt_priority") (fmt_d (rt_priority r)) ++
    key_line (lit "rt_scheduling") (bool_text (use_rt_scheduling r)) ++
    key_line (lit "lock_memory") (bool_text (lock_memory r)) ++
    key_line (lit "isolate_cpu") (fmt_d (isolate_cpu r))).

(** [can_open]: the path can be opened for writing; the result is the return
    value and the content the file gets, if it is written. *)
Definition app_config_save (cfg : option app_config_t) (path : option (list ascii))
    (can_open : bool) : exec (Z * option (list ascii)) :=
  match cfg, path with
  | Some cfg, Some _ =>
      if negb can_open then Done (-1, None)
      else text ← save_text cfg; Done (0, Some text)
  | _, _ => Done (-1, None)
  end.

(** ** Validation *)
Definition app_config_validate (cfg : option app_config_t) : exec Z :=
  match cfg with
  | None => Done (-1)
  | Some cfg =>
      let d := device cfg in
      first ← arr_get (interface_name d) 0;
      if Ascii.eqb first nul then Done (-1)
      else if ip_addr d =? 0 then Done (-1)
      else if (ip_addr d =? 0x00000000) || (ip_addr d =? 0xFFFFFFFF) then Done (-1)
      else if tick_us d =? 0 then Done (-1)
      else if vendor_id d =? 0 then Done (-1)
      else if device_id d =? 0 then Done (-1)
      else if (log_level cfg <? 0) || (3 <? log_level cfg) then Done (-1)
      else if realtime_enabled cfg &&
              ((rt_priority (realtime cfg) <? 1) || (99 <? rt_priority (realtime cfg)))
      then Done (-1)
      else Done 0
  end.

(** ** Addresses *)

Lemma lor_shift_add x y k : 0 <= k -> 0 <= y < 2 ^ k -> Z.lor (Z.shiftl x k) y = x * 2 ^ k + y.
Proof.
  intros Hk Hy. rewrite <-Z.add_nocarry_lor, Z.shiftl_mul_pow2; [done|done|].
  apply Z.bits_inj'. intros i Hi. rewrite Z.land_spec, Z.bits_0, Z.shiftl_spec by done.
  destruct (decide (i < k)); [by rewrite Z.testbit_neg_r by lia|].
  rewrite <-(Z.mod_small y (2 ^ k)), Z.mod_pow2_bits_high by lia. apply andb_false_r.
Qed.

Lemma parse_ip_quad a b c d : quad_ok (a, b, c, d) ->
  parse_ip (fmt_quad a b c d) = quad_value (a, b, c, d).
Proof.
  intros Hq. pose proof (quad_value_range _ Hq) as Hr. destruct Hq as (Ha & Hb & Hc & Hd).
  unfold in_u in *. unfold parse_ip. rewrite scan_quad_fmt by (unfold in_u; lia).
  rewrite !(proj2 (Z.ltb_ge 255 _)) by lia. cbn [orb].
  rewrite lor_shift_add by (rewrite ?Z.shiftl_mul_pow2 by lia; lia).
  replace (a * 2 ^ 24 + Z.shiftl b 16) with (Z.shiftl (a * 2 ^ 8 + b) 16)
    by (rewrite !Z.shiftl_mul_pow2 by lia; lia).
  rewrite lor_shift_add by (rewrite ?Z.shiftl_mul_pow2 by lia; lia).
  replace ((a * 2 ^ 8 + b) * 2 ^ 16 + Z.shiftl c 8)
    with (Z.shiftl (a * 2 ^ 16 + b * 2 ^ 8 + c) 8) by (rewrite !Z.shiftl_mul_pow2 by lia; lia).
  rewrite lor_shift_add by lia. unfold u32, quad_value in *. rewrite wrapu_small by (unfold in_u; lia).
  lia.
Qed.

Lemma format_ip_fits ip : format_ip ip 16 = fmt_ip ip.
Proof. unfold format_ip. apply take_ge. pose proof (length_fmt_ip ip). unfold zlen in *. lia. Qed.

Lemma parse_fmt_ip ip : in_u 32 ip -> parse_ip (fmt_ip ip) = ip.
Proof.
  intros Hip. unfold fmt_ip. rewrite parse_ip_quad by exact (addr_octets_ok false ip).
  exact (octets_addr_octets false ip Hip).
Qed.

(** What [parse_ip] returns is always a 32-bit value. *)
Lemma parse_ip_range s : in_u 32 (parse_ip s).
Proof.
  unfold parse_ip. destruct (scan_quad s) as [[[[a b] c] d]|]; [|done].
  destruct (_ || _); [done|]. apply (wrapu_range 32). lia.
Qed.

(** ** The loop over the lines *)

(** The lines [fgets] delivers, in order. *)
Fixpoint fgets_lines (fuel : nat) (file : list ascii) : list (list ascii) :=
  match fuel with
  | O => []
  | S fuel =>
      match fgets 512 file with
      | None => []
      | Some (line, file) => line :: fgets_lines fuel file
      end
  end.

Lemma load_loop_fold fuel file cfg :
  load_loop fuel file cfg = foldl process_line cfg (fgets_lines fuel file).
Proof.
  revert file cfg. induction fuel as [|fuel IH]; intros file cfg; [done|].
  cbn [load_loop fgets_lines]. destruct (fgets 512 file) as [[line rest]|]; [|done]. apply IH.
Qed.

Lemma fgets_lines_enough fuel1 fuel2 file :
  (length file < fuel1)%nat -> (length file < fuel2)%nat ->
  fgets_lines fuel1 file = fgets_lines fuel2 file.
Proof.
  revert fuel2 file. induction fuel1 as [|fuel1 IH]; intros [|fuel2] file H1 H2; try lia.
  cbn [fgets_lines]. destruct (fgets 512 file) as [[line rest]|] eqn:E; [|done].
  apply fgets_progress in E; [|lia]. f_equal. apply IH; lia.
Qed.

Lemma fgets_lines_concat fuel file : (length file < fuel)%nat -> concat (fgets_lines fuel file) = file.
Proof.
  revert file. induction fuel as [|fuel IH]; intros file H1; [lia|]. cbn [fgets_lines].
  destruct (fgets 512 file) as [[line rest]|] eqn:E.
  - pose proof (fgets_progress 512 file line rest ltac:(lia) E) as Hp. cbn [concat]. rewrite IH by lia.
    by apply fgets_split in E as [-> _].
  - unfold fgets in E. by destruct file.
Qed.

Lemma default_done : exists c, app_config_default = Done c.
Proof. by eexists. Qed.

(** The lines of a file as a buffer of 512 characters receives them: each ends
    with its newline; a line of 511 characters or more comes in pieces of 511;
    the last one may lack the newline. *)
Inductive file_lines : list ascii -> list (list ascii) -> Prop :=
  | lines_nil : file_lines [] []
  | lines_nl l file ls :
      nl ∉ l -> (length l < 511)%nat -> file_lines file ls ->
      file_lines (l ++ nl :: file) ((l ++ [nl]) :: ls)
  | lines_long l file ls :
      nl ∉ l -> length l = 511%nat -> file_lines file ls -> file_lines (l ++ file) (l :: ls)
  | lines_last l : l <> [] -> nl ∉ l -> (length l < 511)%nat -> file_lines l [l].

Lemma fgets_lines_shape fuel file :
  (length file < fuel)%nat -> file_lines file (fgets_lines fuel file).
Proof.
  revert file. induction fuel as [|fuel IH]; intros file Hf; [lia|]. cbn [fgets_lines].
  destruct (fgets 512 file) as [[l r]|] eqn:E; [|destruct file; [constructor|done]].
  pose proof (fgets_progress 512 file l r ltac:(lia) E) as Hp. specialize (IH r ltac:(lia)).
  apply fgets_cases in E as [-> Hc]. change (512 - 1)%nat with 511%nat in Hc.
  destruct Hc as [(l' & -> & Hl & Hn)|[Hl [Hn|[Hn ->]]]].
  - rewrite <-app_assoc. by constructor.
  - by constructor.
  - assert (fgets_lines fuel [] = []) as -> by (by destruct fuel). rewrite app_nil_r.
    apply lines_last; [|done..]. intros ->. simpl in Hp. lia.
Qed.

Lemma file_lines_fgets file ls : file_lines file ls ->
  forall fuel, (length file < fuel)%nat -> fgets_lines fuel file = ls.
Proof.
  induction 1 as [|l file ls Hl Hn _ IH|l file ls Hl Hn _ IH|l Hne Hl Hn];
    intros [|fuel] Hf; try lia; [done|..]; cbn [fgets_lines].
  - rewrite fgets_fits by (done || lia). f_equal. apply IH. rewrite length_app in Hf. simpl in Hf. lia.
  - rewrite fgets_long by (done || by destruct l). f_equal. apply IH. rewrite length_app in Hf. lia.
  - rewrite fgets_last by (done || lia). f_equal. by destruct fuel.
Qed.

(** C21: Loading terminates on every file and handles each of its lines once, in
    order: there is exactly one way to cut the file into lines (newline
    included, pieces of 511 characters where a line is longer), the loop is the
    fold of [process_line] over them, from the defaults with the path recorded;
    the fuel of the definition is enough and more would not change the result. *)
Theorem load_reads_all c path file :
  exists cfg0 lines,
    app_config_default = Done cfg0 /\
    file_lines file lines /\ (forall lines', file_lines file lines' -> lines' = lines) /\
    concat lines = file /\
    app_config_load (Some c) (Some path) (Some file) =
      Done (0, Some (foldl process_line
                       (set_config_file (copy_field (config_file cfg0) path) cfg0) lines)) /\
    (forall fuel cfg, (length file < fuel)%nat ->
       load_loop fuel file cfg = foldl process_line cfg lines).
Proof.
  destruct default_done as [cfg0 Hd]. exists cfg0, (fgets_lines (S (length file)) file).
  split; [done|]. split; [by apply fgets_lines_shape; lia|].
  split; [intros ls Hls; symmetry; apply file_lines_fgets; [done|lia]|].
  split; [by apply fgets_lines_concat; lia|]. split.
  - cbn [app_config_load]. rewrite Hd. cbn [mbind exec_bind]. by rewrite load_loop_fold.
  - intros fuel cfg Hf. rewrite load_loop_fold. f_equal. apply fgets_lines_enough; lia.
Qed.

(** ** Well-formed configurations *)

(** An array of [n] characters holding a string padded with NULs. *)
Definition field_ok (n : nat) (arr : list ascii) : Prop :=
  arr = to_array n (c_str arr) /\ (length (c_str arr) < n)%nat.

#[export] Instance field_ok_dec n arr : Decision (field_ok n arr).
Proof. unfold field_ok. apply _. Defined.

Lemma field_ok_length n arr : field_ok n arr -> length arr = n.
Proof. intros [-> _]. apply length_to_array. Qed.

Lemma field_ok_terminated n arr : field_ok n arr -> terminated arr.
Proof. intros [E H]. rewrite E. by apply to_array_terminated. Qed.

Lemma to_array_field n s : text s -> (length s < n)%nat -> field_ok n (to_array n s).
Proof. intros Hs Hn. unfold field_ok. by rewrite c_str_to_array. Qed.

(** [strncpy (a, val, sizeof a - 1)] on such an array. *)
Lemma copy_field_eq n arr val : field_ok (S n) arr -> copy_field arr val = to_array (S n) (take n val).
Proof.
  intros Hf. pose proof (field_ok_length _ _ Hf) as Hl. destruct Hf as [E Hc].
  unfold copy_field. rewrite Hl. replace (S n - 1)%nat with n by lia.
  apply strncpy_idiom; [done|].
  rewrite E, to_array_eq by lia. rewrite lookup_app_r by lia. apply lookup_replicate_2. lia.
Qed.

Lemma copy_field_ok n arr val : field_ok (S n) arr -> text val -> field_ok (S n) (copy_field arr val).
Proof.
  intros Hf Ht. rewrite (copy_field_eq n) by done. apply to_array_field; [by apply Forall_take|].
  rewrite length_take. lia.
Qed.

(** What holds of every configuration the program builds: fields of the
    declared sizes, numbers in the range of their types, and the network part in
    step with the device part. *)
Record config_wf (c : app_config_t) : Prop := {
  wf_product : field_ok 26 (product_name (device c));
  wf_station : field_ok 241 (station_name (device c));
  wf_interface : field_ok 16 (interface_name (device c));
  wf_directory : field_ok 240 (file_directory (device c));
  wf_log_file : field_ok 256 (log_file c);
  wf_config_file : field_ok 256 (config_file c);
  wf_ip : in_u 32 (ip_addr (device c)) /\ in_u 32 (netmask (device c)) /\ in_u 32 (gateway (device c));
  wf_ids : in_u 16 (vendor_id (device c)) /\ in_u 16 (device_id (device c));
  wf_tick : in_u 32 (tick_us (device c));
  wf_ints : in_s32 (log_level c) /\ in_s32 (rt_priority (realtime c)) /\ in_s32 (isolate_cpu (realtime c));
  wf_network : network c = mk_if_config (interface_name (device c)) (ip_addr (device c))
    (netmask (device c)) (gateway (device c)) (replicate 6 0) true;
}.

(** The parts no key of the file reaches. *)
Definition unsaved_default (c : app_config_t) : Prop :=
  mac_addr (device c) = replicate 6 Byte.x00 /\
  tcp_tuning c = mk_tuning false false false (0, 0, 0) (0, 0, 0) /\
  security c = zero_policy /\
  disable_cpu_freq (realtime c) = true /\ disable_irq_balance (realtime c) = true.

Lemma default_wf c : app_config_default = Done c -> config_wf c /\ unsaved_default c.
Proof.
  intros [= <-]. split; [|done].
  constructor; cbn [device network log_file config_file product_name station_name interface_name
    file_directory ip_addr netmask gateway vendor_id device_id tick_us log_level realtime
    rt_priority isolate_cpu rt_config_default];
    first [ done | by apply (bool_decide_eq_true_1 (field_ok _ _)); vm_compute
          | repeat split; by vm_compute ].
Qed.

Lemma atoi_range s : in_s32 (atoi s).
Proof. unfold atoi. destruct (scan_sign _). apply s32_range. Qed.

(** One key of [apply_kv]: every field is as before or of the right form. *)
Ltac kv_case :=
  split; [constructor; cbn; split_and?;
    first [ assumption | reflexivity | by apply copy_field_ok | apply parse_ip_range
          | apply atoi_range | apply (wrapu_range 32); lia | apply (wrapu_range 16); lia
          | tauto ]
  | unfold unsaved_default; cbn; split_and!; assumption ].

(** No key breaks a well-formed configuration. *)
Lemma apply_kv_wf c key val : text val -> config_wf c /\ unsaved_default c ->
  config_wf (apply_kv c key val) /\ unsaved_default (apply_kv c key val).
Proof.
  intros Hv [[] (Hm & Ht & Hs & Hf & Hb)]. destruct c as [d n tc sec se r re ll lf cf].
  destruct d, r. cbn in *. subst n. unfold apply_kv.
  cbn [device network tcp_tuning security realtime log_level log_file config_file].
  repeat match goal with |- context [if str_eqb key ?k then _ else _] =>
    destruct (str_eqb key k); [kv_case|]
  end.
  kv_case.
Qed.

Lemma text_strip s : text s -> text (strip s).
Proof. intros Ht. destruct (strip_spec s) as (l & r & E & _). rewrite E in Ht. by apply text_app in Ht as [_ [? _]%text_app]. Qed.

Lemma text_cut p s : text s -> text (cut_at p s).
Proof.
  intros Ht. unfold cut_at. rewrite <-(take_drop_while (fun c => negb (p c)) s) in Ht.
  by apply text_app in Ht as [? _].
Qed.

Lemma split_at_app c s a b : split_at c s = Some (a, b) -> s = a ++ c :: b.
Proof.
  revert a b. induction s as [|x s IH]; intros a b; [done|]. cbn [split_at].
  destruct (Ascii.eqb_spec x c) as [->|]; [by intros [= <- <-]|].
  destruct (split_at c s) as [[a' b']|]; [|done]. cbn [mbind option_bind]. intros [= <- <-].
  cbn [app]. f_equal. by apply IH.
Qed.

Lemma process_line_wf c line : config_wf c /\ unsaved_default c ->
  config_wf (process_line c line) /\ unsaved_default (process_line c line).
Proof.
  intros Hc. unfold process_line.
  pose proof (text_strip _ (text_cut is_crlf _ (text_c_str line))) as Ht.
  destruct (strip (cut_at is_crlf (c_str line))) as [|x s]; [done|].
  destruct (_ || _); [done|].
  destruct (split_at "=" (x :: s)) as [[before after]|] eqn:E; [|done].
  apply split_at_app in E. rewrite E in Ht. apply text_app in Ht as [_ Ht].
  apply (text_app ["="%char] after) in Ht as [_ Ht].
  pose proof (text_strip _ Ht) as Hv.
  destruct (strip before) as [|k key]; [done|]. destruct (strip after) as [|v val]; [done|].
  by apply apply_kv_wf.
Qed.

Lemma set_config_file_wf c path : text path -> config_wf c /\ unsaved_default c ->
  config_wf (set_config_file (copy_field (config_file c) path) c) /\
  unsaved_default (set_config_file (copy_field (config_file c) path) c).
Proof.
  intros Hp [[] Hu]. destruct c. cbn in *.
  split; [constructor; cbn; try assumption; by apply copy_field_ok|exact Hu].
Qed.

Lemma wf_device_ok c : config_wf c ->
  device_cfg_ok (device c) /\ device_cfg_sized (device c).
Proof.
  intros []. unfold device_cfg_ok, device_cfg_sized.
  split_and!; first [by eapply field_ok_terminated|by apply field_ok_length].
Qed.

(** Loading returns 0 with a well-formed configuration whatever the file holds. *)
Lemma load_done c path file : text path ->
  exists cfg, app_config_load (Some c) (Some path) (Some file) = Done (0, Some cfg) /\
    config_wf cfg /\ unsaved_default cfg.
Proof.
  intros Hp. cbn [app_config_load]. destruct default_done as [cfg0 Hd]. rewrite Hd.
  cbn [mbind exec_bind]. eexists. split; [done|]. rewrite load_loop_fold.
  pose proof (set_config_file_wf cfg0 path Hp (default_wf cfg0 Hd)) as H0. revert H0.
  generalize (set_config_file (copy_field (config_file cfg0) path) cfg0).
  generalize (fgets_lines (S (length file)) file). clear.
  induction l as [|line l IH]; intros cfg Hcfg; cbn [foldl]; [done|by apply IH, process_line_wf].
Qed.

(** Validation always returns, and what it accepts [rt_setup_init] accepts. *)
Lemma validate_returns c : interface_name (device c) <> [] ->
  exists ret, app_config_validate (Some c) = Done ret /\
    (ret = -1 \/ ret = 0 /\ (realtime_enabled c = true -> 1 <= rt_priority (realtime c) <= 99)).
Proof.
  intros Hi. cbn [app_config_validate]. destruct (interface_name (device c)) as [|x s]; [done|].
  change (arr_get (x :: s) 0) with (Done x). cbn [mbind exec_bind].
  destruct (realtime_enabled c), (Z.ltb_spec (rt_priority (realtime c)) 1),
    (Z.ltb_spec 99 (rt_priority (realtime c))); cbn [andb orb];
    repeat match goal with |- context [if ?b then _ else _] =>
      destruct b; [by exists (-1); split; [|left]|] end;
    first [ by exists (-1); split; [|left]
          | exists 0; split; [done|]; right; split; [done|]; intros; first [done|lia] ].
Qed.

(** C6: No configuration file can break the program: loading any bytes
    whatsoever returns 0 with a well-formed configuration (every string in its
    array with a NUL, every number in the range of its type, the network
    settings equal to the device's), so that saving it, building the stack
    configuration from it and validating it never leave a buffer.  Settings
    without a key keep their defaults. *)
Theorem load_wf c path file : text path ->
  exists cfg, app_config_load (Some c) (Some path) (Some file) = Done (0, Some cfg) /\
    config_wf cfg /\ unsaved_default cfg /\
    defined (save_text cfg) /\ defined (build_pnet_cfg (device cfg)) /\
    defined (app_config_validate (Some cfg)).
Proof.
  intros Hp. destruct (load_done c path file Hp) as (cfg & E & Hwf & Hu).
  exists cfg. split; [done|]. split; [done|]. split; [done|].
  destruct (wf_device_ok cfg Hwf) as [Hdev Hsz]. pose proof Hdev as (? & ? & ? & ?).
  split; [|split].
  - assert (terminated (log_file cfg)) by (eapply field_ok_terminated, Hwf).
    unfold save_text. by rewrite !read_str_ok by done.
  - by rewrite build_pnet_cfg_ok.
  - destruct (validate_returns cfg) as (ret & -> & _); [|done].
    destruct Hsz as (_ & _ & Hi & _). intros E0. by rewrite E0 in Hi.
Qed.

(** ** Reading back a saved file *)

(** A value that survives a line of the file: not empty, no line break, no
    white space at its ends. *)
Definition value_ok (s : list ascii) : Prop :=
  s <> [] /\ text s /\ Forall (fun c => is_crlf c = false) s /\ stripped s.

#[export] Instance value_ok_dec s : Decision (value_ok s).
Proof. unfold value_ok. apply _. Defined.

(** Text without white space. *)
Definition solid (s : list ascii) : Prop :=
  Forall (fun c => isspace c = false /\ not_nul c = true) s.

Lemma isspace_crlf c : isspace c = false -> is_crlf c = false.
Proof.
  intros H. unfold is_crlf. destruct (Ascii.eqb_spec c cr) as [->|]; [by vm_compute in H|].
  by destruct (Ascii.eqb_spec c nl) as [->|]; [vm_compute in H|].
Qed.

Lemma Forall_last {A} (P : A -> Prop) c s : Forall P (c :: s) -> P (List.last s c).
Proof.
  revert c. induction s as [|d s IH]; intros c H; [by inversion H|].
  rewrite last_cons_default. apply IH. by inversion H.
Qed.

Lemma solid_value s : s <> [] -> solid s -> value_ok s.
Proof.
  intros Hne Hs. split; [done|]. split; [|split].
  - eapply Forall_impl; [exact Hs|]. by intros c [_ ?].
  - eapply Forall_impl; [exact Hs|]. intros c [? _]. by apply isspace_crlf.
  - destruct s as [|c s]; [done|]. pose proof (Forall_last _ _ _ Hs) as [Hl _].
    apply Forall_cons in Hs as [[Hc _] _].
    split; [done|]. by rewrite last_cons_default.
Qed.

Lemma plain_solid s : Forall (fun c => plain c = true) s -> solid s.
Proof.
  intros H. eapply Forall_impl; [exact H|]. intros c. unfold plain.
  by destruct (isspace c), (not_nul c).
Qed.

Lemma fmt_u_value n : 0 <= n -> value_ok (fmt_u n).
Proof. intros. apply solid_value; [apply fmt_u_nonempty|]. by apply plain_solid, fmt_u_plain. Qed.

Lemma fmt_d_value n : value_ok (fmt_d n).
Proof.
  unfold fmt_d. destruct (Z.ltb_spec n 0); [|by apply fmt_u_value].
  apply solid_value; [done|]. constructor; [done|]. apply plain_solid, fmt_u_plain. lia.
Qed.

Lemma fmt_hex_value n : 0 <= n -> value_ok (lit "0x" ++ fmt_04X n).
Proof.
  intros Hn. apply solid_value; [done|]. apply Forall_app. split; [by repeat constructor|].
  apply plain_solid. rewrite fmt_04X_digits, List.map_app. apply Forall_app. split.
  - change (map digit_char) with (fmap digit_char (M := list)). rewrite fmap_replicate.
    by apply Forall_replicate.
  - apply (digits_plain 16); [lia|done].
Qed.

Lemma fmt_ip_value ip : value_ok (fmt_ip ip).
Proof.
  assert (forall i, 0 <= i -> solid (fmt_u (byte_of i ip))) as Hu.
  { intros i Hi. apply plain_solid, fmt_u_plain. by destruct (byte_of_range i ip Hi). }
  apply solid_value.
  - unfold fmt_ip, fmt_quad. intros [E _]%app_eq_nil. by apply fmt_u_nonempty in E.
  - unfold fmt_ip, fmt_quad, solid in *. rewrite !Forall_app.
    repeat split; try (apply Hu; lia); by repeat constructor.
Qed.

Lemma bool_text_value b : value_ok (bool_text b).
Proof. by destruct b; apply (bool_decide_eq_true_1 (value_ok _)); vm_compute. Qed.

Lemma parse_bool_text b : parse_bool (bool_text b) = b.
Proof. by destruct b. Qed.

(** A key as the program writes it. *)
Definition key_ok (k : list ascii) : Prop :=
  solid k /\ ("="%char ∉ k) /\
  match k with c :: _ => (Ascii.eqb c "#" || Ascii.eqb c ";") = false | [] => False end.

#[export] Instance key_ok_dec k : Decision (key_ok k).
Proof. unfold key_ok, solid. destruct k; apply _. Defined.

Lemma cut_at_all p s : Forall (fun c => p c = false) s -> cut_at p (s ++ [nl]) = s ++ cut_at p [nl].
Proof. induction 1 as [|c s Hc _ IH]; [done|]. unfold cut_at in *. cbn. by rewrite Hc, IH. Qed.

Lemma last_app_cons {A} (s t : list A) c d : List.last (s ++ c :: t) d = List.last t c.
Proof.
  revert d. induction s as [|x s IH]; intros d; [apply last_cons_default|].
  change ((x :: s) ++ c :: t) with (x :: s ++ c :: t). by rewrite last_cons_default, IH.
Qed.

(** A line [key=value] is applied. *)
Lemma process_key cfg k v : key_ok k -> value_ok v ->
  process_line cfg (k ++ lit "=" ++ v ++ [nl]) = apply_kv cfg k v.
Proof.
  intros (Hk & Heq & Hfirst) (Hv & Htv & Hcv & Hsv).
  destruct k as [|c k]; [done|]. destruct v as [|x v]; [done|].
  set (l := (c :: k) ++ "="%char :: x :: v).
  assert ((c :: k) ++ lit "=" ++ (x :: v) ++ [nl] = l ++ [nl]) as ->
    by (unfold l; by rewrite <-app_assoc).
  assert (text (l ++ [nl])) as Ht.
  { apply text_app. split; [|by repeat constructor]. apply text_app. split.
    - eapply Forall_impl; [exact Hk|]. by intros ? [_ ?].
    - constructor; [done|exact Htv]. }
  assert (Forall (fun c => is_crlf c = false) l) as Hc.
  { apply Forall_app. split; [|by constructor].
    eapply Forall_impl; [exact Hk|]. intros ? [? _]. by apply isspace_crlf. }
  assert (stripped l) as Hs.
  { unfold l. pose proof Hk as [[Hcs _] _]%Forall_cons. split; [exact Hcs|].
    change (c :: k ++ "="%char :: x :: v) with ((c :: k) ++ "="%char :: x :: v).
    rewrite last_app_cons, last_cons_default. destruct Hsv as [_ Hsv].
    by rewrite last_cons_default in Hsv. }
  unfold process_line. rewrite (c_str_all _ Ht), cut_at_all by done.
  change (cut_at is_crlf [nl]) with (@nil ascii). rewrite app_nil_r, (strip_stripped_id l Hs).
  unfold l at 1. cbn [app]. rewrite Hfirst. unfold l. rewrite split_at_first by done.
  rewrite strip_stripped_id.
  - rewrite strip_stripped_id by done. done.
  - pose proof (Forall_last _ _ _ Hk) as [Hl _]. apply Forall_cons in Hk as [[Hcs _] _].
    split; [done|]. by rewrite last_cons_default.
Qed.

(** ** The saved lines *)

(** The keys and values of a saved configuration, in order. *)
Definition saved_pairs (cfg : app_config_t) : list (list ascii * list ascii) :=
  let d := device cfg in
  let r := realtime cfg in
  [(lit "product_name", c_str (product_name d)); (lit "station_name", c_str (station_name d));
   (lit "interface", c_str (interface_name d)); (lit "ip_addr", fmt_ip (ip_addr d));
   (lit "netmask", fmt_ip (netmask d)); (lit "gateway", fmt_ip (gateway d));
   (lit "vendor_id", lit "0x" ++ fmt_04X (vendor_id d));
   (lit "device_id", lit "0x" ++ fmt_04X (device_id d)); (lit "tick_us", fmt_u (tick_us d));
   (lit "send_hello", bool_text (send_hello d)); (lit "file_directory", c_str (file_directory d));
   (lit "log_level", fmt_d (log_level cfg)); (lit "log_file", c_str (log_file cfg));
   (lit "security_enabled", bool_text (security_enabled cfg));
   (lit "realtime_enabled", bool_text (realtime_enabled cfg));
   (lit "rt_priority", fmt_d (rt_priority r)); (lit "rt_scheduling", bool_text (use_rt_scheduling r));
   (lit "lock_memory", bool_text (lock_memory r)); (lit "isolate_cpu", fmt_d (isolate_cpu r))].

Definition pair_line (kv : list ascii * list ascii) : list ascii := kv.1 ++ lit "=" ++ kv.2.

(** All lines of the file, without their newlines. *)
Definition saved_lines (cfg : app_config_t) : list (list ascii) :=
  let p := map pair_line (saved_pairs cfg) in
  [lit "# p-net IO Device Manager Configuration"; lit "# Auto-generated - edit with care"; [];
   lit "# IO Device"] ++ take 11 p ++
  [[]; lit "# Logging"] ++ take 2 (drop 11 p) ++ [[]; lit "# Security"] ++ take 1 (drop 13 p) ++
  [[]; lit "# Real-time"] ++ drop 14 p.

Definition file_of (lines : list (list ascii)) : list ascii :=
  concat (map (fun l => l ++ [nl]) lines).

Lemma save_text_lines cfg : config_wf cfg -> save_text cfg = Done (file_of (saved_lines cfg)).
Proof.
  intros Hwf. destruct (wf_device_ok cfg Hwf) as [(? & ? & ? & ?) _].
  assert (terminated (log_file cfg)) by (eapply field_ok_terminated, Hwf).
  unfold save_text. rewrite !read_str_ok by done. cbn [mbind exec_bind]. f_equal.
  rewrite !format_ip_fits. unfold file_of, saved_lines, saved_pairs, pair_line, key_line.
  cbn [map take drop app concat fst snd].
  rewrite <-?app_assoc. done.
Qed.

Lemma fgets_lines_file lines fuel :
  Forall (fun l => nl ∉ l /\ (length l < 511)%nat) lines -> (length (file_of lines) < fuel)%nat ->
  fgets_lines fuel (file_of lines) = map (fun l => l ++ [nl]) lines.
Proof.
  intros Hl. revert fuel. induction Hl as [|l lines [Hn Hs] _ IH]; intros [|fuel] Hf; try lia; [done|].
  change (file_of (l :: lines)) with ((l ++ [nl]) ++ file_of lines) in *.
  replace ((l ++ [nl]) ++ file_of lines) with (l ++ nl :: file_of lines) in *
    by (by rewrite <-app_assoc). cbn [fgets_lines map]. rewrite (fgets_fits 512) by (done || lia).
  f_equal. apply IH. rewrite !length_app in Hf. simpl in Hf. lia.
Qed.

(** A line the loader skips. *)
Definition skipped (l : list ascii) : Prop :=
  match strip (cut_at is_crlf (c_str (l ++ [nl]))) with
  | [] => True
  | c :: _ => (Ascii.eqb c "#" || Ascii.eqb c ";") = true
  end.

Lemma process_skipped cfg l : skipped l -> process_line cfg (l ++ [nl]) = cfg.
Proof.
  unfold skipped, process_line. destruct (strip _) as [|c s]; [done|]. by intros ->.
Qed.

Lemma process_pair cfg kv : key_ok kv.1 -> value_ok kv.2 ->
  process_line cfg (pair_line kv ++ [nl]) = apply_kv cfg kv.1 kv.2.
Proof.
  intros. unfold pair_line. rewrite <-!app_assoc. by apply process_key.
Qed.

Definition apply_pairs (c : app_config_t) (l : list (list ascii * list ascii)) : app_config_t :=
  foldl (fun c kv => apply_kv c kv.1 kv.2) c l.

Lemma process_pairs c l : Forall (fun kv => key_ok kv.1 /\ value_ok kv.2) l ->
  foldl process_line c (map (fun l => l ++ [nl]) (map pair_line l)) = apply_pairs c l.
Proof.
  intros H. revert c. induction H as [|kv l [Hk Hv] _ IH]; intros c; [done|].
  cbn [map foldl]. rewrite process_pair by done. apply IH.
Qed.

Lemma process_skips c l : Forall skipped l ->
  foldl process_line c (map (fun l => l ++ [nl]) l) = c.
Proof.
  intros H. revert c. induction H as [|x l Hx _ IH]; intros c; [done|].
  cbn [map foldl]. rewrite process_skipped by done. apply IH.
Qed.

#[export] Instance skipped_dec l : Decision (skipped l).
Proof. unfold skipped. destruct (strip _); apply _. Defined.

Ltac closed_fact := match goal with |- ?P => by apply (bool_decide_eq_true_1 P); vm_compute end.

(** Values of the strings a configuration can save and read back. *)
Definition strings_ok (cfg : app_config_t) : Prop :=
  value_ok (c_str (product_name (device cfg))) /\ value_ok (c_str (station_name (device cfg))) /\
  value_ok (c_str (interface_name (device cfg))) /\
  value_ok (c_str (file_directory (device cfg))) /\ value_ok (c_str (log_file cfg)).

#[export] Instance strings_ok_dec cfg : Decision (strings_ok cfg).
Proof. unfold strings_ok. apply _. Defined.

Lemma saved_pairs_ok cfg : config_wf cfg -> strings_ok cfg ->
  Forall (fun kv => key_ok kv.1 /\ value_ok kv.2) (saved_pairs cfg).
Proof.
  intros [] (? & ? & ? & ? & ?). unfold in_u in *. unfold saved_pairs.
  repeat match goal with
  | |- Forall _ (_ :: _) => apply Forall_cons; split; [cbn [fst snd]; split; [closed_fact|]|]
  | |- Forall _ [] => constructor
  | |- value_ok (c_str _) => assumption
  | |- value_ok (fmt_ip _) => apply fmt_ip_value
  | |- value_ok (fmt_u _) => apply fmt_u_value; lia
  | |- value_ok (fmt_d _) => apply fmt_d_value
  | |- value_ok (bool_text _) => apply bool_text_value
  | |- value_ok (_ ++ fmt_04X _) => apply fmt_hex_value; lia
  end.
Qed.

Lemma saved_lines_fold cfg c : config_wf cfg -> strings_ok cfg ->
  foldl process_line c (map (fun l => l ++ [nl]) (saved_lines cfg)) = apply_pairs c (saved_pairs cfg).
Proof.
  intros Hwf Hs. pose proof (saved_pairs_ok cfg Hwf Hs) as Hp. unfold saved_lines.
  assert (forall n m, Forall (fun kv => key_ok kv.1 /\ value_ok kv.2) (take n (drop m (saved_pairs cfg))))
    as Hsub by (intros; by apply Forall_take, Forall_drop).
  change (take 11 (map pair_line (saved_pairs cfg))) with
    (map pair_line (take 11 (drop 0 (saved_pairs cfg)))).
  change (take 2 (drop 11 (map pair_line (saved_pairs cfg)))) with
    (map pair_line (take 2 (drop 11 (saved_pairs cfg)))).
  change (take 1 (drop 13 (map pair_line (saved_pairs cfg)))) with
    (map pair_line (take 1 (drop 13 (saved_pairs cfg)))).
  change (drop 14 (map pair_line (saved_pairs cfg))) with
    (map pair_line (take 5 (drop 14 (saved_pairs cfg)))).
  rewrite !List.map_app, !foldl_app, !(process_pairs _ _ (Hsub _ _)).
  rewrite !process_skips by closed_fact. unfold apply_pairs. rewrite <-!foldl_app. done.
Qed.

(** Every saved line fits the loader's buffer. *)
Definition line_fits (l : list ascii) : Prop := nl ∉ l /\ (length l < 511)%nat.

#[export] Instance line_fits_dec l : Decision (line_fits l).
Proof. unfold line_fits. apply _. Defined.

Lemma value_no_nl v : value_ok v -> nl ∉ v.
Proof.
  intros (_ & _ & Hc & _) Hin. rewrite Forall_forall in Hc. specialize (Hc _ Hin). by vm_compute in Hc.
Qed.

Lemma pair_line_fits kv : line_fits kv.1 -> (length kv.1 <= 20)%nat -> value_ok kv.2 ->
  (length kv.2 <= 255)%nat -> line_fits (pair_line kv).
Proof.
  intros [Hk _] Hl Hv Hlv. pose proof (value_no_nl _ Hv). unfold line_fits, pair_line. split.
  - rewrite !not_elem_of_app. split_and!; [done|closed_fact|done].
  - rewrite !length_app. change (length (lit "=")) with 1%nat. lia.
Qed.

Lemma length_fmt_u32 n : in_u 32 n -> (length (fmt_u n) <= 10)%nat.
Proof.
  unfold in_u. intros. unfold fmt_u. rewrite List.length_map. apply length_digits; lia.
Qed.

Lemma length_hex16 n : in_u 16 n -> (length (lit "0x" ++ fmt_04X n) <= 6)%nat.
Proof.
  unfold in_u. intros. rewrite length_app. change (length (lit "0x")) with 2%nat.
  unfold fmt_04X. rewrite length_app, length_replicate, List.length_map.
  pose proof (length_digits 16 ltac:(lia) n 4%nat ltac:(lia) ltac:(lia)). lia.
Qed.

Lemma saved_pair_lengths cfg : config_wf cfg ->
  Forall (fun kv => line_fits kv.1 /\ (length kv.1 <= 20)%nat /\ (length kv.2 <= 255)%nat)
    (saved_pairs cfg).
Proof.
  intros [[_ ?] [_ ?] [_ ?] [_ ?] [_ ?] _ (? & ? & ?) [? ?] ? (? & ? & ?) _].
  assert (forall ip, (length (fmt_ip ip) <= 255)%nat) as Hip.
  { intros ip. pose proof (length_fmt_ip ip). unfold zlen in *. lia. }
  assert (forall n, in_u 32 n -> (length (fmt_u n) <= 255)%nat) as Hu.
  { intros n Hn. pose proof (length_fmt_u32 n Hn). lia. }
  assert (forall n, in_u 16 n -> (length (lit "0x" ++ fmt_04X n) <= 255)%nat) as Hx.
  { intros n Hn. pose proof (length_hex16 n Hn). lia. }
  assert (forall n, in_s32 n -> (length (fmt_d n) <= 255)%nat) as Hd.
  { intros n Hn. pose proof (length_fmt_d n Hn). lia. }
  assert (forall b, (length (bool_text b) <= 255)%nat) as Hb
    by (intros []; vm_compute; lia).
  unfold saved_pairs. repeat match goal with
  | |- Forall _ (_ :: _) =>
      apply Forall_cons; split; [cbn [fst snd]; split; [closed_fact|split; [vm_compute; lia|]]|]
  | |- Forall _ [] => constructor
  | |- (length (c_str _) <= _)%nat => lia
  | |- (length (fmt_ip _) <= _)%nat => apply Hip
  | |- (length (fmt_u _) <= _)%nat => by apply Hu
  | |- (length (fmt_d _) <= _)%nat => by apply Hd
  | |- (length (bool_text _) <= _)%nat => apply Hb
  | |- (length (_ ++ fmt_04X _) <= _)%nat => by apply Hx
  end.
Qed.

Lemma saved_lines_fit cfg : config_wf cfg -> strings_ok cfg -> Forall line_fits (saved_lines cfg).
Proof.
  intros Hwf Hs.
  assert (Forall line_fits (map pair_line (saved_pairs cfg))) as Hp.
  { apply Forall_map. apply Forall_forall. intros kv Hin.
    pose proof (saved_pairs_ok cfg Hwf Hs) as H1. pose proof (saved_pair_lengths cfg Hwf) as H2.
    rewrite Forall_forall in H1, H2. destruct (H1 _ Hin), (H2 _ Hin) as (? & ? & ?).
    by apply pair_line_fits. }
  unfold saved_lines. rewrite !Forall_app.
  split_and!; first [by apply Forall_take|by apply Forall_take, Forall_drop|by apply Forall_drop|closed_fact].
Qed.

(** What applying the saved pairs does to a configuration whose arrays are
    well formed. *)
Lemma apply_saved cfg c : config_wf cfg -> config_wf c -> unsaved_default c ->
  let c' := apply_pairs c (saved_pairs cfg) in
  let d := device cfg in
  device c' = mk_device_cfg (product_name d) (station_name d) (interface_name d)
    (replicate 6 Byte.x00) (ip_addr d) (netmask d) (gateway d) (vendor_id d) (device_id d)
    (tick_us d) (send_hello d) (file_directory d) /\
  log_level c' = log_level cfg /\ log_file c' = log_file cfg /\
  config_file c' = config_file c /\
  security_enabled c' = security_enabled cfg /\ realtime_enabled c' = realtime_enabled cfg /\
  realtime c' = mk_rt_config (use_rt_scheduling (realtime cfg)) (rt_priority (realtime cfg))
    (lock_memory (realtime cfg)) true (isolate_cpu (realtime cfg)) true.
Proof.
  intros [[P1 P2] [S1 S2] [I1 I2] [D1 D2] [L1 L2] _ (Hip & Hnm & Hgw) [Hv Hdi] Ht (Hl & Hpr & Hi) _]
    Hc (Hm & _ & _ & Hf & Hb).
  set (d := device cfg) in *. cbv zeta.
  assert (apply_pairs c (saved_pairs cfg) =
    mk_app_config
      (mk_device_cfg (copy_field (product_name (device c)) (c_str (product_name d)))
        (copy_field (station_name (device c)) (c_str (station_name d)))
        (copy_field (interface_name (device c)) (c_str (interface_name d)))
        (mac_addr (device c)) (parse_ip (fmt_ip (ip_addr d))) (parse_ip (fmt_ip (netmask d)))
        (parse_ip (fmt_ip (gateway d))) (u16 (strtoul0 (lit "0x" ++ fmt_04X (vendor_id d))))
        (u16 (strtoul0 (lit "0x" ++ fmt_04X (device_id d)))) (u32 (strtoul0 (fmt_u (tick_us d))))
        (parse_bool (bool_text (send_hello d)))
        (copy_field (file_directory (device c)) (c_str (file_directory d))))
      (mk_if_config (copy_field (nc_if_name (network c)) (c_str (interface_name d)))
        (parse_ip (fmt_ip (ip_addr d))) (parse_ip (fmt_ip (netmask d))) (parse_ip (fmt_ip (gateway d)))
        (nc_mac_addr (network c)) (nc_configured (network c)))
      (tcp_tuning c) (security c) (parse_bool (bool_text (security_enabled cfg)))
      (mk_rt_config (parse_bool (bool_text (use_rt_scheduling (realtime cfg))))
        (atoi (fmt_d (rt_priority (realtime cfg)))) (parse_bool (bool_text (lock_memory (realtime cfg))))
        (disable_cpu_freq (realtime c)) (atoi (fmt_d (isolate_cpu (realtime cfg))))
        (disable_irq_balance (realtime c)))
      (parse_bool (bool_text (realtime_enabled cfg))) (atoi (fmt_d (log_level cfg)))
      (copy_field (log_file c) (c_str (log_file cfg))) (config_file c)) as ->.
  { unfold apply_pairs, saved_pairs. cbn [foldl fst snd]. fold d. reflexivity. }
  cbn [device log_level log_file config_file security_enabled realtime_enabled realtime].
  rewrite !parse_bool_text, !parse_fmt_ip, !atoi_fmt_d by done.
  rewrite !strtoul0_hex, strtoul0_fmt_u by (unfold in_u in *; lia).
  unfold u16, u32. rewrite !wrapu_small by done. rewrite Hm, Hf, Hb.
  destruct Hc as [C1 C2 C3 C4 C5 _ _ _ _ _ _].
  rewrite (copy_field_eq 25 _ _ C1), (copy_field_eq 240 _ _ C2), (copy_field_eq 15 _ _ C3),
    (copy_field_eq 239 _ _ C4), (copy_field_eq 255 _ _ C5).
  rewrite !take_ge by lia. by rewrite <-P1, <-S1, <-I1, <-D1, <-L1.
Qed.

(** C7: Saving and loading again is lossless.  For every well-formed
    configuration (in particular every one that was loaded) whose five strings
    are not empty, have no line break and no white space at their ends, saving
    returns 0 with a text, and loading that text over any object returns 0 with
    a configuration that has the same device settings (the MAC address, which
    has no key, zeroed), the same logging, security and real-time settings, and
    the network settings derived from the device's; the settings that are not
    saved have their defaults and the path is the one given. *)
Theorem save_load_roundtrip cfg c0 path path' : config_wf cfg -> strings_ok cfg -> text path' ->
  exists file cfg',
    app_config_save (Some cfg) (Some path) true = Done (0, Some file) /\
    app_config_load (Some c0) (Some path') (Some file) = Done (0, Some cfg') /\
    config_wf cfg' /\ unsaved_default cfg' /\
    (let d := device cfg in
     device cfg' = mk_device_cfg (product_name d) (station_name d) (interface_name d)
       (replicate 6 Byte.x00) (ip_addr d) (netmask d) (gateway d) (vendor_id d) (device_id d)
       (tick_us d) (send_hello d) (file_directory d)) /\
    log_level cfg' = log_level cfg /\ log_file cfg' = log_file cfg /\
    security_enabled cfg' = security_enabled cfg /\
    realtime_enabled cfg' = realtime_enabled cfg /\
    realtime cfg' = mk_rt_config (use_rt_scheduling (realtime cfg)) (rt_priority (realtime cfg))
      (lock_memory (realtime cfg)) true (isolate_cpu (realtime cfg)) true /\
    c_str (config_file cfg') = take 255 path'.
Proof.
  intros Hwf Hs Hp. destruct default_done as [cfg0 Hd].
  pose proof (set_config_file_wf cfg0 path' Hp (default_wf cfg0 Hd)) as [Hw0 Hu0].
  pose proof (default_wf cfg0 Hd) as [[_ _ _ _ _ Hcf _ _ _ _ _] _].
  set (c1 := set_config_file (copy_field (config_file cfg0) path') cfg0) in *.
  exists (file_of (saved_lines cfg)), (apply_pairs c1 (saved_pairs cfg)).
  cbn [app_config_save negb]. rewrite save_text_lines by done. split; [done|]. split.
  { cbn [app_config_load]. rewrite Hd. cbn [mbind exec_bind].
    rewrite load_loop_fold, fgets_lines_file; [|by apply saved_lines_fit|lia].
    by rewrite saved_lines_fold. }
  assert (config_wf (apply_pairs c1 (saved_pairs cfg)) /\
          unsaved_default (apply_pairs c1 (saved_pairs cfg))) as [Hw Hu].
  { pose proof (saved_pairs_ok cfg Hwf Hs) as H. unfold apply_pairs. revert H Hw0 Hu0.
    generalize c1. generalize (saved_pairs cfg). clear.
    induction l as [|kv l IH]; intros c H Hw Hu; [done|]. apply Forall_cons in H as [[_ [_ [Ht _]]] H].
    cbn [foldl]. destruct (apply_kv_wf c kv.1 kv.2 Ht (conj Hw Hu)) as [? ?]. by apply IH. }
  split; [done|]. split; [done|].
  destruct (apply_saved cfg c1 Hwf Hw0 Hu0) as (Ed & El & Elf & Ec & Es & Er & Ert).
  split; [exact Ed|]. do 5 (split; [done|]).
  rewrite Ec. unfold c1. cbn [config_file set_config_file].
  rewrite (copy_field_eq 255 _ _ Hcf). apply c_str_to_array; [by apply Forall_take|].
  rewrite length_take. lia.
Qed.

(** ** Validation *)

(** What the program requires of a configuration before it starts. *)
Definition acceptable (c : app_config_t) : Prop :=
  c_str (interface_name (device c)) <> [] /\
  ip_addr (device c) <> 0 /\ ip_addr (device c) <> 0xFFFFFFFF /\
  tick_us (device c) <> 0 /\ vendor_id (device c) <> 0 /\ device_id (device c) <> 0 /\
  0 <= log_level c <= 3 /\
  (realtime_enabled c = true -> 1 <= rt_priority (realtime c) <= 99).

(** A test that fails: the result is -1 and one condition is violated. *)
Ltac reject :=
  exists (-1); split; [done|]; split; [by right|]; split; [|done]; split; [done|];
  intros (? & ? & ? & ? & ? & ? & ? & Hrt); try specialize (Hrt eq_refl); lia.

(** C22: Validation accepts exactly the acceptable configurations: it returns 0
    when the interface is named, the address is neither 0.0.0.0 nor the
    broadcast address, the tick, vendor and device identifiers are not zero,
    the log level is 0 to 3 and, with real-time enabled, the priority 1 to 99;
    and -1 otherwise.  A configuration it accepts is accepted by
    [rt_setup_init] as well when real-time is enabled. *)
Theorem validate_spec c st : config_wf c ->
  exists ret, app_config_validate (Some c) = Done ret /\ (ret = 0 \/ ret = -1) /\
    (ret = 0 <-> acceptable c) /\
    (ret = 0 -> realtime_enabled c = true -> (rt_setup_init (Some (realtime c)) st).1 = 0).
Proof.
  intros [_ _ [Hif1 Hif2] _ _ _ _ _ _ _ _]. cbn [app_config_validate].
  destruct (interface_name (device c)) as [|x s] eqn:Ei; [done|].
  change (arr_get (x :: s) 0) with (Done x). cbn [mbind exec_bind].
  assert (c_str (interface_name (device c)) = [] <-> x = nul) as Hx.
  { rewrite Ei. unfold c_str. cbn [take_while]. unfold not_nul.
    destruct (Ascii.eqb_spec x nul) as [->|]; cbn [negb]; naive_solver. }
  unfold acceptable. cbn [rt_setup_init].
  destruct (Ascii.eqb_spec x nul) as [->|Hn].
  { exists (-1). split; [done|]. split; [by right|]. split; [|done]. split; [done|]. tauto. }
  assert (c_str (interface_name (device c)) <> []) as Hne by tauto.
  destruct (Z.eqb_spec (ip_addr (device c)) 0); [reject|].
  destruct (Z.eqb_spec (ip_addr (device c)) 0xFFFFFFFF); [reject|].
  destruct (Z.eqb_spec (tick_us (device c)) 0); [reject|].
  destruct (Z.eqb_spec (vendor_id (device c)) 0); [reject|].
  destruct (Z.eqb_spec (device_id (device c)) 0); [reject|].
  destruct (Z.ltb_spec (log_level c) 0); [reject|].
  destruct (Z.ltb_spec 3 (log_level c)); [reject|].
  destruct (realtime_enabled c); cbn [andb orb].
  - destruct (Z.ltb_spec (rt_priority (realtime c)) 1); [reject|].
    destruct (Z.ltb_spec 99 (rt_priority (realtime c))); [reject|]. cbn [orb].
    exists 0. split; [done|]. split; [by left|]. split; [|done].
    split; [|done]. intros _. split_and!; auto; lia.
  - exists 0. split; [done|]. split; [by left|]. split; [|done].
    split; [|done]. intros _. split_and!; auto; lia.
Qed.

(** ** White space and comments in the file *)

Definition blank (s : list ascii) : Prop :=
  Forall (fun c => isspace c = true /\ is_crlf c = false /\ not_nul c = true) s.

#[export] Instance blank_dec s : Decision (blank s).
Proof. unfold blank. apply _. Defined.

Lemma blank_space s : blank s -> Forall (fun c => isspace c = true) s.
Proof. intros H. eapply Forall_impl; [exact H|]. by intros c [? _]. Qed.
Lemma blank_text s : blank s -> text s.
Proof. intros H. eapply Forall_impl; [exact H|]. by intros c (_ & _ & ?). Qed.
Lemma blank_crlf s : blank s -> Forall (fun c => is_crlf c = false) s.
Proof. intros H. eapply Forall_impl; [exact H|]. by intros c (_ & ? & _). Qed.

Lemma strip_end_app sp rs : Forall (fun c => isspace c = true) sp -> rs <> [] ->
  strip_end (sp ++ rs) = strip_end rs.
Proof.
  intros H Hne. induction H as [|c sp Hc _ IH]; [done|].
  change ((c :: sp) ++ rs) with (c :: sp ++ rs).
  destruct (sp ++ rs) as [|d t] eqn:E; [by apply app_eq_nil in E as [_ ?]|].
  by rewrite strip_end_space.
Qed.

(** [strip] takes off any white space around a stripped text. *)
Lemma strip_pad l m r : Forall (fun c => isspace c = true) l -> Forall (fun c => isspace c = true) r ->
  m <> [] -> stripped m -> strip (l ++ m ++ r) = m.
Proof.
  intros Hl Hr Hne Hm. pose proof (strip_stripped_id m Hm) as Hid. unfold strip in *.
  assert (drop_while isspace (l ++ m ++ r) = m ++ r) as ->.
  { clear Hid. induction Hl as [|c l Hc _ IH].
    - destruct m as [|c m]; [done|]. destruct Hm as [Hc _]. by apply drop_while_stop.
    - cbn [app drop_while]. by rewrite Hc. }
  assert (drop_while isspace m = m) as Hd.
  { destruct m as [|c m]; [done|]. destruct Hm as [Hc _]. by apply drop_while_stop. }
  rewrite Hd in Hid. rewrite rev_app_distr, strip_end_app; [exact Hid| |].
  - by apply Forall_rev.
  - intros E. apply Hne. rewrite <-(rev_involutive m). by rewrite E.
Qed.

(** An assignment is recognised with any spacing: blanks before the key,
    around the equals sign and after the value do not matter, and the value
    goes to the key as it stands between them. *)
Theorem assignment_spacing cfg b1 k b2 b3 v b4 :
  key_ok k -> stripped v -> v <> [] -> text v -> Forall (fun c => is_crlf c = false) v ->
  blank b1 -> blank b2 -> blank b3 -> blank b4 ->
  process_line cfg (b1 ++ k ++ b2 ++ lit "=" ++ b3 ++ v ++ b4 ++ [nl]) = apply_kv cfg k v.
Proof.
  intros (Hk & Heq & Hfirst) Hv Hvn Hvt Hvc H1 H2 H3 H4.
  destruct k as [|c k]; [done|].
  set (m := (c :: k) ++ b2 ++ "="%char :: b3 ++ v).
  assert (b1 ++ (c :: k) ++ b2 ++ lit "=" ++ b3 ++ v ++ b4 ++ [nl] = (b1 ++ m ++ b4) ++ [nl]) as ->
    by (unfold m; change (lit "=") with ["="%char]; rewrite <-!app_assoc; cbn [app];
        by rewrite <-!app_assoc).
  assert (text (c :: k) /\ Forall (fun c => is_crlf c = false) (c :: k)) as [Hkt Hkc].
  { split; (eapply Forall_impl; [exact Hk|]); intros x [Hx1 Hx2]; [done|by apply isspace_crlf]. }
  assert (text m) as Hmt.
  { apply text_app. split; [done|]. apply text_app. split; [by apply blank_text|].
    apply (text_app ["="%char]). split; [by repeat constructor|].
    apply text_app. split; [by apply blank_text|done]. }
  assert (Forall (fun c => is_crlf c = false) m) as Hmc.
  { unfold m. apply Forall_app; split; [done|]. apply Forall_app; split; [by apply blank_crlf|].
    apply Forall_cons; split; [done|]. apply Forall_app; split; [by apply blank_crlf|done]. }
  assert (Forall (fun c => is_crlf c = false) (b1 ++ m ++ b4)) as Hc.
  { rewrite !Forall_app. split_and!; [by apply blank_crlf|done|by apply blank_crlf]. }
  assert (text ((b1 ++ m ++ b4) ++ [nl])) as Ht.
  { apply text_app. split; [|by repeat constructor].
    apply text_app. split; [by apply blank_text|]. apply text_app. split; [done|by apply blank_text]. }
  assert (isspace c = false /\ isspace (List.last k c) = false) as [Hcs Hkl].
  { pose proof (Forall_last _ _ _ Hk) as [Hl _]. by apply Forall_cons in Hk as [[? _] _]. }
  assert (stripped m) as Hms.
  { split; [exact Hcs|]. unfold m. destruct v as [|x v]; [done|]. rewrite app_assoc.
    change ("="%char :: b3 ++ x :: v) with (("="%char :: b3) ++ x :: v). rewrite app_assoc.
    rewrite last_app_cons. destruct Hv as [_ Hv]. by rewrite last_cons_default in Hv. }
  unfold process_line. rewrite (c_str_all _ Ht), cut_at_all by done.
  change (cut_at is_crlf [nl]) with (@nil ascii).
  rewrite app_nil_r, (strip_pad b1 m b4) by (done || by apply blank_space).
  unfold m at 1. cbn [app]. rewrite Hfirst. unfold m. rewrite app_assoc, split_at_first.
  2:{ rewrite not_elem_of_app. split; [done|]. intros Hin. unfold blank in H2.
      rewrite Forall_forall in H2. destruct (H2 _ Hin) as [Hs _]. by vm_compute in Hs. }
  pose proof (strip_pad [] (c :: k) b2 ltac:(constructor) (blank_space _ H2)) as E1.
  cbn [app] in E1. change ((c :: k) ++ b2) with (c :: k ++ b2). rewrite E1; [|done|].
  2:{ split; [done|]. by rewrite last_cons_default. }
  pose proof (strip_pad b3 v [] (blank_space _ H3) ltac:(constructor) Hvn Hv) as E2.
  rewrite app_nil_r in E2. rewrite E2. by destruct v.
Qed.

(** Comments are recognised at the start of a line only.  The line that the
    README gives as an example, a value followed by blanks and a comment, sets
    [lock_memory] to false, because the comment becomes part of the value; the
    same line without the comment sets it to true. *)
Theorem inline_comment_in_value cfg :
  lock_memory (realtime (process_line cfg (lit "lock_memory = 1         # mlockall" ++ [nl]))) = false /\
  lock_memory (realtime (process_line cfg (lit "lock_memory = 1" ++ [nl]))) = true.
Proof. split; reflexivity. Qed.

(** ** Concrete instances *)

Definition sample_config : app_config_t :=
  match app_config_default with
  | Done c => c
  | Undefined => mk_app_config zero_device_cfg (mk_if_config [] 0 0 0 [] false)
      (mk_tuning false false false (0, 0, 0) (0, 0, 0)) zero_policy false zero_rt_config false 0 [] []
  end.

Lemma sample_config_wf : config_wf sample_config /\ unsaved_default sample_config.
Proof. by apply default_wf. Qed.

Lemma load_wf_witness : exists cfg,
  app_config_load (Some sample_config) (Some (lit "/etc/x")) (Some (lit "=;tick_us=0" ++ [nl; nul])) =
    Done (0, Some cfg) /\ config_wf cfg.
Proof.
  destruct (load_wf sample_config (lit "/etc/x") (lit "=;tick_us=0" ++ [nl; nul])) as (cfg & E & Hw & _);
    [by apply text_dec_true; vm_compute|].
  exists cfg. split; [exact E|exact Hw].
Defined.

Lemma save_load_roundtrip_witness : exists file cfg',
  app_config_save (Some sample_config) (Some (lit "/tmp/c")) true = Done (0, Some file) /\
  app_config_load (Some sample_config) (Some (lit "/tmp/c")) (Some file) = Done (0, Some cfg') /\
  device cfg' = device sample_config.
Proof.
  destruct (save_load_roundtrip sample_config sample_config (lit "/tmp/c") (lit "/tmp/c"))
    as (file & cfg' & Hs & Hl & _ & _ & Hd & _).
  - exact (proj1 sample_config_wf).
  - by apply (bool_decide_eq_true_1 (strings_ok sample_config)); vm_compute.
  - by apply text_dec_true; vm_compute.
  - exists file, cfg'. split; [exact Hs|]. split; [exact Hl|]. rewrite Hd. reflexivity.
Defined.

Lemma validate_spec_witness : exists ret,
  app_config_validate (Some sample_config) = Done ret /\ (ret = 0 <-> acceptable sample_config) /\
  ret = 0.
Proof.
  destruct (validate_spec sample_config initial_rt_state) as (ret & E & _ & Ha & _);
    [exact (proj1 sample_config_wf)|].
  exists ret. split; [exact E|]. split; [exact Ha|].
  vm_compute in E. by injection E.
Defined.

Lemma assignment_spacing_witness :
  tick_us (device (process_line sample_config (lit "  tick_us = 500 " ++ [nl]))) = 500.
Proof.
  pose proof (assignment_spacing sample_config (lit "  ") (lit "tick_us") (lit " ") (lit " ")
    (lit "500") (lit " ")) as H.
  change (lit "  tick_us = 500 " ++ [nl]) with
    (lit "  " ++ lit "tick_us" ++ lit " " ++ lit "=" ++ lit " " ++ lit "500" ++ lit " " ++ [nl]).
  rewrite H; [by vm_compute|closed_fact|closed_fact|discriminate|closed_fact|closed_fact|closed_fact..].
Defined.
