(* ===== verification/Main.v ===== *)
(** * The program (src/main.c)

    Start-up in its order, the production loop with error counting, recovery,
    backoff and the watchdog, and shutdown.  The parts are those of the other
    files.  A run is a function here; the same program statement by statement,
    with signals and the messages to systemd, is in Supervisor, the banner and
    the usage text in Messages, the other platforms in Platforms. *)
From S2P Require Import Prelude CString CFormat NetAddr SecurityPolicy PnetApi PnetMock IoDevice NetworkConfig RtSetup AppConfig.

Definition DEFAULT_CONFIG_FILE : list ascii := lit "/etc/pnet-manager/config.conf".
Definition MAX_CONSECUTIVE_ERRORS : Z := 5.
Definition RECOVERY_BACKOFF_BASE : Z := 1000000.
Definition RECOVERY_BACKOFF_MAX : Z := 30000000.
Definition MAX_RECOVERY_ATTEMPTS : Z := 0.
Definition WATCHDOG_PING_MS : Z := 15000.
Definition EXIT_SUCCESS : Z := 0.
Definition EXIT_FAILURE : Z := 1.

(** ** Applying the configuration *)

Definition apply_network {K} `{NetKernel K} (le : bool) (cfg : app_config_t) (k : K) : exec (Z * K) :=
  iface ← read_str (interface_name (device cfg));
  let '(r, k) := net_if_set_ip le (Some iface) (nc_ip_addr (network cfg)) k in
  if r <? 0 then Done (-1, k) else
  let '(r, k) := net_if_set_netmask le (Some iface) (nc_netmask (network cfg)) k in
  if r <? 0 then Done (-1, k) else
  let '(r, k) := net_if_set_up le (Some iface) k in
  if r <? 0 then Done (-1, k) else Done (0, k).

(** The result carries the commands executed. *)
Definition apply_security (le : bool) (system : list ascii -> Z) (cfg : app_config_t)
    : exec (Z * list (list ascii)) :=
  if negb (security_enabled cfg) then Done (0, [])
  else
    '(r, cmds) ← sec_policy_apply le true system (Some (security cfg));
    if r <? 0 then Done (-1, cmds) else Done (0, cmds).

Definition apply_realtime {O} `{RtOs O} (cfg : app_config_t) (st : rt_state) (o : O)
    : Z * rt_state * O :=
  if negb (realtime_enabled cfg) then (0, st, o)
  else
    let '(r, st) := rt_setup_init (Some (realtime cfg)) st in
    if r <? 0 then (-1, st, o) else
    let '(r, st, o) := rt_setup_apply st o in
    if r <? 0 then (-1, st, o) else (0, st, o).

(** ** The device *)

Definition device_init_and_start {net} (S : PnetStack net) (cfg : io_device_cfg_t)
    : exec (Z * io_device_t net) :=
  let '(r, dev) := io_device_init (Some zero_device) (Some cfg) in
  if r <? 0 then Done (-1, default zero_device dev) else
  '(r, dev) ← io_device_start dev;
  if r <? 0 then Done (-1, default zero_device (io_device_cleanup dev))
  else Done (0, default zero_device dev).

Definition device_stop_and_cleanup {net} (S : PnetStack net) (dev : io_device_t net)
    : io_device_t net :=
  let '(_, dev) := io_device_stop (Some dev) in
  default zero_device (io_device_cleanup dev).

(** ** The production loop *)

Record loop_state {net : Type} := mk_loop {
  lp_device : io_device_t net;
  consecutive_errors : Z;
  recovery_attempts : Z;
  backoff_us : Z;
  last_watchdog_ms : Z;
}.
Arguments loop_state : clear implicits.
Arguments mk_loop {net}.

(** What an iteration does outside the process; a ping carries the clock. *)
Inductive loop_event :=
  | Usleep (us : Z)
  | Recovery (attempt : Z) (success : bool)
  | WatchdogPing (now_ms : Z).

(** [i++] on an [int]; overflow is undefined. *)
Definition int_incr (i : Z) : exec Z := access (i <? 2 ^ 31 - 1);; Done (i + 1).

Section loop.
Context {net : Type}.

(** The [else] branch after a failing tick. *)
Definition tick_failed (S : PnetStack net) (cfg : app_config_t) (st : loop_state net)
    : exec (loop_state net * list loop_event) :=
  let dev := set_error_count (u64 (error_count (lp_device st) + 1)) (lp_device st) in
  errors ← int_incr (consecutive_errors st);
  if (0 <? MAX_CONSECUTIVE_ERRORS) && (MAX_CONSECUTIVE_ERRORS <=? errors) then
    attempts ← int_incr (recovery_attempts st);
    let dev := device_stop_and_cleanup S dev in
    let backoff := u32 (backoff_us st * 2) in
    let backoff := if RECOVERY_BACKOFF_MAX <? backoff then RECOVERY_BACKOFF_MAX else backoff in
    '(r, dev) ← device_init_and_start S (AppConfig.device cfg);
    let errors := if r =? 0 then 0 else errors in
    Done (mk_loop dev errors attempts backoff (last_watchdog_ms st),
          [Usleep (backoff_us st); Recovery attempts (r =? 0)])
  else Done (mk_loop dev errors (recovery_attempts st) (backoff_us st) (last_watchdog_ms st), []).

(** One iteration; [now_ms] is the monotonic clock at its end.  As
    MAX_RECOVERY_ATTEMPTS is 0 the loop has no [break]. *)
Definition loop_iteration (S : PnetStack net) (now_ms : Z) (cfg : app_config_t)
    (st : loop_state net) : exec (loop_state net * list loop_event) :=
  let '(rc, dev) := io_device_tick (Some (lp_device st)) in
  let dev := default zero_device dev in
  '(st, events) ←
    (if rc =? 0 then Done (mk_loop dev 0 0 RECOVERY_BACKOFF_BASE (last_watchdog_ms st), [])
     else tick_failed S cfg (mk_loop dev (consecutive_errors st) (recovery_attempts st)
                               (backoff_us st) (last_watchdog_ms st)));
  let '(last, ping) :=
    if WATCHDOG_PING_MS <=? u64 (now_ms - last_watchdog_ms st)
    then (now_ms, [WatchdogPing now_ms]) else (last_watchdog_ms st, []) in
  Done (mk_loop (lp_device st) (consecutive_errors st) (recovery_attempts st) (backoff_us st) last,
        events ++ ping ++ [Usleep (tick_us (AppConfig.device cfg))]).

(** The iterations until a signal clears [g_running]: the stack's behaviour
    and the clock of each. *)
Fixpoint loop_run (inputs : list (PnetStack net * Z)) (cfg : app_config_t) (st : loop_state net)
    : exec (loop_state net * list loop_event) :=
  match inputs with
  | [] => Done (st, [])
  | (stack, now_ms) :: inputs =>
      '(st, e1) ← loop_iteration stack now_ms cfg st;
      '(st, e2) ← loop_run inputs cfg st;
      Done (st, e1 ++ e2)
  end.

Definition initial_loop (dev : io_device_t net) : loop_state net :=
  mk_loop dev 0 0 RECOVERY_BACKOFF_BASE 0.
End loop.

(** ** main *)

(** What [getopt (argc, argv, "c:vh")] delivers, in order. *)
Inductive getopt_result :=
  | Opt_c (optarg : list ascii)
  | Opt_v
  | Opt_h
  | Opt_other.

Fixpoint parse_args (opts : list getopt_result) (config_path : list ascii) (verbose : bool)
    : Z + list ascii * bool :=
  match opts with
  | [] => inr (config_path, verbose)
  | Opt_c optarg :: opts => parse_args opts optarg verbose
  | Opt_v :: opts => parse_args opts config_path true
  | Opt_h :: _ => inl EXIT_SUCCESS
  | Opt_other :: _ => inl EXIT_FAILURE
  end.

(** [memset (&config, 0, sizeof config)] *)
Definition zero_config : app_config_t :=
  mk_app_config zero_device_cfg (mk_if_config (replicate 16 nul) 0 0 0 (replicate 6 0) false)
    (mk_tuning false false false (0, 0, 0) (0, 0, 0)) zero_policy false zero_rt_config false 0
    (replicate CONFIG_MAX_PATH nul) (replicate CONFIG_MAX_PATH nul).

(** The configuration the program starts with. *)
Definition load_config (config_path : list ascii) (file : option (list ascii)) (verbose : bool)
    : exec app_config_t :=
  '(r, cfg) ← app_config_load (Some zero_config) (Some config_path) file;
  cfg ← (if r <? 0 then
           cfg ← app_config_default;
           '(_, path) ← snprintf_at (config_file cfg) 0 config_path;
           Done (set_config_file path cfg)
         else Done (default zero_config cfg));
  Done (if verbose then set_log_level 3 cfg else cfg).

(** What the program leaves behind: its exit status, the kernel's network
    state, the host, the static real-time state, the firewall commands and the
    events of the loop. *)
Record main_result {K O : Type} := mk_result {
  exit_status : Z;
  res_kernel : K;
  res_os : O;
  res_rt : rt_state;
  res_commands : list (list ascii);
  res_events : list loop_event;
}.
Arguments main_result : clear implicits.
Arguments mk_result {K O}.

Section main.
Context {net K O : Type} `{NetKernel K} `{RtOs O} (le : bool).

(** After start-up: the device, the loop, shutdown ([cleanup_rt]). *)
Definition serve (S : PnetStack net) (inputs : list (PnetStack net * Z)) (cfg : app_config_t)
    (st : rt_state) (o : O) : exec (rt_state * O * list loop_event) :=
  '(r, dev) ← device_init_and_start S (device cfg);
  events ←
    (if r <? 0 then Done []
     else
       '(lp, events) ← loop_run inputs cfg (initial_loop dev);
       let _ := device_stop_and_cleanup S (lp_device lp) in
       Done events);
  let '(st, o) := if realtime_enabled cfg then rt_setup_restore st o else (st, o) in
  Done (st, o, events).

(** [files] gives the content behind a path, [signals_ok] the outcome of
    [install_signal_handlers], [system] the status of firewall commands. *)
Definition main (opts : list getopt_result) (files : list ascii -> option (list ascii))
    (signals_ok : bool) (system : list ascii -> Z) (S : PnetStack net)
    (inputs : list (PnetStack net * Z)) (k : K) (o : O) : exec (main_result K O) :=
  let st := initial_rt_state in
  match parse_args opts DEFAULT_CONFIG_FILE false with
  | inl status => Done (mk_result status k o st [] [])
  | inr (config_path, verbose) =>
      cfg ← load_config config_path (files config_path) verbose;
      v ← app_config_validate (Some cfg);
      if v <? 0 then Done (mk_result EXIT_FAILURE k o st [] [])
      else if negb signals_ok then Done (mk_result EXIT_FAILURE k o st [] [])
      else
        '(r, k) ← apply_network le cfg k;
        if r <? 0 then Done (mk_result EXIT_FAILURE k o st [] [])
        else
          '(r, cmds) ← apply_security le system cfg;
          if r <? 0 then Done (mk_result EXIT_FAILURE k o st cmds [])
          else
            let '(_, st, o) := apply_realtime cfg st o in
            '(st, o, events) ← serve S inputs cfg st o;
            Done (mk_result EXIT_SUCCESS k o st cmds events)
  end.
End main.

Lemma int_incr_ok i : i < 2 ^ 31 - 1 -> int_incr i = Done (i + 1).
Proof. intros Hi%Z.ltb_lt. unfold int_incr. by rewrite Hi. Qed.

(** ** The device start *)
Section start.
Context {net : Type} {S : PnetStack net}.

(** A start that succeeds leaves a live device with a stack behind it. *)
Lemma start_live (dev dev' : io_device_t net) : io_device_start (Some dev) = Done (0, Some dev') ->
  state dev' = IO_DEVICE_STATE_CONNECTED /\ is_Some (pnet_handle dev') /\
  cycle_count dev' = cycle_count dev /\ error_count dev' = error_count dev.
Proof using.
  cbn [io_device_start]. destruct (negb _); [done|].
  destruct (build_pnet_cfg (config dev)) as [p|]; [|done]. cbn [mbind exec_bind].
  destruct (pnet_init p) as [n|]; [|done].
  destruct (plug_all_modules n) as [[r n']|]; [|done]. cbn [mbind exec_bind].
  destruct (r =? 0); [|done]. intros [= <-]. by repeat split.
Qed.

Lemma start_returns (dev : io_device_t net) r dev' :
  io_device_start (Some dev) = Done (r, dev') -> (r = 0 \/ r = -1) /\ is_Some dev'.
Proof using.
  cbn [io_device_start]. destruct (negb _); [intros [= <- <-]; eauto|].
  destruct (build_pnet_cfg (config dev)) as [p|]; [|done]. cbn [mbind exec_bind].
  destruct (pnet_init p) as [n|]; [|intros [= <- <-]; eauto].
  destruct (plug_all_modules n) as [[x n']|]; [|done]. cbn [mbind exec_bind].
  destruct (x =? 0); intros [= <- <-]; eauto.
Qed.

Lemma init_and_start_cases cfg r (dev : io_device_t net) :
  device_init_and_start S cfg = Done (r, dev) ->
  r = 0 /\ state dev = IO_DEVICE_STATE_CONNECTED /\ is_Some (pnet_handle dev) /\
    cycle_count dev = 0 /\ error_count dev = 0 \/
  r = -1 /\ dev = zero_device.
Proof using.
  unfold device_init_and_start. cbn [io_device_init]. change (0 <? 0) with false. cbv iota.
  destruct (io_device_start _) as [[r0 dev0]|] eqn:E; [|done]. cbn [mbind exec_bind].
  destruct (start_returns _ _ _ E) as [[-> | ->] [d ->]]; intros [= <- <-]; [left|by right].
  destruct (start_live _ _ E) as (? & ? & ? & ?). done.
Qed.

Lemma init_and_start_defined (Ok : PnetStackOk net) cfg : device_cfg_ok cfg ->
  exists r dev, device_init_and_start S cfg = Done (r, dev).
Proof using.
  intros Hc. unfold device_init_and_start. cbn [io_device_init]. change (0 <? 0) with false. cbv iota.
  set (d := mk_device _ _ _ _ _ _ _ _ _ _).
  assert (device_inv d) as Hinv by (apply (init_inv zero_device cfg 0); done).
  destruct (start_cases d Hinv) as [[_ ->]|(_ & _ & [->|(n & _ & [->| ->])])]; cbn [mbind exec_bind];
    by eexists _, _.
Qed.
End start.

(** ** The loop of a started device *)
Section loop_proofs.
Context {net : Type}.
Implicit Types (cfg : app_config_t) (st : loop_state net).

Definition running (dev : io_device_t net) : Prop :=
  live (state dev) /\ is_Some (pnet_handle dev) /\ in_u 64 (cycle_count dev).

Definition is_ping (e : loop_event) : bool :=
  match e with WatchdogPing _ => true | _ => false end.
Definition no_pings (events : list loop_event) : list loop_event :=
  List.filter (fun e => negb (is_ping e)) events.

(** The watchdog part of an iteration. *)
Definition watchdog (now last : Z) : Z * list loop_event :=
  if WATCHDOG_PING_MS <=? u64 (now - last) then (now, [WatchdogPing now]) else (last, []).

Lemma no_pings_watchdog now last l : no_pings ((watchdog now last).2 ++ l) = no_pings l.
Proof using. unfold no_pings, watchdog. by destruct (_ <=? _). Qed.

Lemma no_pings_cons e l : no_pings (e :: l) = if is_ping e then no_pings l else e :: no_pings l.
Proof using. unfold no_pings. cbn [List.filter]. by destruct (is_ping e). Qed.

Lemma no_pings_app l k : no_pings (l ++ k) = no_pings l ++ no_pings k.
Proof using. apply List.filter_app. Qed.

Lemma running_iteration (S : PnetStack net) now cfg st : running (lp_device st) ->
  exists dev', running dev' /\ cycle_count dev' = u64 (cycle_count (lp_device st) + 1) /\
    error_count dev' = error_count (lp_device st) /\
    loop_iteration S now cfg st =
      Done (mk_loop dev' 0 0 RECOVERY_BACKOFF_BASE (watchdog now (last_watchdog_ms st)).1,
            (watchdog now (last_watchdog_ms st)).2 ++ [Usleep (tick_us (device cfg))]).
Proof using.
  intros (Hl & [n Hn] & Hc).
  assert (state (lp_device st) <> IO_DEVICE_STATE_ERROR) as He by (by destruct Hl as [->| ->]).
  destruct (pnet_handle_periodic n) as [n' inds] eqn:Hp.
  unfold loop_iteration. rewrite (tick_eq _ _ _ _ Hn He Hp). cbn [default].
  eexists. split; [|split; [|split; [|]]]; cycle 3.
  - cbn [mbind exec_bind Z.eqb last_watchdog_ms lp_device consecutive_errors recovery_attempts
      backoff_us]. unfold watchdog. by destruct (_ <=? _).
  - split; [by apply last_event_live|]. split; [by eexists|]. apply (wrapu_range 64). lia.
  - done.
  - done.
Qed.

(** A run of a live device. *)
Lemma running_loop cfg (inputs : list (PnetStack net * Z)) : forall st,
  running (lp_device st) -> consecutive_errors st = 0 -> recovery_attempts st = 0 ->
  backoff_us st = RECOVERY_BACKOFF_BASE ->
  exists st' events, loop_run inputs cfg st = Done (st', events) /\
    running (lp_device st') /\
    consecutive_errors st' = 0 /\ recovery_attempts st' = 0 /\
    backoff_us st' = RECOVERY_BACKOFF_BASE /\
    error_count (lp_device st') = error_count (lp_device st) /\
    cycle_count (lp_device st') = u64 (cycle_count (lp_device st) + zlen inputs) /\
    no_pings events = replicate (length inputs) (Usleep (tick_us (device cfg))).
Proof using.
  induction inputs as [|[stack now] inputs IH]; intros st Hrun H1 H2 H3.
  - exists st, []. cbn [loop_run]. split_and!; try done.
    change (zlen []) with 0. rewrite Z.add_0_r. unfold u64. by rewrite wrapu_small by apply Hrun.
  - destruct (running_iteration stack now cfg st Hrun) as (dev' & Hrun' & Hc' & He' & Hit).
    cbn [loop_run]. rewrite Hit. cbn [mbind exec_bind].
    edestruct IH as (st' & ev & -> & ? & ? & ? & ? & He & Hcy & Hev); [exact Hrun'|done..|].
    cbn [mbind exec_bind]. eexists st', _. split; [done|]. split_and!; try done.
    + rewrite He. exact He'.
    + rewrite Hcy. cbn [lp_device]. rewrite Hc', zlen_cons. unfold u64, wrapu.
      rewrite Zplus_mod_idemp_l. f_equal. lia.
    + rewrite <-app_assoc, no_pings_watchdog. unfold no_pings in *. cbn [app List.filter negb is_ping].
      by rewrite Hev.
Qed.

Lemma started_running (S : PnetStack net) c (dev : io_device_t net) :
  device_init_and_start S c = Done (0, dev) ->
  running dev /\ cycle_count dev = 0 /\ error_count dev = 0.
Proof using.
  intros H. destruct (init_and_start_cases _ _ _ H) as [(_ & Hs & Hh & Hc & He)|[? _]]; [|done].
  split; [|done]. split; [by left|]. split; [done|]. by rewrite Hc.
Qed.

(** Once the device has started, the recovery path of the main loop is
    dead code: whatever the stack does in each period (even a different stack
    each time) and whatever the clock shows, every iteration succeeds, no
    error is counted and no recovery is attempted; the loop sleeps one tick
    per iteration, the device stays live and has counted the iterations. *)
Theorem recovery_unreachable (S : PnetStack net) cfg (dev : io_device_t net)
    (inputs : list (PnetStack net * Z)) :
  device_init_and_start S (device cfg) = Done (0, dev) ->
  exists st events, loop_run inputs cfg (initial_loop dev) = Done (st, events) /\
    consecutive_errors st = 0 /\ recovery_attempts st = 0 /\
    backoff_us st = RECOVERY_BACKOFF_BASE /\
    live (state (lp_device st)) /\ error_count (lp_device st) = 0 /\
    cycle_count (lp_device st) = u64 (zlen inputs) /\
    no_pings events =
      replicate (length inputs) (Usleep (tick_us (device cfg))).
Proof using.
  intros (Hrun & Hc & He)%started_running.
  destruct (running_loop cfg inputs (initial_loop dev) Hrun)
    as (st & ev & ? & [? _] & ? & ? & ? & He' & Hcy & ?); try done.
  exists st, ev. rewrite Hcy, He'. cbn [initial_loop lp_device]. by rewrite Hc, He.
Qed.

(** A device on which every tick fails. *)
Definition dead (dev : io_device_t net) : Prop :=
  pnet_handle dev = None \/ state dev = IO_DEVICE_STATE_ERROR.

Lemma dead_tick (S : PnetStack net) dev : dead dev -> io_device_tick (Some dev) = (-1, Some dev).
Proof using.
  intros [H|H]; cbn [io_device_tick].
  - by rewrite H.
  - rewrite bool_decide_eq_true_2 by done. by destruct (pnet_handle dev).
Qed.

(** The wait before the recovery attempt number [i], counting from 0. *)
Definition backoff_after (i : Z) : Z := Z.min (RECOVERY_BACKOFF_BASE * 2 ^ i) RECOVERY_BACKOFF_MAX.

Lemma backoff_step i : 0 <= i ->
  (if RECOVERY_BACKOFF_MAX <? u32 (backoff_after i * 2) then RECOVERY_BACKOFF_MAX
   else u32 (backoff_after i * 2)) = backoff_after (i + 1).
Proof using.
  intros Hi. unfold backoff_after, RECOVERY_BACKOFF_BASE, RECOVERY_BACKOFF_MAX.
  rewrite Z.pow_add_r by lia. change (2 ^ 1) with 2.
  assert (0 < 2 ^ i) by (apply Z.pow_pos_nonneg; lia).
  unfold u32. rewrite wrapu_small by (split; [lia|change (2 ^ 32) with 4294967296; lia]).
  destruct (Z.ltb_spec 30000000 (Z.min (1000000 * 2 ^ i) 30000000 * 2)); lia.
Qed.

(** An iteration on a dead device. *)
Lemma dead_iteration (S : PnetStack net) now cfg st r dev' :
  dead (lp_device st) -> device_init_and_start S (device cfg) = Done (r, dev') ->
  consecutive_errors st < 2 ^ 31 - 1 -> recovery_attempts st < 2 ^ 31 - 1 ->
  loop_iteration S now cfg st =
    let w := watchdog now (last_watchdog_ms st) in
    let errors := consecutive_errors st + 1 in
    if errors <? 5 then
      Done (mk_loop (set_error_count (u64 (error_count (lp_device st) + 1)) (lp_device st)) errors
              (recovery_attempts st) (backoff_us st) w.1, w.2 ++ [Usleep (tick_us (device cfg))])
    else
      Done (mk_loop dev' (if r =? 0 then 0 else errors) (recovery_attempts st + 1)
              (if RECOVERY_BACKOFF_MAX <? u32 (backoff_us st * 2) then RECOVERY_BACKOFF_MAX
               else u32 (backoff_us st * 2)) w.1,
            [Usleep (backoff_us st); Recovery (recovery_attempts st + 1) (r =? 0)] ++
            w.2 ++ [Usleep (tick_us (device cfg))]).
Proof using.
  intros Hd Hs He Ha. unfold loop_iteration. rewrite dead_tick by done. cbn [default].
  change (-1 =? 0) with false. cbv iota. unfold tick_failed.
  cbn [lp_device consecutive_errors recovery_attempts backoff_us last_watchdog_ms].
  rewrite !int_incr_ok by done. cbn [mbind exec_bind].
  change (0 <? MAX_CONSECUTIVE_ERRORS) with true. cbn [andb]. unfold MAX_CONSECUTIVE_ERRORS.
  rewrite Z.leb_antisym. unfold watchdog.
  destruct (_ <? 5); cbn [negb].
  - cbn [mbind exec_bind lp_device consecutive_errors recovery_attempts backoff_us last_watchdog_ms].
    by destruct (WATCHDOG_PING_MS <=? _).
  - rewrite Hs. cbn [mbind exec_bind lp_device consecutive_errors recovery_attempts backoff_us
      last_watchdog_ms]. by destruct (WATCHDOG_PING_MS <=? _).
Qed.

Lemma loop_run_app inputs inputs' cfg st :
  loop_run (inputs ++ inputs') cfg st =
  '(st, e1) ← loop_run inputs cfg st; '(st, e2) ← loop_run inputs' cfg st; Done (st, e1 ++ e2).
Proof using.
  revert st. induction inputs as [|[S now] inputs IH]; intros st; cbn [app loop_run].
  - cbn [mbind exec_bind]. by destruct (loop_run inputs' cfg st) as [[]|].
  - destruct (loop_iteration S now cfg st) as [[st1 e1]|]; [|done]. cbn [mbind exec_bind].
    rewrite IH. destruct (loop_run inputs cfg st1) as [[st2 e2]|]; [|done]. cbn [mbind exec_bind].
    destruct (loop_run inputs' cfg st2) as [[st3 e3]|]; [|done]. cbn [mbind exec_bind].
    by rewrite app_assoc.
Qed.

(** What the loop does in its iteration number [i] on a dead device. *)
Definition dead_events cfg (i : nat) : list loop_event :=
  if (i <? 4)%nat then [Usleep (tick_us (device cfg))]
  else let k := Z.of_nat i - 4 in
       [Usleep (backoff_after k); Recovery (k + 1) false; Usleep (tick_us (device cfg))].

(** C15: The recovery schedule.  On a device whose ticks fail and that cannot
    be restarted, the loop counts four errors, then attempts a recovery in
    every iteration, numbered from 1, after waiting 1, 2, 4, 8, 16 and then
    always 30 seconds; it never gives up.  After [n] iterations the counters
    are [n] errors and [n - 4] attempts.  The first start that succeeds
    afterwards puts the new device in place and resets the error count (the
    statistics of the old device are lost with it). *)
Theorem recovery_schedule cfg dev (inputs : list (PnetStack net * Z)) :
  dead dev -> zlen inputs < 2 ^ 31 - 1 ->
  Forall (fun i => exists d, device_init_and_start i.1 (device cfg) = Done (-1, d)) inputs ->
  let n := zlen inputs in
  exists st events, loop_run inputs cfg (initial_loop dev) = Done (st, events) /\
    dead (lp_device st) /\
    consecutive_errors st = n /\ recovery_attempts st = Z.max 0 (n - 4) /\
    backoff_us st = backoff_after (Z.max 0 (n - 4)) /\
    no_pings events = concat (dead_events cfg <$> seq 0 (length inputs)) /\
    (forall S now dev', 4 <= n -> device_init_and_start S (device cfg) = Done (0, dev') ->
     exists st' events', loop_iteration S now cfg st = Done (st', events') /\
       lp_device st' = dev' /\ error_count dev' = 0 /\ consecutive_errors st' = 0 /\
       no_pings events' = [Usleep (backoff_after (n - 4)); Recovery (n - 3) true;
                           Usleep (tick_us (device cfg))]).
Proof using.
  intros Hdead Hn Hfail n.
  assert (exists st events, loop_run inputs cfg (initial_loop dev) = Done (st, events) /\
    dead (lp_device st) /\
    consecutive_errors st = n /\ recovery_attempts st = Z.max 0 (n - 4) /\
    backoff_us st = backoff_after (Z.max 0 (n - 4)) /\
    no_pings events = concat (dead_events cfg <$> seq 0 (length inputs)))
    as (st & events & Hrun & Hd & He & Ha & Hb & Hev).
  { subst n. induction inputs as [|[S now] inputs IH] using rev_ind; [by exists (initial_loop dev), []|].
    apply Forall_app in Hfail as [Hf [[d Hs] _]%Forall_cons]. rewrite zlen_app in *.
    change (zlen [(S, now)]) with 1 in *. pose proof (zlen_nonneg inputs).
    destruct IH as (st & ev & Hrun & Hd & He & Ha & Hb & Hev); [lia|done|].
    pose proof (dead_iteration S now cfg st (-1) d Hd Hs ltac:(lia) ltac:(lia)) as Hit.
    rewrite loop_run_app, Hrun. cbn [mbind exec_bind loop_run]. rewrite Hit. cbv zeta.
    rewrite length_app, seq_app, fmap_app, concat_app. cbn [length seq fmap list_fmap concat app].
    unfold dead_events at 2. rewrite Nat.add_0_l, app_nil_r, <-Hev.
    assert (Z.of_nat (length inputs) = zlen inputs) as Hl by done.
    destruct (Z.ltb_spec (consecutive_errors st + 1) 5) as [Hlt|Hge]; cbn [mbind exec_bind];
      eexists _, _; (split; [done|]);
      cbn [lp_device consecutive_errors recovery_attempts backoff_us].
    - split; [exact Hd|]. split; [lia|]. split; [lia|].
      split; [rewrite Hb; f_equal; lia|]. rewrite app_nil_r, no_pings_app, no_pings_watchdog.
      destruct (Nat.ltb_spec (length inputs) 4); [done|lia].
    - destruct (init_and_start_cases _ _ _ Hs) as [[? _]|[_ ->]]; [done|].
      split; [by left|]. split; [change (-1 =? 0) with false; cbv iota; lia|]. split; [lia|].
      split; [rewrite Hb, backoff_step by lia; f_equal; lia|].
      rewrite app_nil_r, no_pings_app.
      destruct (Nat.ltb_spec (length inputs) 4); [lia|].
      f_equal. rewrite !no_pings_cons, no_pings_watchdog, Hb, Ha. cbn [is_ping].
      do 3 f_equal; try lia. }
  exists st, events. do 6 (split; [done|]). intros S now dev' Hn4 Hs.
  pose proof (dead_iteration S now cfg st 0 dev' Hd Hs ltac:(lia) ltac:(lia)) as Hit.
  destruct (init_and_start_cases _ _ _ Hs) as [(_ & _ & _ & _ & Hec)|[? _]]; [|done].
  rewrite Hit. cbv zeta. cbn [app]. rewrite (proj2 (Z.ltb_ge _ _)) by lia. eexists _, _. split; [done|].
  cbn [lp_device consecutive_errors]. do 3 (split; [done|]).
  rewrite !no_pings_cons, no_pings_watchdog, Hb, Ha. cbn [is_ping].
  do 3 f_equal; try (f_equal; lia). 
Qed.

(** The clock of the pings among the events. *)
Definition ping_times (events : list loop_event) : list Z :=
  omap (fun e => match e with WatchdogPing t => Some t | _ => None end) events.

(** [P] between neighbours of [t :: l]. *)
Fixpoint neighbours (P : Z -> Z -> Prop) (t : Z) (l : list Z) : Prop :=
  match l with [] => True | t' :: l => P t t' /\ neighbours P t' l end.

Lemma ping_times_app l k : ping_times (l ++ k) = ping_times l ++ ping_times k.
Proof using. apply omap_app. Qed.

(** An iteration handles the watchdog the same way whatever happened before. *)
Lemma iteration_watchdog (S : PnetStack net) now cfg st st' ev :
  loop_iteration S now cfg st = Done (st', ev) ->
  last_watchdog_ms st' = (watchdog now (last_watchdog_ms st)).1 /\
  ping_times ev = ping_times (watchdog now (last_watchdog_ms st)).2.
Proof using.
  unfold loop_iteration, watchdog. destruct (io_device_tick _) as [rc dev].
  intros ([st1 ev1] & Hst & H)%exec_bind_inv.
  assert (last_watchdog_ms st1 = last_watchdog_ms st /\ ping_times ev1 = []) as [<- Hp].
  { destruct (rc =? 0); [by injection Hst as <- <-|]. unfold tick_failed in Hst.
    apply exec_bind_inv in Hst as (e & _ & Hst). destruct (_ && _); [|by injection Hst as <- <-].
    apply exec_bind_inv in Hst as (a & _ & ([r d] & _ & [= <- <-])%exec_bind_inv). done. }
  destruct (_ <=? _); injection H as <- <-; split; try done; by rewrite ping_times_app, Hp.
Qed.

Lemma watchdog_run (d : Z) cfg (inputs : list (PnetStack net * Z)) : forall t st st' ev,
  0 <= last_watchdog_ms st <= t -> t - last_watchdog_ms st < WATCHDOG_PING_MS ->
  neighbours (fun a b => a <= b <= a + d) t inputs.*2 -> Forall (fun i => i.2 < 2 ^ 64) inputs ->
  loop_run inputs cfg st = Done (st', ev) ->
  neighbours (fun a b => WATCHDOG_PING_MS <= b - a < WATCHDOG_PING_MS + d)
    (last_watchdog_ms st) (ping_times ev) /\
  List.last inputs.*2 t - List.last (ping_times ev) (last_watchdog_ms st) < WATCHDOG_PING_MS.
Proof using.
  induction inputs as [|[S now] inputs IH]; intros t st st' ev Hlast Hfresh Hclock Hbound;
    cbn [loop_run].
  - intros [= <- <-]. split; [done|exact Hfresh].
  - intros ([st1 e1] & Hit & ([st2 e2] & Hrun & [= <- <-])%exec_bind_inv)%exec_bind_inv.
    apply Forall_cons in Hbound as [Hb Hbound]. cbn in Hb.
    cbn [fmap list_fmap snd neighbours] in Hclock |- *. destruct Hclock as [Hstep Hclock].
    destruct (iteration_watchdog _ _ _ _ _ _ Hit) as [Hl1 Hp1].
    rewrite ping_times_app, Hp1. unfold watchdog in *.
    unfold u64 in *. rewrite wrapu_small in * by (split; lia).
    assert (forall x (a b : list Z), List.last (a ++ b) x = List.last b (List.last a x)) as Hla.
    { clear. intros x a b. destruct b as [|y b]; [by rewrite app_nil_r|].
      revert y. induction b as [|z b IH] using rev_ind; intros y; [by rewrite !last_last|].
      rewrite (app_comm_cons b), (app_assoc a). by rewrite !last_last. }
    assert (List.last (now :: inputs.*2) t = List.last inputs.*2 now) as ->.
    { change (now :: inputs.*2) with ([now] ++ inputs.*2). apply Hla. }
    destruct (Z.leb_spec WATCHDOG_PING_MS (now - last_watchdog_ms st)) as [Hping|Hno];
      cbn [fst snd] in *.
    + destruct (IH now st1 st2 e2) as [Hn Hf]; try done; [lia| |].
      { rewrite Hl1. unfold WATCHDOG_PING_MS. lia. }
      rewrite Hl1 in Hn, Hf. rewrite Hla. cbn. split; [|exact Hf]. split; [lia|exact Hn].
    + destruct (IH now st1 st2 e2) as [Hn Hf]; try done; [lia|lia|].
      rewrite Hl1 in Hn, Hf. done.
Qed.

(** C16: The watchdog is fed in time.  Whatever the stack does, including
    failures and recoveries, and whatever the device is: if the clock shows
    an uptime of 15 seconds or more at the end of the first iteration and
    advances by at most [d] milliseconds per iteration, the first iteration
    pings, two pings are at least 15 seconds and less than 15 seconds plus
    [d] apart, and at the end of every run the last ping is less than 15
    seconds old. *)
Theorem watchdog_gaps (d : Z) (S : PnetStack net) t0 (inputs : list (PnetStack net * Z)) cfg dev st ev :
  WATCHDOG_PING_MS <= t0 < 2 ^ 64 -> Forall (fun i => i.2 < 2 ^ 64) inputs ->
  neighbours (fun a b => a <= b <= a + d) t0 inputs.*2 ->
  loop_run ((S, t0) :: inputs) cfg (initial_loop dev) = Done (st, ev) ->
  exists pings, ping_times ev = t0 :: pings /\
    neighbours (fun a b => WATCHDOG_PING_MS <= b - a < WATCHDOG_PING_MS + d) t0 pings /\
    List.last inputs.*2 t0 - List.last pings t0 < WATCHDOG_PING_MS.
Proof using.
  intros Ht0 Hb Hc ([st1 e1] & Hit & ([st2 e2] & Hrun & [= <- <-])%exec_bind_inv)%exec_bind_inv.
  assert (0 < WATCHDOG_PING_MS) by done.
  destruct (iteration_watchdog _ _ _ _ _ _ Hit) as [Hl1 Hp1]. unfold watchdog in *.
  cbn [initial_loop last_watchdog_ms] in *. rewrite Z.sub_0_r in *.
  unfold u64 in *. rewrite wrapu_small in * by (split; lia).
  rewrite (proj2 (Z.leb_le _ _)) in * by lia. cbn [fst snd] in *.
  destruct (watchdog_run d cfg inputs t0 st1 st2 e2) as [Hn Hf]; try done; [lia|lia|].
  rewrite Hl1 in Hn, Hf. exists (ping_times e2). by rewrite ping_times_app, Hp1.
Qed.
End loop_proofs.

(** ** The configuration the program runs with *)

(** What start-up relies on. *)
Record usable (c : app_config_t) : Prop := {
  us_interface : field_ok 16 (interface_name (device c));
  us_device : device_cfg_ok (device c);
  us_addresses : in_u 32 (ip_addr (device c)) /\ in_u 32 (netmask (device c));
  us_network : nc_ip_addr (network c) = ip_addr (device c) /\
               nc_netmask (network c) = netmask (device c);
  us_security : security c = zero_policy;
}.

Lemma wf_usable c : config_wf c -> unsaved_default c -> usable c.
Proof.
  intros Hwf (_ & _ & Hs & _). destruct (wf_device_ok c Hwf) as [Hd _].
  destruct Hwf as [_ _ Hi _ _ _ (? & ? & _) _ _ _ Hn]. constructor; try done. by rewrite Hn.
Qed.

Lemma load_config_usable path file verbose : text path ->
  exists c, load_config path file verbose = Done c /\ usable c.
Proof.
  intros Hp. assert (forall c, usable c -> usable (if verbose then set_log_level 3 c else c)) as Hv.
  { intros c []. by destruct verbose; constructor. }
  unfold load_config. destruct file as [file|].
  - destruct (load_done zero_config path file Hp) as (c & -> & Hwf & Hu). cbn [mbind exec_bind].
    change (0 <? 0) with false. cbv iota. cbn [mbind exec_bind default].
    eexists. split; [done|]. by apply Hv, wf_usable.
  - cbn [app_config_load mbind exec_bind]. change (-1 <? 0) with true. cbv iota.
    destruct default_done as [c Hc]. destruct (default_wf c Hc) as [Hwf Hu].
    rewrite Hc. cbn [mbind exec_bind].
    destruct (snprintf_at_defined (config_file c) 0 path) as (b & -> & _);
      [pose proof (zlen_nonneg (config_file c)); lia|].
    cbn [mbind exec_bind]. eexists. split; [done|]. apply Hv.
    destruct (wf_usable c Hwf Hu). by constructor.
Qed.

(** The interface's name as the functions of the network component use it. *)
Definition iface_name (c : app_config_t) : list ascii := c_str (interface_name (device c)).

Lemma usable_iface c : usable c ->
  read_str (interface_name (device c)) = Done (iface_name c) /\ text (iface_name c) /\
  take 15 (iface_name c) = iface_name c.
Proof.
  intros [[E Hl] _ _ _ _]. unfold iface_name.
  split; [by apply read_str_ok; rewrite E; apply to_array_terminated|].
  split; [apply text_c_str|]. apply take_ge. lia.
Qed.

(** ** The firewall *)

(** The script of an empty rule table. *)
Definition empty_script : list ascii :=
  lit "#!/bin/bash" ++ [nl] ++ lit "# Auto-generated PROFINET security policy" ++ [nl] ++
  lit "# Rule count: 0" ++ [nl; nl] ++ lit "set -e" ++ [nl; nl] ++
  lit "echo " ++ [dquote] ++ lit "PROFINET security policy applied: 0 rules" ++ [dquote; nl].

Lemma apply_security_eq le system c : usable c ->
  apply_security le system c =
    Done (if security_enabled c
          then (if system empty_script =? 0 then 0 else -1,
                [lit "iptables -F PNET_CHAIN 2>/dev/null"; empty_script])
          else (0, [])).
Proof.
  intros [_ _ _ _ Hs]. unfold apply_security. rewrite Hs.
  destruct (security_enabled c); [|done]. cbn [negb].
  change zero_policy with (policy_of [] false).
  rewrite policy_apply_eq by (done || (unfold table_ok; simpl; lia)).
  change (script_text []) with empty_script. change (4096 <=? zlen empty_script) with false.
  cbv iota. cbn [mbind exec_bind]. by destruct (_ =? 0).
Qed.

(** ** Start-up, run and shutdown *)
Section main_proofs.
Context {net K O : Type} {le : bool} {NK : NetKernel K} {NKOk : NetKernelOk le K}
  {OS : RtOs O} {OOk : RtOsOk O}.
Implicit Types (cfg : app_config_t) (k : K) (o : O) (st : rt_state).

(** The interface after a successful start-up, against the one before. *)
Definition configured cfg (v : if_view) : Prop :=
  v_addr v = addr_octets le (ip_addr (device cfg)) /\
  v_mask v = addr_octets le (netmask (device cfg)) /\ Z.testbit (v_flags v) 0 = true.

(** [sets] as a change of one entry of the table. *)
Lemma sets_other name R k r k' : sets name R k (r, k') ->
  forall other, other <> take 15 name -> ifs k' !! other = ifs k !! other.
Proof using.
  intros [_ [[_ ->]|(_ & v & v' & _ & -> & _)]] other Hne; [done|by rewrite lookup_insert_ne].
Qed.

Lemma apply_network_spec cfg k : usable cfg ->
  exists r k', apply_network le cfg k = Done (r, k') /\ open_fds k' = open_fds k /\
    (forall other, other <> iface_name cfg -> ifs k' !! other = ifs k !! other) /\
    (r = -1 \/ r = 0 /\ exists v, ifs k' !! iface_name cfg = Some v /\ configured cfg v).
Proof using NKOk.
  intros Hu. destruct (usable_iface cfg Hu) as (Hr & Ht & Htake).
  destruct Hu as [_ _ _ [Hip Hmask] _].
  unfold apply_network. rewrite Hr, Hip, Hmask. cbn [mbind exec_bind].
  pose proof (set_ip_spec (iface_name cfg) (ip_addr (device cfg)) k Ht) as H1.
  destruct (net_if_set_ip _ _ _ _) as [r1 k1]. pose proof (sets_other _ _ _ _ _ H1) as O1.
  destruct H1 as [F1 H1]. rewrite Htake in H1, O1.
  destruct H1 as [[-> V1]|(-> & v & v1 & L1 & I1 & _ & A1)]; cbn [Z.ltb Z.compare].
  { exists (-1), k1. split; [done|]. split; [done|]. split; [done|by left]. }
  pose proof (set_netmask_spec (iface_name cfg) (netmask (device cfg)) k1 Ht) as H2.
  destruct (net_if_set_netmask _ _ _ _) as [r2 k2]. pose proof (sets_other _ _ _ _ _ H2) as O2.
  destruct H2 as [F2 H2]. rewrite Htake in H2, O2.
  destruct H2 as [[-> V2]|(-> & w & v2 & L2 & I2 & _ & A2 & M2 & _)]; cbn [Z.ltb Z.compare].
  { exists (-1), k2. split; [done|]. split; [congruence|]. split; [|by left].
    intros. by rewrite O2, O1. }
  pose proof (set_up_spec (iface_name cfg) k2 Ht) as H3.
  destruct (net_if_set_up _ _ _) as [r3 k3]. pose proof (sets_other _ _ _ _ _ H3) as O3.
  destruct H3 as [F3 H3]. rewrite Htake in H3, O3.
  destruct H3 as [[-> V3]|(-> & x & v3 & L3 & I3 & _ & A3 & M3 & U3 & _)]; cbn [Z.ltb Z.compare].
  { exists (-1), k3. split; [done|]. split; [congruence|]. split; [|by left].
    intros. by rewrite O3, O2, O1. }
  exists 0, k3. split; [done|]. split; [congruence|].
  split; [intros; by rewrite O3, O2, O1|]. right. split; [done|]. exists v3.
  rewrite I1, lookup_insert in L2. rewrite I2, lookup_insert in L3. rewrite I3, lookup_insert.
  rewrite decide_True in L2, L3 |- * by done. injection L2 as <-. injection L3 as <-.
  split; [done|]. unfold addr_set in A1. split; [congruence|]. split; [congruence|done].
Qed.

Lemma restore_done st o : g_rt_initialized (rt_setup_restore st o).1 = false.
Proof using. unfold rt_setup_restore. by destruct (g_rt_initialized st) eqn:E. Qed.

(** What is left of the host and the real-time state when serving ends. *)
Definition after_serve cfg st o : rt_state * O :=
  if realtime_enabled cfg then rt_setup_restore st o else (st, o).

(** Serving ends whatever the stack does, and the stack decides about the
    events only. *)
Lemma serve_done (S : PnetStack net) (SOk : PnetStackOk net) inputs cfg st o : usable cfg ->
  exists events, serve S inputs cfg st o = Done (after_serve cfg st o, events).
Proof using.
  intros Hu. unfold serve, after_serve.
  destruct (init_and_start_defined SOk (device cfg) (us_device _ Hu)) as (r & dev & E).
  rewrite E. cbn [mbind exec_bind].
  destruct (init_and_start_cases _ _ _ E) as [(-> & _)|[-> _]]; cbn [Z.ltb Z.compare].
  - destruct (started_running _ _ _ E) as (Hrun & _).
    destruct (running_loop cfg inputs (initial_loop dev) Hrun) as (lp & ev & -> & _); try done.
    cbn [mbind exec_bind]. destruct (realtime_enabled cfg); [destruct (rt_setup_restore st o)|];
      by eexists.
  - cbn [mbind exec_bind]. destruct (realtime_enabled cfg); [destruct (rt_setup_restore st o)|];
      by eexists.
Qed.

Lemma serve_inv (S : PnetStack net) inputs cfg st o res events :
  serve S inputs cfg st o = Done (res, events) -> res = after_serve cfg st o.
Proof using.
  unfold serve, after_serve. intros ([r dev] & _ & (ev & _ & H)%exec_bind_inv)%exec_bind_inv.
  destruct (realtime_enabled cfg); [destruct (rt_setup_restore st o)|]; by injection H as <- _.
Qed.

(** Command line arguments are strings. *)
Definition args_text (opts : list getopt_result) : Prop :=
  Forall (fun a => match a with Opt_c s => text s | _ => True end) opts.

Lemma parse_args_text opts : forall path verbose path' verbose', args_text opts -> text path ->
  parse_args opts path verbose = inr (path', verbose') -> text path'.
Proof using.
  induction opts as [|[] opts IH]; intros path verbose path' verbose' Ha Hp; cbn [parse_args];
    [by intros [= <- _]| | |done|done]; apply Forall_cons in Ha as [? Ha]; by apply IH.
Qed.

Lemma parse_args_status opts path verbose status :
  parse_args opts path verbose = inl status -> status = EXIT_SUCCESS \/ status = EXIT_FAILURE.
Proof using.
  revert path verbose. induction opts as [|[] opts IH]; intros path verbose; cbn [parse_args];
    [done|apply IH|apply IH|intros [= <-]; by left|intros [= <-]; by right].
Qed.

(** [cfg] is the configuration the arguments select. *)
Definition run_with opts (files : list ascii -> option (list ascii)) cfg : Prop :=
  exists path verbose, parse_args opts DEFAULT_CONFIG_FILE false = inr (path, verbose) /\
    load_config path (files path) verbose = Done cfg.

(** The two ways the program ends: before the real-time set-up, or after
    having served with a usable and validated configuration. *)
Lemma main_cases (S : PnetStack net) (SOk : PnetStackOk net) opts files signals_ok system inputs k o :
  args_text opts ->
  exists res, main le opts files signals_ok system S inputs k o = Done res /\
    open_fds (res_kernel res) = open_fds k /\
    ((exit_status res = EXIT_SUCCESS \/ exit_status res = EXIT_FAILURE) /\
       res_os res = o /\ res_rt res = initial_rt_state /\ res_events res = [] \/
     exit_status res = EXIT_SUCCESS /\ exists cfg v, usable cfg /\ run_with opts files cfg /\
       (realtime_enabled cfg = true -> 1 <= rt_priority (realtime cfg) <= 99) /\
       ifs (res_kernel res) !! iface_name cfg = Some v /\ configured cfg v /\
       (res_rt res, res_os res) =
         let '(_, st, o1) := apply_realtime cfg initial_rt_state o in after_serve cfg st o1).
Proof using NKOk.
  intros Ha. unfold main. destruct (parse_args opts _ false) as [status|[path verbose]] eqn:Hargs.
  { eexists. split; [done|]. split; [done|]. left. split; [by eapply parse_args_status|done]. }
  pose proof Hargs as Htext. apply parse_args_text in Htext; [|done|by apply text_lit_b; vm_compute].
  destruct (load_config_usable path (files path) verbose Htext) as (cfg & Hload & Hu).
  assert (run_with opts files cfg) as Hw by by exists path, verbose.
  rewrite Hload. cbn [mbind exec_bind].
  destruct (validate_returns cfg) as (v & -> & Hv).
  { pose proof (field_ok_length _ _ (us_interface _ Hu)) as Hl. intros E. by rewrite E in Hl. }
  cbn [mbind exec_bind].
  destruct Hv as [->|[-> Hprio]]; cbn [Z.ltb Z.compare].
  { eexists. split; [done|]. split; [done|]. left. split; [by right|done]. }
  destruct signals_ok; cbn [negb].
  2:{ eexists. split; [done|]. split; [done|]. left. split; [by right|done]. }
  destruct (apply_network_spec cfg k Hu) as (r & k' & -> & Hfds & _ & Hr). cbn [mbind exec_bind].
  destruct Hr as [->|[-> (w & Hif & Hc)]]; cbn [Z.ltb Z.compare].
  { eexists. split; [done|]. split; [done|]. left. split; [by right|done]. }
  rewrite apply_security_eq by done. cbn [mbind exec_bind].
  destruct (security_enabled cfg); [destruct (system empty_script =? 0)|]; cbn [Z.ltb Z.compare];
    [|eexists; split; [done|]; split; [done|]; left; split; [by right|done]|];
    destruct (apply_realtime cfg initial_rt_state o) as [[x st] o1] eqn:Hrt;
    destruct (serve_done S SOk inputs cfg st o1 Hu) as (ev & ->); cbn [mbind exec_bind];
    destruct (after_serve cfg st o1) as [st2 o2] eqn:Hs;
    (eexists; split; [done|]; split; [done|]; right; split; [done|]); exists cfg, w;
    rewrite Hrt; done.
Qed.

(** C1: The program always ends in order.  Whatever the arguments, the
    configuration file (absent, or any bytes), the kernel, the host, the
    commands' status, the stack and the clock do, the program never leaves a
    buffer, terminates once its loop is told to stop, closes every socket it
    opened, exits with 0 or 1, has no real-time set-up left pending, and if
    it exits with 1 it has neither touched the host nor run the device. *)
Theorem main_safe (S : PnetStack net) (SOk : PnetStackOk net) opts files signals_ok system inputs k o :
  args_text opts ->
  exists res, main le opts files signals_ok system S inputs k o = Done res /\
    (exit_status res = EXIT_SUCCESS \/ exit_status res = EXIT_FAILURE) /\
    open_fds (res_kernel res) = open_fds k /\
    g_rt_initialized (res_rt res) = false /\
    (exit_status res = EXIT_FAILURE -> res_os res = o /\ res_events res = []).
Proof using NKOk.
  intros Ha. destruct (main_cases S SOk opts files signals_ok system inputs k o Ha)
    as (res & E & Hfds & [(Hx & Ho & Hr & He)|(Hx & cfg & v & Hu & _ & Hp & _ & _ & Hrt)]);
    exists res; (split; [done|]).
  - split; [done|]. split; [done|]. by rewrite Hr.
  - split; [by left|]. split; [done|]. split; [|by rewrite Hx]. revert Hrt. unfold after_serve, apply_realtime.
    destruct (realtime_enabled cfg); cbn [negb].
    + destruct (rt_setup_init _ _) as [r st]. destruct (r <? 0); [|
        destruct (rt_setup_apply st o) as [[r2 st2] o2]; destruct (r2 <? 0)];
      intros E2; apply (f_equal fst) in E2; cbn [fst] in E2; rewrite E2; apply restore_done.
    + by intros [= -> _].
Qed.

(** What a real-time session resets instead of restoring it. *)
Definition reset_by (rt : rt_config_t) (h h2 : host) : Prop :=
  h_locked h2 = (if lock_memory rt then false else h_locked h) /\
  h_irqbalance h2 =
    (if disable_irq_balance rt && h_irq_installed h then true else h_irqbalance h) /\
  (isolate_cpu rt < 0 -> h_affinity h2 = h_affinity h) /\
  (0 <= isolate_cpu rt -> h_online h = cpu_set_of (cpus h) -> h_affinity h2 = h_online h).

(** C8: What a run leaves of the host.  On a host that grants the
    privileges, has an ordinary or real-time scheduler set, and all online
    CPUs under one governor, the program, whichever way it ends, leaves the
    scheduling policy and priority and every governor file as they were
    before.  The rest of the host is either exactly as it was, or the program
    ran with the loaded configuration and its real-time part enabled, and then
    what that part switched is reset, not restored: memory it locked ends
    unlocked, irqbalance ends running, the affinity ends at all CPUs; what
    it did not switch is as it was. *)
Theorem main_restores_host (S : PnetStack net) (SOk : PnetStackOk net) opts files signals_ok system
    inputs k o g0 :
  args_text opts -> h_allowed (host_of o) = true ->
  valid_sched (h_sched (host_of o)).1 (h_sched (host_of o)).2 ->
  h_online (host_of o) <> ∅ ->
  (forall q, q ∈ governor_path <$> cpus (host_of o) -> h_governor (host_of o) !! q = Some g0) ->
  governor_name g0 -> g0 ∈ h_available (host_of o) ->
  exists res, main le opts files signals_ok system S inputs k o = Done res /\
    let h := host_of o in let h2 := host_of (res_os res) in
    h_sched h2 = h_sched h /\ h_governor h2 = h_governor h /\
    (res_os res = o \/
     exists cfg, run_with opts files cfg /\ realtime_enabled cfg = true /\
       reset_by (realtime cfg) h h2).
Proof using NKOk OOk.
  intros Ha Hal Hv Hon Hgov Hname Hav.
  destruct (main_cases S SOk opts files signals_ok system inputs k o Ha)
    as (res & E & _ & [(_ & Ho & _)|(_ & cfg & v & _ & Hw & Hp & _ & _ & Hrt)]);
    exists res; (split; [done|]); cbv zeta; [rewrite Ho; by auto|].
  revert Hrt. unfold apply_realtime, after_serve.
  destruct (realtime_enabled cfg) eqn:Hen; cbn [negb]; [|intros [= _ ->]; by auto].
  assert (governor_path 0 ∈ governor_path <$> cpus (host_of o)) as H0.
  { apply list_elem_of_fmap. exists 0. split; [done|]. unfold cpus.
    apply list_elem_of_fmap. exists 0%nat. split; [done|]. apply elem_of_seq.
    assert (size (h_online (host_of o)) <> 0%nat); [|lia].
    intros Hz. by apply Hon, leibniz_equiv, size_empty_inv. }
  destruct (rt_setup_init (Some (realtime cfg)) initial_rt_state) as [r st0] eqn:Hi.
  assert (r = 0) as ->.
  { cbn [rt_setup_init] in Hi. destruct (Hp eq_refl) as [Hp1 Hp2].
    rewrite (proj2 (Z.ltb_ge _ _) Hp1), (proj2 (Z.ltb_ge _ _) Hp2) in Hi. by injection Hi. }
  cbn [Z.ltb Z.compare].
  destruct (session_host (realtime cfg) initial_rt_state o st0 g0 Hi Hal Hv Hon (Hgov _ H0) Hname Hav)
    as (st1 & o1 & st2 & o2 & -> & Hres & _ & Hs & Hl & Hg & Hq & Haff).
  cbn [Z.ltb Z.compare]. rewrite Hres. intros [= _ ->].
  split; [done|]. split; [|right; exists cfg; by auto using conj].
  - apply map_eq. intros q. rewrite Hg. destruct (disable_cpu_freq _ && _) eqn:Hb; [|done].
    apply andb_true_iff in Hb as [_ Hb%bool_decide_eq_true]. by rewrite (Hgov q Hb).
Qed.

(** C14: What start-up makes of the configured addresses.  When it reports
    success, the configured interface is up with the address and netmask
    whose octets are those of the configured numbers in the memory order of
    the machine, and every other interface is as before.  The configuration
    keeps addresses with the first octet in the most significant byte, so on
    a little-endian machine the interface gets the dotted quad reversed:
    [a.b.c.d] in the file becomes [d.c.b.a]. *)
Theorem network_configured cfg k k' : usable cfg ->
  apply_network le cfg k = Done (0, k') ->
  exists v, ifs k' !! iface_name cfg = Some v /\
    v_addr v = addr_octets le (ip_addr (device cfg)) /\
    v_mask v = addr_octets le (netmask (device cfg)) /\ Z.testbit (v_flags v) 0 = true /\
    (forall other, other <> iface_name cfg -> ifs k' !! other = ifs k !! other) /\
    let '(o1, o2, o3, o4) := v_addr v in
    format_ip (ip_addr (device cfg)) 16 =
      if le then fmt_quad o4 o3 o2 o1 else fmt_quad o1 o2 o3 o4.
Proof using NKOk.
  intros Hu E. destruct (apply_network_spec cfg k Hu) as (r & k2 & E2 & _ & Ho & Hr).
  rewrite E2 in E. injection E as -> ->.
  destruct Hr as [?|(_ & v & Hl & Ha & Hm & Hf)]; [done|].
  exists v. do 5 (split; [done|]). rewrite Ha, format_ip_fits. unfold addr_octets, fmt_ip.
  by destruct le.
Qed.

(** C23: The exit status and everything the program leaves on the machine are
    independent of the stack: a run in which the device never starts cannot
    be told from one that exchanges data, neither by its status nor by the
    network, firewall and real-time state it leaves. *)
Theorem exit_status_hides_start (S1 S2 : PnetStack net) inputs1 inputs2 opts files signals_ok
    system k o (res1 res2 : main_result K O) :
  main le opts files signals_ok system S1 inputs1 k o = Done res1 ->
  main le opts files signals_ok system S2 inputs2 k o = Done res2 ->
  exit_status res1 = exit_status res2 /\ res_kernel res1 = res_kernel res2 /\
  res_os res1 = res_os res2 /\ res_rt res1 = res_rt res2 /\
  res_commands res1 = res_commands res2.
Proof using.
  unfold main. destruct (parse_args opts _ _) as [|[path verbose]]; [by intros [= <-] [= <-]|].
  destruct (load_config path (files path) verbose) as [cfg|]; [|done]. cbn [mbind exec_bind].
  destruct (app_config_validate _) as [v|]; [|done]. cbn [mbind exec_bind].
  destruct (v <? 0); [by intros [= <-] [= <-]|].
  destruct signals_ok; cbn [negb]; [|by intros [= <-] [= <-]].
  destruct (apply_network le cfg k) as [[r k1]|]; [|done]. cbn [mbind exec_bind].
  destruct (r <? 0); [by intros [= <-] [= <-]|].
  destruct (apply_security le system cfg) as [[r2 cmds]|]; [|done]. cbn [mbind exec_bind].
  destruct (r2 <? 0); [by intros [= <-] [= <-]|].
  destruct (apply_realtime cfg initial_rt_state o) as [[x st] o1].
  intros ([r3 ev1] & E1%serve_inv & H1)%exec_bind_inv ([r4 ev2] & E2%serve_inv & H2)%exec_bind_inv.
  subst r3 r4. destruct (after_serve cfg st o1). by injection H1 as <-; injection H2 as <-.
Qed.
End main_proofs.

(** C24: A configuration file cannot put a rule into the firewall.  Whatever the
    file holds, even absent, applying the security policy of the resulting
    configuration executes exactly two commands, the flush of the chain and a
    script that contains no iptables command, or none at all when security is
    switched off; it fails exactly when that script does. *)
Theorem firewall_never_populated le system path file verbose : text path ->
  exists cfg, load_config path file verbose = Done cfg /\
    apply_security le system cfg =
      Done (if security_enabled cfg
            then (if system empty_script =? 0 then 0 else -1,
                  [lit "iptables -F PNET_CHAIN 2>/dev/null"; empty_script])
            else (0, [])).
Proof.
  intros Hp. destruct (load_config_usable path file verbose Hp) as (cfg & E & Hu).
  exists cfg. split; [done|]. by apply apply_security_eq.
Qed.

(** ** Concrete instances *)

Definition sample_dead_run : list (PnetStack pnet * Z) := replicate 6 (mock_stack false, 20000).

Lemma recovery_unreachable_witness : exists st events,
  loop_run [(mock_stack true, 15000); (mock_stack true, 15001)] sample_config
    (initial_loop (match device_init_and_start (mock_stack true) (device sample_config) with
                   | Done (_, dev) => dev | Undefined => zero_device end)) = Done (st, events) /\
  recovery_attempts st = 0 /\ no_pings events = [Usleep 1000; Usleep 1000].
Proof.
  destruct (recovery_unreachable (mock_stack true) sample_config
    (match device_init_and_start (mock_stack true) (device sample_config) with
     | Done (_, dev) => dev | Undefined => zero_device end)
    [(mock_stack true, 15000); (mock_stack true, 15001)])
    as (st & events & E & _ & Ha & _ & _ & _ & _ & Hev); [by vm_compute|].
  exists st, events. split; [exact E|]. split; [exact Ha|exact Hev].
Defined.

Lemma recovery_schedule_witness : exists st events,
  loop_run sample_dead_run sample_config (initial_loop (net := pnet) zero_device) =
    Done (st, events) /\
  no_pings events = [Usleep 1000; Usleep 1000; Usleep 1000; Usleep 1000;
    Usleep 1000000; Recovery 1 false; Usleep 1000; Usleep 2000000; Recovery 2 false; Usleep 1000].
Proof.
  destruct (recovery_schedule (net := pnet) sample_config zero_device sample_dead_run)
    as (st & events & E & _ & _ & _ & _ & Hev & _).
  - by left.
  - by vm_compute.
  - apply Forall_replicate. exists zero_device. by vm_compute.
  - exists st, events. split; [exact E|]. rewrite Hev. by vm_compute.
Defined.

Lemma watchdog_gaps_witness : exists st ev,
  loop_run [(mock_stack false, 20000); (mock_stack false, 34999); (mock_stack false, 35001)]
    sample_config (initial_loop (net := pnet) zero_device) = Done (st, ev) /\
  exists pings, ping_times ev = 20000 :: pings /\
    neighbours (fun a b => WATCHDOG_PING_MS <= b - a < WATCHDOG_PING_MS + 15000) 20000 pings.
Proof.
  destruct (loop_run [(mock_stack false, 20000); (mock_stack false, 34999); (mock_stack false, 35001)]
    sample_config (initial_loop (net := pnet) zero_device)) as [[st ev]|] eqn:E; [|by vm_compute in E].
  exists st, ev. split; [done|].
  destruct (watchdog_gaps 15000 (mock_stack false) 20000
    [(mock_stack false, 34999); (mock_stack false, 35001)] sample_config zero_device st ev)
    as (pings & Hp & Hn & _).
  - by vm_compute.
  - by repeat constructor.
  - cbn. lia.
  - exact E.
  - exists pings. split; [exact Hp|exact Hn].
Defined.

Lemma sample_args_text : args_text [Opt_c (lit "/etc/x"); Opt_v].
Proof. repeat constructor. Qed.

Lemma main_safe_witness : exists res,
  @main pnet table_kernel model_os (table_net_kernel true) model_rt_os true
    [Opt_c (lit "/etc/x"); Opt_v] (fun _ => None) true (fun _ => 0) (mock_stack true)
    [(mock_stack true, 15000)] sample_kernel sample_os = Done res /\
  g_rt_initialized (res_rt res) = false.
Proof.
  destruct (@main_safe pnet table_kernel model_os true (table_net_kernel true) _ model_rt_os
    (mock_stack true) (mock_stack_ok true) [Opt_c (lit "/etc/x"); Opt_v] (fun _ => None) true
    (fun _ => 0) [(mock_stack true, 15000)] sample_kernel sample_os sample_args_text)
    as (res & E & _ & _ & Hi & _).
  exists res. split; [exact E|exact Hi].
Defined.

(** The program on the default configuration, an interface table with eth0 and a
    host with two CPUs; only the stack and the clock vary. *)
Definition sample_main (S : PnetStack pnet) (inputs : list (PnetStack pnet * Z))
    : exec (main_result table_kernel model_os) :=
  @main pnet table_kernel model_os (table_net_kernel true) model_rt_os true [] (fun _ => None) true
    (fun _ => 0) S inputs sample_kernel sample_os.

Definition observe {A B} (d : B) (f : A -> B) (m : exec A) : B :=
  match m with Done a => f a | Undefined => d end.

Lemma sample_main_done (c : bool) inputs : exists res, sample_main (mock_stack c) inputs = Done res.
Proof.
  destruct (@main_cases pnet table_kernel model_os true (table_net_kernel true) _ model_rt_os
    (mock_stack c) (mock_stack_ok c) [] (fun _ => None) true (fun _ => 0) inputs sample_kernel
    sample_os) as (res & E & _); [by constructor|]. by exists res.
Qed.

Lemma main_restores_host_witness : exists res,
  sample_main (mock_stack true) [(mock_stack true, 15000)] = Done res /\
  exit_status res = EXIT_SUCCESS /\ h_sched (mo_host (res_os res)) = (SCHED_OTHER, 0).
Proof.
  destruct (@main_restores_host pnet table_kernel model_os true (table_net_kernel true) _
    model_rt_os model_rt_os_ok (mock_stack true) (mock_stack_ok true) [] (fun _ => None) true
    (fun _ => 0) [(mock_stack true, 15000)] sample_kernel sample_os (lit "ondemand"))
    as (res & E & Hs & _).
  - by constructor.
  - done.
  - by right.
  - by apply (bool_decide_eq_true_1 (_ <> _)); vm_compute.
  - intros q Hq. change (cpus (host_of sample_os)) with [0; 1] in Hq.
    cbn [fmap list_fmap] in Hq. rewrite !elem_of_cons in Hq.
    destruct Hq as [->|[->|Hq]]; [by vm_compute|by vm_compute|by apply not_elem_of_nil in Hq].
  - split; [by apply text_dec_true; vm_compute|]. split; [|by split; [vm_compute; lia|]].
    by apply (bool_decide_eq_true_1 (nl ∉ _)); vm_compute.
  - by apply (bool_decide_eq_true_1 (_ ∈ _)); vm_compute.
  - exists res. split; [exact E|]. split; [|exact Hs].
    assert (observe 1 exit_status (sample_main (mock_stack true) [(mock_stack true, 15000)]) = 0)
      as Hx by (by vm_compute).
    change (sample_main (mock_stack true) [(mock_stack true, 15000)] = Done res) in E.
    rewrite E in Hx. exact Hx.
Defined.

Lemma sample_usable : usable sample_config.
Proof. apply wf_usable; apply sample_config_wf. Qed.

(** The default configuration on a little-endian machine: 192.168.0.100 in the
    file, 100.0.168.192 on the interface. *)
Lemma network_configured_witness : exists k' v,
  @apply_network _ (table_net_kernel true) true sample_config sample_kernel = (Done (0, k')) /\
  format_ip (ip_addr (device sample_config)) 16 = lit "192.168.0.100" /\
  @ifs true _ (table_net_kernel true) _ k' !! lit "eth0" = Some v /\ v_addr v = (100, 0, 168, 192).
Proof.
  destruct (@apply_network _ (table_net_kernel true) true sample_config sample_kernel)
    as [[r k']|] eqn:E; [|by vm_compute in E].
  assert (r = 0) as -> by (by vm_compute in E; injection E).
  destruct (@network_configured table_kernel true (table_net_kernel true) _ sample_config sample_kernel
    k' sample_usable E) as (v & Hv & Ha & _).
  exists k', v. split; [done|]. split; [by vm_compute|]. split; [exact Hv|].
  rewrite Ha. by vm_compute.
Defined.

Lemma exit_status_hides_start_witness : exists res1 res2,
  sample_main (mock_stack true) [(mock_stack true, 15000)] = Done res1 /\
  sample_main (mock_stack false) [] = Done res2 /\
  exit_status res1 = exit_status res2 /\
  res_events res1 = [WatchdogPing 15000; Usleep 1000] /\ res_events res2 = [].
Proof.
  assert (observe [] res_events (sample_main (mock_stack true) [(mock_stack true, 15000)]) =
    [WatchdogPing 15000; Usleep 1000]) as H1 by (by vm_compute).
  assert (observe [Usleep 0] res_events (sample_main (mock_stack false) []) = []) as H2 by (by vm_compute).
  destruct (sample_main_done true [(mock_stack true, 15000)]) as [res1 E1].
  destruct (sample_main_done false []) as [res2 E2].
  rewrite E1 in H1. rewrite E2 in H2. exists res1, res2. split; [exact E1|]. split; [exact E2|].
  split; [|split; [exact H1|exact H2]].
  apply (exit_status_hides_start _ _ _ _ _ _ _ _ _ _ _ _ E1 E2).
Defined.

Lemma firewall_never_populated_witness : exists cfg,
  load_config (lit "/etc/x") (Some (lit "rule=1" ++ [nl])) false = Done cfg /\
  apply_security true (fun _ => 0) cfg =
    Done (0, [lit "iptables -F PNET_CHAIN 2>/dev/null"; empty_script]).
Proof.
  destruct (firewall_never_populated true (fun _ => 0) (lit "/etc/x") (Some (lit "rule=1" ++ [nl])) false)
    as (cfg & E & H); [by apply text_dec_true; vm_compute|].
  exists cfg. split; [exact E|]. rewrite H.
  vm_compute in E. injection E as <-. reflexivity.
Defined.
