(* ===== verification/Platforms.v ===== *)
(** * The other platforms

    The branches of src/net/network_config.c, src/realtime/rt_setup.c,
    src/security/security_policy.c and src/main.c for systems other than
    Linux: on macOS the queries walk the list of [getifaddrs]; elsewhere they
    fail; settings and tuning fail, the real-time part only reports, and
    [main] skips the network.  The functions here take the platform and call
    those of the other files where it is Linux. *)
From S2P Require Import Prelude CString CFormat NetAddr SecurityPolicy PnetApi PnetMock IoDevice NetworkConfig RtSetup AppConfig Main.

(** PLATFORM_LINUX and [__linux__]; [__APPLE__]; neither. *)
Inductive platform := Linux | Apple | Other.

#[export] Instance platform_eq_dec : EqDecision platform.
Proof. solve_decision. Defined.

Definition is_linux (p : platform) : bool := match p with Linux => true | _ => false end.

(** ** The interface list of [getifaddrs] *)

(** [AF_INET] with the octets of [sin_addr]; [AF_LINK] with [sdl_alen] and the
    bytes at [LLADDR]; any other family. *)
Inductive sockaddr :=
  | Sockaddr_in (sin_addr : Z * Z * Z * Z)
  | Sockaddr_dl (sdl_alen : Z) (lladdr : list Z)
  | Sockaddr_other (sa_family : Z).

Record ifaddrs := mk_ifaddrs {
  ifa_name : list ascii;
  ifa_addr : option sockaddr;
}.

(** The calls, and what getifaddrs(3) promises: a call that succeeds allocates
    one list, one that fails none, [freeifaddrs] releases it; neither changes
    what an observer [K -> V] of the host sees. *)
Class IfAddrs (K : Type) := {
  k_getifaddrs : K -> Z * list ifaddrs * K;
  k_freeifaddrs : list ifaddrs -> K -> K;
}.
Class IfAddrsOk (K V : Type) `{IfAddrs K} := {
  live_lists : K -> Z;
  k_view : K -> V;
  getifaddrs_ok k r l k' : k_getifaddrs k = (r, l, k') ->
    live_lists k' = live_lists k + (if r =? 0 then 1 else 0) /\ k_view k' = k_view k;
  freeifaddrs_ok l k : live_lists (k_freeifaddrs l k) = live_lists k - 1 /\
    k_view (k_freeifaddrs l k) = k_view k;
}.

(** [for (ifa = ifap; ifa != NULL; ifa = ifa->ifa_next)] with [continue] where
    [f] has no result and [break] where it has one. *)
Fixpoint walk {A} (f : ifaddrs -> option A) (ifap : list ifaddrs) : option A :=
  match ifap with
  | [] => None
  | ifa :: ifap => match f ifa with Some a => Some a | None => walk f ifap end
  end.

(** The bodies of the two loops. *)
Definition ip_entry (le : bool) (if_name : list ascii) (ifa : ifaddrs) : option Z :=
  match ifa_addr ifa with
  | Some (Sockaddr_in a) => if str_eqb (ifa_name ifa) if_name then Some (octets_addr le a) else None
  | _ => None
  end.
Definition mac_entry (if_name : list ascii) (ifa : ifaddrs) : option (list Z) :=
  match ifa_addr ifa with
  | Some (Sockaddr_dl alen lladdr) =>
      if str_eqb (ifa_name ifa) if_name then
        if alen =? 6 then Some (take 6 lladdr) else None
      else None
  | _ => None
  end.

Module Portable.
Section network.
Context {K : Type} `{NetKernel K} `{IfAddrs K} (p : platform) (le : bool).

Definition net_if_get_ip (if_name : option (list ascii)) (ip : option Z) (k : K)
    : Z * option Z * K :=
  match p with
  | Linux => NetworkConfig.net_if_get_ip le if_name ip k
  | Apple =>
      match if_name, ip with
      | Some name, Some _ =>
          let '(r, ifap, k) := k_getifaddrs k in
          if negb (r =? 0) then (-1, ip, k) else
          match walk (ip_entry le name) ifap with
          | Some a => (0, Some a, k_freeifaddrs ifap k)
          | None => (-1, ip, k_freeifaddrs ifap k)
          end
      | _, _ => (-1, ip, k)
      end
  | Other => (-1, ip, k)
  end.

Definition net_if_get_mac (if_name : option (list ascii)) (mac : option (list Z)) (k : K)
    : Z * option (list Z) * K :=
  match p with
  | Linux => NetworkConfig.net_if_get_mac if_name mac k
  | Apple =>
      match if_name, mac with
      | Some name, Some _ =>
          let '(r, ifap, k) := k_getifaddrs k in
          if negb (r =? 0) then (-1, mac, k) else
          match walk (mac_entry name) ifap with
          | Some m => (0, Some m, k_freeifaddrs ifap k)
          | None => (-1, mac, k_freeifaddrs ifap k)
          end
      | _, _ => (-1, mac, k)
      end
  | Other => (-1, mac, k)
  end.

Definition net_if_set_ip (if_name : option (list ascii)) (ip : Z) (k : K) : Z * K :=
  if is_linux p then NetworkConfig.net_if_set_ip le if_name ip k else (-1, k).
Definition net_if_set_netmask (if_name : option (list ascii)) (mask : Z) (k : K) : Z * K :=
  if is_linux p then NetworkConfig.net_if_set_netmask le if_name mask k else (-1, k).
Definition net_if_set_up (if_name : option (list ascii)) (k : K) : Z * K :=
  if is_linux p then NetworkConfig.net_if_set_up le if_name k else (-1, k).
Definition net_if_set_down (if_name : option (list ascii)) (k : K) : Z * K :=
  if is_linux p then NetworkConfig.net_if_set_down le if_name k else (-1, k).

(** The aggregate query is common code over the two queries. *)
Definition net_if_get_config (if_name : option (list ascii)) (config : option net_if_config_t)
    (k : K) : Z * option net_if_config_t * K :=
  match if_name, config with
  | Some name, Some _ =>
      let if_name' := strncpy (replicate 16 nul) name 15 in
      let '(ip_ret, ip, k) := net_if_get_ip if_name (Some 0) k in
      let '(mac_ret, mac, k) := net_if_get_mac if_name (Some (replicate 6 0)) k in
      let c ok := mk_if_config if_name' (default 0 ip) 0 0 (default [] mac) ok in
      if (ip_ret =? 0) && (mac_ret =? 0) then (0, Some (c true), k)
      else (-1, Some (c false), k)
  | _, _ => (-1, config, k)
  end.

Definition net_tcp_tuning_apply {F} `{ProcSys F} (tuning : option tcp_tuning_config_t) (f : F)
    : Z * F :=
  if is_linux p then NetworkConfig.net_tcp_tuning_apply tuning f else (-1, f).
Definition net_tcp_tuning_read_current {F} `{ProcSys F} (tuning : option tcp_tuning_config_t)
    (f : F) : Z * option tcp_tuning_config_t :=
  if is_linux p then NetworkConfig.net_tcp_tuning_read_current tuning f else (-1, tuning).
End network.

(** ** The real-time part; [ENOSYS] is the platform's number. *)
Section realtime.
Context {O : Type} `{RtOs O} (p : platform) (enosys : Z).

Definition rt_setup_apply (st : rt_state) (o : O) : Z * rt_state * O :=
  if is_linux p then RtSetup.rt_setup_apply st o
  else if negb (g_rt_initialized st) then (- EPERM, st, o) else (- enosys, st, o).

Definition rt_setup_restore (st : rt_state) (o : O) : rt_state * O :=
  if is_linux p then RtSetup.rt_setup_restore st o
  else if negb (g_rt_initialized st) then (st, o)
  else (mk_rt_state (g_rt_config st) false (g_saved_sched st) (g_saved_policy st)
          (g_saved_governor st), o).

Definition unavailable_report : list ascii :=
  lit "PLATFORM_LINUX not defined - real-time features unavailable." ++ [nl] ++
  lit "RT scheduling:   not available" ++ [nl] ++
  lit "Memory lock:     not available" ++ [nl] ++
  lit "CPU isolation:   not available" ++ [nl] ++
  lit "irqbalance:      not available" ++ [nl] ++
  lit "Latency measure: using CLOCK_MONOTONIC (limited accuracy)" ++ [nl].

Definition rt_setup_check (uninit : Z) (result : option rt_check_result_t) (st : rt_state) (o : O)
    : exec (Z * option rt_check_result_t * O) :=
  if is_linux p then RtSetup.rt_setup_check uninit result st o
  else
    match result with
    | None => Done (- EINVAL, None, o)
    | Some _ =>
        '(_, rep) ← snprintf_at (replicate 512 nul) 0 unavailable_report;
        Done (0, Some (mk_check_result false false false false (double_of_Z 0) rep), o)
    end.
End realtime.

(** ** The program *)
Section program.
Context {net K O : Type} `{NetKernel K} `{RtOs O} (p : platform) (enosys : Z) (le : bool).

Definition apply_network (cfg : app_config_t) (k : K) : exec (Z * K) :=
  if is_linux p then Main.apply_network le cfg k else Done (0, k).

Definition apply_security (system : list ascii -> Z) (cfg : app_config_t)
    : exec (Z * list (list ascii)) :=
  if negb (security_enabled cfg) then Done (0, [])
  else
    '(r, cmds) ← sec_policy_apply le (is_linux p) system (Some (security cfg));
    if r <? 0 then Done (-1, cmds) else Done (0, cmds).

Definition apply_realtime (cfg : app_config_t) (st : rt_state) (o : O) : Z * rt_state * O :=
  if negb (realtime_enabled cfg) then (0, st, o)
  else
    let '(r, st) := rt_setup_init (Some (realtime cfg)) st in
    if r <? 0 then (-1, st, o) else
    let '(r, st, o) := rt_setup_apply p enosys st o in
    if r <? 0 then (-1, st, o) else (0, st, o).

(** The device and the loop do not depend on the platform. *)
Definition run_device (S : PnetStack net) (inputs : list (PnetStack net * Z)) (cfg : app_config_t)
    : exec (list loop_event) :=
  '(r, dev) ← device_init_and_start S (device cfg);
  if r <? 0 then Done []
  else
    '(lp, events) ← loop_run inputs cfg (initial_loop dev);
    let _ := device_stop_and_cleanup S (lp_device lp) in
    Done events.

Definition serve (S : PnetStack net) (inputs : list (PnetStack net * Z)) (cfg : app_config_t)
    (st : rt_state) (o : O) : exec (rt_state * O * list loop_event) :=
  events ← run_device S inputs cfg;
  let '(st, o) := if realtime_enabled cfg then rt_setup_restore p st o else (st, o) in
  Done (st, o, events).

Definition main (opts : list getopt_result) (files : list ascii -> option (list ascii))
    (signals_ok : bool) (system : list ascii -> Z) (S : PnetStack net)
    (inputs : list (PnetStack net * Z)) (k : K) (o : O) : exec (main_result K O) :=
  let st := initial_rt_state in
  match parse_args opts DEFAULT_CONFIG_FILE false with
  | inl status => Done (mk_result status k o st [] [])
  | inr (config_path, verbose) =>
      cfg ← load_config config_path (files config_path) verbose;
      v ← app_config_validate (Some cfg);
      if v <? 0 then Done (mk_result EXIT_FAILURE k o st [] [])
      else if negb signals_ok then Done (mk_result EXIT_FAILURE k o st [] [])
      else
        '(r, k) ← apply_network cfg k;
        if r <? 0 then Done (mk_result EXIT_FAILURE k o st [] [])
        else
          '(r, cmds) ← apply_security system cfg;
          if r <? 0 then Done (mk_result EXIT_FAILURE k o st cmds [])
          else
            let '(_, st, o) := apply_realtime cfg st o in
            '(st, o, events) ← serve S inputs cfg st o;
            Done (mk_result EXIT_SUCCESS k o st cmds events)
  end.
End program.
End Portable.

(** ** The queries of macOS *)

Lemma walk_head {A} (f : ifaddrs -> option A) ifap : walk f ifap = head (omap f ifap).
Proof.
  induction ifap as [|ifa ifap IH]; [done|]. cbn [walk omap list_omap].
  by destruct (f ifa).
Qed.

Section apple.
Context {K V : Type} {NK : NetKernel K} {IA : IfAddrs K} {IAOk : IfAddrsOk K V} {le : bool}.
Implicit Types (name : list ascii) (k : K).

(** One query: the list is walked and released. *)
Lemma apple_query {A} (f : ifaddrs -> option A) (old : A) k :
  let '(r, v, k') :=
    let '(r, ifap, k) := k_getifaddrs k in
    if negb (r =? 0) then (-1, Some old, k) else
    match walk f ifap with
    | Some a => (0, Some a, k_freeifaddrs ifap k)
    | None => (-1, Some old, k_freeifaddrs ifap k)
    end in
  live_lists k' = live_lists k /\ k_view k' = k_view k /\
  let '(r0, ifap, _) := k_getifaddrs k in
  (r, v) = match head (if r0 =? 0 then omap f ifap else []) with
           | Some a => (0, Some a)
           | None => (-1, Some old)
           end.
Proof using IAOk.
  destruct (k_getifaddrs k) as [[r ifap] k1] eqn:E. apply getifaddrs_ok in E as [Hl Hv].
  destruct (Z.eqb_spec r 0) as [->|Hr]; cbn [negb].
  - rewrite walk_head. destruct (freeifaddrs_ok ifap k1) as [Hl2 Hv2].
    destruct (head (omap f ifap)); (split; [lia|]); (split; [by rewrite Hv2, Hv|done]).
  - split; [lia|]. by split.
Qed.

(** The macOS queries.  Every list obtained from the system is released on
    every path and the host is left as it was; the answer is that of the first
    entry of the right family under the full name (for the hardware address:
    also with six bytes), and -1 with the caller's object untouched when there
    is no such entry or the list could not be had. *)
Theorem apple_queries_spec name a m k :
  (let '(r, ip, k') := Portable.net_if_get_ip Apple le (Some name) (Some a) k in
   live_lists k' = live_lists k /\ k_view k' = k_view k /\
   let '(r0, ifap, _) := k_getifaddrs k in
   (r, ip) = match head (if r0 =? 0 then omap (ip_entry le name) ifap else []) with
             | Some a => (0, Some a)
             | None => (-1, Some a)
             end) /\
  (let '(r, mac, k') := Portable.net_if_get_mac Apple (Some name) (Some m) k in
   live_lists k' = live_lists k /\ k_view k' = k_view k /\
   let '(r0, ifap, _) := k_getifaddrs k in
   (r, mac) = match head (if r0 =? 0 then omap (mac_entry name) ifap else []) with
              | Some m => (0, Some m)
              | None => (-1, Some m)
              end).
Proof using IAOk. split; [apply (apple_query (ip_entry le name))|apply (apple_query (mac_entry name))]. Qed.
End apple.

(** The entries of a family under a name. *)
Definition inet_of (name : list ascii) (ifa : ifaddrs) : option (Z * Z * Z * Z) :=
  match ifa_addr ifa with
  | Some (Sockaddr_in a) => if str_eqb (ifa_name ifa) name then Some a else None
  | _ => None
  end.
Definition link_of (name : list ascii) (ifa : ifaddrs) : option (Z * list Z) :=
  match ifa_addr ifa with
  | Some (Sockaddr_dl n l) => if str_eqb (ifa_name ifa) name then Some (n, take 6 l) else None
  | _ => None
  end.

(** The list shows the interface table [T]: per interface one internet and one
    link-layer address. *)
Definition shows (T : gmap (list ascii) if_view) (ifap : list ifaddrs) : Prop :=
  forall name,
    omap (inet_of name) ifap = match T !! name with Some v => [v_addr v] | None => [] end /\
    omap (link_of name) ifap = match T !! name with Some v => [(6, v_hw v)] | None => [] end.

Lemma omap_ip_entry le name (ifap : list ifaddrs) :
  omap (ip_entry le name) ifap = octets_addr le <$> omap (inet_of name) ifap.
Proof.
  induction ifap as [|[n a] ifap IH]; [done|]. cbn [omap list_omap]. unfold ip_entry at 1, inet_of at 1.
  cbn [ifa_addr ifa_name]. destruct a as [[]|]; try done. destruct (str_eqb n name); [|done].
  cbn [fmap list_fmap]. by rewrite <-IH.
Qed.

Lemma omap_mac_entry name (ifap : list ifaddrs) :
  omap (mac_entry name) ifap =
    omap (fun '(n, l) => if n =? 6 then Some l else None) (omap (link_of name) ifap).
Proof.
  induction ifap as [|[n a] ifap IH]; [done|]. cbn [omap list_omap]. unfold mac_entry at 1, link_of at 1.
  cbn [ifa_addr ifa_name]. destruct a as [[]|]; try done. destruct (str_eqb n name); [|done].
  cbn [omap list_omap]. destruct (_ =? 6); [by rewrite <-IH|done].
Qed.

(** ** Linux and macOS agree *)
Section agreement.
Context {KL K : Type} {le : bool} {NKL : NetKernel KL} {NKLOk : NetKernelOk le KL}
  {NK : NetKernel K} {IA : IfAddrs K} {IAOk : IfAddrsOk K (gmap (list ascii) if_view)}
  {IAL : IfAddrs KL}.
(** The list can be had and shows the table. *)
Context (Hshow : forall k : K, exists ifap k', k_getifaddrs k = (0, ifap, k') /\ shows (k_view k) ifap).

Lemma apple_config name c (k : K) : 
  let '(r, c', k') := Portable.net_if_get_config Apple le (Some name) (Some c) k in
  live_lists k' = live_lists k /\ k_view k' = k_view k /\
  match k_view k !! name with
  | Some v => r = 0 /\ c' = Some (mk_if_config (strncpy (replicate 16 nul) name 15)
                                    (octets_addr le (v_addr v)) 0 0 (v_hw v) true)
  | None => r = -1 /\ c' = Some (mk_if_config (strncpy (replicate 16 nul) name 15) 0 0 0
                                   (replicate 6 0) false)
  end.
Proof using Hshow IAOk.
  cbn [Portable.net_if_get_config].
  pose proof (apple_query (ip_entry le name) 0 k) as Hi.
  change (let '(r, v, k') := Portable.net_if_get_ip Apple le (Some name) (Some 0) k in
    live_lists k' = live_lists k /\ k_view k' = k_view k /\
    let '(r0, ifap, _) := k_getifaddrs k in
    (r, v) = match head (if r0 =? 0 then omap (ip_entry le name) ifap else []) with
             | Some a => (0, Some a) | None => (-1, Some 0) end) in Hi.
  destruct (Portable.net_if_get_ip _ _ _ _ _) as [[r1 ip] k1]. destruct Hi as (Hl1 & Hv1 & Hi).
  pose proof (apple_query (mac_entry name) (replicate 6 0) k1) as Hm.
  change (let '(r, v, k') := Portable.net_if_get_mac Apple (Some name) (Some (replicate 6 0)) k1 in
    live_lists k' = live_lists k1 /\ k_view k' = k_view k1 /\
    let '(r0, ifap, _) := k_getifaddrs k1 in
    (r, v) = match head (if r0 =? 0 then omap (mac_entry name) ifap else []) with
             | Some a => (0, Some a) | None => (-1, Some (replicate 6 0)) end) in Hm.
  destruct (Portable.net_if_get_mac _ _ _ _) as [[r2 mac] k2]. destruct Hm as (Hl2 & Hv2 & Hm).
  destruct (Hshow k) as (ifap & k' & Eg & Hs). rewrite Eg in Hi.
  destruct (Hshow k1) as (ifap1 & k1' & Eg1 & Hs1). rewrite Eg1 in Hm.
  cbn [Z.eqb] in Hi, Hm. rewrite omap_ip_entry, (proj1 (Hs name)) in Hi.
  rewrite omap_mac_entry, (proj2 (Hs1 name)), Hv1 in Hm.
  destruct (k_view k !! name) as [v|]; injection Hi as -> ->; injection Hm as -> ->;
    cbn [Z.eqb andb default]; (split; [congruence|]); (split; [congruence|done]).
Qed.

(** The structure a successful Linux query fills in. *)
Lemma linux_config name c (kl : KL) cl kl' :
  net_if_get_config le (Some name) (Some c) kl = (0, cl, kl') ->
  exists ip mac, cl = Some (mk_if_config (strncpy (replicate 16 nul) name 15) ip 0 0 mac true).
Proof using.
  cbn [net_if_get_config]. destruct (net_if_get_ip _ _ _ _) as [[r1 ip] k1].
  destruct (net_if_get_mac _ _ _) as [[r2 mac] k2]. destruct (_ && _); [|done].
  intros [= <- _]. by eexists _, _.
Qed.

(** C10: macOS and Linux answer alike.  On a Linux kernel and a macOS host with
    the same interfaces, whenever the Linux query of an interface succeeds,
    the macOS query of the same name (of at most 15 characters) succeeds and
    fills in the same structure; macOS finds exactly the interfaces of the
    table.  A longer name is cut to 15 characters on Linux only: macOS finds
    nothing under it. *)
Theorem platforms_agree name c (kl : KL) (k : K) : text name -> k_view k = ifs kl ->
  (forall n, is_Some (ifs kl !! n) -> (length n <= 15)%nat) ->
  let '(rl, cl, _) := Portable.net_if_get_config Linux le (Some name) (Some c) kl in
  let '(r, c', k') := Portable.net_if_get_config Apple le (Some name) (Some c) k in
  live_lists k' = live_lists k /\ k_view k' = k_view k /\
  (r = 0 <-> is_Some (ifs kl !! name)) /\
  ((length name <= 15)%nat -> rl = 0 -> r = 0 /\ c' = cl) /\
  ((15 < length name)%nat -> r = -1).
Proof using Hshow IAOk NKLOk.
  intros Ht Hv Hlong.
  change (Portable.net_if_get_config Linux le (Some name) (Some c) kl) with
    (net_if_get_config le (Some name) (Some c) kl).
  pose proof (get_config_spec name c kl Ht) as HL.
  destruct (net_if_get_config _ _ _ _) as [[rl cl] kl'] eqn:EL. destruct HL as (_ & _ & cfg & -> & Hn & HL).
  pose proof (apple_config name c k) as HA.
  destruct (Portable.net_if_get_config _ _ _ _ _) as [[r c'] k']. destruct HA as (Hl & Hw & HA).
  rewrite Hv in *. split; [done|]. split; [done|]. 
  assert (is_Some (ifs kl !! name) -> (length name <= 15)%nat) as Hshort by apply Hlong.
  destruct (ifs kl !! name) as [v|] eqn:E; destruct HA as [-> ->].
  - split; [done|]. split; [|intros; specialize (Hshort ltac:(done)); lia].
    intros Hlen ->. split; [done|]. destruct (linux_config _ _ _ _ _ EL) as (ip & mac & [= ->]).
    destruct HL as [[? _]|(_ & Hc & v' & Hl' & Hip & Hmac)]; [done|].
    rewrite take_ge, E in Hl' by done. injection Hl' as <-.
    cbn [nc_ip_addr nc_mac_addr] in Hip, Hmac. by rewrite Hip, Hmac.
  - split; [by split; [|intros []]|]. split; [|done]. intros Hlen ->.
    destruct HL as [[? _]|(_ & _ & v' & Hl' & _)]; [done|]. by rewrite take_ge, E in Hl'.
Qed.
End agreement.

(** ** The program elsewhere than on Linux *)
Section elsewhere.
Context {net K O : Type} {NK : NetKernel K} {OS : RtOs O} {le : bool} {p : platform} {enosys : Z}.

(** On Linux the portable program is the program of Main. *)
Lemma main_linux opts files signals_ok system (S : PnetStack net) inputs (k : K) (o : O) :
  Portable.main Linux enosys le opts files signals_ok system S inputs k o =
    main le opts files signals_ok system S inputs k o.
Proof using.
  unfold Portable.main, main. destruct (parse_args opts _ _) as [|[path verbose]]; [done|].
  destruct (load_config _ _ _) as [cfg|]; [|done]. cbn [mbind exec_bind].
  destruct (app_config_validate _) as [v|]; [|done]. cbn [mbind exec_bind].
  destruct (v <? 0); [done|]. destruct (negb signals_ok); [done|].
  unfold Portable.apply_network. cbn [is_linux].
  destruct (apply_network le cfg k) as [[r k1]|]; [|done]. cbn [mbind exec_bind].
  destruct (r <? 0); [done|]. change (Portable.apply_security Linux le system cfg) with
    (apply_security le system cfg).
  destruct (apply_security le system cfg) as [[r2 cmds]|]; [|done]. cbn [mbind exec_bind].
  destruct (r2 <? 0); [done|]. change (Portable.apply_realtime Linux enosys cfg initial_rt_state o) with
    (apply_realtime cfg initial_rt_state o).
  destruct (apply_realtime cfg initial_rt_state o) as [[x st] o1].
  unfold Portable.serve, serve, Portable.run_device. cbn [Portable.rt_setup_restore is_linux].
  destruct (device_init_and_start S (device cfg)) as [[r3 dev]|]; [|done]. cbn [mbind exec_bind].
  destruct (r3 <? 0); [done|]. by destruct (loop_run inputs cfg (initial_loop dev)) as [[lp ev]|].
Qed.

Lemma run_device_done (S : PnetStack net) (SOk : PnetStackOk net) inputs cfg : usable cfg ->
  defined (Portable.run_device S inputs cfg).
Proof using.
  intros Hu. unfold Portable.run_device.
  destruct (init_and_start_defined SOk (device cfg) (us_device _ Hu)) as (r & dev & E).
  rewrite E. cbn [mbind exec_bind].
  destruct (init_and_start_cases _ _ _ E) as [(-> & _)|[-> _]]; cbn [Z.ltb Z.compare]; [|done].
  destruct (started_running _ _ _ E) as (Hrun & _).
  by destruct (running_loop cfg inputs (initial_loop dev) Hrun) as (lp & ev & -> & _).
Qed.

Context (Hp : p <> Linux).

Lemma not_linux : is_linux p = false.
Proof using Hp. by destruct p. Qed.

Lemma security_elsewhere system cfg : usable cfg ->
  Portable.apply_security p le system cfg = Done (0, []).
Proof using Hp.
  intros [_ _ _ _ Hs]. unfold Portable.apply_security. rewrite Hs, not_linux.
  destruct (security_enabled cfg); [|done]. by destruct le; vm_compute.
Qed.

Lemma realtime_elsewhere cfg (o : O) x st o1 : 0 < enosys ->
  Portable.apply_realtime p enosys cfg initial_rt_state o = (x, st, o1) ->
  o1 = o /\ exists st', g_rt_initialized st' = false /\
    (if realtime_enabled cfg then Portable.rt_setup_restore p st o else (st, o)) = (st', o).
Proof using Hp.
  intros He. unfold Portable.apply_realtime, Portable.rt_setup_apply, Portable.rt_setup_restore.
  rewrite not_linux. destruct (realtime_enabled cfg); cbn [negb]; [|intros [= _ <- <-]; split; [done|]; exists initial_rt_state; by split].
  assert (forall st, exists st', g_rt_initialized st' = false /\
    (if negb (g_rt_initialized st) then (st, o)
     else (mk_rt_state (g_rt_config st) false (g_saved_sched st) (g_saved_policy st)
             (g_saved_governor st), o)) = (st', o)) as H.
  { intros st'. destruct (g_rt_initialized st') eqn:E; cbn [negb]; eexists; (split; [|done]); done. }
  destruct (rt_setup_init _ _) as [r st0]. destruct (r <? 0); [intros [= _ <- <-]; split; [done|]; apply H|].
  destruct (g_rt_initialized st0) eqn:E; cbn [negb].
  - rewrite (proj2 (Z.ltb_lt _ _)) by lia. intros [= _ <- <-]. split; [done|]. apply H.
  - change (- EPERM <? 0) with true. intros [= _ <- <-]. split; [done|]. apply H.
Qed.

(** C37: Away from Linux the program runs the device and touches nothing else.
    Whatever the command line, the configuration file and the stack, it stays
    inside its buffers, exits with 0 or 1, leaves the network and the host as
    they were, executes no command and has no real-time set-up pending; when
    the configuration is valid and the handlers are installed, it exits with 0
    and what it did is the run of the device, whether or not real-time or the
    security policy were asked for. *)
Theorem elsewhere_untouched (S : PnetStack net) (SOk : PnetStackOk net) opts files signals_ok
    system inputs (k : K) (o : O) : 0 < enosys -> args_text opts ->
  exists res, Portable.main p enosys le opts files signals_ok system S inputs k o = Done res /\
    res_kernel res = k /\ res_os res = o /\ res_commands res = [] /\
    g_rt_initialized (res_rt res) = false /\
    (exit_status res = EXIT_SUCCESS \/ exit_status res = EXIT_FAILURE) /\
    (forall path verbose cfg v, parse_args opts DEFAULT_CONFIG_FILE false = inr (path, verbose) ->
       load_config path (files path) verbose = Done cfg ->
       app_config_validate (Some cfg) = Done v -> 0 <= v -> signals_ok = true ->
       exit_status res = EXIT_SUCCESS /\
       Portable.run_device S inputs cfg = Done (res_events res)).
Proof using Hp.
  intros He Ha. unfold Portable.main.
  destruct (parse_args opts _ false) as [status|[path verbose]] eqn:Hargs.
  { eexists. split; [done|]. do 4 (split; [done|]). split; [by eapply parse_args_status|done]. }
  apply parse_args_text in Hargs; [|done|by apply text_lit_b; vm_compute].
  destruct (load_config_usable path (files path) verbose Hargs) as (cfg & El & Hu).
  rewrite El. cbn [mbind exec_bind].
  destruct (validate_returns cfg) as (v & Ev & Hv).
  { pose proof (field_ok_length _ _ (us_interface _ Hu)) as Hl. intros E. by rewrite E in Hl. }
  rewrite Ev. cbn [mbind exec_bind].
  destruct (Z.ltb_spec v 0).
  { eexists. split; [done|]. do 4 (split; [done|]). split; [by right|].
    intros ? ? ? ? [= <- <-] [= <-]%(eq_trans (eq_sym El)) [= <-]%(eq_trans (eq_sym Ev)). lia. }
  destruct signals_ok; cbn [negb].
  2:{ eexists. split; [done|]. do 4 (split; [done|]). split; [by right|done]. }
  unfold Portable.apply_network. rewrite not_linux. cbn [mbind exec_bind].
  change (0 <? 0) with false. cbv iota. rewrite security_elsewhere by done. cbn [mbind exec_bind].
  change (0 <? 0) with false. cbv iota.
  destruct (Portable.apply_realtime p enosys cfg initial_rt_state o) as [[x st] o1] eqn:Hrt.
  destruct (realtime_elsewhere _ _ _ _ _ He Hrt) as (-> & st' & Hi & Hr).
  unfold Portable.serve. pose proof (run_device_done S SOk inputs cfg Hu) as Hd.
  destruct (Portable.run_device S inputs cfg) as [events|] eqn:Erun; [|done]. cbn [mbind exec_bind].
  rewrite Hr. eexists. split; [done|]. do 4 (split; [done|]). split; [by left|].
  intros ? ? ? ? [= <- <-] [= <-]%(eq_trans (eq_sym El)) _ _ _. by rewrite Erun.
Qed.
End elsewhere.

(** ** Concrete instances *)

(** A macOS host that shows eth0 and the loopback's family 30 entry; the state
    is the number of lists in use. *)
Definition sample_ifap : list ifaddrs :=
  [mk_ifaddrs (lit "lo0") (Some (Sockaddr_other 30));
   mk_ifaddrs (lit "eth0") None;
   mk_ifaddrs (lit "eth0") (Some (Sockaddr_dl 6 [2; 0; 0; 0; 0; 7]));
   mk_ifaddrs (lit "eth0") (Some (Sockaddr_in (10, 0, 0, 1)))].

#[export] Instance mac_kernel : NetKernel Z :=
  {| k_socket k := (-1, k); k_ioctl _ _ r k := (-1, r, k); k_close _ k := k |}.
#[export] Instance mac_ifaddrs : IfAddrs Z :=
  {| k_getifaddrs k := (0, sample_ifap, k + 1); k_freeifaddrs _ k := k - 1 |}.
#[export] Program Instance mac_ifaddrs_ok : IfAddrsOk Z (gmap (list ascii) if_view) :=
  {| live_lists k := k; k_view _ := norm_view <$> tk_ifs sample_kernel |}.
Next Obligation. intros k r l k' [= <- <- <-]. done. Qed.
Next Obligation. done. Qed.

#[export] Instance table_ifaddrs : IfAddrs table_kernel :=
  {| k_getifaddrs k := (-1, [], k); k_freeifaddrs _ k := k |}.

Lemma sample_shows : shows (norm_view <$> tk_ifs sample_kernel) sample_ifap.
Proof.
  intros name. unfold sample_kernel. cbn [tk_ifs].
  destruct (decide (name = lit "eth0")) as [->|Hn]; [by split; vm_compute|].
  rewrite lookup_fmap, lookup_insert_ne, lookup_empty by done.
  unfold sample_ifap. cbn [omap list_omap inet_of link_of ifa_addr ifa_name].
  by destruct (str_eqb_spec (lit "eth0") name) as [<-|].
Qed.

Lemma platforms_agree_witness :
  Portable.net_if_get_config Apple true (Some (lit "eth0"))
    (Some (mk_if_config [] 0 0 0 [] false)) 5 =
  (0, Some (mk_if_config (to_array 16 (lit "eth0")) 0x0100000A 0 0 [2; 0; 0; 0; 0; 7] true), 5).
Proof.
  pose proof (platforms_agree (KL := table_kernel) (K := Z) (le := true)
    (NKL := table_net_kernel true) (NKLOk := _)
    (fun k => ex_intro _ sample_ifap (ex_intro _ (k + 1) (conj eq_refl sample_shows)))
    (lit "eth0") (mk_if_config [] 0 0 0 [] false) sample_kernel 5 eth0_text) as H.
  destruct (Portable.net_if_get_config Linux _ _ _ _) as [[rl cl] kl] eqn:EL.
  destruct (Portable.net_if_get_config Apple _ _ _ _) as [[r c] k] eqn:EA.
  destruct H as (Hk & _ & _ & Hs & _).
  - exact eq_refl.
  - intros n [v Hv]. change (ifs sample_kernel) with (norm_view <$> tk_ifs sample_kernel) in Hv.
    unfold sample_kernel in Hv. cbn [tk_ifs] in Hv.
    destruct (decide (n = lit "eth0")) as [->|Hn]; [by vm_compute; lia|].
    by rewrite lookup_fmap, lookup_insert_ne in Hv.
  - assert (rl = 0 /\ cl = Some (mk_if_config (to_array 16 (lit "eth0")) 0x0100000A 0 0
      [2; 0; 0; 0; 0; 7] true)) as [-> ->] by (vm_compute in EL; by injection EL as <- <- _).
    destruct (Hs ltac:(vm_compute; lia) eq_refl) as [-> ->].
    change (k = 5) in Hk. by rewrite Hk.
Defined.

Lemma elsewhere_untouched_witness : exists res,
  Portable.main (K := table_kernel) (H := table_net_kernel true) Apple 78 true [Opt_v] (fun _ => None) true (fun _ => 1)
    (mock_stack true) [(mock_stack true, 15000)] sample_kernel sample_os = Done res /\
  res_os res = sample_os /\ res_commands res = [].
Proof.
  destruct (elsewhere_untouched (K := table_kernel) (NK := table_net_kernel true) (le := true)
    (p := Apple) (enosys := 78) ltac:(discriminate) (mock_stack true) (mock_stack_ok true) [Opt_v]
    (fun _ => None) true (fun _ => 1) [(mock_stack true, 15000)] sample_kernel sample_os)
    as (res & E & _ & Ho & Hc & _); [lia|by repeat constructor|].
  exists res. split; [exact E|]. split; [exact Ho|exact Hc].
Defined.
