(* ===== verification/Messages.v ===== *)
(** * What the program prints

    The texts on the standard output that report state: [print_banner] and
    [print_usage] of src/main.c, [io_device_show] and the callbacks'
    messages of src/app/io_device.c (default build; those of the real build are
    in RealStack), [pnet_show] of tests/mock/pnet_api_mock.c.  A text is the
    list of its characters; reading an array as a string is checked. *)
From S2P Require Import Prelude CString CFormat NetAddr PnetApi PnetMock IoDevice RealStack RtSetup AppConfig Main.

Definition PNET_MGR_VERSION : list ascii := lit "1.0.1".

(** A line on the output. *)
Definition line (parts : list (list ascii)) : list ascii := out_line parts.

(** [n] times the character "=". *)
Definition rule_line (n : nat) : list ascii := line [replicate n "="%char].

(** ** src/main.c *)

(** [snprintf (buf, len, "%u.%u.%u.%u", ...)] *)
Definition ip_to_str (ip : Z) (buf : list ascii) : exec (list ascii) :=
  '(_, buf) ← snprintf_at buf 0
    (fmt_u (Z.land (Z.shiftr ip 24) 0xFF) ++ lit "." ++ fmt_u (Z.land (Z.shiftr ip 16) 0xFF) ++
     lit "." ++ fmt_u (Z.land (Z.shiftr ip 8) 0xFF) ++ lit "." ++ fmt_u (Z.land ip 0xFF));
  Done buf.

Definition log_level_name (l : Z) : list ascii :=
  if l =? 0 then lit "(ERROR)" else if l =? 1 then lit "(WARN)"
  else if l =? 2 then lit "(INFO)" else if l =? 3 then lit "(DEBUG)" else lit "(?)".

(** The buffers hold what they held; [uninit] stands for it. *)
Definition print_banner (uninit : list ascii) (cfg : app_config_t) : exec (list ascii) :=
  ip_buf ← ip_to_str (ip_addr (device cfg)) uninit;
  mask_buf ← ip_to_str (netmask (device cfg)) uninit;
  gw_buf ← ip_to_str (gateway (device cfg)) uninit;
  product ← read_str (product_name (device cfg));
  station ← read_str (station_name (device cfg));
  interface ← read_str (interface_name (device cfg));
  ip ← read_str ip_buf;
  mask ← read_str mask_buf;
  gw ← read_str gw_buf;
  file ← read_str (config_file cfg);
  Done (rule_line 58 ++
    line [lit "  p-net IO Device Manager  v"; PNET_MGR_VERSION] ++
    rule_line 58 ++
    line [lit "  Product name  : "; product] ++
    line [lit "  Station name  : "; station] ++
    line [lit "  Interface     : "; interface] ++
    line [lit "  IP address    : "; ip] ++
    line [lit "  Netmask       : "; mask] ++
    line [lit "  Gateway       : "; gw] ++
    line [lit "  Vendor ID     : 0x"; fmt_04X (vendor_id (device cfg))] ++
    line [lit "  Device ID     : 0x"; fmt_04X (device_id (device cfg))] ++
    line [lit "  Tick interval : "; fmt_u (tick_us (device cfg)); lit " us"] ++
    line [lit "  Security      : "; lit (if security_enabled cfg then "enabled" else "disabled")] ++
    line [lit "  Real-time     : "; lit (if realtime_enabled cfg then "enabled" else "disabled")] ++
    line [lit "  Log level     : "; fmt_d (log_level cfg); lit " "; log_level_name (log_level cfg)] ++
    line [lit "  Config file   : "; file] ++
    rule_line 58).

Definition print_usage (prog : list ascii) : list ascii :=
  line [lit "Usage: "; prog; lit " [OPTIONS]"] ++ line [] ++
  line [lit "Options:"] ++
  line [lit "  -c <file>   Path to configuration file"] ++
  line [lit "              (default: "; DEFAULT_CONFIG_FILE; lit ")"] ++
  line [lit "  -v          Verbose output (set log level to DEBUG)"] ++
  line [lit "  -h          Show this help message"] ++
  line [] ++
  line [lit "Signals:"] ++
  line [lit "  SIGINT, SIGTERM   Graceful shutdown"].

(** ** src/app/io_device.c *)

(** The message of each callback of the default build. *)
Definition callback_message (ind : indication) : list ascii :=
  match ind with
  | state_ind arep event =>
      line [lit "[IO-DEVICE] State event: "; event_name event; lit " (AREP="; fmt_u arep; lit ")"]
  | connect_ind arep => line [lit "[IO-DEVICE] Connect indication (AREP="; fmt_u arep; lit ")"]
  | release_ind arep => line [lit "[IO-DEVICE] Release indication (AREP="; fmt_u arep; lit ")"]
  | dcontrol_ind arep cmd =>
      line [lit "[IO-DEVICE] DControl indication (AREP="; fmt_u arep; lit ", cmd="; fmt_u cmd; lit ")"]
  | ccontrol_cnf arep cmd =>
      line [lit "[IO-DEVICE] CControl confirmation (AREP="; fmt_u arep; lit ", cmd="; fmt_u cmd;
            lit ")"]
  | write_ind arep api slot subslot index record_length data =>
      line [lit "[IO-DEVICE] Write indication (AREP="; fmt_u arep; lit ", slot="; fmt_u slot;
            lit ", subslot="; fmt_u subslot; lit ", idx=0x"; fmt_x 4 index; lit ", len=";
            fmt_u record_length; lit ")"]
  | read_ind arep api slot subslot index =>
      line [lit "[IO-DEVICE] Read indication (AREP="; fmt_u arep; lit ", slot="; fmt_u slot;
            lit ", subslot="; fmt_u subslot; lit ", idx=0x"; fmt_x 4 index; lit ")"]
  | exp_module_ind api slot module_ident =>
      line [lit "[IO-DEVICE] Expected module indication (api="; fmt_u api; lit ", slot=";
            fmt_u slot; lit ", module_ident=0x"; fmt_x 8 module_ident; lit ")"]
  | exp_submodule_ind api slot subslot module_ident submodule_ident direction =>
      line [lit "[IO-DEVICE] Expected submodule indication (api="; fmt_u api; lit ", slot=";
            fmt_u slot; lit ", subslot="; fmt_u subslot; lit ", mod=0x"; fmt_x 8 module_ident;
            lit ", submod=0x"; fmt_x 8 submodule_ident; lit ")"]
  | new_data_status_ind arep changes =>
      line [lit "[IO-DEVICE] New data status (AREP="; fmt_u arep; lit ", changes=0x";
            fmt_x 2 changes; lit ")"]
  | alarm_ind arep api slot subslot data =>
      line [lit "[IO-DEVICE] Alarm indication (AREP="; fmt_u arep; lit ", slot="; fmt_u slot;
            lit ", subslot="; fmt_u subslot; lit ", data_len="; fmt_u (zlen data); lit ")"]
  | alarm_cnf arep => line [lit "[IO-DEVICE] Alarm confirmation (AREP="; fmt_u arep; lit ")"]
  | alarm_ack_cnf arep =>
      line [lit "[IO-DEVICE] Alarm ACK confirmation (AREP="; fmt_u arep; lit ")"]
  | reset_ind should_reset =>
      line [lit "[IO-DEVICE] Reset indication (should_reset=";
            fmt_d (if should_reset then 1 else 0); lit ")"]
  | signal_led_ind => line [lit "[IO-DEVICE] Signal LED callback"]
  | sm_released_ind arep api slot subslot =>
      line [lit "[IO-DEVICE] Submodule released (AREP="; fmt_u arep; lit ", api="; fmt_u api;
            lit ", slot="; fmt_u slot; lit ", subslot="; fmt_u subslot; lit ")"]
  end.

Definition byte_Z (b : byte) : Z := Z.of_N (Byte.to_N b).

Section show.
Context {net : Type} (pnet_show : net -> Z -> exec (list ascii)).

Definition io_device_show (dev : option (io_device_t net)) : exec (list ascii) :=
  match dev with
  | None => Done (line [lit "IO Device: (null)"])
  | Some dev =>
      product ← read_str (product_name (config dev));
      station ← read_str (station_name (config dev));
      interface ← read_str (interface_name (config dev));
      m0 ← arr_get (mac_addr (config dev)) 0; m1 ← arr_get (mac_addr (config dev)) 1;
      m2 ← arr_get (mac_addr (config dev)) 2; m3 ← arr_get (mac_addr (config dev)) 3;
      m4 ← arr_get (mac_addr (config dev)) 4; m5 ← arr_get (mac_addr (config dev)) 5;
      let ip := ip_addr (config dev) in
      let text :=
        line [lit "=== IO Device Status ==="] ++
        line [lit "  Product name : "; product] ++
        line [lit "  Station name : "; station] ++
        line [lit "  Interface    : "; interface] ++
        line [lit "  MAC          : "; fmt_x 2 (byte_Z m0); lit ":"; fmt_x 2 (byte_Z m1); lit ":";
              fmt_x 2 (byte_Z m2); lit ":"; fmt_x 2 (byte_Z m3); lit ":"; fmt_x 2 (byte_Z m4);
              lit ":"; fmt_x 2 (byte_Z m5)] ++
        line [lit "  IP address   : "; fmt_u (Z.land (Z.shiftr ip 24) 0xFF); lit ".";
              fmt_u (Z.land (Z.shiftr ip 16) 0xFF); lit "."; fmt_u (Z.land (Z.shiftr ip 8) 0xFF);
              lit "."; fmt_u (Z.land ip 0xFF)] ++
        line [lit "  Vendor ID    : 0x"; fmt_x 4 (vendor_id (config dev))] ++
        line [lit "  Device ID    : 0x"; fmt_x 4 (device_id (config dev))] ++
        line [lit "  State        : "; io_device_state_str (state dev)] ++
        line [lit "  Cycle count  : "; fmt_u (cycle_count dev)] ++
        line [lit "  Error count  : "; fmt_u (error_count dev)] ++
        line [lit "  Active AREP  : "; fmt_u (active_arep dev)] ++
        line [lit "  Input size   : "; fmt_u (input_size dev); lit " bytes"] ++
        line [lit "  Output size  : "; fmt_u (output_size dev); lit " bytes"] ++
        line [lit "  p-net handle : ";
              lit (match pnet_handle dev with Some _ => "active" | None => "null" end)] in
      match pnet_handle dev with
      | None => Done text
      | Some n =>
          dump ← pnet_show n 1;
          Done (text ++ line [] ++ line [lit "--- p-net stack internals ---"] ++ dump)
      end
  end.
End show.

(** ** tests/mock/pnet_api_mock.c *)

Definition mock_show (n : option pnet) (level : Z) : exec (list ascii) :=
  match n with
  | None => Done (line [lit "p-net: not initialized"])
  | Some n =>
      if 1 <=? level then
        product ← read_str (pn_product_name (mock_cfg n));
        station ← read_str (pn_station_name (mock_cfg n));
        Done (line [lit "p-net: initialized, product="; product; lit ", station="; station] ++
              line [lit "p-net: submodules="; fmt_d (submodule_count n); lit ", tick_count=";
                    fmt_u (tick_count n)])
      else Done []
  end.

(** ** The status display over the life of a device *)

(** What plugging and data exchange leave alone in the stack object. *)
Definition stack_static (n : pnet) : pnet_cfg_t * bool * Z :=
  (mock_cfg n, initialized n, tick_count n).

Lemma plug_module_static n api slot ident r n' :
  mock_plug_module n api slot ident = (r, n') -> stack_static n' = stack_static n.
Proof. unfold mock_plug_module. by destruct (negb _); intros [= _ <-]. Qed.

Lemma plug_submodule_static n api slot subslot mi si dir il ol r n' :
  mock_plug_submodule n api slot subslot mi si dir il ol = Done (r, n') ->
  stack_static n' = stack_static n.
Proof.
  unfold mock_plug_submodule. destruct (negb _); [by intros [= _ <-]|].
  destruct (_ <=? _); [by intros [= _ <-]|].
  by intros (sm & _ & (sms & _ & [= _ <-])%exec_bind_inv)%exec_bind_inv.
Qed.

Lemma input_set_static n api slot subslot data iops r n' :
  mock_input_set_data_and_iops n api slot subslot data iops = Done (r, n') ->
  stack_static n' = stack_static n.
Proof.
  unfold mock_input_set_data_and_iops. intros ([[i sm]|] & _ & H)%exec_bind_inv.
  - by apply exec_bind_inv in H as (d & _ & (sms & _ & [= _ <-])%exec_bind_inv).
  - by injection H as _ <-.
Qed.

Lemma output_get_static n api slot subslot data len iops r n' x :
  mock_output_get_data_and_iops n api slot subslot data len iops = Done (r, n', x) -> n' = n.
Proof.
  unfold mock_output_get_data_and_iops. intros ([[i sm]|] & _ & H)%exec_bind_inv.
  - by apply exec_bind_inv in H as (d & _ & [= _ <- _]).
  - by injection H as _ <-.
Qed.

Lemma plug_all_static (c : bool) n r n' :
  @plug_all_modules pnet (mock_stack c) n = Done (r, n') -> stack_static n' = stack_static n.
Proof.
  unfold plug_all_modules. cbn [pnet_plug_module pnet_plug_submodule mock_stack].
  repeat match goal with
  | |- context [mock_plug_module ?n ?a ?b ?d] =>
      let E := fresh "E" in destruct (mock_plug_module n a b d) as [? ?] eqn:E;
      apply plug_module_static in E; destruct (negb _); [intros [= _ <-]; congruence|]
  | |- context [mock_plug_submodule ?n ?a ?b ?d ?e ?f ?g ?h ?i] =>
      let E := fresh "E" in
      destruct (mock_plug_submodule n a b d e f g h i) as [[? ?]|] eqn:E; [|done];
      apply plug_submodule_static in E; cbn [mbind exec_bind];
      destruct (negb _); [intros [= _ <-]; congruence|]
  end.
  intros [= _ <-]. congruence.
Qed.

Section display.
Context {c : bool}.
Implicit Types dev : io_device_t pnet.
#[local] Existing Instance mock_stack_ok.

(** The stack behind a device was configured by it and has counted its ticks. *)
Definition in_step dev : Prop :=
  match pnet_handle dev with
  | Some n => build_pnet_cfg (config dev) = Done (mock_cfg n) /\ initialized n = true /\
              tick_count n = u32 (cycle_count dev)
  | None => cycle_count dev = 0
  end.

Lemma u32_u64_incr x y : u32 x = u32 y -> u32 (x + 1) = u32 (u64 (y + 1)).
Proof.
  unfold u32, u64, wrapu. intros H. rewrite Z.mod_mod_divide by (by exists (2 ^ 32)).
  rewrite <-(Zplus_mod_idemp_l x), H. by rewrite Zplus_mod_idemp_l.
Qed.

Lemma in_step_step dev dev' : device_inv (S := mock_stack c) dev -> in_step dev ->
  device_step (S := mock_stack c) dev dev' -> in_step dev'.
Proof using.
  intros Hinv Hd Hstep. unfold in_step in Hd.
  destruct Hstep as [dev cfg ret dev' _ E|dev ret dev' E|dev ret dev' E|dev ret dev' E|dev dev' E
    |dev data len ret dev' _ E|dev data len ret dev' d l _ E].
  - by injection E as _ <-.
  - cbn [io_device_start] in E. case_bool_decide as Hs; cbn [negb] in E; [|by injection E as _ <-].
    assert (pnet_handle dev = None) as Hn.
    { destruct (pnet_handle dev) eqn:Hn; [|done]. destruct Hinv as [_ Hh]. rewrite Hn, Hs in Hh.
      unfold live in Hh. by destruct Hh as [_ [[?|?]|?]]. }
    rewrite Hn in Hd. destruct (build_pnet_cfg (config dev)) as [p|] eqn:Hp; [|done].
    cbn [mbind exec_bind pnet_init mock_stack] in E. unfold mock_init in E.
    destruct c; [|by injection E as _ <-].
    destruct (plug_all_modules _) as [[r n]|] eqn:Hplug; [|done]. apply plug_all_static in Hplug.
    injection Hplug as Hcfg Hini Htick.
    assert (in_step (set_handle (Some n) dev)) as Hin.
    { unfold in_step. cbn. by rewrite Hcfg, Hini, Htick, Hd. }
    cbn [mbind exec_bind] in E. destruct (negb (r =? 0)); by injection E as _ <-.
  - unfold in_step. cbn [io_device_tick] in E.
    destruct (pnet_handle dev) as [n|] eqn:Hn; [|injection E as _ <-; by rewrite Hn].
    destruct Hd as (Hp & Hi & Ht).
    case_bool_decide; [injection E as _ <-; by rewrite Hn|].
    cbn [pnet_handle_periodic mock_stack] in E. unfold mock_handle_periodic in E. rewrite Hi in E.
    injection E as _ <-. cbn. split; [done|]. split; [done|]. apply u32_u64_incr.
    unfold u32 in *. by rewrite Ht, wrapu_idemp by lia.
  - rewrite stop_eq in E. destruct (pnet_handle dev) eqn:Hn; injection E as _ <-; [done|].
    unfold in_step. by rewrite Hn.
  - by injection E as <-.
  - unfold in_step. cbn [io_device_update_input] in E.
    destruct (pnet_handle dev) as [n|] eqn:Hn; [|injection E as _ <-; by rewrite Hn].
    destruct (256 <? len); [injection E as _ <-; by rewrite Hn|].
    apply exec_bind_inv in E as (b & _ & ([r n'] & E & [= _ <-])%exec_bind_inv).
    apply input_set_static in E. injection E as Hcfg Hini Htick. cbn. by rewrite Hcfg, Hini, Htick.
  - unfold in_step. cbn [io_device_read_output] in E.
    destruct (pnet_handle dev) as [n|] eqn:Hn; [|injection E as _ <- _ _; by rewrite Hn].
    apply exec_bind_inv in E as ([[r n'] [[b dl] io]] & E & H). apply output_get_static in E as ->.
    destruct (r =? 0); [|by injection H as _ <- _ _].
    by apply exec_bind_inv in H as (x & _ & [= _ <- _ _]).
Qed.

Lemma in_step_reachable dev : device_reachable (S := mock_stack c) dev -> in_step dev.
Proof using.
  induction 1 as [|dev dev' Hr IH Hs]; [done|]. eapply in_step_step; [by apply reachable_inv|done..].
Qed.

Lemma Done_inj {A} (a b : A) : Done a = Done b -> a = b.
Proof. congruence. Qed.

Lemma arr_get_in {A} (l : list A) (i : Z) : 0 <= i < zlen l -> exists a, arr_get l i = Done a.
Proof.
  unfold zlen. intros Hi. destruct (lookup_lt_is_Some_2 l (Z.to_nat i)) as [a Ha]; [lia|].
  exists a. rewrite <-(Z2Nat.id i) by lia. by apply arr_get_lookup.
Qed.

(** A part inside a longer text. *)
Definition contains (part text : list ascii) : Prop := exists pre post, text = pre ++ part ++ post.

Lemma contains_here part post : contains part (part ++ post).
Proof. by exists [], post. Qed.

Lemma contains_skip part a text : contains part text -> contains part (a ++ text).
Proof. intros (pre & post & ->). exists (a ++ pre), post. by rewrite <-app_assoc. Qed.

(** C38: The status display is defined and consistent.  For every device
    reached by any calls on the mock stack, whose arrays have their sizes,
    printing the status reads nothing outside an array and shows the cycle
    count; if the stack is active, its own dump follows, and it speaks of the
    same device: the product and station names are those of the device's
    configuration and the stack's tick count is the device's cycle count,
    cut to 32 bits. *)
Theorem status_display dev : device_reachable (S := mock_stack c) dev ->
  device_cfg_sized (config dev) -> length (mac_addr (config dev)) = 6%nat ->
  exists text, io_device_show (fun n => mock_show (Some n)) (Some dev) = Done text /\
    contains (line [lit "  Cycle count  : "; fmt_u (cycle_count dev)]) text /\
    (forall n, pnet_handle dev = Some n -> 
       (line [lit "p-net: initialized, product="; c_str (product_name (config dev)); lit ", station=";
              c_str (station_name (config dev))] ++
        line [lit "p-net: submodules="; fmt_d (submodule_count n); lit ", tick_count=";
              fmt_u (u32 (cycle_count dev))]) `suffix_of` text).
Proof using.
  intros Hr (Hp & Hs & _) Hmac. pose proof (in_step_reachable _ Hr) as Hd.
  pose proof (inv_cfg _ (reachable_inv _ Hr)) as Hcfg. pose proof Hcfg as (Tp & Ts & Ti & _).
  unfold io_device_show. rewrite !read_str_ok by done. cbn [mbind exec_bind].
  assert (forall i, 0 <= i < 6 -> exists b, arr_get (mac_addr (config dev)) i = Done b) as Hget.
  { intros i Hi. apply arr_get_in. unfold zlen. lia. }
  destruct (Hget 0 ltac:(lia)) as [m0 ->], (Hget 1 ltac:(lia)) as [m1 ->], (Hget 2 ltac:(lia)) as [m2 ->],
    (Hget 3 ltac:(lia)) as [m3 ->], (Hget 4 ltac:(lia)) as [m4 ->], (Hget 5 ltac:(lia)) as [m5 ->].
  cbn [mbind exec_bind]. unfold in_step in Hd. destruct (pnet_handle dev) as [n|].
  - destruct Hd as (Hb & _ & Ht). rewrite build_pnet_cfg_ok in Hb by done.
    apply Done_inj in Hb.
    unfold mock_show. change (1 <=? 1) with true. cbv iota. rewrite <-Hb.
    cbn [pn_product_name pn_station_name].
    assert (forall m buf, terminated buf -> length buf = Datatypes.S m ->
      read_str (safe_strncpy (replicate (Datatypes.S m) nul) (c_str buf) (Datatypes.S m)) =
        Done (c_str buf)) as Hread.
    { intros m buf Hbuf Hlen. pose proof (length_c_str buf Hbuf).
      rewrite read_str_ok; [by rewrite safe_strncpy_keeps|].
      rewrite safe_strncpy_zero, take_ge by lia. apply to_array_terminated. lia. }
    rewrite !Hread by done. cbn [mbind exec_bind]. rewrite Ht.
    eexists. split; [done|]. rewrite <-!app_assoc. split.
    + repeat (apply contains_here || apply contains_skip).
    + intros _ [= <-]. repeat first [exists []; reflexivity | apply suffix_app_r].
  - eexists. split; [done|]. split; [|done]. repeat (apply contains_here || apply contains_skip).
Qed.
End display.

(** ** The banner *)

(** An address fits its buffer. *)
Lemma ip_to_str_dotted ip uninit : length uninit = 16%nat ->
  exists rest, ip_to_str ip uninit = Done (fmt_ip ip ++ nul :: rest).
Proof.
  intros Hl. unfold ip_to_str.
  change (Z.land (Z.shiftr ip 24) 0xFF) with (byte_of 3 ip).
  change (Z.land (Z.shiftr ip 16) 0xFF) with (byte_of 2 ip).
  change (Z.land (Z.shiftr ip 8) 0xFF) with (byte_of 1 ip).
  change (Z.land ip 0xFF) with (byte_of 0 ip).
  change (snprintf_at uninit 0 _) with (snprintf_at uninit 0 (fmt_ip ip)).
  assert (zlen (@nil ascii) + zlen (fmt_ip ip) < zlen uninit) as Hfit.
  { pose proof (length_fmt_ip ip) as Hi. unfold zlen in Hi |- *. rewrite Hl. cbn [length]. lia. }
  destruct (snprintf_at_fits uninit [] (fmt_ip ip) eq_refl Hfit) as (rest & E & _).
  change (zlen (@nil ascii)) with 0 in E. rewrite E. cbn [mbind exec_bind]. by exists rest.
Qed.

Lemma snprintf_at_terminated buf s b : buf <> [] -> snprintf_at buf 0 s = Done (zlen s, b) -> terminated b.
Proof.
  intros Hb. unfold snprintf_at. rewrite access_ok by (pose proof (zlen_nonneg buf); lia).
  cbn [mbind exec_bind]. change (Z.to_nat 0) with 0%nat. rewrite Nat.sub_0_r.
  destruct buf as [|x buf]; [done|]. change (length (x :: buf) =? 0)%nat with false. cbv iota.
  intros [= <-]. unfold terminated. set_solver.
Qed.

Lemma load_config_file path file verbose c : CString.text path ->
  load_config path file verbose = Done c -> terminated (config_file c).
Proof.
  intros Hp. unfold load_config. destruct file as [file|].
  - destruct (load_done zero_config path file Hp) as (cfg & -> & Hwf & _).
    cbn [mbind exec_bind default]. change (0 <? 0) with false. cbv iota. cbn [mbind exec_bind].
    assert (terminated (config_file cfg)) as Ht.
    { destruct (wf_config_file _ Hwf) as [Ef Hlen]. rewrite Ef. by apply to_array_terminated. }
    by destruct verbose; intros [= <-].
  - cbn [app_config_load mbind exec_bind]. change (-1 <? 0) with true. cbv iota.
    destruct app_config_default as [d|] eqn:Hd; [|done]. cbn [mbind exec_bind].
    destruct (snprintf_at_defined (config_file d) 0 path) as (b & E & _);
      [pose proof (zlen_nonneg (config_file d)); lia|].
    rewrite E. cbn [mbind exec_bind]. apply snprintf_at_terminated in E.
    + by destruct verbose; intros [= <-].
    + destruct (default_wf d Hd) as [Hwf _]. destruct (wf_config_file _ Hwf) as [Ef _].
      intros Hnil. rewrite Hnil in Ef. apply (f_equal length) in Ef. by rewrite length_to_array in Ef.
Qed.

Lemma parse_ip_fmt ip : in_u 32 ip -> parse_ip (fmt_ip ip) = ip.
Proof.
  intros Hip. unfold fmt_ip. rewrite parse_ip_quad.
  - unfold quad_value. symmetry. by apply octets_eq.
  - repeat split; apply byte_of_range; lia.
Qed.

Lemma length_hex16_eq n : in_u 16 n -> length (lit "0x" ++ fmt_04X n) = 6%nat.
Proof.
  unfold in_u. intros. rewrite length_app. change (length (lit "0x")) with 2%nat.
  unfold fmt_04X. rewrite length_app, length_replicate, List.length_map.
  pose proof (length_digits 16 ltac:(lia) n 4%nat ltac:(lia) ltac:(lia)). lia.
Qed.

Lemma in_u_weaken w w' n : 0 <= w <= w' -> in_u w n -> in_u w' n.
Proof. unfold in_u. intros Hw Hn. pose proof (Z.pow_le_mono_r 2 w w' ltac:(lia) ltac:(lia)). lia. Qed.

(** The numbers on the banner are in the range of their types. *)
Lemma load_config_numbers path file verbose c : load_config path file verbose = Done c ->
  CString.text path ->
  in_u 32 (ip_addr (device c)) /\ in_u 32 (netmask (device c)) /\ in_u 32 (gateway (device c)) /\
  in_u 16 (vendor_id (device c)) /\ in_u 16 (device_id (device c)) /\ in_u 32 (tick_us (device c)) /\
  in_s32 (log_level c) /\ (verbose = true -> log_level c = 3).
Proof.
  intros E Hp. revert E.
  assert (forall c0, config_wf c0 -> forall path, let c1 := set_config_file path c0 in
    let c := if verbose then set_log_level 3 c1 else c1 in
    in_u 32 (ip_addr (device c)) /\ in_u 32 (netmask (device c)) /\ in_u 32 (gateway (device c)) /\
    in_u 16 (vendor_id (device c)) /\ in_u 16 (device_id (device c)) /\ in_u 32 (tick_us (device c)) /\
    in_s32 (log_level c) /\ (verbose = true -> log_level c = 3)) as Hwf.
  { intros c0 [_ _ _ _ _ _ (? & ? & ?) [? ?] ? (? & _) _] q. by destruct verbose; cbn; split_and!. }
  unfold load_config. destruct file as [file|].
  - destruct (load_done zero_config path file Hp) as (cfg & -> & H & _).
    cbn [mbind exec_bind default]. change (0 <? 0) with false. cbv iota. cbn [mbind exec_bind].
    specialize (Hwf cfg H (config_file cfg)). intros [= <-].
    by destruct cfg as [d n tc sec se r re ll lf cf]; destruct verbose.
  - cbn [app_config_load mbind exec_bind]. change (-1 <? 0) with true. cbv iota.
    destruct app_config_default as [d|] eqn:Hd; [|done]. cbn [mbind exec_bind].
    destruct (snprintf_at _ _ _) as [[? b]|]; [|done]. cbn [mbind exec_bind].
    destruct (default_wf d Hd) as [H _]. intros [= <-]. by apply Hwf.
Qed.

(** C39: The banner shows the configuration the program runs with.  Whatever
    the configuration file holds, even absent, printing the banner reads and
    writes nothing outside an array, and the text is the seventeen lines below
    in this order.  The names and the configuration file's path appear
    complete.  Each number appears in a form that the parser of the
    configuration file reads back as the number of the configuration: the
    addresses as dotted quads, the identifiers as four hexadecimal digits
    after "0x", the tick interval and the log level in decimal.  The words for
    security, real-time and the log level say what is configured; with the
    verbose option the level is DEBUG. *)
Theorem banner_shows_config path file verbose uninit : CString.text path -> length uninit = 16%nat ->
  exists cfg text ip mask gw vendor dev tick security realtime level name,
    load_config path file verbose = Done cfg /\ print_banner uninit cfg = Done text /\
    text = mjoin (map (fun l => l ++ [nl])
      [replicate 58 "="%char;
       lit "  p-net IO Device Manager  v1.0.1";
       replicate 58 "="%char;
       lit "  Product name  : " ++ c_str (product_name (device cfg));
       lit "  Station name  : " ++ c_str (station_name (device cfg));
       lit "  Interface     : " ++ c_str (interface_name (device cfg));
       lit "  IP address    : " ++ ip;
       lit "  Netmask       : " ++ mask;
       lit "  Gateway       : " ++ gw;
       lit "  Vendor ID     : " ++ vendor;
       lit "  Device ID     : " ++ dev;
       lit "  Tick interval : " ++ tick ++ lit " us";
       lit "  Security      : " ++ security;
       lit "  Real-time     : " ++ realtime;
       lit "  Log level     : " ++ level ++ lit " " ++ name;
       lit "  Config file   : " ++ c_str (config_file cfg);
       replicate 58 "="%char]) /\
    (parse_ip ip = ip_addr (device cfg) /\ ip = fmt_ip (ip_addr (device cfg))) /\
    (parse_ip mask = netmask (device cfg) /\ mask = fmt_ip (netmask (device cfg))) /\
    (parse_ip gw = gateway (device cfg) /\ gw = fmt_ip (gateway (device cfg))) /\
    (strtoul0 vendor = vendor_id (device cfg) /\ length vendor = 6%nat /\ vendor = lit "0x" ++ fmt_04X (vendor_id (device cfg))) /\
    (strtoul0 dev = device_id (device cfg) /\ length dev = 6%nat /\ dev = lit "0x" ++ fmt_04X (device_id (device cfg))) /\
    (strtoul0 tick = tick_us (device cfg) /\ tick = fmt_u (tick_us (device cfg))) /\
    (if security_enabled cfg then security = lit "enabled" else security = lit "disabled") /\
    (if realtime_enabled cfg then realtime = lit "enabled" else realtime = lit "disabled") /\
    (atoi level = log_level cfg /\ level = fmt_d (log_level cfg)) /\
    (log_level cfg = 0 -> name = lit "(ERROR)") /\ (log_level cfg = 1 -> name = lit "(WARN)") /\
    (log_level cfg = 2 -> name = lit "(INFO)") /\ (log_level cfg = 3 -> name = lit "(DEBUG)") /\
    (~ 0 <= log_level cfg <= 3 -> name = lit "(?)") /\
    (verbose = true -> name = lit "(DEBUG)").
Proof.
  intros Hp Hl. destruct (load_config_usable path file verbose Hp) as (cfg & E & Hu).
  pose proof (load_config_file _ _ _ _ Hp E) as Hf. destruct (us_device _ Hu) as (Tp & Ts & Ti & _).
  destruct (load_config_numbers _ _ _ _ E Hp) as (Hip & Hm & Hg & Hv & Hd & Ht & Hlv & Hvb).
  destruct (ip_to_str_dotted (ip_addr (device cfg)) uninit Hl) as [r1 E1].
  destruct (ip_to_str_dotted (netmask (device cfg)) uninit Hl) as [r2 E2].
  destruct (ip_to_str_dotted (gateway (device cfg)) uninit Hl) as [r3 E3].
  eexists cfg, _, (fmt_ip (ip_addr (device cfg))), (fmt_ip (netmask (device cfg))),
    (fmt_ip (gateway (device cfg))), (lit "0x" ++ fmt_04X (vendor_id (device cfg))),
    (lit "0x" ++ fmt_04X (device_id (device cfg))), (fmt_u (tick_us (device cfg))),
    (lit (if security_enabled cfg then "enabled" else "disabled")),
    (lit (if realtime_enabled cfg then "enabled" else "disabled")),
    (fmt_d (log_level cfg)), (log_level_name (log_level cfg)). split; [done|].
  split. { unfold print_banner. rewrite E1, E2, E3. cbn [mbind exec_bind].
    rewrite !read_str_ok by (done || apply terminated_app). cbn [mbind exec_bind].
    rewrite !c_str_text by apply fmt_ip_text. done. }
  split. { unfold line, rule_line, line, out_line. cbn [map mjoin list_join].
    rewrite !app_nil_r. repeat (apply (f_equal2 app); [reflexivity|]). reflexivity. }
  split_and!; try done; try by apply parse_ip_fmt.
  1, 3: by apply strtoul0_hex, (in_u_weaken 16).
  1, 2: by apply length_hex16_eq.
  - by apply strtoul0_fmt_u, (in_u_weaken 32).
  - by destruct (security_enabled cfg).
  - by destruct (realtime_enabled cfg).
  - by apply atoi_fmt_d.
  - by intros ->.
  - by intros ->.
  - by intros ->.
  - by intros ->.
  - intros Hn. unfold log_level_name. by rewrite !(proj2 (Z.eqb_neq _ _)) by lia.
  - intros Hvt. by rewrite Hvb.
Qed.

(** ** Concrete instances *)

Lemma take_mid_drop (i n : nat) (t part : list ascii) : take n (drop i t) = part ->
  take i t ++ part ++ drop n (drop i t) = t.
Proof. intros <-. by rewrite !take_drop. Qed.

Lemma suffix_drop_eq (i : nat) (t part : list ascii) : drop i t = part -> part `suffix_of` t.
Proof. intros <-. exists (take i t). by rewrite take_drop. Qed.

Lemma banner_shows_config_witness : exists cfg text pre post,
  load_config (lit "/etc/x") (Some (lit "ip_addr=10.1.2.3" ++ [nl])) true = Done cfg /\
  print_banner (replicate 16 "?"%char) cfg = Done text /\
  text = pre ++ (lit "  IP address    : 10.1.2.3" ++ [nl]) ++ post /\
  (lit "  Log level     : 3 (DEBUG)" ++ [nl] ++ lit "  Config file   : /etc/x" ++ [nl] ++
   replicate 58 "="%char ++ [nl]) `suffix_of` text.
Proof.
  destruct (banner_shows_config (lit "/etc/x") (Some (lit "ip_addr=10.1.2.3" ++ [nl])) true
    (replicate 16 "?"%char)) as (cfg & text & ip & mask & gw & vendor & dev & tick & sec & rt & level &
      name & E & Hb & Ht & [_ ->] & _ & _ & _ & _ & _ & _ & _ & [_ ->] & _ & _ & _ & _ & _ & Hn);
    [by apply text_dec_true; vm_compute|done|].
  specialize (Hn eq_refl) as ->.
  vm_compute in E. injection E as <-. vm_compute in Hb. injection Hb as <-. clear Ht.
  eexists _, _, _, _. split; [by vm_compute|]. split; [by vm_compute|].
  split; [symmetry; apply (take_mid_drop 237 27); by vm_compute|].
  eapply (suffix_drop_eq 454). by vm_compute.
Defined.

(** A device on the mock stack after two ticks. *)
Definition sample_ticked : io_device_t pnet :=
  default zero_device (@ticks pnet (mock_stack true) 2 (Some sample_started)).2.

Lemma sample_ticked_reachable : device_reachable (S := mock_stack true) sample_ticked.
Proof.
  assert (exists d, @io_device_tick pnet (mock_stack true) (Some sample_started) = (0, Some d) /\
    @io_device_tick pnet (mock_stack true) (Some d) = (0, Some sample_ticked)) as (d & E1 & E2).
  { exists (default zero_device (@io_device_tick pnet (mock_stack true) (Some sample_started)).2).
    split; vm_compute; exact eq_refl. }
  eapply reachable_step; [eapply reachable_step; [apply sample_started_reachable|]|].
  - by eapply step_tick.
  - by eapply step_tick.
Qed.

Lemma status_display_witness : exists text,
  io_device_show (fun n => mock_show (Some n)) (Some sample_ticked) = Done text /\
  (line [lit "p-net: initialized, product=PNET-IO, station=pnet-io-device"] ++
   line [lit "p-net: submodules=5, tick_count=2"]) `suffix_of` text.
Proof.
  destruct (status_display (c := true) sample_ticked sample_ticked_reachable)
    as (text & E & _ & Hs); [by vm_compute|by vm_compute|].
  exists text. split; [exact E|].
  destruct (pnet_handle sample_ticked) as [n|] eqn:Hn; [|by vm_compute in Hn].
  specialize (Hs n eq_refl).
  assert (submodule_count n = 5) as H5 by (vm_compute in Hn; by injection Hn as <-).
  rewrite H5 in Hs. exact Hs.
Defined.

Example usage_text : exists pre post,
  print_usage (lit "pnet-manager") =
    pre ++ lit "(default: /etc/pnet-manager/config.conf)" ++ post.
Proof.
  exists (take 95 (print_usage (lit "pnet-manager"))), (drop 135 (print_usage (lit "pnet-manager"))).
  by vm_compute.
Qed.
