(* ===== verification/Supervisor.v ===== *)
(** * The program under signals (src/main.c)

    The production loop as it runs: a machine whose program counter names the
    points of src/main.c between the calls of [device_init_and_start] and the
    final message, and signals that may arrive before any of its steps.  The
    registration of the handlers, the handler, the systemd notifications and
    the order of the actions are modelled; [serve] of Main is what a
    complete run of the machine computes. *)
From S2P Require Import Prelude CString CFormat NetAddr SecurityPolicy PnetApi PnetMock IoDevice NetworkConfig RtSetup AppConfig Main.

(** ** Signal handlers *)

(** Linux numbers. *)
Definition SIGHUP : Z := 1.
Definition SIGINT : Z := 2.
Definition SIGTERM : Z := 15.

Inductive disposition := SIG_DFL | Handled.

#[export] Instance disposition_eq_dec : EqDecision disposition.
Proof. solve_decision. Defined.

(** [sigaction (sig, &sa, NULL)] where [sa] holds a disposition, an empty mask
    and no flags; and what sigaction(2) documents. *)
Class SigOs (P : Type) := {
  p_sigaction : Z -> disposition -> P -> Z * P;
}.
Class SigOsOk (P : Type) `{SigOs P} := {
  dispositions : P -> Z -> disposition;
  sigaction_ok sig d p r p' : p_sigaction sig d p = (r, p') ->
    forall s, dispositions p' s =
      if bool_decide (0 <= r /\ s = sig) then d else dispositions p s;
}.

Definition install_signal_handlers {P} `{SigOs P} (p : P) : Z * P :=
  let '(r, p) := p_sigaction SIGINT Handled p in
  if r <? 0 then (-1, p) else
  let '(r, p) := p_sigaction SIGTERM Handled p in
  if r <? 0 then (-1, p) else (0, p).

(** The assignment to [g_running]. *)
Definition signal_handler (sig g_running : Z) : Z := 0.

(** ** systemd notifications

    [have_systemd] is the macro HAVE_SYSTEMD; without it nothing is sent. *)
Inductive action :=
  | Does (e : loop_event)
  | Notify (msg : list ascii).

#[export] Instance loop_event_eq_dec : EqDecision loop_event.
Proof. solve_decision. Defined.
#[export] Instance action_eq_dec : EqDecision action.
Proof. solve_decision. Defined.

Section notifications.
Context (have_systemd : bool).

Definition sd_notify (msg : list ascii) : list action :=
  if have_systemd then [Notify msg] else [].

Definition watchdog_notify : list action := sd_notify (lit "WATCHDOG=1").
Definition watchdog_notify_stopping : list action := sd_notify (lit "STOPPING=1").
Definition watchdog_notify_ready : list action := sd_notify (lit "READY=1").

(** [text] is the formatted message; it goes through [buf[256]]. *)
Definition watchdog_notify_status (text : list ascii) : exec (list action) :=
  if have_systemd then
    '(_, buf) ← snprintf_at (replicate 256 nul) 0 text;
    s ← read_str buf;
    Done [Notify (lit "STATUS=" ++ s)]
  else Done [].
End notifications.

(** ** The machine *)

Inductive pc :=
  | At_start       (* device_init_and_start (&device, &config.device) *)
  | At_test        (* while (g_running) *)
  | At_tick        (* io_device_tick and the error accounting *)
  | At_recovery    (* device_stop_and_cleanup *)
  | At_backoff     (* usleep (backoff_us) *)
  | At_restart     (* the new backoff, device_init_and_start *)
  | At_ping        (* clock_gettime, watchdog_notify *)
  | At_sleep       (* usleep (config.device.tick_us) *)
  | At_stopping    (* watchdog_notify_stopping *)
  | At_stop        (* device_stop_and_cleanup *)
  | At_restore     (* cleanup_rt *)
  | At_exit
  | Killed.        (* a signal with its default action *)

#[export] Instance pc_eq_dec : EqDecision pc.
Proof. solve_decision. Defined.

Record machine {net O : Type} := mk_machine {
  m_pc : pc;
  m_running : Z;             (* g_running *)
  m_loop : loop_state net;
  m_iter : nat;              (* iterations completed *)
  m_rt : rt_state;
  m_os : O;
  m_trace : list action;
}.
Arguments machine : clear implicits.
Arguments mk_machine {net O}.

Section machine.
Context {net O : Type} `{RtOs O} (have_systemd : bool) (cfg : app_config_t).
(** The stack at start-up; the stack and the clock of each iteration. *)
Context (S0 : PnetStack net) (env : nat -> PnetStack net * Z).
Implicit Types m : machine net O.

(** The next statement, with the new loop state and what it did. *)
Definition goto (q : pc) (lp : loop_state net) (acts : list action) m : machine net O :=
  mk_machine q (m_running m) lp (m_iter m) (m_rt m) (m_os m) (m_trace m ++ acts).

(** [io_device_tick] and the branches on its result, up to the recovery. *)
Definition do_tick m : exec (machine net O) :=
  let lp := m_loop m in
  let '(rc, dev) := @io_device_tick net (env (m_iter m)).1 (Some (lp_device lp)) in
  let dev := default zero_device dev in
  if rc =? 0 then
    Done (goto At_ping (mk_loop dev 0 0 RECOVERY_BACKOFF_BASE (last_watchdog_ms lp)) [] m)
  else
    let dev := set_error_count (u64 (error_count dev + 1)) dev in
    errors ← int_incr (consecutive_errors lp);
    if (0 <? MAX_CONSECUTIVE_ERRORS) && (MAX_CONSECUTIVE_ERRORS <=? errors) then
      attempts ← int_incr (recovery_attempts lp);
      status ← watchdog_notify_status have_systemd (lit "recovering attempt " ++ fmt_d attempts);
      Done (goto At_recovery (mk_loop dev errors attempts (backoff_us lp) (last_watchdog_ms lp))
              status m)
    else Done (goto At_ping (mk_loop dev errors (recovery_attempts lp) (backoff_us lp)
                               (last_watchdog_ms lp)) [] m).

(** [backoff_us *= 2] with its cap, [device_init_and_start] and the branches on
    its result. *)
Definition do_restart m : exec (machine net O) :=
  let lp := m_loop m in
  let backoff := u32 (backoff_us lp * 2) in
  let backoff := if RECOVERY_BACKOFF_MAX <? backoff then RECOVERY_BACKOFF_MAX else backoff in
  '(r, dev) ← device_init_and_start (env (m_iter m)).1 (AppConfig.device cfg);
  let errors := if r =? 0 then 0 else consecutive_errors lp in
  status ← (if r =? 0 then watchdog_notify_status have_systemd (lit "running") else Done []);
  Done (goto At_ping (mk_loop dev errors (recovery_attempts lp) backoff (last_watchdog_ms lp))
          (Does (Recovery (recovery_attempts lp) (r =? 0)) :: status) m).

Definition do_ping m : machine net O :=
  let lp := m_loop m in
  let now_ms := (env (m_iter m)).2 in
  if WATCHDOG_PING_MS <=? u64 (now_ms - last_watchdog_ms lp) then
    goto At_sleep (mk_loop (lp_device lp) (consecutive_errors lp) (recovery_attempts lp)
                     (backoff_us lp) now_ms)
      (Does (WatchdogPing now_ms) :: watchdog_notify have_systemd) m
  else goto At_sleep lp [] m.

Definition set_device (dev : io_device_t net) (lp : loop_state net) : loop_state net :=
  mk_loop dev (consecutive_errors lp) (recovery_attempts lp) (backoff_us lp) (last_watchdog_ms lp).

(** One statement of the program. *)
Definition prog_step m : exec (machine net O) :=
  let lp := m_loop m in
  match m_pc m with
  | At_start =>
      '(r, dev) ← device_init_and_start S0 (AppConfig.device cfg);
      if r <? 0 then Done (goto At_restore (initial_loop dev) [] m)
      else Done (goto At_test (initial_loop dev) (watchdog_notify_ready have_systemd) m)
  | At_test => Done (goto (if m_running m =? 0 then At_stopping else At_tick) lp [] m)
  | At_tick => do_tick m
  | At_recovery =>
      Done (goto At_backoff
              (set_device (device_stop_and_cleanup (env (m_iter m)).1 (lp_device lp)) lp) [] m)
  | At_backoff => Done (goto At_restart lp [Does (Usleep (backoff_us lp))] m)
  | At_restart => do_restart m
  | At_ping => Done (do_ping m)
  | At_sleep =>
      Done (mk_machine At_test (m_running m) lp (Datatypes.S (m_iter m)) (m_rt m) (m_os m)
              (m_trace m ++ [Does (Usleep (tick_us (AppConfig.device cfg)))]))
  | At_stopping => Done (goto At_stop lp (watchdog_notify_stopping have_systemd) m)
  | At_stop =>
      Done (goto At_restore (set_device (device_stop_and_cleanup S0 (lp_device lp)) lp) [] m)
  | At_restore =>
      let '(st, o) := if realtime_enabled cfg then rt_setup_restore (m_rt m) (m_os m)
                      else (m_rt m, m_os m) in
      status ← watchdog_notify_status have_systemd (lit "stopped");
      Done (mk_machine At_exit (m_running m) lp (m_iter m) st o (m_trace m ++ status))
  | At_exit | Killed => Done m
  end.

Definition final m : Prop := m_pc m = At_exit \/ m_pc m = Killed.

(** A signal arrives: its handler runs between two statements, or its default
    action ends the process. *)
Definition deliver (d : Z -> disposition) (sig : Z) m : machine net O :=
  match d sig with
  | Handled => mk_machine (m_pc m) (signal_handler sig (m_running m)) (m_loop m) (m_iter m) (m_rt m)
                 (m_os m) (m_trace m)
  | SIG_DFL => mk_machine Killed (m_running m) (m_loop m) (m_iter m) (m_rt m) (m_os m) (m_trace m)
  end.

(** The process with the dispositions [d]: the program moves, or one of the
    signals that ask a process to end arrives. *)
Inductive step (d : Z -> disposition) : machine net O -> machine net O -> Prop :=
  | step_prog m m' : ~ final m -> prog_step m = Done m' -> step d m m'
  | step_signal m sig : ~ final m -> sig ∈ [SIGHUP; SIGINT; SIGTERM] ->
      step d m (deliver d sig m).

(** After start-up: [g_running] is 1 unless a signal came first. *)
Definition initial_machine (g_running : Z) (st : rt_state) (o : O) : machine net O :=
  mk_machine At_start g_running (initial_loop zero_device) 0 st o [].

Definition reachable (d : Z -> disposition) (g_running : Z) (st : rt_state) (o : O) m : Prop :=
  rtc (step d) (initial_machine g_running st o) m.

(** The first [n] iterations' inputs. *)
Definition inputs_upto (n : nat) : list (PnetStack net * Z) := env <$> seq 0 n.

(** The loop's events in a trace, and the messages to systemd. *)
Definition events_of (tr : list action) : list loop_event :=
  omap (fun a => match a with Does e => Some e | Notify _ => None end) tr.
Definition messages_of (tr : list action) : list (list ascii) :=
  omap (fun a => match a with Notify s => Some s | Does _ => None end) tr.
End machine.

(** ** Notifications *)

Lemma status_eq have text : CString.text text ->
  watchdog_notify_status have text =
    Done (if have then [Notify (lit "STATUS=" ++ take 255 text)] else []).
Proof.
  intros Ht. unfold watchdog_notify_status. destruct have; [|done].
  unfold snprintf_at. rewrite access_ok by (vm_compute; split; discriminate).
  cbn [mbind exec_bind]. rewrite length_replicate. change (256 - Z.to_nat 0)%nat with 256%nat.
  change (256 =? 0)%nat with false. cbv iota. change (256 - 1)%nat with 255%nat.
  change (Z.to_nat 0) with 0%nat. cbn [take app mbind exec_bind].
  rewrite <-app_assoc. cbn [app].
  rewrite read_str_ok by (rewrite take_0; apply terminated_app). cbn [mbind exec_bind].
  by rewrite take_0, app_nil_l, c_str_text by (by apply Forall_take).
Qed.

Lemma text_recovering k : CString.text (lit "recovering attempt " ++ fmt_d k).
Proof. apply text_app. split; [by repeat constructor|auto with pnet]. Qed.

(** ** A complete run is a run of [serve] *)
Section refinement.
Context {net O : Type} {OS : RtOs O} {have : bool} {cfg : app_config_t}
  {S0 : PnetStack net} {env : nat -> PnetStack net * Z}.
Implicit Types (m : machine net O) (lp : loop_state net).

Abbreviation prog_step := (prog_step have cfg S0 env).

Lemma events_of_app l k : events_of (l ++ k) = events_of l ++ events_of k.
Proof using. apply omap_app. Qed.

Lemma messages_of_app l k : messages_of (l ++ k) = messages_of l ++ messages_of k.
Proof using. apply omap_app. Qed.

Lemma events_of_cons e l : events_of (Does e :: l) = e :: events_of l.
Proof using. done. Qed.

(** Notifications are not events of the loop. *)
Lemma events_of_notify msg : events_of (sd_notify have msg) = [].
Proof using. by destruct have. Qed.

Lemma events_of_status text acts :
  watchdog_notify_status have text = Done acts -> events_of acts = [].
Proof using.
  unfold watchdog_notify_status. destruct have; [|by intros [= <-]].
  intros ([r buf] & _ & (s & _ & [= <-])%exec_bind_inv)%exec_bind_inv. done.
Qed.

(** What is left of an iteration after its recovery part. *)
Definition tail (now : Z) (lp : loop_state net) (ev : list loop_event)
    : loop_state net * list loop_event :=
  (mk_loop (lp_device lp) (consecutive_errors lp) (recovery_attempts lp) (backoff_us lp)
     (watchdog now (last_watchdog_ms lp)).1,
   ev ++ (watchdog now (last_watchdog_ms lp)).2 ++ [Usleep (tick_us (AppConfig.device cfg))]).

Definition restarted (S : PnetStack net) (lp : loop_state net)
    : exec (loop_state net * list loop_event) :=
  let backoff := u32 (backoff_us lp * 2) in
  let backoff := if RECOVERY_BACKOFF_MAX <? backoff then RECOVERY_BACKOFF_MAX else backoff in
  '(r, dev) ← device_init_and_start S (AppConfig.device cfg);
  let errors := if r =? 0 then 0 else consecutive_errors lp in
  Done (mk_loop dev errors (recovery_attempts lp) backoff (last_watchdog_ms lp),
        [Recovery (recovery_attempts lp) (r =? 0)]).

(** What the current iteration still does, as [loop_iteration] computes it. *)
Definition remainder m : exec (loop_state net * list loop_event) :=
  let '(stack, now) := env (m_iter m) in
  let lp := m_loop m in
  let recover lp pre := '(lp', e) ← restarted stack lp; Done (tail now lp' (pre ++ e)) in
  match m_pc m with
  | At_tick => loop_iteration stack now cfg lp
  | At_recovery =>
      recover (set_device (device_stop_and_cleanup stack (lp_device lp)) lp) [Usleep (backoff_us lp)]
  | At_backoff => recover lp [Usleep (backoff_us lp)]
  | At_restart => recover lp []
  | At_ping => Done (tail now lp [])
  | At_sleep => Done (lp, [Usleep (tick_us (AppConfig.device cfg))])
  | _ => Done (lp, [])
  end.

Definition in_iteration m : Prop :=
  match m_pc m with
  | At_tick | At_recovery | At_backoff | At_restart | At_ping | At_sleep => True
  | _ => False
  end.

(** The step from [m] to [m'] does the first of what the iteration has left. *)
Definition does_first m m' : Prop :=
  (in_iteration m' /\ m_iter m' = m_iter m \/ m_pc m' = At_test /\ m_iter m' = S (m_iter m)) /\
  m_running m' = m_running m /\ m_rt m' = m_rt m /\ m_os m' = m_os m /\
  exists acts, m_trace m' = m_trace m ++ acts /\
    remainder m = '(lp, e) ← remainder m'; Done (lp, events_of acts ++ e).

Lemma does_first_goto q lp acts m : in_iteration (goto q lp acts m) ->
  remainder m = ('(lp, e) ← remainder (goto q lp acts m); Done (lp, events_of acts ++ e)) ->
  does_first m (goto q lp acts m).
Proof using. intros Hin Hr. split; [by left|]. do 3 (split; [done|]). by exists acts. Qed.

(** What [remainder] is after [goto]. *)
Ltac remainder_goto He :=
  unfold remainder;
  cbn [goto m_pc m_iter m_loop m_running m_rt m_os m_trace]; rewrite He;
  cbn [mbind exec_bind app fst snd set_device lp_device consecutive_errors recovery_attempts
    backoff_us last_watchdog_ms].

Lemma tick_does_first m m' : m_pc m = At_tick -> do_tick have env m = Done m' -> does_first m m'.
Proof using.
  destruct m as [p g lp i rt o tr]. cbn [m_pc]. intros -> H.
  destruct (env i) as [stack now] eqn:He. unfold do_tick in H. cbn [m_loop m_iter] in H.
  rewrite He in H. cbn [fst] in H. destruct (io_device_tick _) as [rc dev] eqn:Ht.
  destruct (rc =? 0) eqn:Hrc.
  { injection H as <-. apply does_first_goto; [done|]. remainder_goto He.
    unfold loop_iteration, tail, watchdog. rewrite Ht, Hrc. cbn. by destruct (_ <=? _). }
  cbn [lp_device consecutive_errors recovery_attempts backoff_us last_watchdog_ms] in H.
  apply exec_bind_inv in H as (errors & Herr & H). destruct (_ && _) eqn:Hmax.
  - apply exec_bind_inv in H as (attempts & Hatt & (acts & Hs & [= <-])%exec_bind_inv).
    apply does_first_goto; [done|]. remainder_goto He. rewrite (events_of_status _ _ Hs).
    unfold loop_iteration, tick_failed. rewrite Ht, Hrc.
    cbn [lp_device consecutive_errors recovery_attempts backoff_us last_watchdog_ms].
    rewrite Herr. cbn [mbind exec_bind]. rewrite Hmax, Hatt. clear Hmax. unfold restarted, tail, watchdog.
    cbn [mbind exec_bind lp_device consecutive_errors recovery_attempts backoff_us last_watchdog_ms].
    destruct (device_init_and_start stack _) as [[r d]|]; [|done].
    cbn [mbind exec_bind app lp_device consecutive_errors recovery_attempts backoff_us last_watchdog_ms].
    by destruct (_ <=? _).
  - injection H as <-. apply does_first_goto; [done|]. remainder_goto He.
    unfold loop_iteration, tick_failed. rewrite Ht, Hrc.
    cbn [lp_device consecutive_errors recovery_attempts backoff_us last_watchdog_ms].
    rewrite Herr. cbn [mbind exec_bind]. rewrite Hmax. clear Hmax. unfold tail, watchdog.
    cbn [mbind exec_bind app lp_device consecutive_errors recovery_attempts backoff_us last_watchdog_ms].
    by destruct (_ <=? _).
Qed.

Lemma restart_does_first m m' :
  m_pc m = At_restart -> do_restart have cfg env m = Done m' -> does_first m m'.
Proof using.
  destruct m as [p g lp i rt o tr]. cbn [m_pc]. intros ->. destruct (env i) as [stack now] eqn:He.
  unfold do_restart. cbn [m_loop m_iter]. rewrite He. cbn [fst].
  intros ([r d] & Hd & (acts & Hs & [= <-])%exec_bind_inv)%exec_bind_inv.
  apply does_first_goto; [done|]. remainder_goto He. unfold restarted. rewrite Hd.
  assert (events_of acts = []) as Hev.
  { destruct (r =? 0); [by eapply events_of_status|by injection Hs as <-]. }
  by rewrite events_of_cons, Hev.
Qed.

Lemma ping_does_first m : m_pc m = At_ping -> does_first m (do_ping have env m).
Proof using.
  destruct m as [p g lp i rt o tr]. cbn [m_pc]. intros ->. destruct (env i) as [stack now] eqn:He.
  unfold do_ping. cbn [m_loop m_iter]. rewrite He. cbn [snd].
  destruct (WATCHDOG_PING_MS <=? _) eqn:Hw; (apply does_first_goto; [done|]); remainder_goto He;
    unfold tail, watchdog; rewrite Hw; cbn [fst snd app].
  - unfold watchdog_notify. by rewrite events_of_cons, events_of_notify.
  - by destruct lp.
Qed.

Lemma remainder_step m m' : in_iteration m -> prog_step m = Done m' -> does_first m m'.
Proof using.
  unfold in_iteration, Supervisor.prog_step. destruct (m_pc m) eqn:Hpc; try done; intros _.
  - by apply tick_does_first.
  - intros [= <-]. apply does_first_goto; [done|]. destruct (env (m_iter m)) as [stack now] eqn:He.
    remainder_goto He. rewrite Hpc. by destruct (restarted _ _) as [[]|].
  - intros [= <-]. apply does_first_goto; [done|]. destruct (env (m_iter m)) as [stack now] eqn:He.
    remainder_goto He. rewrite Hpc. by destruct (restarted _ _) as [[]|].
  - by apply restart_does_first.
  - intros [= <-]. by apply ping_does_first.
  - intros [= <-]. split; [by right|]. do 3 (split; [done|]). eexists. split; [done|].
    unfold remainder. rewrite Hpc. cbn [m_pc m_iter m_loop].
    by destruct (env (m_iter m)), (env (S (m_iter m))).
Qed.

(** The first [n] iterations of the loop of a device that started. *)
Definition started (n : nat) (lp : loop_state net) (events : list loop_event) : Prop :=
  exists dev, device_init_and_start S0 (AppConfig.device cfg) = Done (0, dev) /\
    loop_run (inputs_upto env n) cfg (initial_loop dev) = Done (lp, events).

Definition not_started : Prop :=
  exists dev, device_init_and_start S0 (AppConfig.device cfg) = Done (-1, dev).

Lemma started_0 dev : device_init_and_start S0 (AppConfig.device cfg) = Done (0, dev) ->
  started 0 (initial_loop dev) [].
Proof using. by exists dev. Qed.

Lemma started_S n lp evs lp' e : started n lp evs ->
  loop_iteration (env n).1 (env n).2 cfg lp = Done (lp', e) -> started (S n) lp' (evs ++ e).
Proof using.
  intros (dev & Hd & Hr) Hi. exists dev. split; [done|].
  unfold inputs_upto in *. rewrite seq_S, fmap_app, loop_run_app, Hr. cbn [mbind exec_bind].
  cbn [Nat.add fmap list_fmap]. destruct (env n) as [stack now]. cbn [fst snd loop_run] in *.
  rewrite Hi. cbn [mbind exec_bind]. by rewrite app_nil_r.
Qed.

(** A run that has left the loop. *)
Definition complete m : Prop :=
  not_started /\ events_of (m_trace m) = [] /\ m_iter m = 0%nat \/
  m_running m = 0 /\ exists lp, started (m_iter m) lp (events_of (m_trace m)).

(** What holds at every point of a run that found the host as [st], [o]. *)
Definition run_inv (st : rt_state) (o : O) m : Prop :=
  let host := m_rt m = st /\ m_os m = o in
  match m_pc m with
  | Killed => host
  | At_start => host /\ m_iter m = 0%nat /\ m_trace m = []
  | At_test => host /\ started (m_iter m) (m_loop m) (events_of (m_trace m))
  | At_stopping | At_stop =>
      host /\ m_running m = 0 /\ exists lp, started (m_iter m) lp (events_of (m_trace m))
  | At_restore => host /\ complete m
  | At_exit => (m_rt m, m_os m) = after_serve cfg st o /\ complete m
  | _ =>
      host /\ exists lp evs e1, started (m_iter m) lp evs /\
        events_of (m_trace m) = evs ++ e1 /\
        loop_iteration (env (m_iter m)).1 (env (m_iter m)).2 cfg lp =
          '(lp', e) ← remainder m; Done (lp', e1 ++ e)
  end.

Lemma run_inv_iteration st o m : in_iteration m -> run_inv st o m <->
  (m_rt m = st /\ m_os m = o) /\ exists lp evs e1, started (m_iter m) lp evs /\
    events_of (m_trace m) = evs ++ e1 /\
    loop_iteration (env (m_iter m)).1 (env (m_iter m)).2 cfg lp =
      '(lp', e) ← remainder m; Done (lp', e1 ++ e).
Proof using. unfold in_iteration, run_inv. by destruct (m_pc m). Qed.

(** The invariant over a step inside an iteration, and over the others. *)
Lemma run_inv_inside st o m m' :
  in_iteration m -> run_inv st o m -> prog_step m = Done m' -> run_inv st o m'.
Proof using.
  intros Hin [[Hrt Ho] (lp & evs & e1 & Hs & Ht & Hl)]%run_inv_iteration Hp; [|done].
  destruct (remainder_step _ _ Hin Hp) as (Hq & _ & Ert & Eo & acts & Htr & Hr).
  rewrite Hr in Hl. destruct Hq as [[Hin' Hi]|[Hpc Hi]].
  - apply run_inv_iteration; [done|]. split; [by rewrite Ert, Eo|].
    exists lp, evs, (e1 ++ events_of acts). rewrite Hi. split; [done|]. split.
    { by rewrite Htr, events_of_app, Ht, app_assoc. }
    rewrite Hl. destruct (remainder m') as [[]|]; [|done]. cbn [mbind exec_bind].
    by rewrite app_assoc.
  - unfold run_inv. rewrite Hpc. split; [by rewrite Ert, Eo|].
    assert (remainder m' = Done (m_loop m', [])) as Hm.
    { unfold remainder. rewrite Hpc. by destruct (env (m_iter m')). }
    rewrite Hm in Hl. cbn [mbind exec_bind] in Hl. rewrite app_nil_r in Hl.
    rewrite Hi, Htr, events_of_app, Ht, <-app_assoc. by eapply started_S.
Qed.

Lemma run_inv_outside st o m m' :
  ~ in_iteration m -> run_inv st o m -> prog_step m = Done m' -> run_inv st o m'.
Proof using.
  intros Hout. destruct m as [p g lp i rt o' tr]. unfold run_inv, Supervisor.prog_step, in_iteration in *.
  cbn [m_pc m_rt m_os m_iter m_trace m_running m_loop] in *.
  destruct p; try (by destruct Hout).
  - intros [Hh [-> ->]] ([r dev] & Hd & H)%exec_bind_inv.
    destruct (init_and_start_cases _ _ _ Hd) as [(-> & _)|[-> ->]]; cbn [Z.ltb Z.compare] in H;
      injection H as <-; cbn [goto m_pc m_rt m_os m_iter m_trace m_running m_loop app].
    + split; [done|]. unfold watchdog_notify_ready. rewrite events_of_notify. by apply started_0.
    + split; [done|]. left. by split; [eexists|].
  - intros [Hh Hs] [= <-]. destruct (Z.eqb_spec g 0) as [->|];
      cbn [goto m_pc m_rt m_os m_iter m_trace m_running m_loop]; rewrite app_nil_r.
    + split; [done|]. split; [done|]. by exists lp.
    + split; [done|]. exists lp, (events_of tr), []. split; [done|]. rewrite app_nil_r.
      split; [done|]. unfold remainder. cbn [goto m_pc m_iter m_loop].
      destruct (env i) as [stack now]. cbn [fst snd]. by destruct (loop_iteration _ _ _ _) as [[]|].
  - intros [Hh [Hg Hs]] [= <-]. cbn [goto m_pc m_rt m_os m_iter m_trace m_running m_loop].
    unfold watchdog_notify_stopping. by rewrite events_of_app, events_of_notify, app_nil_r.
  - intros [Hh [Hg Hs]] [= <-]. unfold complete.
    cbn [goto m_pc m_rt m_os m_iter m_trace m_running m_loop]. rewrite app_nil_r.
    split; [done|]. by right.
  - intros [[-> ->] Hc]. unfold after_serve. destruct (if realtime_enabled cfg then _ else _) as [st' o1].
    intros (acts & Hs & [= <-])%exec_bind_inv. cbn [m_pc m_rt m_os m_iter m_trace m_running m_loop].
    split; [done|]. unfold complete in *. cbn [m_iter m_trace m_running] in *.
    by rewrite events_of_app, (events_of_status _ _ Hs), app_nil_r.
  - by intros ? [= <-].
  - by intros ? [= <-].
Qed.

Lemma run_inv_prog st o m m' : run_inv st o m -> prog_step m = Done m' -> run_inv st o m'.
Proof using.
  assert (in_iteration m \/ ~ in_iteration m) as [Hin|Hout]
    by (unfold in_iteration; destruct (m_pc m); tauto).
  - by apply run_inv_inside.
  - by apply run_inv_outside.
Qed.

(** Up to its exit the program leaves the real-time state and the host alone. *)
Lemma run_inv_host st o m : ~ final m -> run_inv st o m -> m_rt m = st /\ m_os m = o.
Proof using. unfold final, run_inv. intros Hf. destruct (m_pc m) eqn:E; tauto. Qed.

Lemma run_inv_signal st o d sig m : ~ final m -> run_inv st o m -> run_inv st o (deliver d sig m).
Proof using.
  intros Hf Hm. pose proof (run_inv_host _ _ _ Hf Hm) as Hh. revert Hm. unfold deliver.
  destruct (d sig); [by intros _|]. destruct m as [p g lp i rt o' tr].
  unfold run_inv, complete, remainder, signal_handler.
  cbn [m_pc m_rt m_os m_iter m_trace m_running m_loop]. destruct p; tauto.
Qed.

Lemma run_inv_reachable d g st o m :
  reachable have cfg S0 env d g st o m -> run_inv st o m.
Proof using.
  apply (rtc_ind_r (run_inv st o)); [done|]. intros m1 m2 _ Hstep IH.
  destruct Hstep as [x y _ Hp|x sig Hf _]; [by eapply run_inv_prog|by apply run_inv_signal].
Qed.

Lemma prog_step_keeps m m' : prog_step m = Done m' ->
  m_running m' = m_running m /\ (m_pc m <> Killed -> m_pc m' <> Killed).
Proof using.
  destruct m as [p g lp i rt o tr]. unfold Supervisor.prog_step.
  cbn [m_pc m_running m_iter m_loop m_rt m_os m_trace]. intros Hp.
  destruct p; try (injection Hp as <-; by cbn).
  - apply exec_bind_inv in Hp as ([r dev] & _ & Hp). by destruct (r <? 0); injection Hp as <-.
  - injection Hp as <-. cbn. by destruct (g =? 0).
  - unfold do_tick in Hp. destruct (io_device_tick _) as [rc dev].
    destruct (rc =? 0); [by injection Hp as <-|].
    apply exec_bind_inv in Hp as (? & _ & Hp). destruct (_ && _); [|by injection Hp as <-].
    by apply exec_bind_inv in Hp as (? & _ & (? & _ & [= <-])%exec_bind_inv).
  - unfold do_restart in Hp.
    by apply exec_bind_inv in Hp as ([] & _ & (? & _ & [= <-])%exec_bind_inv).
  - injection Hp as <-. unfold do_ping. by destruct (_ <=? _).
  - destruct (if realtime_enabled cfg then _ else _) as [st o1].
    by apply exec_bind_inv in Hp as (? & _ & [= <-]).
Qed.


End refinement.

(** ** Healthy runs: what a started device makes of the machine *)

Lemma running_tick {net} (S : PnetStack net) (dev : io_device_t net) : running dev ->
  exists dev', io_device_tick (Some dev) = (0, Some dev') /\ running dev'.
Proof.
  intros (Hl & [n Hn] & Hc).
  assert (state dev <> IO_DEVICE_STATE_ERROR) as He by (by destruct Hl as [->| ->]).
  destruct (pnet_handle_periodic n) as [n' inds] eqn:Hp.
  rewrite (tick_eq _ _ _ _ Hn He Hp). eexists. split; [done|].
  split; [by apply last_event_live|]. split; [by eexists|]. apply (wrapu_range 64). lia.
Qed.

Section healthy.
Context {net O : Type} {OS : RtOs O} {have : bool} {cfg : app_config_t}
  {S0 : PnetStack net} {env : nat -> PnetStack net * Z}.
Context {S0Ok : PnetStackOk net (S := S0)} (Hcfg : device_cfg_ok (AppConfig.device cfg)).
Implicit Types (m : machine net O) (lp : loop_state net).

Abbreviation prog_step := (prog_step have cfg S0 env).
Abbreviation reachable := (reachable have cfg S0 env).
Abbreviation step := (step have cfg S0 env).

Definition steady lp : Prop :=
  running (lp_device lp) /\ consecutive_errors lp = 0 /\ recovery_attempts lp = 0 /\
  backoff_us lp = RECOVERY_BACKOFF_BASE.

(** The messages of a running loop: one READY, one WATCHDOG per ping. *)
Definition loop_messages (tr : list action) : list (list ascii) :=
  if have then lit "READY=1" :: replicate (length (ping_times (events_of tr))) (lit "WATCHDOG=1")
  else [].

(** The events besides the pings: one sleep per iteration. *)
Definition ticked m : Prop :=
  no_pings (events_of (m_trace m)) = replicate (m_iter m) (Usleep (tick_us (AppConfig.device cfg))).

Definition unstarted m : Prop := m_trace m = [] /\ m_iter m = 0%nat.

Definition healthy m : Prop :=
  match m_pc m with
  | At_start => unstarted m
  | At_test | At_tick | At_stopping =>
      steady (m_loop m) /\ ticked m /\ messages_of (m_trace m) = loop_messages (m_trace m)
  | At_ping | At_sleep =>
      steady (m_loop m) /\ ticked m /\ messages_of (m_trace m) = loop_messages (m_trace m)
  | At_stop =>
      ticked m /\ messages_of (m_trace m) =
        loop_messages (m_trace m) ++ messages_of (sd_notify have (lit "STOPPING=1"))
  | At_restore =>
      unstarted m \/ ticked m /\ messages_of (m_trace m) =
        loop_messages (m_trace m) ++ messages_of (sd_notify have (lit "STOPPING=1"))
  | At_exit =>
      ticked m /\ (m_iter m = 0%nat /\
        messages_of (m_trace m) = messages_of (sd_notify have (lit "STATUS=stopped")) \/
        messages_of (m_trace m) =
        loop_messages (m_trace m) ++ messages_of (sd_notify have (lit "STOPPING=1")) ++
          messages_of (sd_notify have (lit "STATUS=stopped")))
  | At_recovery | At_backoff | At_restart => False
  | Killed => True
  end.

Lemma stopped_eq : watchdog_notify_status have (lit "stopped") =
  Done (sd_notify have (lit "STATUS=stopped")).
Proof using. rewrite status_eq by (by repeat constructor). by destruct have. Qed.

(** A healthy machine can move, and stays healthy. *)
Lemma healthy_step m : healthy m -> exists m', prog_step m = Done m' /\ healthy m'.
Proof using Hcfg S0Ok.
  destruct m as [p g lp i rt o tr]. unfold healthy, Supervisor.prog_step, unstarted, ticked.
  cbn [m_pc m_loop m_trace m_iter m_running m_rt m_os].
  destruct p; try (by intros []).
  - intros [-> ->].
    destruct (init_and_start_defined S0Ok (AppConfig.device cfg) Hcfg) as (r & dev & E).
    rewrite E. cbn [mbind exec_bind].
    destruct (init_and_start_cases _ _ _ E) as [(-> & _)|[-> _]]; cbn [Z.ltb Z.compare];
      eexists; (split; [done|]); cbn [goto m_pc m_loop m_trace m_iter app]; [|by left].
    destruct (started_running _ _ _ E) as (Hrun & _). split; [done|].
    unfold loop_messages, watchdog_notify_ready. by destruct have.
  - intros H. eexists. split; [done|]. destruct (g =? 0);
      cbn [goto m_pc m_loop m_trace m_iter app]; by rewrite app_nil_r.
  - intros ((Hrun & ? & ? & ?) & Ht & Hm). unfold do_tick. cbn [m_loop m_iter].
    destruct (running_tick (env i).1 _ Hrun) as (dev' & -> & Hrun').
    eexists. split; [done|]. cbn [goto m_pc m_loop m_trace m_iter default]. rewrite app_nil_r.
    split; [|done]. split; [exact Hrun'|done].
  - intros (Hst & Ht & Hm). eexists. split; [done|]. unfold do_ping. cbn [m_loop m_iter].
    destruct (_ <=? _); cbn [goto m_pc m_loop m_trace m_iter]; [|by rewrite app_nil_r].
    split; [done|]. unfold loop_messages in *.
    rewrite messages_of_app, Hm, events_of_app, no_pings_app, ping_times_app, Ht, events_of_cons.
    unfold watchdog_notify. rewrite events_of_notify. cbn. rewrite app_nil_r. split; [done|].
    destruct have; [|done]. cbn. by rewrite length_app, Nat.add_1_r, <-replicate_snoc.
  - intros (Hst & Ht & Hm). eexists. split; [done|]. cbn [m_pc m_loop m_trace m_iter].
    split; [done|]. rewrite events_of_app, no_pings_app, Ht, messages_of_app, Hm.
    cbn. rewrite app_nil_r, replicate_snoc. split; [done|].
    unfold loop_messages. by rewrite events_of_app, ping_times_app, app_nil_r.
  - intros (Hst & Ht & Hm). eexists. split; [done|]. cbn [goto m_pc m_loop m_trace m_iter].
    unfold loop_messages, watchdog_notify_stopping in *.
    by rewrite events_of_app, messages_of_app, Hm, events_of_notify, app_nil_r.
  - intros (Ht & Hm). eexists. split; [done|]. cbn [goto m_pc m_loop m_trace m_iter].
    rewrite app_nil_r. by right.
  - intros Hc. destruct (if realtime_enabled cfg then _ else _) as [st o1].
    rewrite stopped_eq. cbn [mbind exec_bind]. eexists. split; [done|].
    cbn [m_pc m_loop m_trace m_iter]. unfold loop_messages in *.
    rewrite events_of_app, messages_of_app, events_of_notify, app_nil_r.
    destruct Hc as [[-> ->]|[Ht Hm]]; [by repeat (split || left)|].
    split; [done|]. right. by rewrite Hm, <-app_assoc.
  - intros H. by eexists.
  - by eexists.
Qed.

Lemma healthy_signal d sig m : healthy m -> healthy (deliver d sig m).
Proof using. unfold deliver. by destruct (d sig), m as [[] ? ? ? ? ? ?]. Qed.

Lemma healthy_reachable d g st o m : reachable d g st o m -> healthy m.
Proof using Hcfg S0Ok.
  apply (rtc_ind_r healthy); [done|]. intros m1 m2 _ Hstep IH.
  destruct Hstep as [x y _ Hp|x sig _ _]; [|by apply healthy_signal].
  destruct (healthy_step _ IH) as (z & Hz & ?). congruence.
Qed.

(** C32: A run is never stuck and talks to systemd by its protocol.  Wherever
    signals fall, a machine that has not ended can execute its next statement,
    so no access outside a buffer and no counter overflow is ever met; the
    recovery code is not reached; the messages so far are READY=1 once the
    device runs and one WATCHDOG=1 per ping, then STOPPING=1, and last
    STATUS=stopped; a run whose device did not start sends STATUS=stopped only.
    Built without systemd it sends nothing. *)
Theorem run_never_stuck d g st o m : reachable d g st o m ->
  (exists m', prog_step m = Done m') /\
  m_pc m <> At_recovery /\ m_pc m <> At_backoff /\ m_pc m <> At_restart /\
  (m_pc m = At_test -> messages_of (m_trace m) = loop_messages (m_trace m)) /\
  (m_pc m = At_exit -> 
     messages_of (m_trace m) = (if have then [lit "STATUS=stopped"] else []) \/
     messages_of (m_trace m) =
       loop_messages (m_trace m) ++
       if have then [lit "STOPPING=1"; lit "STATUS=stopped"] else []).
Proof using Hcfg S0Ok.
  intros Hr%healthy_reachable. destruct (healthy_step _ Hr) as (m' & Hm' & _).
  split; [by eexists|]. unfold healthy, sd_notify in Hr.
  destruct (m_pc m), have; cbn [messages_of omap list_omap app] in Hr; naive_solver.
Qed.

(** ** Executions *)

(** An execution: at every moment the program or a signal moves, until the
    machine is final.  It is fair when the program is not kept from moving
    for ever. *)
Definition execution (d : Z -> disposition) (e : nat -> machine net O) : Prop :=
  forall i, final (e i) /\ e (S i) = e i \/ step d (e i) (e (S i)).
Definition fair (e : nat -> machine net O) : Prop :=
  forall i, exists j, (i <= j)%nat /\ (final (e j) \/ prog_step (e j) = Done (e (S j))).

Lemma execution_reachable d g st o e i : execution d e ->
  e 0%nat = initial_machine g st o -> reachable d g st o (e i).
Proof using.
  intros He H0. induction i as [|i IH]; [by rewrite H0; constructor|].
  destruct (He i) as [[_ ->]|Hs]; [done|]. by eapply rtc_r.
Qed.

Lemma final_stays d e i j : execution d e -> final (e i) -> (i <= j)%nat -> e j = e i.
Proof using.
  intros He Hf. induction 1 as [|j _ IH]; [done|]. destruct (He j) as [[_ ->]|Hs]; [done|].
  rewrite IH in Hs. inversion Hs; subst; done.
Qed.

(** Statements left before the end once [g_running] is 0. *)
Definition rank (q : pc) : nat :=
  match q with
  | At_recovery => 10 | At_start => 9 | At_tick => 11 | At_backoff => 9 | At_restart => 8
  | At_ping => 7 | At_sleep => 6 | At_test => 5 | At_stopping => 4 | At_stop => 3
  | At_restore => 2 | At_exit => 1 | Killed => 0
  end.

(** Iterations that can still be completed then. *)
Definition owed (q : pc) : nat :=
  match q with
  | At_tick | At_recovery | At_backoff | At_restart | At_ping | At_sleep => 1
  | _ => 0
  end.

Lemma prog_step_rank m m' : prog_step m = Done m' -> ~ final m -> m_running m = 0 ->
  (rank (m_pc m') < rank (m_pc m))%nat /\ m_running m' = 0 /\
  (m_iter m' + owed (m_pc m') <= m_iter m + owed (m_pc m))%nat.
Proof using.
  destruct m as [p g lp i rt o tr]. unfold final, Supervisor.prog_step.
  cbn [m_pc m_running m_iter m_loop m_rt m_os m_trace]. intros Hp Hf ->.
  destruct p; try tauto.
  - apply exec_bind_inv in Hp as ([r dev] & _ & Hp).
    destruct (r <? 0); injection Hp as <-; cbn; lia.
  - injection Hp as <-. cbn. lia.
  - unfold do_tick in Hp. destruct (io_device_tick _) as [rc dev].
    destruct (rc =? 0); [injection Hp as <-; cbn; lia|].
    apply exec_bind_inv in Hp as (? & _ & Hp). destruct (_ && _); [|injection Hp as <-; cbn; lia].
    apply exec_bind_inv in Hp as (? & _ & (? & _ & [= <-])%exec_bind_inv). cbn. lia.
  - injection Hp as <-. cbn. lia.
  - injection Hp as <-. cbn. lia.
  - unfold do_restart in Hp.
    apply exec_bind_inv in Hp as ([] & _ & (? & _ & [= <-])%exec_bind_inv). cbn. lia.
  - injection Hp as <-. unfold do_ping. destruct (_ <=? _); cbn; lia.
  - injection Hp as <-. cbn. lia.
  - injection Hp as <-. cbn. lia.
  - injection Hp as <-. cbn. lia.
  - destruct (if realtime_enabled cfg then _ else _) as [st o1].
    apply exec_bind_inv in Hp as (? & _ & [= <-]). cbn. lia.
Qed.

(** Any step after [g_running] was cleared. *)
Lemma step_rank d m m' : step d m m' -> m_running m = 0 ->
  (rank (m_pc m') <= rank (m_pc m))%nat /\ m_running m' = 0 /\
  (m_iter m' + owed (m_pc m') <= m_iter m + owed (m_pc m))%nat.
Proof using.
  intros Hs Hg. destruct Hs as [m m' Hf Hp|m sig _ _].
  - destruct (prog_step_rank _ _ Hp Hf Hg) as (? & ? & ?). split; [lia|done].
  - unfold deliver. destruct (d sig); cbn; [destruct (m_pc m); cbn; lia|].
    unfold signal_handler. lia.
Qed.

Lemma execution_rank d e i j : execution d e -> m_running (e i) = 0 -> (i <= j)%nat ->
  (rank (m_pc (e j)) <= rank (m_pc (e i)))%nat /\ m_running (e j) = 0 /\
  (m_iter (e j) + owed (m_pc (e j)) <= m_iter (e i) + owed (m_pc (e i)))%nat.
Proof using.
  intros He Hg. induction 1 as [|j _ (IH1 & IH2 & IH3)]; [done|].
  destruct (He j) as [[_ ->]|Hs]; [done|].
  destruct (step_rank _ _ _ Hs IH2) as (? & ? & ?). split; [lia|]. split; [done|lia].
Qed.

(** Once [g_running] is 0 a fair execution ends. *)
Lemma winds_down d e : execution d e -> fair e -> forall r i, (rank (m_pc (e i)) <= r)%nat ->
  m_running (e i) = 0 -> exists j, (i <= j)%nat /\ final (e j).
Proof using.
  intros He Hfair. induction r as [|r IH]; intros i Hr Hg.
  { exists i. split; [done|]. right. destruct (m_pc (e i)); cbn in Hr; try lia. done. }
  destruct (Hfair i) as (j & Hij & [Hf|Hp]); [by exists j|].
  destruct (execution_rank d e i j He Hg Hij) as (H1 & H2 & _).
  destruct (He j) as [[Hf _]|Hs]; [by exists j|].
  assert (~ final (e j)) as Hnf by (by destruct Hs).
  destruct (prog_step_rank _ _ Hp Hnf H2) as (H3 & H4 & _).
  destruct (IH (S j)) as (k & Hk & Hf); [lia|done|]. exists k. split; [lia|done].
Qed.

(** C4: A handled signal stops the program.  In every fair execution of a
    process whose device is up or about to start, if SIGINT or SIGTERM
    arrives at any moment before the end and no signal kills the process,
    the program reaches its normal end: it completes at most the iteration it
    is in, so it sleeps at most one more tick, undoes the real-time set-up,
    tells systemd that it stopped, and does nothing afterwards. *)
Theorem signal_stops_program d g st o e i sig :
  execution d e -> fair e -> e 0%nat = initial_machine g st o ->
  d SIGINT = Handled -> d SIGTERM = Handled -> sig = SIGINT \/ sig = SIGTERM ->
  ~ final (e i) -> e (S i) = deliver d sig (e i) -> (forall j, m_pc (e j) <> Killed) ->
  exists j, (i < j)%nat /\ m_pc (e j) = At_exit /\
    (m_rt (e j), m_os (e j)) = after_serve cfg st o /\
    (m_iter (e j) <= S (m_iter (e i)))%nat /\ ticked (e j) /\
    List.last (messages_of (m_trace (e j))) [] = (if have then lit "STATUS=stopped" else []) /\
    (forall k, (j <= k)%nat -> e k = e j).
Proof using Hcfg S0Ok.
  intros He Hfair H0 Hint Hterm Hsig Hnf Hdel Hk.
  assert (d sig = Handled) as Hd by (by destruct Hsig as [->| ->]).
  unfold deliver in Hdel. rewrite Hd in Hdel.
  assert (m_running (e (S i)) = 0) as Hg by (by rewrite Hdel).
  destruct (winds_down d e He Hfair _ (S i) (le_n _) Hg) as (j & Hj & Hf).
  destruct Hf as [Hx|Hx]; [|by destruct (Hk j)].
  destruct (execution_rank d e (S i) j He Hg Hj) as (_ & _ & Hit).
  pose proof (execution_reachable _ _ _ _ _ j He H0) as Hr.
  exists j. split; [lia|]. split; [done|].
  pose proof (run_inv_reachable _ _ _ _ _ Hr) as Hinv. unfold run_inv in Hinv. rewrite Hx in Hinv.
  destruct Hinv as [Hh _]. split; [done|]. split.
  { rewrite Hdel in Hit. cbn in Hit. destruct (m_pc (e i)); cbn in Hit; lia. }
  apply healthy_reachable in Hr. unfold healthy in Hr. rewrite Hx in Hr.
  destruct Hr as [Ht Hm]. split; [done|]. split.
  - destruct Hm as [[_ ->]| ->]; unfold loop_messages, sd_notify; destruct have; try done.
    cbn [messages_of omap list_omap]. by rewrite app_assoc, List.last_last.
  - intros k Hjk. apply (final_stays d e j k He); [by left|done].
Qed.

(** The statements of a working loop, numbered along the run. *)
Definition looping (q : pc) : bool :=
  match q with At_start | At_test | At_tick | At_ping | At_sleep => true | _ => false end.
Definition position m : nat :=
  match m_pc m with
  | At_start => 0
  | At_test => 4 * m_iter m + 1
  | At_tick => 4 * m_iter m + 2
  | At_ping => 4 * m_iter m + 3
  | _ => 4 * m_iter m + 4
  end.

Lemma position_step dev m m' : device_init_and_start S0 (AppConfig.device cfg) = Done (0, dev) ->
  healthy m -> looping (m_pc m) = true -> m_running m <> 0 -> prog_step m = Done m' ->
  looping (m_pc m') = true /\ position m' = S (position m).
Proof using.
  intros Hdev. destruct m as [p g lp i rt o tr].
  unfold healthy, position, unstarted, Supervisor.prog_step.
  cbn [m_pc m_running m_iter m_loop m_trace].
  intros Hh Hl Hg Hp. destruct p; try done.
  - rewrite Hdev in Hp. injection Hp as <-. cbn. destruct Hh as [_ ->]. split; [done|lia].
  - injection Hp as <-. destruct (Z.eqb_spec g 0); [done|]. cbn. split; [done|lia].
  - unfold do_tick in Hp. cbn [m_loop m_iter] in Hp. destruct Hh as [[Hrun _] _].
    destruct (running_tick (env i).1 _ Hrun) as (dev' & E & _). rewrite E in Hp.
    injection Hp as <-. cbn. split; [done|lia].
  - injection Hp as <-. unfold do_ping. destruct (_ <=? _); cbn; (split; [done|lia]).
  - injection Hp as <-. cbn. split; [done|lia].
Qed.

(** A step that neither clears [g_running] nor kills is one of the program. *)
Lemma step_undisturbed d m m' : step d m m' -> m_running m' <> 0 -> m_pc m' <> Killed ->
  prog_step m = Done m'.
Proof using. intros [x y _ Hp|x sig _ _]; [done|]. unfold deliver. by destruct (d sig). Qed.

(** C31: Until a signal arrives the program keeps working.  In every execution
    in which the device started and no signal has cleared [g_running] or
    killed the process, the loop neither ends nor hangs: every number [n] of
    iterations is completed, within [4 * n + 1] statements. *)
Theorem loop_keeps_running d st o e dev n :
  execution d e -> e 0%nat = initial_machine 1 st o ->
  device_init_and_start S0 (AppConfig.device cfg) = Done (0, dev) ->
  (forall i, m_running (e i) <> 0 /\ m_pc (e i) <> Killed) ->
  m_pc (e (4 * n + 1)%nat) = At_test /\ m_iter (e (4 * n + 1)%nat) = n.
Proof using Hcfg S0Ok.
  intros He H0 Hdev Hno.
  assert (forall i, looping (m_pc (e i)) = true /\ position (e i) = i) as Hpos.
  { induction i as [|i [Hl Hi]]; [by rewrite H0|].
    pose proof (healthy_reachable _ _ _ _ _ (execution_reachable _ _ _ _ _ i He H0)) as Hh.
    destruct (Hno i) as [Hg _], (Hno (S i)) as [Hg' Hk'].
    destruct (He i) as [[[Hx|Hx] _]|Hs]; [by rewrite Hx in Hl..|].
    destruct (position_step dev _ _ Hdev Hh Hl Hg (step_undisturbed _ _ _ Hs Hg' Hk')) as [? ->].
    by rewrite Hi. }
  destruct (Hpos (4 * n + 1)%nat) as [Hl Hp]. unfold position in Hp.
  destruct (m_pc (e _)); try done; (split; [done|lia]) || lia.
Qed.
End healthy.

(** ** The whole program under signals *)
Section program.
Context {net K O P : Type} {NK : NetKernel K} {OS : RtOs O} {SO : SigOs P} {SOk : SigOsOk P}.

(** C34: What the registration of the handlers gives.  It returns 0 or -1.  On 0,
    SIGINT and SIGTERM run the handler, which clears [g_running] and touches
    nothing else, and every other signal keeps its disposition: SIGHUP, unless
    the parent ignored it, kills the process on the spot, with the real-time
    set-up in place and systemd not told.  On -1 SIGTERM is as before. *)
Theorem install_signal_handlers_spec (p p' : P) r : install_signal_handlers p = (r, p') ->
  (r = 0 /\ (forall s, dispositions p' s =
      if bool_decide (s = SIGINT \/ s = SIGTERM) then Handled else dispositions p s) /\
    (forall (m : machine net O) sig, sig = SIGINT \/ sig = SIGTERM ->
      deliver (dispositions p') sig m =
        mk_machine (m_pc m) 0 (m_loop m) (m_iter m) (m_rt m) (m_os m) (m_trace m)) /\
    (forall m : machine net O, dispositions p SIGHUP = SIG_DFL ->
      let m' := deliver (dispositions p') SIGHUP m in
      m_pc m' = Killed /\ m_rt m' = m_rt m /\ m_os m' = m_os m /\ m_trace m' = m_trace m)) \/
  r = -1 /\ (forall s, s <> SIGINT -> dispositions p' s = dispositions p s).
Proof using.
  unfold install_signal_handlers.
  destruct (p_sigaction SIGINT Handled p) as [r1 p1] eqn:E1. pose proof (sigaction_ok _ _ _ _ _ E1) as H1.
  destruct (Z.ltb_spec r1 0).
  { intros [= <- <-]. right. split; [done|]. intros s _.
    rewrite H1, bool_decide_eq_false_2; [done|]. lia. }
  destruct (p_sigaction SIGTERM Handled p1) as [r2 p2] eqn:E2. pose proof (sigaction_ok _ _ _ _ _ E2) as H2.
  destruct (Z.ltb_spec r2 0).
  { intros [= <- <-]. right. split; [done|]. intros s Hs.
    rewrite H2, bool_decide_eq_false_2 by lia. rewrite H1, bool_decide_eq_false_2; [done|]. tauto. }
  intros [= <- <-]. left. split; [done|].
  assert (forall s, dispositions p2 s =
      if bool_decide (s = SIGINT \/ s = SIGTERM) then Handled else dispositions p s) as Hd.
  { intros s. rewrite H2, H1. repeat case_bool_decide; try done; naive_solver. }
  split; [done|]. split.
  - intros m sig Hsig. unfold deliver. by rewrite Hd, bool_decide_eq_true_2.
  - intros m Hhup. unfold deliver. rewrite Hd, bool_decide_eq_false_2, Hhup; [done|].
    by intros [?|?].
Qed.

End program.

(** ** Concrete instances *)

(** Signals by the moment they arrive; otherwise the program moves. *)
Section scheduled.
Context {net O : Type} {OS : RtOs O} (have : bool) (cfg : app_config_t) (S0 : PnetStack net)
  (env : nat -> PnetStack net * Z) (d : Z -> disposition) (sched : nat -> option Z)
  (m0 : machine net O).

Fixpoint scheduled (i : nat) : machine net O :=
  match i with
  | 0%nat => m0
  | S i =>
      match sched i with
      | Some sig => deliver d sig (scheduled i)
      | None => match prog_step have cfg S0 env (scheduled i) with
                | Done m => m
                | Undefined => scheduled i
                end
      end
  end.

Definition finalb (m : machine net O) : bool :=
  match m_pc m with At_exit | Killed => true | _ => false end.

Lemma finalb_spec m : finalb m = true <-> final m.
Proof using. unfold finalb, final. destruct (m_pc m); naive_solver. Qed.

Context {S0Ok : PnetStackOk net (S := S0)} (Hcfg : device_cfg_ok (AppConfig.device cfg)).

(** A schedule that sends termination signals before the end only gives an
    execution; if it sends finitely many, a fair one. *)
Lemma scheduled_step i : healthy (have := have) (cfg := cfg) (scheduled i) -> sched i = None ->
  prog_step have cfg S0 env (scheduled i) = Done (scheduled (S i)).
Proof using Hcfg S0Ok.
  intros Hh Hs. cbn [scheduled]. rewrite Hs.
  by destruct (healthy_step (env := env) Hcfg _ Hh) as (m' & -> & _).
Qed.

Lemma scheduled_healthy g st o i : m0 = initial_machine g st o ->
  healthy (have := have) (cfg := cfg) (scheduled i).
Proof using Hcfg S0Ok.
  intros H0. induction i as [|i IH]; [by cbn [scheduled]; rewrite H0|].
  destruct (sched i) as [sig|] eqn:Hs.
  - cbn [scheduled]. rewrite Hs. by apply healthy_signal.
  - destruct (healthy_step (env := env) Hcfg _ IH) as (m' & E & ?). cbn [scheduled]. by rewrite Hs, E.
Qed.

Lemma scheduled_execution g st o : m0 = initial_machine g st o ->
  (forall i sig, sched i = Some sig ->
     sig ∈ [SIGHUP; SIGINT; SIGTERM] /\ finalb (scheduled i) = false) ->
  execution (have := have) (cfg := cfg) (S0 := S0) (env := env) d scheduled.
Proof using Hcfg S0Ok.
  intros H0 Hsig i. pose proof (scheduled_healthy g st o i H0) as Hh.
  destruct (sched i) as [sig|] eqn:Hs.
  - destruct (Hsig i sig Hs) as [Hin Hf]. right. cbn [scheduled]. rewrite Hs.
    apply step_signal; [|done]. rewrite <-finalb_spec. by rewrite Hf.
  - pose proof (scheduled_step i Hh Hs) as Hp. destruct (finalb (scheduled i)) eqn:Hf.
    + apply finalb_spec in Hf. left. split; [done|]. unfold prog_step in Hp.
      destruct Hf as [Hf|Hf]; rewrite Hf in Hp; by injection Hp.
    + right. apply step_prog; [|done]. rewrite <-finalb_spec. by rewrite Hf.
Qed.

Lemma scheduled_fair g st o n : m0 = initial_machine g st o ->
  (forall i, (n <= i)%nat -> sched i = None) ->
  fair (have := have) (cfg := cfg) (S0 := S0) (env := env) scheduled.
Proof using Hcfg S0Ok.
  intros H0 Hn i. exists (max i n). split; [lia|]. right.
  apply scheduled_step; [by eapply scheduled_healthy|]. apply Hn. lia.
Qed.

Lemma scheduled_alive i : (forall sig, d sig = Handled) -> m_pc m0 <> Killed ->
  m_pc (scheduled i) <> Killed.
Proof using.
  intros Hd H0. induction i as [|i IH]; [done|]. cbn [scheduled].
  destruct (sched i) as [sig|]; [by unfold deliver; rewrite Hd|].
  destruct (prog_step have cfg S0 env (scheduled i)) as [m|] eqn:E; [|done].
  by apply (prog_step_keeps _ _ E).
Qed.

Lemma scheduled_running i : (forall i, sched i = None) -> m_running (scheduled i) = m_running m0.
Proof using.
  intros Hn. induction i as [|i IH]; [done|]. cbn [scheduled]. rewrite Hn.
  destruct (prog_step have cfg S0 env (scheduled i)) as [m|] eqn:E; [|done].
  destruct (prog_step_keeps _ _ E) as [-> _]. exact IH.
Qed.
End scheduled.

(** The dispositions of a process, where every change is granted. *)
#[export] Instance table_sig_os : SigOs (Z -> disposition) :=
  {| p_sigaction sig d p := (0, fun s => if bool_decide (s = sig) then d else p s) |}.
#[export] Program Instance table_sig_os_ok : SigOsOk (Z -> disposition) :=
  {| dispositions p := p |}.
Next Obligation.
  intros sig d p r p' H s. injection H as <- <-. cbn. repeat case_bool_decide; naive_solver.
Qed.

(** The default configuration on the mock stack with a clock of 15 seconds per
    iteration; every signal is handled and one arrives at [i]. *)
Definition sample_env (i : nat) : PnetStack pnet * Z := (mock_stack true, 15000 * Z.of_nat (S i)).
Definition sample_init : machine pnet model_os := initial_machine 1 initial_rt_state sample_os.
Definition handle_all (sig : Z) : disposition := Handled.
Definition signal_at (n : nat) (sig : Z) (i : nat) : option Z :=
  if (i =? n)%nat then Some sig else None.
Definition sample_exec (sched : nat -> option Z) : nat -> machine pnet model_os :=
  scheduled true sample_config (mock_stack true) sample_env handle_all sched sample_init.

Lemma sample_device_ok : device_cfg_ok (device sample_config).
Proof. apply us_device, sample_usable. Qed.

Lemma signal_stops_program_witness : exists j,
  m_pc (sample_exec (signal_at 7 SIGTERM) j) = At_exit /\
  (m_iter (sample_exec (signal_at 7 SIGTERM) j) <= 2)%nat.
Proof.
  destruct (signal_stops_program (have := true) (cfg := sample_config) (S0 := mock_stack true)
    (env := sample_env) (S0Ok := mock_stack_ok true) sample_device_ok handle_all 1
    initial_rt_state sample_os (sample_exec (signal_at 7 SIGTERM)) 7 SIGTERM)
    as (j & _ & Hx & _ & Hi & _).
  - eapply (scheduled_execution _ _ _ _ _ _ _ sample_device_ok 1); [done|].
    unfold signal_at. intros i sig. destruct (Nat.eqb_spec i 7) as [->|]; [|done]. intros [= <-].
    split; [by apply (bool_decide_eq_true_1 (_ ∈ _)); vm_compute|by vm_compute].
  - eapply (scheduled_fair _ _ _ _ _ _ _ sample_device_ok 1 _ _ 8); [done|].
    unfold signal_at. intros i Hi. by rewrite (proj2 (Nat.eqb_neq _ _)) by lia.
  - exact eq_refl.
  - exact eq_refl.
  - exact eq_refl.
  - right. exact eq_refl.
  - rewrite <-finalb_spec. by vm_compute.
  - exact eq_refl.
  - intros i. apply scheduled_alive; [intros; exact eq_refl|discriminate].
  - exists j. split; [exact Hx|]. 
    assert (m_iter (sample_exec (signal_at 7 SIGTERM) 7) = 1%nat) as E by (by vm_compute).
    rewrite E in Hi. exact Hi.
Defined.

Lemma loop_keeps_running_witness : m_iter (sample_exec (fun _ => None) 4001) = 1000%nat.
Proof.
  destruct (device_init_and_start (mock_stack true) (device sample_config)) as [[r dev]|] eqn:E;
    [|by vm_compute in E].
  destruct (init_and_start_cases _ _ _ E) as [(-> & _)|[-> _]]; [|by vm_compute in E].
  apply (loop_keeps_running (have := true) (cfg := sample_config) (S0 := mock_stack true)
    (env := sample_env) (S0Ok := mock_stack_ok true) sample_device_ok handle_all
    initial_rt_state sample_os (sample_exec (fun _ => None)) dev 1000).
  - by eapply (scheduled_execution _ _ _ _ _ _ _ sample_device_ok 1).
  - exact eq_refl.
  - exact E.
  - intros i. split; [|apply scheduled_alive; [intros; exact eq_refl|discriminate]].
    unfold sample_exec. rewrite scheduled_running by done. discriminate.
Defined.

Lemma sample_reachable sched i :
  (forall i sig, sched i = Some sig ->
     sig ∈ [SIGHUP; SIGINT; SIGTERM] /\ finalb (sample_exec sched i) = false) ->
  reachable true sample_config (mock_stack true) sample_env handle_all 1 initial_rt_state sample_os
    (sample_exec sched i).
Proof.
  intros Hs. eapply execution_reachable; [|done].
  by eapply (scheduled_execution _ _ _ _ _ _ _ sample_device_ok 1).
Qed.

Lemma signal_at_ok n sig : sig ∈ [SIGHUP; SIGINT; SIGTERM] ->
  finalb (sample_exec (signal_at n sig) n) = false ->
  forall i s, signal_at n sig i = Some s ->
    s ∈ [SIGHUP; SIGINT; SIGTERM] /\ finalb (sample_exec (signal_at n sig) i) = false.
Proof.
  intros Hsig Hf i s. unfold signal_at at 1. destruct (Nat.eqb_spec i n) as [->|]; [|done].
  by intros [= <-].
Qed.

Lemma run_never_stuck_witness :
  messages_of (m_trace (sample_exec (signal_at 7 SIGINT) 14)) =
    [lit "READY=1"; lit "WATCHDOG=1"; lit "WATCHDOG=1"; lit "STOPPING=1"; lit "STATUS=stopped"].
Proof.
  destruct (run_never_stuck (have := true) (cfg := sample_config) (S0 := mock_stack true)
    (env := sample_env) (S0Ok := mock_stack_ok true) sample_device_ok handle_all 1
    initial_rt_state sample_os (sample_exec (signal_at 7 SIGINT) 14)) as (_ & _ & _ & _ & _ & H).
  - apply sample_reachable, signal_at_ok;
      [by apply (bool_decide_eq_true_1 (_ ∈ _)); vm_compute|by vm_compute].
  - destruct H as [H|H]; [by vm_compute| |].
    + by vm_compute in H.
    + rewrite H. by vm_compute.
Defined.

Lemma install_signal_handlers_spec_witness :
  exists p', install_signal_handlers (fun _ : Z => SIG_DFL) = (0, p') /\
    p' SIGTERM = Handled /\ p' SIGHUP = SIG_DFL.
Proof.
  exists (install_signal_handlers (fun _ : Z => SIG_DFL)).2.
  assert (install_signal_handlers (fun _ : Z => SIG_DFL) =
    (0, (install_signal_handlers (fun _ : Z => SIG_DFL)).2)) as E by reflexivity.
  split; [exact E|].
  destruct (install_signal_handlers_spec (net := pnet) (O := model_os) _ _ _ E) as [(_ & H & _)|[? _]]; [|done].
  split; [exact (H SIGTERM)|exact (H SIGHUP)].
Defined.





